(** * The x86/x64 instruction database of AsmJit: name index, condition-code
      tables and operand validator

    A shallow embedding of [src/asmjit/x86/x86inst.cpp].  The static tables
    of that file are transcribed row by row and the three algorithms that
    read them ([X86Inst::getIdByName], [X86Inst::validate] and the
    condition-code maps) are written as Rocq functions over them.

    Unsigned 32-bit words are kept as [Z]; every word built here is an OR of
    masks below [2^32], so no wrap-around occurs except where it is written
    out.  A run that reads or writes outside a C array has no defined result
    and is modelled as [None] / [Undefined]. *)

From Stdlib Require Import ZArith List String Ascii Bool Lia.
Import ListNotations.
Open Scope Z_scope.

Infix ".|" := Z.lor (at level 50, left associativity).
Infix ".&" := Z.land (at level 40, left associativity).

(** [table[i]] for an unsigned index; [None] outside the array. *)
Definition at_index {A : Type} (table : list A) (i : Z) : option A :=
  if i <? 0 then None else nth_error table (Z.to_nat i).

(** ** Constants declared in headers that accompany the source file *)

(** Modelled from the spec: [kInvalidInst], [kInvalidReg] and [kInvalidIndex]
    come from the missing [base/globals.h].  Id 0 "represents none" (spec
    section 3) and the unit test [x86_inst_names] requires the lookup of the
    empty name of id 0 to give [kInvalidInst]; the "any register" sentinel is
    the [0xFF] that fills the last column of [_x86InstOSignatureData];
    [kInvalidIndex] is the all-ones [size_t], here 64 bits wide. *)
Definition kInvalidInst : Z := 0.
Definition kInvalidReg : Z := 0xFF.
Definition kInvalidIndex : Z := 2 ^ 64 - 1.

(** Modelled from the spec: the flat error enumeration of spec section 7
    ([base/globals.h] is missing). *)
Inductive Error : Set :=
  | kErrorOk
  | kErrorInvalidArch
  | kErrorInvalidArgument
  | kErrorInvalidInstruction
  | kErrorInvalidRegType
  | kErrorInvalidPhysId
  | kErrorInvalidUseOfGpq
  | kErrorInvalidUseOfGpbHi
  | kErrorInvalidAddress
  | kErrorInvalidState
  | kErrorInvalidKMaskReg
  | kErrorInvalidKMaskUse
  | kErrorInvalidKZeroUse
  | kErrorInvalidBroadcast
  | kErrorInvalidSAEOrER.

(** Modelled from the spec: architecture tags of the missing [base/arch.h];
    the x86 family is x86 and x64 (spec section 4.5), every other tag is
    foreign. *)
Inductive ArchType : Set :=
  | kTypeX86
  | kTypeX64
  | kTypeOther (tag : Z).

Definition isX86Family (archType : ArchType) : bool :=
  match archType with
  | kTypeX86 | kTypeX64 => true
  | kTypeOther _ => false
  end.

(** Register types.  The numbering is the one written beside each row of
    [_x86OpFlagFromRegType] in the source. *)
Module X86Reg.
Definition kRegNone : Z := 0.
Definition kRegRip : Z := 2.
Definition kRegSeg : Z := 3.
Definition kRegGpbLo : Z := 4.
Definition kRegGpbHi : Z := 5.
Definition kRegGpw : Z := 6.
Definition kRegGpd : Z := 7.
Definition kRegGpq : Z := 8.
Definition kRegFp : Z := 9.
Definition kRegMm : Z := 10.
Definition kRegK : Z := 11.
Definition kRegXmm : Z := 12.
Definition kRegYmm : Z := 13.
Definition kRegZmm : Z := 14.
Definition kRegBnd : Z := 16.
Definition kRegCr : Z := 17.
Definition kRegDr : Z := 18.
Definition kRegCount : Z := 19.
End X86Reg.

(** Operands as the validator reads them. *)
Module Operand.
(** Modelled from the spec: [base/operand.h] is missing.  Ids at or above
    [kPackedIdMin] are virtual ("above a known threshold", spec section
    4.5); [kLabelTag] is the base type of a label-based address, which
    occupies the reserved slot 1 of the register-type numbering. *)
Definition kPackedIdMin : Z := 0x100.
Definition kLabelTag : Z := 1.

(** Modelled from the spec: the operand kinds of the missing
    [base/operand.h] (none, register, memory, immediate, label; spec section
    4.5, phase B) with the fields [validate] reads through [getRegType],
    [getId], [getSize], [getBaseType] and [getIndexType]; [kOpOther] stands
    for any kind the [switch] sends to its [default]. *)
Inductive t : Set :=
  | kOpNone
  | kOpReg (regType id : Z)
  | kOpMem (size baseType indexType : Z)
  | kOpImm
  | kOpLabel
  | kOpOther.

Definition isNone (op : t) : bool :=
  match op with kOpNone => true | _ => false end.

Definition isRegOfType (regType : Z) (op : t) : bool :=
  match op with kOpReg rt _ => rt =? regType | _ => false end.
End Operand.

(** Modelled from the spec: [x86::isK] and [x86::isZmm] of the missing
    [x86/x86operand.h]: the operand is a register of type K ("must be a K
    register"), of type ZMM ("must be a ZMM register", spec section 4.5). *)
Definition isK (op : Operand.t) : bool := Operand.isRegOfType X86Reg.kRegK op.
Definition isZmm (op : Operand.t) : bool := Operand.isRegOfType X86Reg.kRegZmm op.

(** Modelled from the spec: the operand flags [X86Inst::kOp...] of the missing
    [x86/x86inst.h].  Spec section 3 describes them as a bit-set, so every
    name owns one bit; [kOpX] (read-write) is [kOpR] with [kOpW]. *)
Definition kOpNone : Z := 0x00000000.
Definition kOpGpbLo : Z := 0x00000001.
Definition kOpGpbHi : Z := 0x00000002.
Definition kOpGpw : Z := 0x00000004.
Definition kOpGpd : Z := 0x00000008.
Definition kOpGpq : Z := 0x00000010.
Definition kOpFp : Z := 0x00000020.
Definition kOpMm : Z := 0x00000040.
Definition kOpK : Z := 0x00000080.
Definition kOpCr : Z := 0x00000100.
Definition kOpDr : Z := 0x00000200.
Definition kOpBnd : Z := 0x00000400.
Definition kOpSeg : Z := 0x00000800.
Definition kOpXmm : Z := 0x00001000.
Definition kOpYmm : Z := 0x00002000.
Definition kOpZmm : Z := 0x00004000.
Definition kOpMem : Z := 0x00010000.
Definition kOpVm : Z := 0x00020000.
Definition kOpI4 : Z := 0x00040000.
Definition kOpI8 : Z := 0x00080000.
Definition kOpI16 : Z := 0x00100000.
Definition kOpI32 : Z := 0x00200000.
Definition kOpI64 : Z := 0x00400000.
Definition kOpRel8 : Z := 0x01000000.
Definition kOpRel32 : Z := 0x02000000.
Definition kOpR : Z := 0x20000000.
Definition kOpW : Z := 0x40000000.
Definition kOpX : Z := 0x60000000.
Definition kOpImplicit : Z := 0x80000000.

(** Modelled from the spec: the memory-kind mask [X86Inst::kMemOp...], one
    bit per permitted element size or vector-index shape, sixteen bits in
    all (the [memFlags] column is a [uint16_t]). *)
Definition kMemOpM8 : Z := 0x0001.
Definition kMemOpM16 : Z := 0x0002.
Definition kMemOpM32 : Z := 0x0004.
Definition kMemOpM64 : Z := 0x0008.
Definition kMemOpM80 : Z := 0x0010.
Definition kMemOpM128 : Z := 0x0020.
Definition kMemOpM256 : Z := 0x0040.
Definition kMemOpM512 : Z := 0x0080.
Definition kMemOpM1024 : Z := 0x0100.
Definition kMemOpVm32x : Z := 0x0200.
Definition kMemOpVm32y : Z := 0x0400.
Definition kMemOpVm32z : Z := 0x0800.
Definition kMemOpVm64x : Z := 0x1000.
Definition kMemOpVm64y : Z := 0x2000.
Definition kMemOpVm64z : Z := 0x4000.
Definition kMemOpAny : Z := 0x8000.

(** Modelled from the spec: the instruction flags [X86Inst::kInstFlag...]
    (spec section 3, "flags").  [kInstFlagRW] is read with write; the
    [EvexSet_] names select a CPU-feature group stored in the top bits;
    [kInstFlagEvex0] and [kInstFlagEvexB0] are the empty choices that the
    [A512] macro pastes for a 0 argument. *)
Definition kInstFlagRO : Z := 0x00000001.
Definition kInstFlagWO : Z := 0x00000002.
Definition kInstFlagRW : Z := 0x00000003.
Definition kInstFlagXchg : Z := 0x00000004.
Definition kInstFlagFlow : Z := 0x00000008.
Definition kInstFlagFp : Z := 0x00000010.
Definition kInstFlagLock : Z := 0x00000020.
Definition kInstFlagSpecial : Z := 0x00000040.
Definition kInstFlagVolatile : Z := 0x00000080.
Definition kInstFlagFPU_M2 : Z := 0x00000100.
Definition kInstFlagFPU_M4 : Z := 0x00000200.
Definition kInstFlagFPU_M8 : Z := 0x00000400.
Definition kInstFlagFPU_M10 : Z := 0x00000800.
Definition kInstFlagZeroIfMem : Z := 0x00001000.
Definition kInstFlagVM : Z := 0x00002000.
Definition kInstFlagVex : Z := 0x00010000.
Definition kInstFlagVex_VM : Z := 0x00020000.
Definition kInstFlagEvex : Z := 0x00040000.
Definition kInstFlagEvex0 : Z := 0.
Definition kInstFlagEvexK_ : Z := 0x00080000.
Definition kInstFlagEvexKZ : Z := 0x00100000.
Definition kInstFlagEvexB0 : Z := 0.
Definition kInstFlagEvexB4 : Z := 0x00200000.
Definition kInstFlagEvexB8 : Z := 0x00400000.
Definition kInstFlagEvexSAE : Z := 0x00800000.
Definition kInstFlagEvexER : Z := 0x01000000.
Definition kInstFlagEvexVL : Z := 0x02000000.
Definition kInstFlagEvexSet_F_ : Z := 0x00000000.
Definition kInstFlagEvexSet_CDI : Z := 0x10000000.
Definition kInstFlagEvexSet_PFI : Z := 0x20000000.
Definition kInstFlagEvexSet_ERI : Z := 0x30000000.
Definition kInstFlagEvexSet_DQ : Z := 0x40000000.
Definition kInstFlagEvexSet_BW : Z := 0x50000000.
Definition kInstFlagEvexSet_IFMA : Z := 0x60000000.
Definition kInstFlagEvexSet_VBMI : Z := 0x70000000.

(** Modelled from the spec: the emission options the validator tests (spec
    section 6, I3); a bit each, clear of the three the unit test
    [x86_inst_bits] pins down (REX, VEX3, EVEX). *)
Definition kOptionVex3 : Z := 0x00000004.
Definition kOptionEvex : Z := 0x00000008.
Definition kOptionK : Z := 0x00002000.
Definition kOptionKZ : Z := 0x00004000.
Definition kOption1ToX : Z := 0x00008000.
Definition kOptionSAE : Z := 0x00010000.
Definition kOptionER : Z := 0x00020000.
Definition kOptionRex : Z := 0x80000000.

(** Modelled from the spec: the architecture mask of an instruction
    signature, a bit for x86 and a bit for x64. *)
Definition kArchMaskX86 : Z := 0x01.
Definition kArchMaskX64 : Z := 0x02.

(** Modelled from the spec: condition codes, numbered as the rows of
    [_x86ReverseCond] are labelled in the source (O|NO|B|AE, E|NE|BE|A,
    S|NS|PE|PO, L|GE|LE|G), followed by the two FPU aggregates. *)
Definition kCondO : Z := 0x00.
Definition kCondNO : Z := 0x01.
Definition kCondB : Z := 0x02.
Definition kCondAE : Z := 0x03.
Definition kCondE : Z := 0x04.
Definition kCondNE : Z := 0x05.
Definition kCondBE : Z := 0x06.
Definition kCondA : Z := 0x07.
Definition kCondS : Z := 0x08.
Definition kCondNS : Z := 0x09.
Definition kCondPE : Z := 0x0A.
Definition kCondPO : Z := 0x0B.
Definition kCondL : Z := 0x0C.
Definition kCondGE : Z := 0x0D.
Definition kCondLE : Z := 0x0E.
Definition kCondG : Z := 0x0F.
Definition kCondFpuUnordered : Z := 0x10.
Definition kCondFpuNotUnordered : Z := 0x11.

(** ** The instruction table *)

(** Encoding kinds named by [Enc(...)] in [instData]. *)
Inductive Encoding : Set :=
  | kEncodingNone | kEncodingX86Arith | kEncodingX86Rm | kEncodingExtRm
  | kEncodingExtRmi | kEncodingVexRvm_Wx | kEncodingVexRmv_Wx
  | kEncodingVexVm_Wx | kEncodingExtRmXMM0 | kEncodingX86Bswap
  | kEncodingX86Bt | kEncodingX86Call | kEncodingX86OpAx | kEncodingX86OpDxAx
  | kEncodingX86Op | kEncodingX86M_Only | kEncodingX86Cmpxchg
  | kEncodingX86Crc | kEncodingExtRm_Wx | kEncodingX86IncDec
  | kEncodingX86M_Bx_MulDiv | kEncodingX86Enter | kEncodingExtExtract
  | kEncodingExtExtrq | kEncodingFpuOp | kEncodingFpuArith | kEncodingFpuRDef
  | kEncodingFpuR | kEncodingFpuCom | kEncodingFpuM | kEncodingFpuFldFst
  | kEncodingFpuStsw | kEncodingX86Imul | kEncodingExtInsertq
  | kEncodingX86Int | kEncodingX86Jcc | kEncodingX86Jecxz | kEncodingX86Jmp
  | kEncodingVexRvm | kEncodingVexKmov | kEncodingVexRm | kEncodingVexRmi
  | kEncodingX86Lea | kEncodingX86Fence | kEncodingExtRmZDI | kEncodingX86Mov
  | kEncodingExtMov | kEncodingExtMovbe | kEncodingExtMovd
  | kEncodingExtMovnti | kEncodingExtMovq | kEncodingX86MovsxMovzx
  | kEncodingVexRvmZDX_Wx | kEncodingX86M_Bx | kEncodingExtRm_P
  | kEncodingExtRmi_P | kEncodingExt3dNow | kEncodingX86Op_O
  | kEncodingExtPextrw | kEncodingX86Pop | kEncodingX86Prefetch
  | kEncodingExtRmRi_P | kEncodingExtRmRi | kEncodingX86Push | kEncodingX86Rot
  | kEncodingX86M | kEncodingX86Rep | kEncodingX86Ret | kEncodingVexRmi_Wx
  | kEncodingX86Set | kEncodingX86ShldShrd | kEncodingX86Test
  | kEncodingVexRvm_Lx | kEncodingVexRvmi_Lx | kEncodingVexRvmr_Lx
  | kEncodingVexRm_Lx | kEncodingVexRvmi | kEncodingVexMr_Lx
  | kEncodingVexMri_Lx | kEncodingVexMri | kEncodingFma4_Lx | kEncodingFma4
  | kEncodingVexRmi_Lx | kEncodingVexRmvRm_VM | kEncodingVexM_VM
  | kEncodingVexM | kEncodingVexRmZDI | kEncodingVexRvmMvr_Lx
  | kEncodingVexRmMr_Lx | kEncodingVexMovDQ | kEncodingVexRvmMr
  | kEncodingVexMovSsSd | kEncodingVexRvmr | kEncodingVexRvrmRvmr_Lx
  | kEncodingVexRvrmiRvmri_Lx | kEncodingVexRvmRmi_Lx | kEncodingVexRvrmRvmr
  | kEncodingVexVmi_Lx | kEncodingVexRvmRmvRmi | kEncodingVexMr_VM
  | kEncodingVexRvmRmv | kEncodingVexRvmVmi_Lx | kEncodingVexEvexVmi_Lx
  | kEncodingVexOp | kEncodingX86Xadd | kEncodingX86Xchg.

(** One row of [instData] as the [INST] macro builds it.  The macro drops
    its id, name, flag, EFLAGS and write columns (they live in [commonData]);
    the opcode word and the family columns are read by the encoder only and
    are left out here. *)
Record X86Inst : Set := INST {
  encodingType : Encoding;
  nameDataIndex : Z;
  commonDataIndex : Z
}.

(** [X86InstDB::instData]; the row number is the instruction id. *)
Definition instData : list X86Inst := [
  INST kEncodingNone                  0     0   ; (* #0 None *)
  INST kEncodingX86Arith              1     1   ; (* #1 Adc *)
  INST kEncodingX86Rm                 5     2   ; (* #2 Adcx *)
  INST kEncodingX86Arith              657   3   ; (* #3 Add *)
  INST kEncodingExtRm                 4545  4   ; (* #4 Addpd *)
  INST kEncodingExtRm                 4557  4   ; (* #5 Addps *)
  INST kEncodingExtRm                 4779  5   ; (* #6 Addsd *)
  INST kEncodingExtRm                 4789  6   ; (* #7 Addss *)
  INST kEncodingExtRm                 4284  4   ; (* #8 Addsubpd *)
  INST kEncodingExtRm                 4296  4   ; (* #9 Addsubps *)
  INST kEncodingX86Rm                 10    7   ; (* #10 Adox *)
  INST kEncodingExtRm                 2790  4   ; (* #11 Aesdec *)
  INST kEncodingExtRm                 2798  4   ; (* #12 Aesdeclast *)
  INST kEncodingExtRm                 2810  4   ; (* #13 Aesenc *)
  INST kEncodingExtRm                 2818  4   ; (* #14 Aesenclast *)
  INST kEncodingExtRm                 2830  8   ; (* #15 Aesimc *)
  INST kEncodingExtRmi                2838  9   ; (* #16 Aeskeygenassist *)
  INST kEncodingX86Arith              2034  3   ; (* #17 And *)
  INST kEncodingVexRvm_Wx             6055  10  ; (* #18 Andn *)
  INST kEncodingExtRm                 2871  4   ; (* #19 Andnpd *)
  INST kEncodingExtRm                 2879  4   ; (* #20 Andnps *)
  INST kEncodingExtRm                 3798  4   ; (* #21 Andpd *)
  INST kEncodingExtRm                 3808  4   ; (* #22 Andps *)
  INST kEncodingVexRmv_Wx             15    11  ; (* #23 Bextr *)
  INST kEncodingVexVm_Wx              21    12  ; (* #24 Blcfill *)
  INST kEncodingVexVm_Wx              29    12  ; (* #25 Blci *)
  INST kEncodingVexVm_Wx              34    12  ; (* #26 Blcic *)
  INST kEncodingVexVm_Wx              40    12  ; (* #27 Blcmsk *)
  INST kEncodingVexVm_Wx              47    12  ; (* #28 Blcs *)
  INST kEncodingExtRmi                2957  13  ; (* #29 Blendpd *)
  INST kEncodingExtRmi                2966  13  ; (* #30 Blendps *)
  INST kEncodingExtRmXMM0             2975  14  ; (* #31 Blendvpd *)
  INST kEncodingExtRmXMM0             2985  14  ; (* #32 Blendvps *)
  INST kEncodingVexVm_Wx              52    12  ; (* #33 Blsfill *)
  INST kEncodingVexVm_Wx              60    15  ; (* #34 Blsi *)
  INST kEncodingVexVm_Wx              65    12  ; (* #35 Blsic *)
  INST kEncodingVexVm_Wx              71    15  ; (* #36 Blsmsk *)
  INST kEncodingVexVm_Wx              78    15  ; (* #37 Blsr *)
  INST kEncodingX86Rm                 83    16  ; (* #38 Bsf *)
  INST kEncodingX86Rm                 87    16  ; (* #39 Bsr *)
  INST kEncodingX86Bswap              91    17  ; (* #40 Bswap *)
  INST kEncodingX86Bt                 97    18  ; (* #41 Bt *)
  INST kEncodingX86Bt                 100   19  ; (* #42 Btc *)
  INST kEncodingX86Bt                 104   20  ; (* #43 Btr *)
  INST kEncodingX86Bt                 108   21  ; (* #44 Bts *)
  INST kEncodingVexRmv_Wx             112   11  ; (* #45 Bzhi *)
  INST kEncodingX86Call               117   22  ; (* #46 Call *)
  INST kEncodingX86OpAx               122   23  ; (* #47 Cbw *)
  INST kEncodingX86OpDxAx             126   24  ; (* #48 Cdq *)
  INST kEncodingX86OpAx               130   25  ; (* #49 Cdqe *)
  INST kEncodingX86Op                 135   26  ; (* #50 Clac *)
  INST kEncodingX86Op                 140   27  ; (* #51 Clc *)
  INST kEncodingX86Op                 144   28  ; (* #52 Cld *)
  INST kEncodingX86M_Only             148   29  ; (* #53 Clflush *)
  INST kEncodingX86M_Only             156   29  ; (* #54 Clflushopt *)
  INST kEncodingX86M_Only             167   29  ; (* #55 Clwb *)
  INST kEncodingX86Op                 172   30  ; (* #56 Clzero *)
  INST kEncodingX86Op                 179   31  ; (* #57 Cmc *)
  INST kEncodingX86Rm                 183   32  ; (* #58 Cmova *)
  INST kEncodingX86Rm                 189   33  ; (* #59 Cmovae *)
  INST kEncodingX86Rm                 514   33  ; (* #60 Cmovb *)
  INST kEncodingX86Rm                 521   32  ; (* #61 Cmovbe *)
  INST kEncodingX86Rm                 196   33  ; (* #62 Cmovc *)
  INST kEncodingX86Rm                 529   34  ; (* #63 Cmove *)
  INST kEncodingX86Rm                 202   35  ; (* #64 Cmovg *)
  INST kEncodingX86Rm                 208   36  ; (* #65 Cmovge *)
  INST kEncodingX86Rm                 215   36  ; (* #66 Cmovl *)
  INST kEncodingX86Rm                 221   35  ; (* #67 Cmovle *)
  INST kEncodingX86Rm                 228   32  ; (* #68 Cmovna *)
  INST kEncodingX86Rm                 235   33  ; (* #69 Cmovnae *)
  INST kEncodingX86Rm                 536   33  ; (* #70 Cmovnb *)
  INST kEncodingX86Rm                 544   32  ; (* #71 Cmovnbe *)
  INST kEncodingX86Rm                 243   33  ; (* #72 Cmovnc *)
  INST kEncodingX86Rm                 553   34  ; (* #73 Cmovne *)
  INST kEncodingX86Rm                 250   35  ; (* #74 Cmovng *)
  INST kEncodingX86Rm                 257   36  ; (* #75 Cmovnge *)
  INST kEncodingX86Rm                 265   36  ; (* #76 Cmovnl *)
  INST kEncodingX86Rm                 272   35  ; (* #77 Cmovnle *)
  INST kEncodingX86Rm                 280   37  ; (* #78 Cmovno *)
  INST kEncodingX86Rm                 287   38  ; (* #79 Cmovnp *)
  INST kEncodingX86Rm                 294   39  ; (* #80 Cmovns *)
  INST kEncodingX86Rm                 301   34  ; (* #81 Cmovnz *)
  INST kEncodingX86Rm                 308   37  ; (* #82 Cmovo *)
  INST kEncodingX86Rm                 314   38  ; (* #83 Cmovp *)
  INST kEncodingX86Rm                 320   38  ; (* #84 Cmovpe *)
  INST kEncodingX86Rm                 327   38  ; (* #85 Cmovpo *)
  INST kEncodingX86Rm                 334   39  ; (* #86 Cmovs *)
  INST kEncodingX86Rm                 340   34  ; (* #87 Cmovz *)
  INST kEncodingX86Arith              346   40  ; (* #88 Cmp *)
  INST kEncodingExtRmi                3211  13  ; (* #89 Cmppd *)
  INST kEncodingExtRmi                3218  13  ; (* #90 Cmpps *)
  INST kEncodingX86Op                 2292  41  ; (* #91 CmpsB *)
  INST kEncodingX86Op                 2305  41  ; (* #92 CmpsD *)
  INST kEncodingX86Op                 2318  41  ; (* #93 CmpsQ *)
  INST kEncodingX86Op                 2331  41  ; (* #94 CmpsW *)
  INST kEncodingExtRmi                3225  42  ; (* #95 Cmpsd *)
  INST kEncodingExtRmi                3232  43  ; (* #96 Cmpss *)
  INST kEncodingX86Cmpxchg            350   44  ; (* #97 Cmpxchg *)
  INST kEncodingX86M_Only             358   45  ; (* #98 Cmpxchg16b *)
  INST kEncodingX86M_Only             369   46  ; (* #99 Cmpxchg8b *)
  INST kEncodingExtRm                 9258  47  ; (* #100 Comisd *)
  INST kEncodingExtRm                 9267  48  ; (* #101 Comiss *)
  INST kEncodingX86Op                 379   49  ; (* #102 Cpuid *)
  INST kEncodingX86OpDxAx             385   50  ; (* #103 Cqo *)
  INST kEncodingX86Crc                389   51  ; (* #104 Crc32 *)
  INST kEncodingExtRm                 3279  52  ; (* #105 Cvtdq2pd *)
  INST kEncodingExtRm                 3289  53  ; (* #106 Cvtdq2ps *)
  INST kEncodingExtRm                 3299  53  ; (* #107 Cvtpd2dq *)
  INST kEncodingExtRm                 395   54  ; (* #108 Cvtpd2pi *)
  INST kEncodingExtRm                 3309  53  ; (* #109 Cvtpd2ps *)
  INST kEncodingExtRm                 404   55  ; (* #110 Cvtpi2pd *)
  INST kEncodingExtRm                 413   56  ; (* #111 Cvtpi2ps *)
  INST kEncodingExtRm                 3361  53  ; (* #112 Cvtps2dq *)
  INST kEncodingExtRm                 3371  52  ; (* #113 Cvtps2pd *)
  INST kEncodingExtRm                 422   57  ; (* #114 Cvtps2pi *)
  INST kEncodingExtRm_Wx              3443  58  ; (* #115 Cvtsd2si *)
  INST kEncodingExtRm                 3453  59  ; (* #116 Cvtsd2ss *)
  INST kEncodingExtRm_Wx              3474  60  ; (* #117 Cvtsi2sd *)
  INST kEncodingExtRm_Wx              3484  61  ; (* #118 Cvtsi2ss *)
  INST kEncodingExtRm                 3494  62  ; (* #119 Cvtss2sd *)
  INST kEncodingExtRm_Wx              3504  63  ; (* #120 Cvtss2si *)
  INST kEncodingExtRm                 3525  53  ; (* #121 Cvttpd2dq *)
  INST kEncodingExtRm                 431   54  ; (* #122 Cvttpd2pi *)
  INST kEncodingExtRm                 3571  53  ; (* #123 Cvttps2dq *)
  INST kEncodingExtRm                 441   57  ; (* #124 Cvttps2pi *)
  INST kEncodingExtRm_Wx              3617  58  ; (* #125 Cvttsd2si *)
  INST kEncodingExtRm_Wx              3640  63  ; (* #126 Cvttss2si *)
  INST kEncodingX86OpDxAx             451   64  ; (* #127 Cwd *)
  INST kEncodingX86OpAx               455   65  ; (* #128 Cwde *)
  INST kEncodingX86Op                 460   66  ; (* #129 Daa *)
  INST kEncodingX86Op                 464   66  ; (* #130 Das *)
  INST kEncodingX86IncDec             2793  67  ; (* #131 Dec *)
  INST kEncodingX86M_Bx_MulDiv        676   68  ; (* #132 Div *)
  INST kEncodingExtRm                 3739  4   ; (* #133 Divpd *)
  INST kEncodingExtRm                 3746  4   ; (* #134 Divps *)
  INST kEncodingExtRm                 3753  5   ; (* #135 Divsd *)
  INST kEncodingExtRm                 3760  6   ; (* #136 Divss *)
  INST kEncodingExtRmi                3767  13  ; (* #137 Dppd *)
  INST kEncodingExtRmi                3773  13  ; (* #138 Dpps *)
  INST kEncodingX86Op                 644   69  ; (* #139 Emms *)
  INST kEncodingX86Enter              468   70  ; (* #140 Enter *)
  INST kEncodingExtExtract            3953  71  ; (* #141 Extractps *)
  INST kEncodingExtExtrq              6769  72  ; (* #142 Extrq *)
  INST kEncodingFpuOp                 474   73  ; (* #143 F2xm1 *)
  INST kEncodingFpuOp                 480   73  ; (* #144 Fabs *)
  INST kEncodingFpuArith              1756  74  ; (* #145 Fadd *)
  INST kEncodingFpuRDef               485   75  ; (* #146 Faddp *)
  INST kEncodingX86M_Only             491   76  ; (* #147 Fbld *)
  INST kEncodingX86M_Only             496   76  ; (* #148 Fbstp *)
  INST kEncodingFpuOp                 502   73  ; (* #149 Fchs *)
  INST kEncodingFpuOp                 507   73  ; (* #150 Fclex *)
  INST kEncodingFpuR                  513   77  ; (* #151 Fcmovb *)
  INST kEncodingFpuR                  520   78  ; (* #152 Fcmovbe *)
  INST kEncodingFpuR                  528   79  ; (* #153 Fcmove *)
  INST kEncodingFpuR                  535   77  ; (* #154 Fcmovnb *)
  INST kEncodingFpuR                  543   78  ; (* #155 Fcmovnbe *)
  INST kEncodingFpuR                  552   79  ; (* #156 Fcmovne *)
  INST kEncodingFpuR                  560   80  ; (* #157 Fcmovnu *)
  INST kEncodingFpuR                  568   80  ; (* #158 Fcmovu *)
  INST kEncodingFpuCom                575   81  ; (* #159 Fcom *)
  INST kEncodingFpuR                  580   82  ; (* #160 Fcomi *)
  INST kEncodingFpuR                  586   82  ; (* #161 Fcomip *)
  INST kEncodingFpuCom                593   81  ; (* #162 Fcomp *)
  INST kEncodingFpuOp                 599   73  ; (* #163 Fcompp *)
  INST kEncodingFpuOp                 606   73  ; (* #164 Fcos *)
  INST kEncodingFpuOp                 611   73  ; (* #165 Fdecstp *)
  INST kEncodingFpuArith              619   74  ; (* #166 Fdiv *)
  INST kEncodingFpuRDef               624   75  ; (* #167 Fdivp *)
  INST kEncodingFpuArith              630   74  ; (* #168 Fdivr *)
  INST kEncodingFpuRDef               636   75  ; (* #169 Fdivrp *)
  INST kEncodingX86Op                 643   73  ; (* #170 Femms *)
  INST kEncodingFpuR                  649   83  ; (* #171 Ffree *)
  INST kEncodingFpuM                  655   84  ; (* #172 Fiadd *)
  INST kEncodingFpuM                  661   84  ; (* #173 Ficom *)
  INST kEncodingFpuM                  667   84  ; (* #174 Ficomp *)
  INST kEncodingFpuM                  674   84  ; (* #175 Fidiv *)
  INST kEncodingFpuM                  680   84  ; (* #176 Fidivr *)
  INST kEncodingFpuM                  687   85  ; (* #177 Fild *)
  INST kEncodingFpuM                  692   84  ; (* #178 Fimul *)
  INST kEncodingFpuOp                 698   73  ; (* #179 Fincstp *)
  INST kEncodingFpuOp                 706   73  ; (* #180 Finit *)
  INST kEncodingFpuM                  712   84  ; (* #181 Fist *)
  INST kEncodingFpuM                  717   86  ; (* #182 Fistp *)
  INST kEncodingFpuM                  723   87  ; (* #183 Fisttp *)
  INST kEncodingFpuM                  730   84  ; (* #184 Fisub *)
  INST kEncodingFpuM                  736   84  ; (* #185 Fisubr *)
  INST kEncodingFpuFldFst             743   88  ; (* #186 Fld *)
  INST kEncodingFpuOp                 747   73  ; (* #187 Fld1 *)
  INST kEncodingX86M_Only             752   89  ; (* #188 Fldcw *)
  INST kEncodingX86M_Only             758   90  ; (* #189 Fldenv *)
  INST kEncodingFpuOp                 765   73  ; (* #190 Fldl2e *)
  INST kEncodingFpuOp                 772   73  ; (* #191 Fldl2t *)
  INST kEncodingFpuOp                 779   73  ; (* #192 Fldlg2 *)
  INST kEncodingFpuOp                 786   73  ; (* #193 Fldln2 *)
  INST kEncodingFpuOp                 793   73  ; (* #194 Fldpi *)
  INST kEncodingFpuOp                 799   73  ; (* #195 Fldz *)
  INST kEncodingFpuArith              1798  74  ; (* #196 Fmul *)
  INST kEncodingFpuRDef               804   75  ; (* #197 Fmulp *)
  INST kEncodingFpuOp                 810   73  ; (* #198 Fnclex *)
  INST kEncodingFpuOp                 817   73  ; (* #199 Fninit *)
  INST kEncodingFpuOp                 824   73  ; (* #200 Fnop *)
  INST kEncodingX86M_Only             829   90  ; (* #201 Fnsave *)
  INST kEncodingX86M_Only             836   89  ; (* #202 Fnstcw *)
  INST kEncodingX86M_Only             843   90  ; (* #203 Fnstenv *)
  INST kEncodingFpuStsw               851   91  ; (* #204 Fnstsw *)
  INST kEncodingFpuOp                 858   73  ; (* #205 Fpatan *)
  INST kEncodingFpuOp                 865   73  ; (* #206 Fprem *)
  INST kEncodingFpuOp                 871   73  ; (* #207 Fprem1 *)
  INST kEncodingFpuOp                 878   73  ; (* #208 Fptan *)
  INST kEncodingFpuOp                 884   73  ; (* #209 Frndint *)
  INST kEncodingX86M_Only             892   90  ; (* #210 Frstor *)
  INST kEncodingX86M_Only             899   90  ; (* #211 Fsave *)
  INST kEncodingFpuOp                 905   73  ; (* #212 Fscale *)
  INST kEncodingFpuOp                 912   73  ; (* #213 Fsin *)
  INST kEncodingFpuOp                 917   73  ; (* #214 Fsincos *)
  INST kEncodingFpuOp                 925   73  ; (* #215 Fsqrt *)
  INST kEncodingFpuFldFst             931   92  ; (* #216 Fst *)
  INST kEncodingX86M_Only             935   89  ; (* #217 Fstcw *)
  INST kEncodingX86M_Only             941   90  ; (* #218 Fstenv *)
  INST kEncodingFpuFldFst             948   93  ; (* #219 Fstp *)
  INST kEncodingFpuStsw               953   94  ; (* #220 Fstsw *)
  INST kEncodingFpuArith              1876  74  ; (* #221 Fsub *)
  INST kEncodingFpuRDef               959   75  ; (* #222 Fsubp *)
  INST kEncodingFpuArith              1882  74  ; (* #223 Fsubr *)
  INST kEncodingFpuRDef               965   75  ; (* #224 Fsubrp *)
  INST kEncodingFpuOp                 972   73  ; (* #225 Ftst *)
  INST kEncodingFpuRDef               977   75  ; (* #226 Fucom *)
  INST kEncodingFpuR                  983   82  ; (* #227 Fucomi *)
  INST kEncodingFpuR                  990   82  ; (* #228 Fucomip *)
  INST kEncodingFpuRDef               998   75  ; (* #229 Fucomp *)
  INST kEncodingFpuOp                 1005  73  ; (* #230 Fucompp *)
  INST kEncodingX86Op                 1013  95  ; (* #231 Fwait *)
  INST kEncodingFpuOp                 1019  73  ; (* #232 Fxam *)
  INST kEncodingFpuR                  1024  75  ; (* #233 Fxch *)
  INST kEncodingX86M_Only             1029  90  ; (* #234 Fxrstor *)
  INST kEncodingX86M_Only             1037  96  ; (* #235 Fxrstor64 *)
  INST kEncodingX86M_Only             1047  90  ; (* #236 Fxsave *)
  INST kEncodingX86M_Only             1054  96  ; (* #237 Fxsave64 *)
  INST kEncodingFpuOp                 1063  73  ; (* #238 Fxtract *)
  INST kEncodingFpuOp                 1071  73  ; (* #239 Fyl2x *)
  INST kEncodingFpuOp                 1077  73  ; (* #240 Fyl2xp1 *)
  INST kEncodingExtRm                 5308  4   ; (* #241 Haddpd *)
  INST kEncodingExtRm                 5316  4   ; (* #242 Haddps *)
  INST kEncodingExtRm                 5324  4   ; (* #243 Hsubpd *)
  INST kEncodingExtRm                 5332  4   ; (* #244 Hsubps *)
  INST kEncodingX86M_Bx_MulDiv        675   97  ; (* #245 Idiv *)
  INST kEncodingX86Imul               693   98  ; (* #246 Imul *)
  INST kEncodingX86IncDec             1085  99  ; (* #247 Inc *)
  INST kEncodingExtRmi                5468  43  ; (* #248 Insertps *)
  INST kEncodingExtInsertq            1089  100 ; (* #249 Insertq *)
  INST kEncodingX86Int                888   101 ; (* #250 Int *)
  INST kEncodingX86Op                 1097  102 ; (* #251 Int3 *)
  INST kEncodingX86Op                 1102  102 ; (* #252 Into *)
  INST kEncodingX86Jcc                1107  103 ; (* #253 Ja *)
  INST kEncodingX86Jcc                1110  104 ; (* #254 Jae *)
  INST kEncodingX86Jcc                1114  104 ; (* #255 Jb *)
  INST kEncodingX86Jcc                1117  103 ; (* #256 Jbe *)
  INST kEncodingX86Jcc                1121  105 ; (* #257 Jc *)
  INST kEncodingX86Jcc                1124  106 ; (* #258 Je *)
  INST kEncodingX86Jcc                1133  107 ; (* #259 Jg *)
  INST kEncodingX86Jcc                1136  108 ; (* #260 Jge *)
  INST kEncodingX86Jcc                1140  108 ; (* #261 Jl *)
  INST kEncodingX86Jcc                1143  107 ; (* #262 Jle *)
  INST kEncodingX86Jcc                1151  103 ; (* #263 Jna *)
  INST kEncodingX86Jcc                1155  104 ; (* #264 Jnae *)
  INST kEncodingX86Jcc                1160  104 ; (* #265 Jnb *)
  INST kEncodingX86Jcc                1164  103 ; (* #266 Jnbe *)
  INST kEncodingX86Jcc                1169  105 ; (* #267 Jnc *)
  INST kEncodingX86Jcc                1173  106 ; (* #268 Jne *)
  INST kEncodingX86Jcc                1177  107 ; (* #269 Jng *)
  INST kEncodingX86Jcc                1181  108 ; (* #270 Jnge *)
  INST kEncodingX86Jcc                1186  108 ; (* #271 Jnl *)
  INST kEncodingX86Jcc                1190  107 ; (* #272 Jnle *)
  INST kEncodingX86Jcc                1195  109 ; (* #273 Jno *)
  INST kEncodingX86Jcc                1199  110 ; (* #274 Jnp *)
  INST kEncodingX86Jcc                1203  111 ; (* #275 Jns *)
  INST kEncodingX86Jcc                1207  106 ; (* #276 Jnz *)
  INST kEncodingX86Jcc                1211  109 ; (* #277 Jo *)
  INST kEncodingX86Jcc                1214  110 ; (* #278 Jp *)
  INST kEncodingX86Jcc                1217  110 ; (* #279 Jpe *)
  INST kEncodingX86Jcc                1221  110 ; (* #280 Jpo *)
  INST kEncodingX86Jcc                1225  111 ; (* #281 Js *)
  INST kEncodingX86Jcc                1228  106 ; (* #282 Jz *)
  INST kEncodingX86Jecxz              1127  112 ; (* #283 Jecxz *)
  INST kEncodingX86Jmp                1147  113 ; (* #284 Jmp *)
  INST kEncodingVexRvm                1231  114 ; (* #285 Kaddb *)
  INST kEncodingVexRvm                1237  114 ; (* #286 Kaddd *)
  INST kEncodingVexRvm                1243  114 ; (* #287 Kaddq *)
  INST kEncodingVexRvm                1249  114 ; (* #288 Kaddw *)
  INST kEncodingVexRvm                1255  114 ; (* #289 Kandb *)
  INST kEncodingVexRvm                1261  114 ; (* #290 Kandd *)
  INST kEncodingVexRvm                1267  114 ; (* #291 Kandnb *)
  INST kEncodingVexRvm                1274  114 ; (* #292 Kandnd *)
  INST kEncodingVexRvm                1281  114 ; (* #293 Kandnq *)
  INST kEncodingVexRvm                1288  114 ; (* #294 Kandnw *)
  INST kEncodingVexRvm                1295  114 ; (* #295 Kandq *)
  INST kEncodingVexRvm                1301  114 ; (* #296 Kandw *)
  INST kEncodingVexKmov               1307  115 ; (* #297 Kmovb *)
  INST kEncodingVexKmov               7249  116 ; (* #298 Kmovd *)
  INST kEncodingVexKmov               7260  117 ; (* #299 Kmovq *)
  INST kEncodingVexKmov               1313  118 ; (* #300 Kmovw *)
  INST kEncodingVexRm                 1319  119 ; (* #301 Knotb *)
  INST kEncodingVexRm                 1325  119 ; (* #302 Knotd *)
  INST kEncodingVexRm                 1331  119 ; (* #303 Knotq *)
  INST kEncodingVexRm                 1337  119 ; (* #304 Knotw *)
  INST kEncodingVexRvm                1343  114 ; (* #305 Korb *)
  INST kEncodingVexRvm                1348  114 ; (* #306 Kord *)
  INST kEncodingVexRvm                1353  114 ; (* #307 Korq *)
  INST kEncodingVexRm                 1358  120 ; (* #308 Kortestb *)
  INST kEncodingVexRm                 1367  120 ; (* #309 Kortestd *)
  INST kEncodingVexRm                 1376  120 ; (* #310 Kortestq *)
  INST kEncodingVexRm                 1385  120 ; (* #311 Kortestw *)
  INST kEncodingVexRvm                1394  114 ; (* #312 Korw *)
  INST kEncodingVexRmi                1399  121 ; (* #313 Kshiftlb *)
  INST kEncodingVexRmi                1408  121 ; (* #314 Kshiftld *)
  INST kEncodingVexRmi                1417  121 ; (* #315 Kshiftlq *)
  INST kEncodingVexRmi                1426  121 ; (* #316 Kshiftlw *)
  INST kEncodingVexRmi                1435  121 ; (* #317 Kshiftrb *)
  INST kEncodingVexRmi                1444  121 ; (* #318 Kshiftrd *)
  INST kEncodingVexRmi                1453  121 ; (* #319 Kshiftrq *)
  INST kEncodingVexRmi                1462  121 ; (* #320 Kshiftrw *)
  INST kEncodingVexRm                 1471  120 ; (* #321 Ktestb *)
  INST kEncodingVexRm                 1478  120 ; (* #322 Ktestd *)
  INST kEncodingVexRm                 1485  120 ; (* #323 Ktestq *)
  INST kEncodingVexRm                 1492  120 ; (* #324 Ktestw *)
  INST kEncodingVexRvm                1499  114 ; (* #325 Kunpckbw *)
  INST kEncodingVexRvm                1508  114 ; (* #326 Kunpckdq *)
  INST kEncodingVexRvm                1517  114 ; (* #327 Kunpckwd *)
  INST kEncodingVexRvm                1526  114 ; (* #328 Kxnorb *)
  INST kEncodingVexRvm                1533  114 ; (* #329 Kxnord *)
  INST kEncodingVexRvm                1540  114 ; (* #330 Kxnorq *)
  INST kEncodingVexRvm                1547  114 ; (* #331 Kxnorw *)
  INST kEncodingVexRvm                1554  114 ; (* #332 Kxorb *)
  INST kEncodingVexRvm                1560  114 ; (* #333 Kxord *)
  INST kEncodingVexRvm                1566  114 ; (* #334 Kxorq *)
  INST kEncodingVexRvm                1572  114 ; (* #335 Kxorw *)
  INST kEncodingX86Op                 1578  122 ; (* #336 Lahf *)
  INST kEncodingExtRm                 5478  123 ; (* #337 Lddqu *)
  INST kEncodingX86M_Only             5485  124 ; (* #338 Ldmxcsr *)
  INST kEncodingX86Lea                1583  125 ; (* #339 Lea *)
  INST kEncodingX86Op                 1587  126 ; (* #340 Leave *)
  INST kEncodingX86Fence              1593  69  ; (* #341 Lfence *)
  INST kEncodingX86Op                 2062  127 ; (* #342 LodsB *)
  INST kEncodingX86Op                 2073  128 ; (* #343 LodsD *)
  INST kEncodingX86Op                 2084  129 ; (* #344 LodsQ *)
  INST kEncodingX86Op                 2095  130 ; (* #345 LodsW *)
  INST kEncodingX86Rm                 1600  131 ; (* #346 Lzcnt *)
  INST kEncodingExtRmZDI              5494  132 ; (* #347 Maskmovdqu *)
  INST kEncodingExtRmZDI              7257  133 ; (* #348 Maskmovq *)
  INST kEncodingExtRm                 5528  4   ; (* #349 Maxpd *)
  INST kEncodingExtRm                 5535  4   ; (* #350 Maxps *)
  INST kEncodingExtRm                 7276  5   ; (* #351 Maxsd *)
  INST kEncodingExtRm                 5549  6   ; (* #352 Maxss *)
  INST kEncodingX86Fence              1606  134 ; (* #353 Mfence *)
  INST kEncodingExtRm                 5556  4   ; (* #354 Minpd *)
  INST kEncodingExtRm                 5563  4   ; (* #355 Minps *)
  INST kEncodingExtRm                 7340  5   ; (* #356 Minsd *)
  INST kEncodingExtRm                 5577  6   ; (* #357 Minss *)
  INST kEncodingX86Op                 1613  135 ; (* #358 Monitor *)
  INST kEncodingX86Mov                6223  136 ; (* #359 Mov *)
  INST kEncodingExtMov                5584  137 ; (* #360 Movapd *)
  INST kEncodingExtMov                5592  138 ; (* #361 Movaps *)
  INST kEncodingExtMovbe              522   139 ; (* #362 Movbe *)
  INST kEncodingExtMovd               7250  140 ; (* #363 Movd *)
  INST kEncodingExtMov                5606  52  ; (* #364 Movddup *)
  INST kEncodingExtMov                1621  141 ; (* #365 Movdq2q *)
  INST kEncodingExtMov                5615  142 ; (* #366 Movdqa *)
  INST kEncodingExtMov                5498  143 ; (* #367 Movdqu *)
  INST kEncodingExtMov                5690  144 ; (* #368 Movhlps *)
  INST kEncodingExtMov                5699  145 ; (* #369 Movhpd *)
  INST kEncodingExtMov                5707  146 ; (* #370 Movhps *)
  INST kEncodingExtMov                5715  147 ; (* #371 Movlhps *)
  INST kEncodingExtMov                5724  148 ; (* #372 Movlpd *)
  INST kEncodingExtMov                5732  149 ; (* #373 Movlps *)
  INST kEncodingExtMov                5740  150 ; (* #374 Movmskpd *)
  INST kEncodingExtMov                5750  150 ; (* #375 Movmskps *)
  INST kEncodingExtMov                5760  151 ; (* #376 Movntdq *)
  INST kEncodingExtMov                5769  123 ; (* #377 Movntdqa *)
  INST kEncodingExtMovnti             1629  152 ; (* #378 Movnti *)
  INST kEncodingExtMov                5779  153 ; (* #379 Movntpd *)
  INST kEncodingExtMov                5788  154 ; (* #380 Movntps *)
  INST kEncodingExtMov                1636  155 ; (* #381 Movntq *)
  INST kEncodingExtMov                1643  156 ; (* #382 Movntsd *)
  INST kEncodingExtMov                1651  157 ; (* #383 Movntss *)
  INST kEncodingExtMovq               7261  158 ; (* #384 Movq *)
  INST kEncodingExtRm                 1659  159 ; (* #385 Movq2dq *)
  INST kEncodingX86Op                 2106  160 ; (* #386 MovsB *)
  INST kEncodingX86Op                 2117  160 ; (* #387 MovsD *)
  INST kEncodingX86Op                 2128  160 ; (* #388 MovsQ *)
  INST kEncodingX86Op                 2139  160 ; (* #389 MovsW *)
  INST kEncodingExtMov                5803  161 ; (* #390 Movsd *)
  INST kEncodingExtRm                 5810  53  ; (* #391 Movshdup *)
  INST kEncodingExtRm                 5820  53  ; (* #392 Movsldup *)
  INST kEncodingExtMov                5830  162 ; (* #393 Movss *)
  INST kEncodingX86MovsxMovzx         1667  163 ; (* #394 Movsx *)
  INST kEncodingX86Rm                 1673  164 ; (* #395 Movsxd *)
  INST kEncodingExtMov                5837  165 ; (* #396 Movupd *)
  INST kEncodingExtMov                5845  166 ; (* #397 Movups *)
  INST kEncodingX86MovsxMovzx         1680  163 ; (* #398 Movzx *)
  INST kEncodingExtRmi                5853  13  ; (* #399 Mpsadbw *)
  INST kEncodingX86M_Bx_MulDiv        694   167 ; (* #400 Mul *)
  INST kEncodingExtRm                 5862  4   ; (* #401 Mulpd *)
  INST kEncodingExtRm                 5869  4   ; (* #402 Mulps *)
  INST kEncodingExtRm                 5876  5   ; (* #403 Mulsd *)
  INST kEncodingExtRm                 5883  6   ; (* #404 Mulss *)
  INST kEncodingVexRvmZDX_Wx          1686  168 ; (* #405 Mulx *)
  INST kEncodingX86Op                 1691  135 ; (* #406 Mwait *)
  INST kEncodingX86M_Bx               1697  169 ; (* #407 Neg *)
  INST kEncodingX86Op                 825   170 ; (* #408 Nop *)
  INST kEncodingX86M_Bx               1701  171 ; (* #409 Not *)
  INST kEncodingX86Arith              1034  3   ; (* #410 Or *)
  INST kEncodingExtRm                 9316  4   ; (* #411 Orpd *)
  INST kEncodingExtRm                 9323  4   ; (* #412 Orps *)
  INST kEncodingExtRm_P               5902  172 ; (* #413 Pabsb *)
  INST kEncodingExtRm_P               5909  172 ; (* #414 Pabsd *)
  INST kEncodingExtRm_P               5923  172 ; (* #415 Pabsw *)
  INST kEncodingExtRm_P               5930  172 ; (* #416 Packssdw *)
  INST kEncodingExtRm_P               5940  172 ; (* #417 Packsswb *)
  INST kEncodingExtRm                 5950  4   ; (* #418 Packusdw *)
  INST kEncodingExtRm_P               5960  172 ; (* #419 Packuswb *)
  INST kEncodingExtRm_P               5970  172 ; (* #420 Paddb *)
  INST kEncodingExtRm_P               5977  172 ; (* #421 Paddd *)
  INST kEncodingExtRm_P               5984  172 ; (* #422 Paddq *)
  INST kEncodingExtRm_P               5991  172 ; (* #423 Paddsb *)
  INST kEncodingExtRm_P               5999  172 ; (* #424 Paddsw *)
  INST kEncodingExtRm_P               6007  172 ; (* #425 Paddusb *)
  INST kEncodingExtRm_P               6016  172 ; (* #426 Paddusw *)
  INST kEncodingExtRm_P               6025  172 ; (* #427 Paddw *)
  INST kEncodingExtRmi_P              6032  173 ; (* #428 Palignr *)
  INST kEncodingExtRm_P               6041  172 ; (* #429 Pand *)
  INST kEncodingExtRm_P               6054  172 ; (* #430 Pandn *)
  INST kEncodingX86Op                 1705  174 ; (* #431 Pause *)
  INST kEncodingExtRm_P               6084  172 ; (* #432 Pavgb *)
  INST kEncodingExt3dNow              1711  175 ; (* #433 Pavgusb *)
  INST kEncodingExtRm_P               6091  172 ; (* #434 Pavgw *)
  INST kEncodingExtRmXMM0             6107  14  ; (* #435 Pblendvb *)
  INST kEncodingExtRmi                6117  13  ; (* #436 Pblendw *)
  INST kEncodingExtRmi                6210  13  ; (* #437 Pclmulqdq *)
  INST kEncodingExtRm_P               6242  172 ; (* #438 Pcmpeqb *)
  INST kEncodingExtRm_P               6251  172 ; (* #439 Pcmpeqd *)
  INST kEncodingExtRm                 6260  4   ; (* #440 Pcmpeqq *)
  INST kEncodingExtRm_P               6269  172 ; (* #441 Pcmpeqw *)
  INST kEncodingExtRmi                6278  176 ; (* #442 Pcmpestri *)
  INST kEncodingExtRmi                6289  177 ; (* #443 Pcmpestrm *)
  INST kEncodingExtRm_P               6300  172 ; (* #444 Pcmpgtb *)
  INST kEncodingExtRm_P               6309  172 ; (* #445 Pcmpgtd *)
  INST kEncodingExtRm                 6318  4   ; (* #446 Pcmpgtq *)
  INST kEncodingExtRm_P               6327  172 ; (* #447 Pcmpgtw *)
  INST kEncodingExtRmi                6336  178 ; (* #448 Pcmpistri *)
  INST kEncodingExtRmi                6347  179 ; (* #449 Pcmpistrm *)
  INST kEncodingX86Op_O               1719  69  ; (* #450 Pcommit *)
  INST kEncodingVexRvm_Wx             1727  180 ; (* #451 Pdep *)
  INST kEncodingVexRvm_Wx             1732  180 ; (* #452 Pext *)
  INST kEncodingExtExtract            6752  181 ; (* #453 Pextrb *)
  INST kEncodingExtExtract            6760  71  ; (* #454 Pextrd *)
  INST kEncodingExtExtract            6768  182 ; (* #455 Pextrq *)
  INST kEncodingExtPextrw             6776  183 ; (* #456 Pextrw *)
  INST kEncodingExt3dNow              1737  184 ; (* #457 Pf2id *)
  INST kEncodingExt3dNow              1743  184 ; (* #458 Pf2iw *)
  INST kEncodingExt3dNow              1749  175 ; (* #459 Pfacc *)
  INST kEncodingExt3dNow              1755  175 ; (* #460 Pfadd *)
  INST kEncodingExt3dNow              1761  175 ; (* #461 Pfcmpeq *)
  INST kEncodingExt3dNow              1769  175 ; (* #462 Pfcmpge *)
  INST kEncodingExt3dNow              1777  175 ; (* #463 Pfcmpgt *)
  INST kEncodingExt3dNow              1785  175 ; (* #464 Pfmax *)
  INST kEncodingExt3dNow              1791  175 ; (* #465 Pfmin *)
  INST kEncodingExt3dNow              1797  175 ; (* #466 Pfmul *)
  INST kEncodingExt3dNow              1803  175 ; (* #467 Pfnacc *)
  INST kEncodingExt3dNow              1810  175 ; (* #468 Pfpnacc *)
  INST kEncodingExt3dNow              1818  184 ; (* #469 Pfrcp *)
  INST kEncodingExt3dNow              1824  175 ; (* #470 Pfrcpit1 *)
  INST kEncodingExt3dNow              1833  175 ; (* #471 Pfrcpit2 *)
  INST kEncodingExt3dNow              1842  175 ; (* #472 Pfrcpv *)
  INST kEncodingExt3dNow              1849  185 ; (* #473 Pfrsqit1 *)
  INST kEncodingExt3dNow              1858  185 ; (* #474 Pfrsqrt *)
  INST kEncodingExt3dNow              1866  175 ; (* #475 Pfrsqrtv *)
  INST kEncodingExt3dNow              1875  175 ; (* #476 Pfsub *)
  INST kEncodingExt3dNow              1881  175 ; (* #477 Pfsubr *)
  INST kEncodingExtRm_P               6855  172 ; (* #478 Phaddd *)
  INST kEncodingExtRm_P               6872  172 ; (* #479 Phaddsw *)
  INST kEncodingExtRm_P               6941  172 ; (* #480 Phaddw *)
  INST kEncodingExtRm                 6967  4   ; (* #481 Phminposuw *)
  INST kEncodingExtRm_P               6988  172 ; (* #482 Phsubd *)
  INST kEncodingExtRm_P               7005  172 ; (* #483 Phsubsw *)
  INST kEncodingExtRm_P               7014  172 ; (* #484 Phsubw *)
  INST kEncodingExt3dNow              1888  184 ; (* #485 Pi2fd *)
  INST kEncodingExt3dNow              1894  184 ; (* #486 Pi2fw *)
  INST kEncodingExtRmi                7031  186 ; (* #487 Pinsrb *)
  INST kEncodingExtRmi                7039  187 ; (* #488 Pinsrd *)
  INST kEncodingExtRmi                7047  188 ; (* #489 Pinsrq *)
  INST kEncodingExtRmi_P              7055  189 ; (* #490 Pinsrw *)
  INST kEncodingExtRm_P               7225  172 ; (* #491 Pmaddubsw *)
  INST kEncodingExtRm_P               7236  172 ; (* #492 Pmaddwd *)
  INST kEncodingExtRm                 7267  4   ; (* #493 Pmaxsb *)
  INST kEncodingExtRm                 7275  4   ; (* #494 Pmaxsd *)
  INST kEncodingExtRm_P               7291  172 ; (* #495 Pmaxsw *)
  INST kEncodingExtRm_P               7299  172 ; (* #496 Pmaxub *)
  INST kEncodingExtRm                 7307  4   ; (* #497 Pmaxud *)
  INST kEncodingExtRm                 7323  4   ; (* #498 Pmaxuw *)
  INST kEncodingExtRm                 7331  4   ; (* #499 Pminsb *)
  INST kEncodingExtRm                 7339  4   ; (* #500 Pminsd *)
  INST kEncodingExtRm_P               7355  172 ; (* #501 Pminsw *)
  INST kEncodingExtRm_P               7363  172 ; (* #502 Pminub *)
  INST kEncodingExtRm                 7371  4   ; (* #503 Pminud *)
  INST kEncodingExtRm                 7387  4   ; (* #504 Pminuw *)
  INST kEncodingExtRm_P               7465  190 ; (* #505 Pmovmskb *)
  INST kEncodingExtRm                 7562  191 ; (* #506 Pmovsxbd *)
  INST kEncodingExtRm                 7572  192 ; (* #507 Pmovsxbq *)
  INST kEncodingExtRm                 7582  52  ; (* #508 Pmovsxbw *)
  INST kEncodingExtRm                 7592  52  ; (* #509 Pmovsxdq *)
  INST kEncodingExtRm                 7602  52  ; (* #510 Pmovsxwd *)
  INST kEncodingExtRm                 7612  191 ; (* #511 Pmovsxwq *)
  INST kEncodingExtRm                 7699  191 ; (* #512 Pmovzxbd *)
  INST kEncodingExtRm                 7709  192 ; (* #513 Pmovzxbq *)
  INST kEncodingExtRm                 7719  52  ; (* #514 Pmovzxbw *)
  INST kEncodingExtRm                 7729  52  ; (* #515 Pmovzxdq *)
  INST kEncodingExtRm                 7739  52  ; (* #516 Pmovzxwd *)
  INST kEncodingExtRm                 7749  191 ; (* #517 Pmovzxwq *)
  INST kEncodingExtRm                 7759  4   ; (* #518 Pmuldq *)
  INST kEncodingExtRm_P               7767  172 ; (* #519 Pmulhrsw *)
  INST kEncodingExt3dNow              1900  175 ; (* #520 Pmulhrw *)
  INST kEncodingExtRm_P               7777  172 ; (* #521 Pmulhuw *)
  INST kEncodingExtRm_P               7786  172 ; (* #522 Pmulhw *)
  INST kEncodingExtRm                 7794  4   ; (* #523 Pmulld *)
  INST kEncodingExtRm_P               7810  172 ; (* #524 Pmullw *)
  INST kEncodingExtRm_P               7833  172 ; (* #525 Pmuludq *)
  INST kEncodingX86Pop                1908  193 ; (* #526 Pop *)
  INST kEncodingX86Op                 1912  194 ; (* #527 Popa *)
  INST kEncodingX86Rm                 1917  195 ; (* #528 Popcnt *)
  INST kEncodingX86Op                 1924  196 ; (* #529 Popf *)
  INST kEncodingExtRm_P               7842  172 ; (* #530 Por *)
  INST kEncodingX86Prefetch           1929  197 ; (* #531 Prefetch *)
  INST kEncodingX86M_Only             1938  29  ; (* #532 Prefetch3dNow *)
  INST kEncodingX86M_Only             1952  198 ; (* #533 Prefetchw *)
  INST kEncodingX86M_Only             1962  198 ; (* #534 Prefetchwt1 *)
  INST kEncodingExtRm_P               3731  172 ; (* #535 Psadbw *)
  INST kEncodingExtRm_P               8066  199 ; (* #536 Pshufb *)
  INST kEncodingExtRmi                8074  200 ; (* #537 Pshufd *)
  INST kEncodingExtRmi                8082  200 ; (* #538 Pshufhw *)
  INST kEncodingExtRmi                8091  200 ; (* #539 Pshuflw *)
  INST kEncodingExtRmi_P              1974  201 ; (* #540 Pshufw *)
  INST kEncodingExtRm_P               8100  172 ; (* #541 Psignb *)
  INST kEncodingExtRm_P               8108  172 ; (* #542 Psignd *)
  INST kEncodingExtRm_P               8116  172 ; (* #543 Psignw *)
  INST kEncodingExtRmRi_P             8124  202 ; (* #544 Pslld *)
  INST kEncodingExtRmRi               8131  203 ; (* #545 Pslldq *)
  INST kEncodingExtRmRi_P             8139  204 ; (* #546 Psllq *)
  INST kEncodingExtRmRi_P             8170  205 ; (* #547 Psllw *)
  INST kEncodingExtRmRi_P             8177  206 ; (* #548 Psrad *)
  INST kEncodingExtRmRi_P             8215  207 ; (* #549 Psraw *)
  INST kEncodingExtRmRi_P             8222  208 ; (* #550 Psrld *)
  INST kEncodingExtRmRi               8229  209 ; (* #551 Psrldq *)
  INST kEncodingExtRmRi_P             8237  210 ; (* #552 Psrlq *)
  INST kEncodingExtRmRi_P             8268  211 ; (* #553 Psrlw *)
  INST kEncodingExtRm_P               8275  172 ; (* #554 Psubb *)
  INST kEncodingExtRm_P               8282  172 ; (* #555 Psubd *)
  INST kEncodingExtRm_P               8289  172 ; (* #556 Psubq *)
  INST kEncodingExtRm_P               8296  172 ; (* #557 Psubsb *)
  INST kEncodingExtRm_P               8304  172 ; (* #558 Psubsw *)
  INST kEncodingExtRm_P               8312  172 ; (* #559 Psubusb *)
  INST kEncodingExtRm_P               8321  172 ; (* #560 Psubusw *)
  INST kEncodingExtRm_P               8330  172 ; (* #561 Psubw *)
  INST kEncodingExt3dNow              1981  184 ; (* #562 Pswapd *)
  INST kEncodingExtRm                 8359  212 ; (* #563 Ptest *)
  INST kEncodingExtRm_P               8442  172 ; (* #564 Punpckhbw *)
  INST kEncodingExtRm_P               8453  172 ; (* #565 Punpckhdq *)
  INST kEncodingExtRm                 8464  4   ; (* #566 Punpckhqdq *)
  INST kEncodingExtRm_P               8476  172 ; (* #567 Punpckhwd *)
  INST kEncodingExtRm_P               8487  172 ; (* #568 Punpcklbw *)
  INST kEncodingExtRm_P               8498  172 ; (* #569 Punpckldq *)
  INST kEncodingExtRm                 8509  4   ; (* #570 Punpcklqdq *)
  INST kEncodingExtRm_P               8521  172 ; (* #571 Punpcklwd *)
  INST kEncodingX86Push               1988  213 ; (* #572 Push *)
  INST kEncodingX86Op                 1993  194 ; (* #573 Pusha *)
  INST kEncodingX86Op                 1999  214 ; (* #574 Pushf *)
  INST kEncodingExtRm_P               8532  172 ; (* #575 Pxor *)
  INST kEncodingX86Rot                2005  215 ; (* #576 Rcl *)
  INST kEncodingExtRm                 8660  53  ; (* #577 Rcpps *)
  INST kEncodingExtRm                 8667  216 ; (* #578 Rcpss *)
  INST kEncodingX86Rot                2009  215 ; (* #579 Rcr *)
  INST kEncodingX86M                  2013  217 ; (* #580 Rdfsbase *)
  INST kEncodingX86M                  2022  217 ; (* #581 Rdgsbase *)
  INST kEncodingX86M                  2031  218 ; (* #582 Rdrand *)
  INST kEncodingX86M                  2038  218 ; (* #583 Rdseed *)
  INST kEncodingX86Op                 2045  219 ; (* #584 Rdtsc *)
  INST kEncodingX86Op                 2051  220 ; (* #585 Rdtscp *)
  INST kEncodingX86Rep                2058  221 ; (* #586 RepLodsB *)
  INST kEncodingX86Rep                2069  221 ; (* #587 RepLodsD *)
  INST kEncodingX86Rep                2080  221 ; (* #588 RepLodsQ *)
  INST kEncodingX86Rep                2091  221 ; (* #589 RepLodsW *)
  INST kEncodingX86Rep                2102  221 ; (* #590 RepMovsB *)
  INST kEncodingX86Rep                2113  221 ; (* #591 RepMovsD *)
  INST kEncodingX86Rep                2124  221 ; (* #592 RepMovsQ *)
  INST kEncodingX86Rep                2135  221 ; (* #593 RepMovsW *)
  INST kEncodingX86Rep                2146  221 ; (* #594 RepStosB *)
  INST kEncodingX86Rep                2157  221 ; (* #595 RepStosD *)
  INST kEncodingX86Rep                2168  221 ; (* #596 RepStosQ *)
  INST kEncodingX86Rep                2179  221 ; (* #597 RepStosW *)
  INST kEncodingX86Rep                2190  41  ; (* #598 RepeCmpsB *)
  INST kEncodingX86Rep                2202  41  ; (* #599 RepeCmpsD *)
  INST kEncodingX86Rep                2214  41  ; (* #600 RepeCmpsQ *)
  INST kEncodingX86Rep                2226  41  ; (* #601 RepeCmpsW *)
  INST kEncodingX86Rep                2238  41  ; (* #602 RepeScasB *)
  INST kEncodingX86Rep                2250  41  ; (* #603 RepeScasD *)
  INST kEncodingX86Rep                2262  41  ; (* #604 RepeScasQ *)
  INST kEncodingX86Rep                2274  41  ; (* #605 RepeScasW *)
  INST kEncodingX86Rep                2286  41  ; (* #606 RepneCmpsB *)
  INST kEncodingX86Rep                2299  41  ; (* #607 RepneCmpsD *)
  INST kEncodingX86Rep                2312  41  ; (* #608 RepneCmpsQ *)
  INST kEncodingX86Rep                2325  41  ; (* #609 RepneCmpsW *)
  INST kEncodingX86Rep                2338  41  ; (* #610 RepneScasB *)
  INST kEncodingX86Rep                2351  41  ; (* #611 RepneScasD *)
  INST kEncodingX86Rep                2364  41  ; (* #612 RepneScasQ *)
  INST kEncodingX86Rep                2377  41  ; (* #613 RepneScasW *)
  INST kEncodingX86Ret                2390  222 ; (* #614 Ret *)
  INST kEncodingX86Rot                2394  223 ; (* #615 Rol *)
  INST kEncodingX86Rot                2398  223 ; (* #616 Ror *)
  INST kEncodingVexRmi_Wx             2402  224 ; (* #617 Rorx *)
  INST kEncodingExtRmi                8762  200 ; (* #618 Roundpd *)
  INST kEncodingExtRmi                8771  200 ; (* #619 Roundps *)
  INST kEncodingExtRmi                8780  225 ; (* #620 Roundsd *)
  INST kEncodingExtRmi                8789  226 ; (* #621 Roundss *)
  INST kEncodingExtRm                 8886  53  ; (* #622 Rsqrtps *)
  INST kEncodingExtRm                 8895  216 ; (* #623 Rsqrtss *)
  INST kEncodingX86Op                 2407  227 ; (* #624 Sahf *)
  INST kEncodingX86Rot                2412  228 ; (* #625 Sal *)
  INST kEncodingX86Rot                2416  228 ; (* #626 Sar *)
  INST kEncodingVexRmv_Wx             2420  229 ; (* #627 Sarx *)
  INST kEncodingX86Arith              2425  1   ; (* #628 Sbb *)
  INST kEncodingX86Op                 2344  41  ; (* #629 ScasB *)
  INST kEncodingX86Op                 2357  41  ; (* #630 ScasD *)
  INST kEncodingX86Op                 2370  41  ; (* #631 ScasQ *)
  INST kEncodingX86Op                 2383  41  ; (* #632 ScasW *)
  INST kEncodingX86Set                2429  230 ; (* #633 Seta *)
  INST kEncodingX86Set                2434  231 ; (* #634 Setae *)
  INST kEncodingX86Set                2440  231 ; (* #635 Setb *)
  INST kEncodingX86Set                2445  230 ; (* #636 Setbe *)
  INST kEncodingX86Set                2451  231 ; (* #637 Setc *)
  INST kEncodingX86Set                2456  232 ; (* #638 Sete *)
  INST kEncodingX86Set                2461  233 ; (* #639 Setg *)
  INST kEncodingX86Set                2466  234 ; (* #640 Setge *)
  INST kEncodingX86Set                2472  234 ; (* #641 Setl *)
  INST kEncodingX86Set                2477  233 ; (* #642 Setle *)
  INST kEncodingX86Set                2483  230 ; (* #643 Setna *)
  INST kEncodingX86Set                2489  231 ; (* #644 Setnae *)
  INST kEncodingX86Set                2496  231 ; (* #645 Setnb *)
  INST kEncodingX86Set                2502  230 ; (* #646 Setnbe *)
  INST kEncodingX86Set                2509  231 ; (* #647 Setnc *)
  INST kEncodingX86Set                2515  232 ; (* #648 Setne *)
  INST kEncodingX86Set                2521  233 ; (* #649 Setng *)
  INST kEncodingX86Set                2527  234 ; (* #650 Setnge *)
  INST kEncodingX86Set                2534  234 ; (* #651 Setnl *)
  INST kEncodingX86Set                2540  233 ; (* #652 Setnle *)
  INST kEncodingX86Set                2547  235 ; (* #653 Setno *)
  INST kEncodingX86Set                2553  236 ; (* #654 Setnp *)
  INST kEncodingX86Set                2559  237 ; (* #655 Setns *)
  INST kEncodingX86Set                2565  232 ; (* #656 Setnz *)
  INST kEncodingX86Set                2571  235 ; (* #657 Seto *)
  INST kEncodingX86Set                2576  236 ; (* #658 Setp *)
  INST kEncodingX86Set                2581  236 ; (* #659 Setpe *)
  INST kEncodingX86Set                2587  236 ; (* #660 Setpo *)
  INST kEncodingX86Set                2593  237 ; (* #661 Sets *)
  INST kEncodingX86Set                2598  232 ; (* #662 Setz *)
  INST kEncodingX86Fence              2603  69  ; (* #663 Sfence *)
  INST kEncodingExtRm                 2610  4   ; (* #664 Sha1msg1 *)
  INST kEncodingExtRm                 2619  4   ; (* #665 Sha1msg2 *)
  INST kEncodingExtRm                 2628  4   ; (* #666 Sha1nexte *)
  INST kEncodingExtRmi                2638  13  ; (* #667 Sha1rnds4 *)
  INST kEncodingExtRm                 2648  4   ; (* #668 Sha256msg1 *)
  INST kEncodingExtRm                 2659  4   ; (* #669 Sha256msg2 *)
  INST kEncodingExtRmXMM0             2670  14  ; (* #670 Sha256rnds2 *)
  INST kEncodingX86Rot                2682  228 ; (* #671 Shl *)
  INST kEncodingX86ShldShrd           8046  238 ; (* #672 Shld *)
  INST kEncodingVexRmv_Wx             2686  229 ; (* #673 Shlx *)
  INST kEncodingX86Rot                2691  228 ; (* #674 Shr *)
  INST kEncodingX86ShldShrd           2695  238 ; (* #675 Shrd *)
  INST kEncodingVexRmv_Wx             2700  229 ; (* #676 Shrx *)
  INST kEncodingExtRmi                9156  13  ; (* #677 Shufpd *)
  INST kEncodingExtRmi                9164  13  ; (* #678 Shufps *)
  INST kEncodingExtRm                 9172  53  ; (* #679 Sqrtpd *)
  INST kEncodingExtRm                 8887  53  ; (* #680 Sqrtps *)
  INST kEncodingExtRm                 9188  239 ; (* #681 Sqrtsd *)
  INST kEncodingExtRm                 8896  216 ; (* #682 Sqrtss *)
  INST kEncodingX86Op                 2705  26  ; (* #683 Stac *)
  INST kEncodingX86Op                 2710  240 ; (* #684 Stc *)
  INST kEncodingX86Op                 6147  241 ; (* #685 Std *)
  INST kEncodingX86Op                 2714  242 ; (* #686 Sti *)
  INST kEncodingX86M_Only             9204  243 ; (* #687 Stmxcsr *)
  INST kEncodingX86Op                 2150  221 ; (* #688 StosB *)
  INST kEncodingX86Op                 2161  221 ; (* #689 StosD *)
  INST kEncodingX86Op                 2172  221 ; (* #690 StosQ *)
  INST kEncodingX86Op                 2183  221 ; (* #691 StosW *)
  INST kEncodingX86Arith              732   3   ; (* #692 Sub *)
  INST kEncodingExtRm                 4287  4   ; (* #693 Subpd *)
  INST kEncodingExtRm                 4299  4   ; (* #694 Subps *)
  INST kEncodingExtRm                 4975  5   ; (* #695 Subsd *)
  INST kEncodingExtRm                 4985  6   ; (* #696 Subss *)
  INST kEncodingVexVm_Wx              2718  12  ; (* #697 T1mskc *)
  INST kEncodingX86Test               8360  244 ; (* #698 Test *)
  INST kEncodingX86Rm                 2725  195 ; (* #699 Tzcnt *)
  INST kEncodingVexVm_Wx              2731  12  ; (* #700 Tzmsk *)
  INST kEncodingExtRm                 9257  47  ; (* #701 Ucomisd *)
  INST kEncodingExtRm                 9266  48  ; (* #702 Ucomiss *)
  INST kEncodingX86Op                 2737  245 ; (* #703 Ud2 *)
  INST kEncodingExtRm                 9275  4   ; (* #704 Unpckhpd *)
  INST kEncodingExtRm                 9285  4   ; (* #705 Unpckhps *)
  INST kEncodingExtRm                 9295  4   ; (* #706 Unpcklpd *)
  INST kEncodingExtRm                 9305  4   ; (* #707 Unpcklps *)
  INST kEncodingVexRvm_Lx             2741  246 ; (* #708 Vaddpd *)
  INST kEncodingVexRvm_Lx             2748  247 ; (* #709 Vaddps *)
  INST kEncodingVexRvm                2755  248 ; (* #710 Vaddsd *)
  INST kEncodingVexRvm                2762  249 ; (* #711 Vaddss *)
  INST kEncodingVexRvm_Lx             2769  250 ; (* #712 Vaddsubpd *)
  INST kEncodingVexRvm_Lx             2779  250 ; (* #713 Vaddsubps *)
  INST kEncodingVexRvm                2789  251 ; (* #714 Vaesdec *)
  INST kEncodingVexRvm                2797  251 ; (* #715 Vaesdeclast *)
  INST kEncodingVexRvm                2809  251 ; (* #716 Vaesenc *)
  INST kEncodingVexRvm                2817  251 ; (* #717 Vaesenclast *)
  INST kEncodingVexRm                 2829  252 ; (* #718 Vaesimc *)
  INST kEncodingVexRmi                2837  253 ; (* #719 Vaeskeygenassist *)
  INST kEncodingVexRvmi_Lx            2854  254 ; (* #720 Valignd *)
  INST kEncodingVexRvmi_Lx            2862  255 ; (* #721 Valignq *)
  INST kEncodingVexRvm_Lx             2870  256 ; (* #722 Vandnpd *)
  INST kEncodingVexRvm_Lx             2878  257 ; (* #723 Vandnps *)
  INST kEncodingVexRvm_Lx             2886  256 ; (* #724 Vandpd *)
  INST kEncodingVexRvm_Lx             2893  257 ; (* #725 Vandps *)
  INST kEncodingVexRvm_Lx             2900  258 ; (* #726 Vblendmb *)
  INST kEncodingVexRvm_Lx             2909  259 ; (* #727 Vblendmd *)
  INST kEncodingVexRvm_Lx             2918  260 ; (* #728 Vblendmpd *)
  INST kEncodingVexRvm_Lx             2928  259 ; (* #729 Vblendmps *)
  INST kEncodingVexRvm_Lx             2938  260 ; (* #730 Vblendmq *)
  INST kEncodingVexRvm_Lx             2947  258 ; (* #731 Vblendmw *)
  INST kEncodingVexRvmi_Lx            2956  261 ; (* #732 Vblendpd *)
  INST kEncodingVexRvmi_Lx            2965  261 ; (* #733 Vblendps *)
  INST kEncodingVexRvmr_Lx            2974  262 ; (* #734 Vblendvpd *)
  INST kEncodingVexRvmr_Lx            2984  262 ; (* #735 Vblendvps *)
  INST kEncodingVexRm                 2994  263 ; (* #736 Vbroadcastf128 *)
  INST kEncodingVexRm_Lx              3009  264 ; (* #737 Vbroadcastf32x2 *)
  INST kEncodingVexRm_Lx              3025  265 ; (* #738 Vbroadcastf32x4 *)
  INST kEncodingVexRm                 3041  266 ; (* #739 Vbroadcastf32x8 *)
  INST kEncodingVexRm_Lx              3057  267 ; (* #740 Vbroadcastf64x2 *)
  INST kEncodingVexRm                 3073  268 ; (* #741 Vbroadcastf64x4 *)
  INST kEncodingVexRm                 3089  263 ; (* #742 Vbroadcasti128 *)
  INST kEncodingVexRm_Lx              3104  269 ; (* #743 Vbroadcasti32x2 *)
  INST kEncodingVexRm_Lx              3120  270 ; (* #744 Vbroadcasti32x4 *)
  INST kEncodingVexRm                 3136  271 ; (* #745 Vbroadcasti32x8 *)
  INST kEncodingVexRm_Lx              3152  264 ; (* #746 Vbroadcasti64x2 *)
  INST kEncodingVexRm                 3168  272 ; (* #747 Vbroadcasti64x4 *)
  INST kEncodingVexRm_Lx              3184  273 ; (* #748 Vbroadcastsd *)
  INST kEncodingVexRm_Lx              3197  274 ; (* #749 Vbroadcastss *)
  INST kEncodingVexRvmi_Lx            3210  275 ; (* #750 Vcmppd *)
  INST kEncodingVexRvmi_Lx            3217  276 ; (* #751 Vcmpps *)
  INST kEncodingVexRvmi               3224  277 ; (* #752 Vcmpsd *)
  INST kEncodingVexRvmi               3231  278 ; (* #753 Vcmpss *)
  INST kEncodingVexRm                 3238  279 ; (* #754 Vcomisd *)
  INST kEncodingVexRm                 3246  280 ; (* #755 Vcomiss *)
  INST kEncodingVexMr_Lx              3254  281 ; (* #756 Vcompresspd *)
  INST kEncodingVexMr_Lx              3266  281 ; (* #757 Vcompressps *)
  INST kEncodingVexRm_Lx              3278  282 ; (* #758 Vcvtdq2pd *)
  INST kEncodingVexRm_Lx              3288  283 ; (* #759 Vcvtdq2ps *)
  INST kEncodingVexRm_Lx              3298  284 ; (* #760 Vcvtpd2dq *)
  INST kEncodingVexRm_Lx              3308  285 ; (* #761 Vcvtpd2ps *)
  INST kEncodingVexRm_Lx              3318  286 ; (* #762 Vcvtpd2qq *)
  INST kEncodingVexRm_Lx              3328  287 ; (* #763 Vcvtpd2udq *)
  INST kEncodingVexRm_Lx              3339  286 ; (* #764 Vcvtpd2uqq *)
  INST kEncodingVexRm_Lx              3350  288 ; (* #765 Vcvtph2ps *)
  INST kEncodingVexRm_Lx              3360  283 ; (* #766 Vcvtps2dq *)
  INST kEncodingVexRm_Lx              3370  289 ; (* #767 Vcvtps2pd *)
  INST kEncodingVexMri_Lx             3380  290 ; (* #768 Vcvtps2ph *)
  INST kEncodingVexRm_Lx              3390  291 ; (* #769 Vcvtps2qq *)
  INST kEncodingVexRm_Lx              3400  292 ; (* #770 Vcvtps2udq *)
  INST kEncodingVexRm_Lx              3411  291 ; (* #771 Vcvtps2uqq *)
  INST kEncodingVexRm_Lx              3422  286 ; (* #772 Vcvtqq2pd *)
  INST kEncodingVexRm_Lx              3432  293 ; (* #773 Vcvtqq2ps *)
  INST kEncodingVexRm                 3442  294 ; (* #774 Vcvtsd2si *)
  INST kEncodingVexRvm                3452  248 ; (* #775 Vcvtsd2ss *)
  INST kEncodingVexRm                 3462  295 ; (* #776 Vcvtsd2usi *)
  INST kEncodingVexRvm                3473  296 ; (* #777 Vcvtsi2sd *)
  INST kEncodingVexRvm                3483  296 ; (* #778 Vcvtsi2ss *)
  INST kEncodingVexRvm                3493  297 ; (* #779 Vcvtss2sd *)
  INST kEncodingVexRm                 3503  298 ; (* #780 Vcvtss2si *)
  INST kEncodingVexRm                 3513  299 ; (* #781 Vcvtss2usi *)
  INST kEncodingVexRm_Lx              3524  300 ; (* #782 Vcvttpd2dq *)
  INST kEncodingVexRm_Lx              3535  301 ; (* #783 Vcvttpd2qq *)
  INST kEncodingVexRm_Lx              3546  302 ; (* #784 Vcvttpd2udq *)
  INST kEncodingVexRm_Lx              3558  303 ; (* #785 Vcvttpd2uqq *)
  INST kEncodingVexRm_Lx              3570  304 ; (* #786 Vcvttps2dq *)
  INST kEncodingVexRm_Lx              3581  305 ; (* #787 Vcvttps2qq *)
  INST kEncodingVexRm_Lx              3592  306 ; (* #788 Vcvttps2udq *)
  INST kEncodingVexRm_Lx              3604  305 ; (* #789 Vcvttps2uqq *)
  INST kEncodingVexRm                 3616  307 ; (* #790 Vcvttsd2si *)
  INST kEncodingVexRm                 3627  308 ; (* #791 Vcvttsd2usi *)
  INST kEncodingVexRm                 3639  309 ; (* #792 Vcvttss2si *)
  INST kEncodingVexRm                 3650  310 ; (* #793 Vcvttss2usi *)
  INST kEncodingVexRm_Lx              3662  311 ; (* #794 Vcvtudq2pd *)
  INST kEncodingVexRm_Lx              3673  292 ; (* #795 Vcvtudq2ps *)
  INST kEncodingVexRm_Lx              3684  286 ; (* #796 Vcvtuqq2pd *)
  INST kEncodingVexRm_Lx              3695  293 ; (* #797 Vcvtuqq2ps *)
  INST kEncodingVexRvm                3706  312 ; (* #798 Vcvtusi2sd *)
  INST kEncodingVexRvm                3717  312 ; (* #799 Vcvtusi2ss *)
  INST kEncodingVexRvmi_Lx            3728  313 ; (* #800 Vdbpsadbw *)
  INST kEncodingVexRvm_Lx             3738  246 ; (* #801 Vdivpd *)
  INST kEncodingVexRvm_Lx             3745  247 ; (* #802 Vdivps *)
  INST kEncodingVexRvm                3752  248 ; (* #803 Vdivsd *)
  INST kEncodingVexRvm                3759  249 ; (* #804 Vdivss *)
  INST kEncodingVexRvmi_Lx            3766  261 ; (* #805 Vdppd *)
  INST kEncodingVexRvmi_Lx            3772  261 ; (* #806 Vdpps *)
  INST kEncodingVexRm                 3778  314 ; (* #807 Vexp2pd *)
  INST kEncodingVexRm                 3786  315 ; (* #808 Vexp2ps *)
  INST kEncodingVexRm_Lx              3794  316 ; (* #809 Vexpandpd *)
  INST kEncodingVexRm_Lx              3804  316 ; (* #810 Vexpandps *)
  INST kEncodingVexMri                3814  317 ; (* #811 Vextractf128 *)
  INST kEncodingVexMri_Lx             3827  318 ; (* #812 Vextractf32x4 *)
  INST kEncodingVexMri                3841  319 ; (* #813 Vextractf32x8 *)
  INST kEncodingVexMri_Lx             3855  320 ; (* #814 Vextractf64x2 *)
  INST kEncodingVexMri                3869  321 ; (* #815 Vextractf64x4 *)
  INST kEncodingVexMri                3883  317 ; (* #816 Vextracti128 *)
  INST kEncodingVexMri_Lx             3896  318 ; (* #817 Vextracti32x4 *)
  INST kEncodingVexMri                3910  319 ; (* #818 Vextracti32x8 *)
  INST kEncodingVexMri_Lx             3924  320 ; (* #819 Vextracti64x2 *)
  INST kEncodingVexMri                3938  321 ; (* #820 Vextracti64x4 *)
  INST kEncodingVexMri                3952  322 ; (* #821 Vextractps *)
  INST kEncodingVexRvmi_Lx            3963  323 ; (* #822 Vfixupimmpd *)
  INST kEncodingVexRvmi_Lx            3975  324 ; (* #823 Vfixupimmps *)
  INST kEncodingVexRvmi               3987  325 ; (* #824 Vfixupimmsd *)
  INST kEncodingVexRvmi               3999  326 ; (* #825 Vfixupimmss *)
  INST kEncodingVexRvm_Lx             4011  327 ; (* #826 Vfmadd132pd *)
  INST kEncodingVexRvm_Lx             4023  328 ; (* #827 Vfmadd132ps *)
  INST kEncodingVexRvm                4035  329 ; (* #828 Vfmadd132sd *)
  INST kEncodingVexRvm                4047  330 ; (* #829 Vfmadd132ss *)
  INST kEncodingVexRvm_Lx             4059  327 ; (* #830 Vfmadd213pd *)
  INST kEncodingVexRvm_Lx             4071  328 ; (* #831 Vfmadd213ps *)
  INST kEncodingVexRvm                4083  329 ; (* #832 Vfmadd213sd *)
  INST kEncodingVexRvm                4095  330 ; (* #833 Vfmadd213ss *)
  INST kEncodingVexRvm_Lx             4107  327 ; (* #834 Vfmadd231pd *)
  INST kEncodingVexRvm_Lx             4119  328 ; (* #835 Vfmadd231ps *)
  INST kEncodingVexRvm                4131  329 ; (* #836 Vfmadd231sd *)
  INST kEncodingVexRvm                4143  330 ; (* #837 Vfmadd231ss *)
  INST kEncodingFma4_Lx               4155  331 ; (* #838 Vfmaddpd *)
  INST kEncodingFma4_Lx               4164  331 ; (* #839 Vfmaddps *)
  INST kEncodingFma4                  4173  332 ; (* #840 Vfmaddsd *)
  INST kEncodingFma4                  4182  333 ; (* #841 Vfmaddss *)
  INST kEncodingVexRvm_Lx             4191  327 ; (* #842 Vfmaddsub132pd *)
  INST kEncodingVexRvm_Lx             4206  328 ; (* #843 Vfmaddsub132ps *)
  INST kEncodingVexRvm_Lx             4221  327 ; (* #844 Vfmaddsub213pd *)
  INST kEncodingVexRvm_Lx             4236  328 ; (* #845 Vfmaddsub213ps *)
  INST kEncodingVexRvm_Lx             4251  327 ; (* #846 Vfmaddsub231pd *)
  INST kEncodingVexRvm_Lx             4266  328 ; (* #847 Vfmaddsub231ps *)
  INST kEncodingFma4_Lx               4281  331 ; (* #848 Vfmaddsubpd *)
  INST kEncodingFma4_Lx               4293  331 ; (* #849 Vfmaddsubps *)
  INST kEncodingVexRvm_Lx             4305  327 ; (* #850 Vfmsub132pd *)
  INST kEncodingVexRvm_Lx             4317  328 ; (* #851 Vfmsub132ps *)
  INST kEncodingVexRvm                4329  329 ; (* #852 Vfmsub132sd *)
  INST kEncodingVexRvm                4341  330 ; (* #853 Vfmsub132ss *)
  INST kEncodingVexRvm_Lx             4353  327 ; (* #854 Vfmsub213pd *)
  INST kEncodingVexRvm_Lx             4365  328 ; (* #855 Vfmsub213ps *)
  INST kEncodingVexRvm                4377  329 ; (* #856 Vfmsub213sd *)
  INST kEncodingVexRvm                4389  330 ; (* #857 Vfmsub213ss *)
  INST kEncodingVexRvm_Lx             4401  327 ; (* #858 Vfmsub231pd *)
  INST kEncodingVexRvm_Lx             4413  328 ; (* #859 Vfmsub231ps *)
  INST kEncodingVexRvm                4425  329 ; (* #860 Vfmsub231sd *)
  INST kEncodingVexRvm                4437  330 ; (* #861 Vfmsub231ss *)
  INST kEncodingVexRvm_Lx             4449  327 ; (* #862 Vfmsubadd132pd *)
  INST kEncodingVexRvm_Lx             4464  328 ; (* #863 Vfmsubadd132ps *)
  INST kEncodingVexRvm_Lx             4479  327 ; (* #864 Vfmsubadd213pd *)
  INST kEncodingVexRvm_Lx             4494  328 ; (* #865 Vfmsubadd213ps *)
  INST kEncodingVexRvm_Lx             4509  327 ; (* #866 Vfmsubadd231pd *)
  INST kEncodingVexRvm_Lx             4524  328 ; (* #867 Vfmsubadd231ps *)
  INST kEncodingFma4_Lx               4539  331 ; (* #868 Vfmsubaddpd *)
  INST kEncodingFma4_Lx               4551  331 ; (* #869 Vfmsubaddps *)
  INST kEncodingFma4_Lx               4563  331 ; (* #870 Vfmsubpd *)
  INST kEncodingFma4_Lx               4572  331 ; (* #871 Vfmsubps *)
  INST kEncodingFma4                  4581  332 ; (* #872 Vfmsubsd *)
  INST kEncodingFma4                  4590  333 ; (* #873 Vfmsubss *)
  INST kEncodingVexRvm_Lx             4599  327 ; (* #874 Vfnmadd132pd *)
  INST kEncodingVexRvm_Lx             4612  328 ; (* #875 Vfnmadd132ps *)
  INST kEncodingVexRvm                4625  329 ; (* #876 Vfnmadd132sd *)
  INST kEncodingVexRvm                4638  330 ; (* #877 Vfnmadd132ss *)
  INST kEncodingVexRvm_Lx             4651  327 ; (* #878 Vfnmadd213pd *)
  INST kEncodingVexRvm_Lx             4664  328 ; (* #879 Vfnmadd213ps *)
  INST kEncodingVexRvm                4677  329 ; (* #880 Vfnmadd213sd *)
  INST kEncodingVexRvm                4690  330 ; (* #881 Vfnmadd213ss *)
  INST kEncodingVexRvm_Lx             4703  327 ; (* #882 Vfnmadd231pd *)
  INST kEncodingVexRvm_Lx             4716  328 ; (* #883 Vfnmadd231ps *)
  INST kEncodingVexRvm                4729  329 ; (* #884 Vfnmadd231sd *)
  INST kEncodingVexRvm                4742  330 ; (* #885 Vfnmadd231ss *)
  INST kEncodingFma4_Lx               4755  331 ; (* #886 Vfnmaddpd *)
  INST kEncodingFma4_Lx               4765  331 ; (* #887 Vfnmaddps *)
  INST kEncodingFma4                  4775  332 ; (* #888 Vfnmaddsd *)
  INST kEncodingFma4                  4785  333 ; (* #889 Vfnmaddss *)
  INST kEncodingVexRvm_Lx             4795  327 ; (* #890 Vfnmsub132pd *)
  INST kEncodingVexRvm_Lx             4808  328 ; (* #891 Vfnmsub132ps *)
  INST kEncodingVexRvm                4821  329 ; (* #892 Vfnmsub132sd *)
  INST kEncodingVexRvm                4834  330 ; (* #893 Vfnmsub132ss *)
  INST kEncodingVexRvm_Lx             4847  327 ; (* #894 Vfnmsub213pd *)
  INST kEncodingVexRvm_Lx             4860  328 ; (* #895 Vfnmsub213ps *)
  INST kEncodingVexRvm                4873  329 ; (* #896 Vfnmsub213sd *)
  INST kEncodingVexRvm                4886  330 ; (* #897 Vfnmsub213ss *)
  INST kEncodingVexRvm_Lx             4899  327 ; (* #898 Vfnmsub231pd *)
  INST kEncodingVexRvm_Lx             4912  328 ; (* #899 Vfnmsub231ps *)
  INST kEncodingVexRvm                4925  329 ; (* #900 Vfnmsub231sd *)
  INST kEncodingVexRvm                4938  330 ; (* #901 Vfnmsub231ss *)
  INST kEncodingFma4_Lx               4951  331 ; (* #902 Vfnmsubpd *)
  INST kEncodingFma4_Lx               4961  331 ; (* #903 Vfnmsubps *)
  INST kEncodingFma4                  4971  332 ; (* #904 Vfnmsubsd *)
  INST kEncodingFma4                  4981  333 ; (* #905 Vfnmsubss *)
  INST kEncodingVexRmi_Lx             4991  334 ; (* #906 Vfpclasspd *)
  INST kEncodingVexRmi_Lx             5002  335 ; (* #907 Vfpclassps *)
  INST kEncodingVexRmi_Lx             5013  336 ; (* #908 Vfpclasssd *)
  INST kEncodingVexRmi_Lx             5024  337 ; (* #909 Vfpclassss *)
  INST kEncodingVexRm_Lx              5035  338 ; (* #910 Vfrczpd *)
  INST kEncodingVexRm_Lx              5043  338 ; (* #911 Vfrczps *)
  INST kEncodingVexRm                 5051  339 ; (* #912 Vfrczsd *)
  INST kEncodingVexRm                 5059  340 ; (* #913 Vfrczss *)
  INST kEncodingVexRmvRm_VM           5067  341 ; (* #914 Vgatherdpd *)
  INST kEncodingVexRmvRm_VM           5078  342 ; (* #915 Vgatherdps *)
  INST kEncodingVexM_VM               5089  343 ; (* #916 Vgatherpf0dpd *)
  INST kEncodingVexM_VM               5103  344 ; (* #917 Vgatherpf0dps *)
  INST kEncodingVexM_VM               5117  345 ; (* #918 Vgatherpf0qpd *)
  INST kEncodingVexM_VM               5131  345 ; (* #919 Vgatherpf0qps *)
  INST kEncodingVexM_VM               5145  343 ; (* #920 Vgatherpf1dpd *)
  INST kEncodingVexM_VM               5159  344 ; (* #921 Vgatherpf1dps *)
  INST kEncodingVexM_VM               5173  345 ; (* #922 Vgatherpf1qpd *)
  INST kEncodingVexM_VM               5187  345 ; (* #923 Vgatherpf1qps *)
  INST kEncodingVexRmvRm_VM           5201  346 ; (* #924 Vgatherqpd *)
  INST kEncodingVexRmvRm_VM           5212  347 ; (* #925 Vgatherqps *)
  INST kEncodingVexRm_Lx              5223  301 ; (* #926 Vgetexppd *)
  INST kEncodingVexRm_Lx              5233  306 ; (* #927 Vgetexpps *)
  INST kEncodingVexRm                 5243  348 ; (* #928 Vgetexpsd *)
  INST kEncodingVexRm                 5253  349 ; (* #929 Vgetexpss *)
  INST kEncodingVexRmi_Lx             5263  350 ; (* #930 Vgetmantpd *)
  INST kEncodingVexRmi_Lx             5274  351 ; (* #931 Vgetmantps *)
  INST kEncodingVexRmi                5285  352 ; (* #932 Vgetmantsd *)
  INST kEncodingVexRmi                5296  353 ; (* #933 Vgetmantss *)
  INST kEncodingVexRvm_Lx             5307  250 ; (* #934 Vhaddpd *)
  INST kEncodingVexRvm_Lx             5315  250 ; (* #935 Vhaddps *)
  INST kEncodingVexRvm_Lx             5323  250 ; (* #936 Vhsubpd *)
  INST kEncodingVexRvm_Lx             5331  250 ; (* #937 Vhsubps *)
  INST kEncodingVexRvmi               5339  354 ; (* #938 Vinsertf128 *)
  INST kEncodingVexRvmi_Lx            5351  355 ; (* #939 Vinsertf32x4 *)
  INST kEncodingVexRvmi               5364  356 ; (* #940 Vinsertf32x8 *)
  INST kEncodingVexRvmi_Lx            5377  357 ; (* #941 Vinsertf64x2 *)
  INST kEncodingVexRvmi               5390  358 ; (* #942 Vinsertf64x4 *)
  INST kEncodingVexRvmi               5403  354 ; (* #943 Vinserti128 *)
  INST kEncodingVexRvmi_Lx            5415  355 ; (* #944 Vinserti32x4 *)
  INST kEncodingVexRvmi               5428  356 ; (* #945 Vinserti32x8 *)
  INST kEncodingVexRvmi_Lx            5441  357 ; (* #946 Vinserti64x2 *)
  INST kEncodingVexRvmi               5454  358 ; (* #947 Vinserti64x4 *)
  INST kEncodingVexRvmi               5467  359 ; (* #948 Vinsertps *)
  INST kEncodingVexRm_Lx              5477  360 ; (* #949 Vlddqu *)
  INST kEncodingVexM                  5484  361 ; (* #950 Vldmxcsr *)
  INST kEncodingVexRmZDI              5493  362 ; (* #951 Vmaskmovdqu *)
  INST kEncodingVexRvmMvr_Lx          5505  363 ; (* #952 Vmaskmovpd *)
  INST kEncodingVexRvmMvr_Lx          5516  364 ; (* #953 Vmaskmovps *)
  INST kEncodingVexRvm_Lx             5527  365 ; (* #954 Vmaxpd *)
  INST kEncodingVexRvm_Lx             5534  366 ; (* #955 Vmaxps *)
  INST kEncodingVexRvm                5541  367 ; (* #956 Vmaxsd *)
  INST kEncodingVexRvm                5548  368 ; (* #957 Vmaxss *)
  INST kEncodingVexRvm_Lx             5555  365 ; (* #958 Vminpd *)
  INST kEncodingVexRvm_Lx             5562  366 ; (* #959 Vminps *)
  INST kEncodingVexRvm                5569  367 ; (* #960 Vminsd *)
  INST kEncodingVexRvm                5576  368 ; (* #961 Vminss *)
  INST kEncodingVexRmMr_Lx            5583  369 ; (* #962 Vmovapd *)
  INST kEncodingVexRmMr_Lx            5591  370 ; (* #963 Vmovaps *)
  INST kEncodingVexMovDQ              5599  371 ; (* #964 Vmovd *)
  INST kEncodingVexRm_Lx              5605  372 ; (* #965 Vmovddup *)
  INST kEncodingVexRmMr_Lx            5614  373 ; (* #966 Vmovdqa *)
  INST kEncodingVexRmMr_Lx            5622  374 ; (* #967 Vmovdqa32 *)
  INST kEncodingVexRmMr_Lx            5632  375 ; (* #968 Vmovdqa64 *)
  INST kEncodingVexRmMr_Lx            5642  376 ; (* #969 Vmovdqu *)
  INST kEncodingVexRmMr_Lx            5650  377 ; (* #970 Vmovdqu16 *)
  INST kEncodingVexRmMr_Lx            5660  378 ; (* #971 Vmovdqu32 *)
  INST kEncodingVexRmMr_Lx            5670  379 ; (* #972 Vmovdqu64 *)
  INST kEncodingVexRmMr_Lx            5680  380 ; (* #973 Vmovdqu8 *)
  INST kEncodingVexRvm                5689  381 ; (* #974 Vmovhlps *)
  INST kEncodingVexRvmMr              5698  382 ; (* #975 Vmovhpd *)
  INST kEncodingVexRvmMr              5706  383 ; (* #976 Vmovhps *)
  INST kEncodingVexRvm                5714  381 ; (* #977 Vmovlhps *)
  INST kEncodingVexRvmMr              5723  384 ; (* #978 Vmovlpd *)
  INST kEncodingVexRvmMr              5731  385 ; (* #979 Vmovlps *)
  INST kEncodingVexRm_Lx              5739  386 ; (* #980 Vmovmskpd *)
  INST kEncodingVexRm_Lx              5749  386 ; (* #981 Vmovmskps *)
  INST kEncodingVexMr_Lx              5759  387 ; (* #982 Vmovntdq *)
  INST kEncodingVexRm_Lx              5768  388 ; (* #983 Vmovntdqa *)
  INST kEncodingVexMr_Lx              5778  387 ; (* #984 Vmovntpd *)
  INST kEncodingVexMr_Lx              5787  387 ; (* #985 Vmovntps *)
  INST kEncodingVexMovDQ              5796  389 ; (* #986 Vmovq *)
  INST kEncodingVexMovSsSd            5802  390 ; (* #987 Vmovsd *)
  INST kEncodingVexRm_Lx              5809  391 ; (* #988 Vmovshdup *)
  INST kEncodingVexRm_Lx              5819  391 ; (* #989 Vmovsldup *)
  INST kEncodingVexMovSsSd            5829  392 ; (* #990 Vmovss *)
  INST kEncodingVexRmMr_Lx            5836  393 ; (* #991 Vmovupd *)
  INST kEncodingVexRmMr_Lx            5844  394 ; (* #992 Vmovups *)
  INST kEncodingVexRvmi_Lx            5852  261 ; (* #993 Vmpsadbw *)
  INST kEncodingVexRvm_Lx             5861  246 ; (* #994 Vmulpd *)
  INST kEncodingVexRvm_Lx             5868  247 ; (* #995 Vmulps *)
  INST kEncodingVexRvm_Lx             5875  248 ; (* #996 Vmulsd *)
  INST kEncodingVexRvm_Lx             5882  249 ; (* #997 Vmulss *)
  INST kEncodingVexRvm_Lx             5889  256 ; (* #998 Vorpd *)
  INST kEncodingVexRvm_Lx             5895  395 ; (* #999 Vorps *)
  INST kEncodingVexRm_Lx              5901  396 ; (* #1000 Vpabsb *)
  INST kEncodingVexRm_Lx              5908  391 ; (* #1001 Vpabsd *)
  INST kEncodingVexRm_Lx              5915  316 ; (* #1002 Vpabsq *)
  INST kEncodingVexRm_Lx              5922  396 ; (* #1003 Vpabsw *)
  INST kEncodingVexRvm_Lx             5929  397 ; (* #1004 Vpackssdw *)
  INST kEncodingVexRvm_Lx             5939  398 ; (* #1005 Vpacksswb *)
  INST kEncodingVexRvm_Lx             5949  397 ; (* #1006 Vpackusdw *)
  INST kEncodingVexRvm_Lx             5959  398 ; (* #1007 Vpackuswb *)
  INST kEncodingVexRvm_Lx             5969  398 ; (* #1008 Vpaddb *)
  INST kEncodingVexRvm_Lx             5976  395 ; (* #1009 Vpaddd *)
  INST kEncodingVexRvm_Lx             5983  399 ; (* #1010 Vpaddq *)
  INST kEncodingVexRvm_Lx             5990  398 ; (* #1011 Vpaddsb *)
  INST kEncodingVexRvm_Lx             5998  398 ; (* #1012 Vpaddsw *)
  INST kEncodingVexRvm_Lx             6006  398 ; (* #1013 Vpaddusb *)
  INST kEncodingVexRvm_Lx             6015  398 ; (* #1014 Vpaddusw *)
  INST kEncodingVexRvm_Lx             6024  398 ; (* #1015 Vpaddw *)
  INST kEncodingVexRvmi_Lx            6031  400 ; (* #1016 Vpalignr *)
  INST kEncodingVexRvm_Lx             6040  250 ; (* #1017 Vpand *)
  INST kEncodingVexRvm_Lx             6046  259 ; (* #1018 Vpandd *)
  INST kEncodingVexRvm_Lx             6053  250 ; (* #1019 Vpandn *)
  INST kEncodingVexRvm_Lx             6060  259 ; (* #1020 Vpandnd *)
  INST kEncodingVexRvm_Lx             6068  260 ; (* #1021 Vpandnq *)
  INST kEncodingVexRvm_Lx             6076  260 ; (* #1022 Vpandq *)
  INST kEncodingVexRvm_Lx             6083  398 ; (* #1023 Vpavgb *)
  INST kEncodingVexRvm_Lx             6090  398 ; (* #1024 Vpavgw *)
  INST kEncodingVexRvmi_Lx            6097  261 ; (* #1025 Vpblendd *)
  INST kEncodingVexRvmr               6106  262 ; (* #1026 Vpblendvb *)
  INST kEncodingVexRvmi_Lx            6116  261 ; (* #1027 Vpblendw *)
  INST kEncodingVexRm_Lx              6125  401 ; (* #1028 Vpbroadcastb *)
  INST kEncodingVexRm_Lx              6138  402 ; (* #1029 Vpbroadcastd *)
  INST kEncodingVexRm_Lx              6151  403 ; (* #1030 Vpbroadcastmb2d *)
  INST kEncodingVexRm_Lx              6167  403 ; (* #1031 Vpbroadcastmb2q *)
  INST kEncodingVexRm_Lx              6183  404 ; (* #1032 Vpbroadcastq *)
  INST kEncodingVexRm_Lx              6196  405 ; (* #1033 Vpbroadcastw *)
  INST kEncodingVexRvmi               6209  406 ; (* #1034 Vpclmulqdq *)
  INST kEncodingVexRvrmRvmr_Lx        6220  331 ; (* #1035 Vpcmov *)
  INST kEncodingVexRvm_Lx             6227  407 ; (* #1036 Vpcmpb *)
  INST kEncodingVexRvm_Lx             6234  408 ; (* #1037 Vpcmpd *)
  INST kEncodingVexRvm_Lx             6241  409 ; (* #1038 Vpcmpeqb *)
  INST kEncodingVexRvm_Lx             6250  410 ; (* #1039 Vpcmpeqd *)
  INST kEncodingVexRvm_Lx             6259  411 ; (* #1040 Vpcmpeqq *)
  INST kEncodingVexRvm_Lx             6268  409 ; (* #1041 Vpcmpeqw *)
  INST kEncodingVexRmi                6277  412 ; (* #1042 Vpcmpestri *)
  INST kEncodingVexRmi                6288  413 ; (* #1043 Vpcmpestrm *)
  INST kEncodingVexRvm_Lx             6299  409 ; (* #1044 Vpcmpgtb *)
  INST kEncodingVexRvm_Lx             6308  410 ; (* #1045 Vpcmpgtd *)
  INST kEncodingVexRvm_Lx             6317  411 ; (* #1046 Vpcmpgtq *)
  INST kEncodingVexRvm_Lx             6326  409 ; (* #1047 Vpcmpgtw *)
  INST kEncodingVexRmi                6335  414 ; (* #1048 Vpcmpistri *)
  INST kEncodingVexRmi                6346  415 ; (* #1049 Vpcmpistrm *)
  INST kEncodingVexRvm_Lx             6357  416 ; (* #1050 Vpcmpq *)
  INST kEncodingVexRvm_Lx             6364  407 ; (* #1051 Vpcmpub *)
  INST kEncodingVexRvm_Lx             6372  408 ; (* #1052 Vpcmpud *)
  INST kEncodingVexRvm_Lx             6380  416 ; (* #1053 Vpcmpuq *)
  INST kEncodingVexRvm_Lx             6388  417 ; (* #1054 Vpcmpuw *)
  INST kEncodingVexRvm_Lx             6396  417 ; (* #1055 Vpcmpw *)
  INST kEncodingVexRvmi               6403  406 ; (* #1056 Vpcomb *)
  INST kEncodingVexRvmi               6410  406 ; (* #1057 Vpcomd *)
  INST kEncodingVexMr_Lx              6417  281 ; (* #1058 Vpcompressd *)
  INST kEncodingVexMr_Lx              6429  281 ; (* #1059 Vpcompressq *)
  INST kEncodingVexRvmi               6441  406 ; (* #1060 Vpcomq *)
  INST kEncodingVexRvmi               6448  406 ; (* #1061 Vpcomub *)
  INST kEncodingVexRvmi               6456  406 ; (* #1062 Vpcomud *)
  INST kEncodingVexRvmi               6464  406 ; (* #1063 Vpcomuq *)
  INST kEncodingVexRvmi               6472  406 ; (* #1064 Vpcomuw *)
  INST kEncodingVexRvmi               6480  406 ; (* #1065 Vpcomw *)
  INST kEncodingVexRm_Lx              6487  418 ; (* #1066 Vpconflictd *)
  INST kEncodingVexRm_Lx              6499  418 ; (* #1067 Vpconflictq *)
  INST kEncodingVexRvmi               6511  419 ; (* #1068 Vperm2f128 *)
  INST kEncodingVexRvmi               6522  419 ; (* #1069 Vperm2i128 *)
  INST kEncodingVexRvm_Lx             6533  420 ; (* #1070 Vpermb *)
  INST kEncodingVexRvm_Lx             6540  421 ; (* #1071 Vpermd *)
  INST kEncodingVexRvm_Lx             6547  420 ; (* #1072 Vpermi2b *)
  INST kEncodingVexRvm_Lx             6556  422 ; (* #1073 Vpermi2d *)
  INST kEncodingVexRvm_Lx             6565  260 ; (* #1074 Vpermi2pd *)
  INST kEncodingVexRvm_Lx             6575  259 ; (* #1075 Vpermi2ps *)
  INST kEncodingVexRvm_Lx             6585  423 ; (* #1076 Vpermi2q *)
  INST kEncodingVexRvm_Lx             6594  424 ; (* #1077 Vpermi2w *)
  INST kEncodingVexRvrmiRvmri_Lx      6603  425 ; (* #1078 Vpermil2pd *)
  INST kEncodingVexRvrmiRvmri_Lx      6614  425 ; (* #1079 Vpermil2ps *)
  INST kEncodingVexRvmRmi_Lx          6625  426 ; (* #1080 Vpermilpd *)
  INST kEncodingVexRvmRmi_Lx          6635  427 ; (* #1081 Vpermilps *)
  INST kEncodingVexRmi                6645  428 ; (* #1082 Vpermpd *)
  INST kEncodingVexRvm                6653  429 ; (* #1083 Vpermps *)
  INST kEncodingVexRvmRmi_Lx          6661  430 ; (* #1084 Vpermq *)
  INST kEncodingVexRvm_Lx             6668  420 ; (* #1085 Vpermt2b *)
  INST kEncodingVexRvm_Lx             6677  422 ; (* #1086 Vpermt2d *)
  INST kEncodingVexRvm_Lx             6686  423 ; (* #1087 Vpermt2pd *)
  INST kEncodingVexRvm_Lx             6696  422 ; (* #1088 Vpermt2ps *)
  INST kEncodingVexRvm_Lx             6706  423 ; (* #1089 Vpermt2q *)
  INST kEncodingVexRvm_Lx             6715  424 ; (* #1090 Vpermt2w *)
  INST kEncodingVexRvm_Lx             6724  258 ; (* #1091 Vpermw *)
  INST kEncodingVexRm_Lx              6731  316 ; (* #1092 Vpexpandd *)
  INST kEncodingVexRm_Lx              6741  316 ; (* #1093 Vpexpandq *)
  INST kEncodingVexMri                6751  431 ; (* #1094 Vpextrb *)
  INST kEncodingVexMri                6759  432 ; (* #1095 Vpextrd *)
  INST kEncodingVexMri                6767  433 ; (* #1096 Vpextrq *)
  INST kEncodingVexMri                6775  434 ; (* #1097 Vpextrw *)
  INST kEncodingVexRmvRm_VM           6783  435 ; (* #1098 Vpgatherdd *)
  INST kEncodingVexRmvRm_VM           6794  436 ; (* #1099 Vpgatherdq *)
  INST kEncodingVexRmvRm_VM           6805  437 ; (* #1100 Vpgatherqd *)
  INST kEncodingVexRmvRm_VM           6816  438 ; (* #1101 Vpgatherqq *)
  INST kEncodingVexRm                 6827  252 ; (* #1102 Vphaddbd *)
  INST kEncodingVexRm                 6836  252 ; (* #1103 Vphaddbq *)
  INST kEncodingVexRm                 6845  252 ; (* #1104 Vphaddbw *)
  INST kEncodingVexRvm_Lx             6854  250 ; (* #1105 Vphaddd *)
  INST kEncodingVexRm                 6862  252 ; (* #1106 Vphadddq *)
  INST kEncodingVexRvm_Lx             6871  250 ; (* #1107 Vphaddsw *)
  INST kEncodingVexRm                 6880  252 ; (* #1108 Vphaddubd *)
  INST kEncodingVexRm                 6890  252 ; (* #1109 Vphaddubq *)
  INST kEncodingVexRm                 6900  252 ; (* #1110 Vphaddubw *)
  INST kEncodingVexRm                 6910  252 ; (* #1111 Vphaddudq *)
  INST kEncodingVexRm                 6920  252 ; (* #1112 Vphadduwd *)
  INST kEncodingVexRm                 6930  252 ; (* #1113 Vphadduwq *)
  INST kEncodingVexRvm_Lx             6940  250 ; (* #1114 Vphaddw *)
  INST kEncodingVexRm                 6948  252 ; (* #1115 Vphaddwd *)
  INST kEncodingVexRm                 6957  252 ; (* #1116 Vphaddwq *)
  INST kEncodingVexRm                 6966  252 ; (* #1117 Vphminposuw *)
  INST kEncodingVexRm                 6978  252 ; (* #1118 Vphsubbw *)
  INST kEncodingVexRvm_Lx             6987  250 ; (* #1119 Vphsubd *)
  INST kEncodingVexRm                 6995  252 ; (* #1120 Vphsubdq *)
  INST kEncodingVexRvm_Lx             7004  250 ; (* #1121 Vphsubsw *)
  INST kEncodingVexRvm_Lx             7013  250 ; (* #1122 Vphsubw *)
  INST kEncodingVexRm                 7021  252 ; (* #1123 Vphsubwd *)
  INST kEncodingVexRvmi               7030  439 ; (* #1124 Vpinsrb *)
  INST kEncodingVexRvmi               7038  440 ; (* #1125 Vpinsrd *)
  INST kEncodingVexRvmi               7046  441 ; (* #1126 Vpinsrq *)
  INST kEncodingVexRvmi               7054  442 ; (* #1127 Vpinsrw *)
  INST kEncodingVexRm_Lx              7062  418 ; (* #1128 Vplzcntd *)
  INST kEncodingVexRm_Lx              7071  443 ; (* #1129 Vplzcntq *)
  INST kEncodingVexRvmr               7080  444 ; (* #1130 Vpmacsdd *)
  INST kEncodingVexRvmr               7089  444 ; (* #1131 Vpmacsdqh *)
  INST kEncodingVexRvmr               7099  444 ; (* #1132 Vpmacsdql *)
  INST kEncodingVexRvmr               7109  444 ; (* #1133 Vpmacssdd *)
  INST kEncodingVexRvmr               7119  444 ; (* #1134 Vpmacssdqh *)
  INST kEncodingVexRvmr               7130  444 ; (* #1135 Vpmacssdql *)
  INST kEncodingVexRvmr               7141  444 ; (* #1136 Vpmacsswd *)
  INST kEncodingVexRvmr               7151  444 ; (* #1137 Vpmacssww *)
  INST kEncodingVexRvmr               7161  444 ; (* #1138 Vpmacswd *)
  INST kEncodingVexRvmr               7170  444 ; (* #1139 Vpmacsww *)
  INST kEncodingVexRvmr               7179  444 ; (* #1140 Vpmadcsswd *)
  INST kEncodingVexRvmr               7190  444 ; (* #1141 Vpmadcswd *)
  INST kEncodingVexRvm_Lx             7200  445 ; (* #1142 Vpmadd52huq *)
  INST kEncodingVexRvm_Lx             7212  445 ; (* #1143 Vpmadd52luq *)
  INST kEncodingVexRvm_Lx             7224  398 ; (* #1144 Vpmaddubsw *)
  INST kEncodingVexRvm_Lx             7235  398 ; (* #1145 Vpmaddwd *)
  INST kEncodingVexRvmMvr_Lx          7244  446 ; (* #1146 Vpmaskmovd *)
  INST kEncodingVexRvmMvr_Lx          7255  447 ; (* #1147 Vpmaskmovq *)
  INST kEncodingVexRvm_Lx             7266  398 ; (* #1148 Vpmaxsb *)
  INST kEncodingVexRvm_Lx             7274  395 ; (* #1149 Vpmaxsd *)
  INST kEncodingVexRvm_Lx             7282  260 ; (* #1150 Vpmaxsq *)
  INST kEncodingVexRvm_Lx             7290  398 ; (* #1151 Vpmaxsw *)
  INST kEncodingVexRvm_Lx             7298  398 ; (* #1152 Vpmaxub *)
  INST kEncodingVexRvm_Lx             7306  395 ; (* #1153 Vpmaxud *)
  INST kEncodingVexRvm_Lx             7314  260 ; (* #1154 Vpmaxuq *)
  INST kEncodingVexRvm_Lx             7322  398 ; (* #1155 Vpmaxuw *)
  INST kEncodingVexRvm_Lx             7330  398 ; (* #1156 Vpminsb *)
  INST kEncodingVexRvm_Lx             7338  395 ; (* #1157 Vpminsd *)
  INST kEncodingVexRvm_Lx             7346  260 ; (* #1158 Vpminsq *)
  INST kEncodingVexRvm_Lx             7354  398 ; (* #1159 Vpminsw *)
  INST kEncodingVexRvm_Lx             7362  398 ; (* #1160 Vpminub *)
  INST kEncodingVexRvm_Lx             7370  395 ; (* #1161 Vpminud *)
  INST kEncodingVexRvm_Lx             7378  260 ; (* #1162 Vpminuq *)
  INST kEncodingVexRvm_Lx             7386  398 ; (* #1163 Vpminuw *)
  INST kEncodingVexRm_Lx              7394  448 ; (* #1164 Vpmovb2m *)
  INST kEncodingVexRm_Lx              7403  449 ; (* #1165 Vpmovd2m *)
  INST kEncodingVexMr_Lx              7412  450 ; (* #1166 Vpmovdb *)
  INST kEncodingVexMr_Lx              7420  451 ; (* #1167 Vpmovdw *)
  INST kEncodingVexRm_Lx              7428  452 ; (* #1168 Vpmovm2b *)
  INST kEncodingVexRm_Lx              7437  453 ; (* #1169 Vpmovm2d *)
  INST kEncodingVexRm_Lx              7446  453 ; (* #1170 Vpmovm2q *)
  INST kEncodingVexRm_Lx              7455  452 ; (* #1171 Vpmovm2w *)
  INST kEncodingVexRm_Lx              7464  386 ; (* #1172 Vpmovmskb *)
  INST kEncodingVexRm_Lx              7474  449 ; (* #1173 Vpmovq2m *)
  INST kEncodingVexMr_Lx              7483  454 ; (* #1174 Vpmovqb *)
  INST kEncodingVexMr_Lx              7491  451 ; (* #1175 Vpmovqd *)
  INST kEncodingVexMr_Lx              7499  450 ; (* #1176 Vpmovqw *)
  INST kEncodingVexMr_Lx              7507  450 ; (* #1177 Vpmovsdb *)
  INST kEncodingVexMr_Lx              7516  451 ; (* #1178 Vpmovsdw *)
  INST kEncodingVexMr_Lx              7525  454 ; (* #1179 Vpmovsqb *)
  INST kEncodingVexMr_Lx              7534  451 ; (* #1180 Vpmovsqd *)
  INST kEncodingVexMr_Lx              7543  450 ; (* #1181 Vpmovsqw *)
  INST kEncodingVexMr_Lx              7552  455 ; (* #1182 Vpmovswb *)
  INST kEncodingVexRm_Lx              7561  456 ; (* #1183 Vpmovsxbd *)
  INST kEncodingVexRm_Lx              7571  457 ; (* #1184 Vpmovsxbq *)
  INST kEncodingVexRm_Lx              7581  458 ; (* #1185 Vpmovsxbw *)
  INST kEncodingVexRm_Lx              7591  459 ; (* #1186 Vpmovsxdq *)
  INST kEncodingVexRm_Lx              7601  460 ; (* #1187 Vpmovsxwd *)
  INST kEncodingVexRm_Lx              7611  456 ; (* #1188 Vpmovsxwq *)
  INST kEncodingVexMr_Lx              7621  450 ; (* #1189 Vpmovusdb *)
  INST kEncodingVexMr_Lx              7631  451 ; (* #1190 Vpmovusdw *)
  INST kEncodingVexMr_Lx              7641  454 ; (* #1191 Vpmovusqb *)
  INST kEncodingVexMr_Lx              7651  451 ; (* #1192 Vpmovusqd *)
  INST kEncodingVexMr_Lx              7661  450 ; (* #1193 Vpmovusqw *)
  INST kEncodingVexMr_Lx              7671  455 ; (* #1194 Vpmovuswb *)
  INST kEncodingVexRm_Lx              7681  448 ; (* #1195 Vpmovw2m *)
  INST kEncodingVexMr_Lx              7690  455 ; (* #1196 Vpmovwb *)
  INST kEncodingVexRm_Lx              7698  456 ; (* #1197 Vpmovzxbd *)
  INST kEncodingVexRm_Lx              7708  457 ; (* #1198 Vpmovzxbq *)
  INST kEncodingVexRm_Lx              7718  458 ; (* #1199 Vpmovzxbw *)
  INST kEncodingVexRm_Lx              7728  459 ; (* #1200 Vpmovzxdq *)
  INST kEncodingVexRm_Lx              7738  460 ; (* #1201 Vpmovzxwd *)
  INST kEncodingVexRm_Lx              7748  456 ; (* #1202 Vpmovzxwq *)
  INST kEncodingVexRvm_Lx             7758  399 ; (* #1203 Vpmuldq *)
  INST kEncodingVexRvm_Lx             7766  398 ; (* #1204 Vpmulhrsw *)
  INST kEncodingVexRvm_Lx             7776  398 ; (* #1205 Vpmulhuw *)
  INST kEncodingVexRvm_Lx             7785  398 ; (* #1206 Vpmulhw *)
  INST kEncodingVexRvm_Lx             7793  395 ; (* #1207 Vpmulld *)
  INST kEncodingVexRvm_Lx             7801  461 ; (* #1208 Vpmullq *)
  INST kEncodingVexRvm_Lx             7809  398 ; (* #1209 Vpmullw *)
  INST kEncodingVexRvm_Lx             7817  462 ; (* #1210 Vpmultishiftqb *)
  INST kEncodingVexRvm_Lx             7832  399 ; (* #1211 Vpmuludq *)
  INST kEncodingVexRvm_Lx             7841  250 ; (* #1212 Vpor *)
  INST kEncodingVexRvm_Lx             7846  259 ; (* #1213 Vpord *)
  INST kEncodingVexRvm_Lx             7852  260 ; (* #1214 Vporq *)
  INST kEncodingVexRvrmRvmr           7858  463 ; (* #1215 Vpperm *)
  INST kEncodingVexVmi_Lx             7865  464 ; (* #1216 Vprold *)
  INST kEncodingVexVmi_Lx             7872  465 ; (* #1217 Vprolq *)
  INST kEncodingVexRvm_Lx             7879  259 ; (* #1218 Vprolvd *)
  INST kEncodingVexRvm_Lx             7887  260 ; (* #1219 Vprolvq *)
  INST kEncodingVexVmi_Lx             7895  464 ; (* #1220 Vprord *)
  INST kEncodingVexVmi_Lx             7902  465 ; (* #1221 Vprorq *)
  INST kEncodingVexRvm_Lx             7909  259 ; (* #1222 Vprorvd *)
  INST kEncodingVexRvm_Lx             7917  260 ; (* #1223 Vprorvq *)
  INST kEncodingVexRvmRmvRmi          7925  466 ; (* #1224 Vprotb *)
  INST kEncodingVexRvmRmvRmi          7932  467 ; (* #1225 Vprotd *)
  INST kEncodingVexRvmRmvRmi          7939  468 ; (* #1226 Vprotq *)
  INST kEncodingVexRvmRmvRmi          7946  469 ; (* #1227 Vprotw *)
  INST kEncodingVexRvm_Lx             7953  470 ; (* #1228 Vpsadbw *)
  INST kEncodingVexMr_VM              7961  471 ; (* #1229 Vpscatterdd *)
  INST kEncodingVexMr_VM              7973  471 ; (* #1230 Vpscatterdq *)
  INST kEncodingVexMr_VM              7985  472 ; (* #1231 Vpscatterqd *)
  INST kEncodingVexMr_VM              7997  473 ; (* #1232 Vpscatterqq *)
  INST kEncodingVexRvmRmv             8009  474 ; (* #1233 Vpshab *)
  INST kEncodingVexRvmRmv             8016  474 ; (* #1234 Vpshad *)
  INST kEncodingVexRvmRmv             8023  474 ; (* #1235 Vpshaq *)
  INST kEncodingVexRvmRmv             8030  474 ; (* #1236 Vpshaw *)
  INST kEncodingVexRvmRmv             8037  474 ; (* #1237 Vpshlb *)
  INST kEncodingVexRvmRmv             8044  474 ; (* #1238 Vpshld *)
  INST kEncodingVexRvmRmv             8051  474 ; (* #1239 Vpshlq *)
  INST kEncodingVexRvmRmv             8058  474 ; (* #1240 Vpshlw *)
  INST kEncodingVexRvm_Lx             8065  398 ; (* #1241 Vpshufb *)
  INST kEncodingVexRmi_Lx             8073  475 ; (* #1242 Vpshufd *)
  INST kEncodingVexRmi_Lx             8081  476 ; (* #1243 Vpshufhw *)
  INST kEncodingVexRmi_Lx             8090  476 ; (* #1244 Vpshuflw *)
  INST kEncodingVexRvm_Lx             8099  250 ; (* #1245 Vpsignb *)
  INST kEncodingVexRvm_Lx             8107  250 ; (* #1246 Vpsignd *)
  INST kEncodingVexRvm_Lx             8115  250 ; (* #1247 Vpsignw *)
  INST kEncodingVexRvmVmi_Lx          8123  477 ; (* #1248 Vpslld *)
  INST kEncodingVexEvexVmi_Lx         8130  478 ; (* #1249 Vpslldq *)
  INST kEncodingVexRvmVmi_Lx          8138  479 ; (* #1250 Vpsllq *)
  INST kEncodingVexRvm_Lx             8145  395 ; (* #1251 Vpsllvd *)
  INST kEncodingVexRvm_Lx             8153  399 ; (* #1252 Vpsllvq *)
  INST kEncodingVexRvm_Lx             8161  258 ; (* #1253 Vpsllvw *)
  INST kEncodingVexRvmVmi_Lx          8169  480 ; (* #1254 Vpsllw *)
  INST kEncodingVexRvmVmi_Lx          8176  481 ; (* #1255 Vpsrad *)
  INST kEncodingVexRvmVmi_Lx          8183  482 ; (* #1256 Vpsraq *)
  INST kEncodingVexRvm_Lx             8190  395 ; (* #1257 Vpsravd *)
  INST kEncodingVexRvm_Lx             8198  260 ; (* #1258 Vpsravq *)
  INST kEncodingVexRvm_Lx             8206  258 ; (* #1259 Vpsravw *)
  INST kEncodingVexRvmVmi_Lx          8214  483 ; (* #1260 Vpsraw *)
  INST kEncodingVexRvmVmi_Lx          8221  484 ; (* #1261 Vpsrld *)
  INST kEncodingVexEvexVmi_Lx         8228  478 ; (* #1262 Vpsrldq *)
  INST kEncodingVexRvmVmi_Lx          8236  485 ; (* #1263 Vpsrlq *)
  INST kEncodingVexRvm_Lx             8243  395 ; (* #1264 Vpsrlvd *)
  INST kEncodingVexRvm_Lx             8251  399 ; (* #1265 Vpsrlvq *)
  INST kEncodingVexRvm_Lx             8259  258 ; (* #1266 Vpsrlvw *)
  INST kEncodingVexRvmVmi_Lx          8267  486 ; (* #1267 Vpsrlw *)
  INST kEncodingVexRvm_Lx             8274  398 ; (* #1268 Vpsubb *)
  INST kEncodingVexRvm_Lx             8281  395 ; (* #1269 Vpsubd *)
  INST kEncodingVexRvm_Lx             8288  399 ; (* #1270 Vpsubq *)
  INST kEncodingVexRvm_Lx             8295  398 ; (* #1271 Vpsubsb *)
  INST kEncodingVexRvm_Lx             8303  398 ; (* #1272 Vpsubsw *)
  INST kEncodingVexRvm_Lx             8311  398 ; (* #1273 Vpsubusb *)
  INST kEncodingVexRvm_Lx             8320  398 ; (* #1274 Vpsubusw *)
  INST kEncodingVexRvm_Lx             8329  398 ; (* #1275 Vpsubw *)
  INST kEncodingVexRvmi_Lx            8336  487 ; (* #1276 Vpternlogd *)
  INST kEncodingVexRvmi_Lx            8347  488 ; (* #1277 Vpternlogq *)
  INST kEncodingVexRm_Lx              8358  489 ; (* #1278 Vptest *)
  INST kEncodingVexRvm_Lx             8365  490 ; (* #1279 Vptestmb *)
  INST kEncodingVexRvm_Lx             8374  491 ; (* #1280 Vptestmd *)
  INST kEncodingVexRvm_Lx             8383  492 ; (* #1281 Vptestmq *)
  INST kEncodingVexRvm_Lx             8392  490 ; (* #1282 Vptestmw *)
  INST kEncodingVexRvm_Lx             8401  490 ; (* #1283 Vptestnmb *)
  INST kEncodingVexRvm_Lx             8411  491 ; (* #1284 Vptestnmd *)
  INST kEncodingVexRvm_Lx             8421  492 ; (* #1285 Vptestnmq *)
  INST kEncodingVexRvm_Lx             8431  490 ; (* #1286 Vptestnmw *)
  INST kEncodingVexRvm_Lx             8441  398 ; (* #1287 Vpunpckhbw *)
  INST kEncodingVexRvm_Lx             8452  395 ; (* #1288 Vpunpckhdq *)
  INST kEncodingVexRvm_Lx             8463  399 ; (* #1289 Vpunpckhqdq *)
  INST kEncodingVexRvm_Lx             8475  398 ; (* #1290 Vpunpckhwd *)
  INST kEncodingVexRvm_Lx             8486  398 ; (* #1291 Vpunpcklbw *)
  INST kEncodingVexRvm_Lx             8497  395 ; (* #1292 Vpunpckldq *)
  INST kEncodingVexRvm_Lx             8508  399 ; (* #1293 Vpunpcklqdq *)
  INST kEncodingVexRvm_Lx             8520  398 ; (* #1294 Vpunpcklwd *)
  INST kEncodingVexRvm_Lx             8531  250 ; (* #1295 Vpxor *)
  INST kEncodingVexRvm_Lx             8537  259 ; (* #1296 Vpxord *)
  INST kEncodingVexRvm_Lx             8544  260 ; (* #1297 Vpxorq *)
  INST kEncodingVexRvmi_Lx            8551  493 ; (* #1298 Vrangepd *)
  INST kEncodingVexRvmi_Lx            8560  494 ; (* #1299 Vrangeps *)
  INST kEncodingVexRvmi               8569  495 ; (* #1300 Vrangesd *)
  INST kEncodingVexRvmi               8578  496 ; (* #1301 Vrangess *)
  INST kEncodingVexRm_Lx              8587  497 ; (* #1302 Vrcp14pd *)
  INST kEncodingVexRm_Lx              8596  498 ; (* #1303 Vrcp14ps *)
  INST kEncodingVexRvm                8605  499 ; (* #1304 Vrcp14sd *)
  INST kEncodingVexRvm                8614  500 ; (* #1305 Vrcp14ss *)
  INST kEncodingVexRm                 8623  314 ; (* #1306 Vrcp28pd *)
  INST kEncodingVexRm                 8632  315 ; (* #1307 Vrcp28ps *)
  INST kEncodingVexRvm                8641  501 ; (* #1308 Vrcp28sd *)
  INST kEncodingVexRvm                8650  502 ; (* #1309 Vrcp28ss *)
  INST kEncodingVexRm_Lx              8659  338 ; (* #1310 Vrcpps *)
  INST kEncodingVexRvm                8666  503 ; (* #1311 Vrcpss *)
  INST kEncodingVexRmi_Lx             8673  504 ; (* #1312 Vreducepd *)
  INST kEncodingVexRmi_Lx             8683  505 ; (* #1313 Vreduceps *)
  INST kEncodingVexRvmi               8693  506 ; (* #1314 Vreducesd *)
  INST kEncodingVexRvmi               8703  507 ; (* #1315 Vreducess *)
  INST kEncodingVexRmi_Lx             8713  350 ; (* #1316 Vrndscalepd *)
  INST kEncodingVexRmi_Lx             8725  351 ; (* #1317 Vrndscaleps *)
  INST kEncodingVexRvmi               8737  508 ; (* #1318 Vrndscalesd *)
  INST kEncodingVexRvmi               8749  509 ; (* #1319 Vrndscaless *)
  INST kEncodingVexRmi_Lx             8761  510 ; (* #1320 Vroundpd *)
  INST kEncodingVexRmi_Lx             8770  510 ; (* #1321 Vroundps *)
  INST kEncodingVexRvmi               8779  511 ; (* #1322 Vroundsd *)
  INST kEncodingVexRvmi               8788  512 ; (* #1323 Vroundss *)
  INST kEncodingVexRm_Lx              8797  497 ; (* #1324 Vrsqrt14pd *)
  INST kEncodingVexRm_Lx              8808  498 ; (* #1325 Vrsqrt14ps *)
  INST kEncodingVexRvm                8819  499 ; (* #1326 Vrsqrt14sd *)
  INST kEncodingVexRvm                8830  500 ; (* #1327 Vrsqrt14ss *)
  INST kEncodingVexRm                 8841  314 ; (* #1328 Vrsqrt28pd *)
  INST kEncodingVexRm                 8852  315 ; (* #1329 Vrsqrt28ps *)
  INST kEncodingVexRvm                8863  501 ; (* #1330 Vrsqrt28sd *)
  INST kEncodingVexRvm                8874  502 ; (* #1331 Vrsqrt28ss *)
  INST kEncodingVexRm_Lx              8885  338 ; (* #1332 Vrsqrtps *)
  INST kEncodingVexRvm                8894  503 ; (* #1333 Vrsqrtss *)
  INST kEncodingVexRvm_Lx             8903  513 ; (* #1334 Vscalefpd *)
  INST kEncodingVexRvm_Lx             8913  514 ; (* #1335 Vscalefps *)
  INST kEncodingVexRvm                8923  515 ; (* #1336 Vscalefsd *)
  INST kEncodingVexRvm                8933  516 ; (* #1337 Vscalefss *)
  INST kEncodingVexMr_Lx              8943  517 ; (* #1338 Vscatterdpd *)
  INST kEncodingVexMr_Lx              8955  471 ; (* #1339 Vscatterdps *)
  INST kEncodingVexM_VM               8967  343 ; (* #1340 Vscatterpf0dpd *)
  INST kEncodingVexM_VM               8982  344 ; (* #1341 Vscatterpf0dps *)
  INST kEncodingVexM_VM               8997  345 ; (* #1342 Vscatterpf0qpd *)
  INST kEncodingVexM_VM               9012  345 ; (* #1343 Vscatterpf0qps *)
  INST kEncodingVexM_VM               9027  343 ; (* #1344 Vscatterpf1dpd *)
  INST kEncodingVexM_VM               9042  344 ; (* #1345 Vscatterpf1dps *)
  INST kEncodingVexM_VM               9057  345 ; (* #1346 Vscatterpf1qpd *)
  INST kEncodingVexM_VM               9072  345 ; (* #1347 Vscatterpf1qps *)
  INST kEncodingVexMr_Lx              9087  473 ; (* #1348 Vscatterqpd *)
  INST kEncodingVexMr_Lx              9099  472 ; (* #1349 Vscatterqps *)
  INST kEncodingVexRvmi_Lx            9111  518 ; (* #1350 Vshuff32x4 *)
  INST kEncodingVexRvmi_Lx            9122  519 ; (* #1351 Vshuff64x2 *)
  INST kEncodingVexRvmi_Lx            9133  518 ; (* #1352 Vshufi32x4 *)
  INST kEncodingVexRvmi_Lx            9144  519 ; (* #1353 Vshufi64x2 *)
  INST kEncodingVexRvmi_Lx            9155  520 ; (* #1354 Vshufpd *)
  INST kEncodingVexRvmi_Lx            9163  521 ; (* #1355 Vshufps *)
  INST kEncodingVexRm_Lx              9171  522 ; (* #1356 Vsqrtpd *)
  INST kEncodingVexRm_Lx              9179  283 ; (* #1357 Vsqrtps *)
  INST kEncodingVexRvm                9187  248 ; (* #1358 Vsqrtsd *)
  INST kEncodingVexRvm                9195  249 ; (* #1359 Vsqrtss *)
  INST kEncodingVexM                  9203  523 ; (* #1360 Vstmxcsr *)
  INST kEncodingVexRvm_Lx             9212  246 ; (* #1361 Vsubpd *)
  INST kEncodingVexRvm_Lx             9219  247 ; (* #1362 Vsubps *)
  INST kEncodingVexRvm                9226  248 ; (* #1363 Vsubsd *)
  INST kEncodingVexRvm                9233  249 ; (* #1364 Vsubss *)
  INST kEncodingVexRm_Lx              9240  489 ; (* #1365 Vtestpd *)
  INST kEncodingVexRm_Lx              9248  489 ; (* #1366 Vtestps *)
  INST kEncodingVexRm                 9256  279 ; (* #1367 Vucomisd *)
  INST kEncodingVexRm                 9265  280 ; (* #1368 Vucomiss *)
  INST kEncodingVexRvm_Lx             9274  399 ; (* #1369 Vunpckhpd *)
  INST kEncodingVexRvm_Lx             9284  395 ; (* #1370 Vunpckhps *)
  INST kEncodingVexRvm_Lx             9294  399 ; (* #1371 Vunpcklpd *)
  INST kEncodingVexRvm_Lx             9304  395 ; (* #1372 Vunpcklps *)
  INST kEncodingVexRvm_Lx             9314  256 ; (* #1373 Vxorpd *)
  INST kEncodingVexRvm_Lx             9321  257 ; (* #1374 Vxorps *)
  INST kEncodingVexOp                 9328  524 ; (* #1375 Vzeroall *)
  INST kEncodingVexOp                 9337  524 ; (* #1376 Vzeroupper *)
  INST kEncodingX86M                  9348  525 ; (* #1377 Wrfsbase *)
  INST kEncodingX86M                  9357  525 ; (* #1378 Wrgsbase *)
  INST kEncodingX86Xadd               9366  526 ; (* #1379 Xadd *)
  INST kEncodingX86Xchg               353   527 ; (* #1380 Xchg *)
  INST kEncodingX86Op                 9371  528 ; (* #1381 Xgetbv *)
  INST kEncodingX86Arith              8533  3   ; (* #1382 Xor *)
  INST kEncodingExtRm                 9315  4   ; (* #1383 Xorpd *)
  INST kEncodingExtRm                 9322  4   ; (* #1384 Xorps *)
  INST kEncodingX86M_Only             1030  529 ; (* #1385 Xrstor *)
  INST kEncodingX86M_Only             1038  530 ; (* #1386 Xrstor64 *)
  INST kEncodingX86M_Only             9378  529 ; (* #1387 Xrstors *)
  INST kEncodingX86M_Only             9386  530 ; (* #1388 Xrstors64 *)
  INST kEncodingX86M_Only             1048  531 ; (* #1389 Xsave *)
  INST kEncodingX86M_Only             1055  532 ; (* #1390 Xsave64 *)
  INST kEncodingX86M_Only             9396  531 ; (* #1391 Xsavec *)
  INST kEncodingX86M_Only             9403  532 ; (* #1392 Xsavec64 *)
  INST kEncodingX86M_Only             9412  531 ; (* #1393 Xsaveopt *)
  INST kEncodingX86M_Only             9421  532 ; (* #1394 Xsaveopt64 *)
  INST kEncodingX86M_Only             9432  531 ; (* #1395 Xsaves *)
  INST kEncodingX86M_Only             9439  532 ; (* #1396 Xsaves64 *)
  INST kEncodingX86Op                 9448  533  (* #1397 Xsetbv *)
].

Definition _kIdCount : Z := Z.of_nat (List.length instData).

(** Instruction ids [X86Inst::kId...] used below: the position of the row
    in [instData]. *)
Definition kIdAdc : Z := 1.
Definition kIdBextr : Z := 23.
Definition kIdCall : Z := 46.
Definition kIdCmova : Z := 58.
Definition kIdCmovae : Z := 59.
Definition kIdCmovb : Z := 60.
Definition kIdCmovbe : Z := 61.
Definition kIdCmove : Z := 63.
Definition kIdCmovg : Z := 64.
Definition kIdCmovge : Z := 65.
Definition kIdCmovl : Z := 66.
Definition kIdCmovle : Z := 67.
Definition kIdCmovne : Z := 73.
Definition kIdCmovno : Z := 78.
Definition kIdCmovns : Z := 80.
Definition kIdCmovo : Z := 82.
Definition kIdCmovpe : Z := 84.
Definition kIdCmovpo : Z := 85.
Definition kIdCmovs : Z := 86.
Definition kIdCmp : Z := 88.
Definition kIdDaa : Z := 129.
Definition kIdEmms : Z := 139.
Definition kIdF2xm1 : Z := 143.
Definition kIdFadd : Z := 145.
Definition kIdHaddpd : Z := 241.
Definition kIdIdiv : Z := 245.
Definition kIdJa : Z := 253.
Definition kIdJae : Z := 254.
Definition kIdJb : Z := 255.
Definition kIdJbe : Z := 256.
Definition kIdJe : Z := 258.
Definition kIdJg : Z := 259.
Definition kIdJge : Z := 260.
Definition kIdJl : Z := 261.
Definition kIdJle : Z := 262.
Definition kIdJne : Z := 268.
Definition kIdJno : Z := 273.
Definition kIdJns : Z := 275.
Definition kIdJo : Z := 277.
Definition kIdJpe : Z := 279.
Definition kIdJpo : Z := 280.
Definition kIdJs : Z := 281.
Definition kIdKaddb : Z := 285.
Definition kIdLahf : Z := 336.
Definition kIdMaskmovdqu : Z := 347.
Definition kIdMov : Z := 359.
Definition kIdNeg : Z := 407.
Definition kIdOr : Z := 410.
Definition kIdPabsb : Z := 413.
Definition kIdPand : Z := 429.
Definition kIdRcl : Z := 576.
Definition kIdSahf : Z := 624.
Definition kIdSeta : Z := 633.
Definition kIdSetae : Z := 634.
Definition kIdSetb : Z := 635.
Definition kIdSetbe : Z := 636.
Definition kIdSete : Z := 638.
Definition kIdSetg : Z := 639.
Definition kIdSetge : Z := 640.
Definition kIdSetl : Z := 641.
Definition kIdSetle : Z := 642.
Definition kIdSetne : Z := 648.
Definition kIdSetno : Z := 653.
Definition kIdSetns : Z := 655.
Definition kIdSeto : Z := 657.
Definition kIdSetpe : Z := 659.
Definition kIdSetpo : Z := 660.
Definition kIdSets : Z := 661.
Definition kIdT1mskc : Z := 697.
Definition kIdUcomisd : Z := 701.
Definition kIdVaddpd : Z := 708.
Definition kIdVaddps : Z := 709.
Definition kIdVpaddw : Z := 1015.
Definition kIdVpand : Z := 1017.
Definition kIdWrfsbase : Z := 1377.
Definition kIdXadd : Z := 1379.

(** [A512(CPU, VL, MASKING, SAE_ER, BROADCAST)]. *)
Definition A512 (cpu vl masking sae_er broadcast : Z) : Z :=
  kInstFlagEvex .| cpu .| (if vl =? 0 then 0 else kInstFlagEvexVL)
  .| (if masking =? 0 then 0 else masking .| kInstFlagEvexK_)
  .| sae_er .| broadcast.

(** One row of [commonData]: the flag word (first column) and the signature
    group the validator reads as [_iSignatureIndex] and [_iSignatureCount]
    (seventh and eighth columns; the struct itself is declared in the
    missing [x86/x86inst.h], and with this reading the model answers the
    unit test of the source as expected, see
    [unit_test_x86_inst_validation]).  The write, EFLAGS and
    alternative-opcode columns are not read by the validator and are left
    out. *)
Record CommonData : Set := CD {
  _flags : Z;
  _iSignatureIndex : Z;
  _iSignatureCount : Z
}.

(** [CommonData::hasFlag(flag)]: some bit of [flag] is set. *)
Definition hasFlag (cd : CommonData) (flag : Z) : bool :=
  negb (_flags cd .& flag =? 0).

(** [X86InstDB::commonData]. *)
Definition commonData : list CommonData := [
  CD (0) 0 0; (* #0 *)
  CD (kInstFlagRW .| kInstFlagLock) 13 10; (* #1 *)
  CD (kInstFlagRW) 21 2; (* #2 *)
  CD (kInstFlagRW .| kInstFlagLock) 13 10; (* #3 *)
  CD (kInstFlagRW) 288 1; (* #4 *)
  CD (kInstFlagRW) 345 1; (* #5 *)
  CD (kInstFlagRW) 346 1; (* #6 *)
  CD (kInstFlagRW) 21 2; (* #7 *)
  CD (kInstFlagWO) 63 1; (* #8 *)
  CD (kInstFlagWO) 70 1; (* #9 *)
  CD (kInstFlagRW) 245 2; (* #10 *)
  CD (kInstFlagRW) 247 2; (* #11 *)
  CD (kInstFlagWO) 153 2; (* #12 *)
  CD (kInstFlagRW) 290 1; (* #13 *)
  CD (kInstFlagRW .| kInstFlagSpecial) 347 1; (* #14 *)
  CD (kInstFlagRW) 153 2; (* #15 *)
  CD (kInstFlagRW) 20 3; (* #16 *)
  CD (kInstFlagRW) 348 1; (* #17 *)
  CD (kInstFlagRO) 143 3; (* #18 *)
  CD (kInstFlagRW .| kInstFlagLock) 146 3; (* #19 *)
  CD (kInstFlagRW .| kInstFlagLock) 146 3; (* #20 *)
  CD (kInstFlagRW .| kInstFlagLock) 146 3; (* #21 *)
  CD (kInstFlagRW .| kInstFlagFlow .| kInstFlagVolatile) 249 2; (* #22 *)
  CD (kInstFlagRW .| kInstFlagSpecial) 349 1; (* #23 *)
  CD (kInstFlagRW .| kInstFlagSpecial) 350 1; (* #24 *)
  CD (kInstFlagRW .| kInstFlagSpecial) 351 1; (* #25 *)
  CD (kInstFlagVolatile) 259 1; (* #26 *)
  CD (kInstFlagVolatile) 259 1; (* #27 *)
  CD (kInstFlagVolatile) 259 1; (* #28 *)
  CD (kInstFlagRO .| kInstFlagVolatile) 352 1; (* #29 *)
  CD (kInstFlagWO .| kInstFlagVolatile .| kInstFlagSpecial) 353 1; (* #30 *)
  CD (0) 259 1; (* #31 *)
  CD (kInstFlagRW) 20 3; (* #32 *)
  CD (kInstFlagRW) 20 3; (* #33 *)
  CD (kInstFlagRW) 20 3; (* #34 *)
  CD (kInstFlagRW) 20 3; (* #35 *)
  CD (kInstFlagRW) 20 3; (* #36 *)
  CD (kInstFlagRW) 20 3; (* #37 *)
  CD (kInstFlagRW) 20 3; (* #38 *)
  CD (kInstFlagRW) 20 3; (* #39 *)
  CD (kInstFlagRO) 23 10; (* #40 *)
  CD (kInstFlagRW .| kInstFlagVolatile .| kInstFlagSpecial) 0 0; (* #41 *)
  CD (kInstFlagRW) 251 2; (* #42 *)
  CD (kInstFlagRW) 354 1; (* #43 *)
  CD (kInstFlagRW .| kInstFlagLock .| kInstFlagSpecial) 107 4; (* #44 *)
  CD (kInstFlagRW .| kInstFlagLock .| kInstFlagSpecial) 355 1; (* #45 *)
  CD (kInstFlagRW .| kInstFlagLock .| kInstFlagSpecial) 356 1; (* #46 *)
  CD (kInstFlagRO) 357 1; (* #47 *)
  CD (kInstFlagRO) 358 1; (* #48 *)
  CD (kInstFlagRW .| kInstFlagVolatile .| kInstFlagSpecial) 359 1; (* #49 *)
  CD (kInstFlagRW .| kInstFlagSpecial) 360 1; (* #50 *)
  CD (kInstFlagRW) 253 2; (* #51 *)
  CD (kInstFlagWO) 61 1; (* #52 *)
  CD (kInstFlagWO) 63 1; (* #53 *)
  CD (kInstFlagWO) 361 1; (* #54 *)
  CD (kInstFlagWO) 362 1; (* #55 *)
  CD (kInstFlagWO) 362 1; (* #56 *)
  CD (kInstFlagWO) 363 1; (* #57 *)
  CD (kInstFlagWO) 364 1; (* #58 *)
  CD (kInstFlagWO) 61 1; (* #59 *)
  CD (kInstFlagWO) 365 1; (* #60 *)
  CD (kInstFlagWO) 365 1; (* #61 *)
  CD (kInstFlagWO) 227 1; (* #62 *)
  CD (kInstFlagWO) 309 1; (* #63 *)
  CD (kInstFlagRW .| kInstFlagSpecial) 366 1; (* #64 *)
  CD (kInstFlagRW .| kInstFlagSpecial) 367 1; (* #65 *)
  CD (kInstFlagRW .| kInstFlagSpecial) 368 1; (* #66 *)
  CD (kInstFlagRW .| kInstFlagLock) 255 2; (* #67 *)
  CD (kInstFlagRW .| kInstFlagSpecial) 111 4; (* #68 *)
  CD (kInstFlagVolatile) 259 1; (* #69 *)
  CD (kInstFlagVolatile .| kInstFlagSpecial) 369 1; (* #70 *)
  CD (kInstFlagWO) 370 1; (* #71 *)
  CD (kInstFlagRW) 257 2; (* #72 *)
  CD (kInstFlagFp) 259 1; (* #73 *)
  CD (kInstFlagFp .| kInstFlagFPU_M4 .| kInstFlagFPU_M8) 149 3; (* #74 *)
  CD (kInstFlagFp) 259 2; (* #75 *)
  CD (kInstFlagFp) 371 1; (* #76 *)
  CD (kInstFlagFp) 260 1; (* #77 *)
  CD (kInstFlagFp) 260 1; (* #78 *)
  CD (kInstFlagFp) 260 1; (* #79 *)
  CD (kInstFlagFp) 260 1; (* #80 *)
  CD (kInstFlagFp) 261 2; (* #81 *)
  CD (kInstFlagFp) 260 1; (* #82 *)
  CD (kInstFlagFp) 260 1; (* #83 *)
  CD (kInstFlagFp .| kInstFlagFPU_M2 .| kInstFlagFPU_M4) 372 1; (* #84 *)
  CD (kInstFlagFp .| kInstFlagFPU_M2 .| kInstFlagFPU_M4 .| kInstFlagFPU_M8) 373 1; (* #85 *)
  CD (kInstFlagFp .| kInstFlagFPU_M2 .| kInstFlagFPU_M4 .| kInstFlagFPU_M8) 373 1; (* #86 *)
  CD (kInstFlagFp .| kInstFlagFPU_M2 .| kInstFlagFPU_M4 .| kInstFlagFPU_M8) 373 1; (* #87 *)
  CD (kInstFlagFp .| kInstFlagFPU_M2 .| kInstFlagFPU_M4 .| kInstFlagFPU_M8) 374 1; (* #88 *)
  CD (kInstFlagFp) 375 1; (* #89 *)
  CD (kInstFlagFp) 376 1; (* #90 *)
  CD (kInstFlagFp) 377 1; (* #91 *)
  CD (kInstFlagFp .| kInstFlagFPU_M4 .| kInstFlagFPU_M8) 262 1; (* #92 *)
  CD (kInstFlagFp .| kInstFlagFPU_M4 .| kInstFlagFPU_M8 .| kInstFlagFPU_M10) 374 1; (* #93 *)
  CD (kInstFlagFp) 377 1; (* #94 *)
  CD (kInstFlagFp .| kInstFlagVolatile) 259 1; (* #95 *)
  CD (kInstFlagFp) 378 1; (* #96 *)
  CD (kInstFlagRW .| kInstFlagSpecial) 115 4; (* #97 *)
  CD (kInstFlagRW .| kInstFlagSpecial) 33 10; (* #98 *)
  CD (kInstFlagRW .| kInstFlagLock) 255 2; (* #99 *)
  CD (kInstFlagRW) 263 2; (* #100 *)
  CD (kInstFlagVolatile) 379 1; (* #101 *)
  CD (kInstFlagVolatile) 259 1; (* #102 *)
  CD (kInstFlagFlow .| kInstFlagVolatile) 380 1; (* #103 *)
  CD (kInstFlagFlow .| kInstFlagVolatile) 380 1; (* #104 *)
  CD (kInstFlagFlow .| kInstFlagVolatile) 381 1; (* #105 *)
  CD (kInstFlagFlow .| kInstFlagVolatile) 380 1; (* #106 *)
  CD (kInstFlagFlow .| kInstFlagVolatile) 380 1; (* #107 *)
  CD (kInstFlagFlow .| kInstFlagVolatile) 380 1; (* #108 *)
  CD (kInstFlagFlow .| kInstFlagVolatile) 380 1; (* #109 *)
  CD (kInstFlagFlow .| kInstFlagVolatile) 380 1; (* #110 *)
  CD (kInstFlagFlow .| kInstFlagVolatile) 380 1; (* #111 *)
  CD (kInstFlagFlow .| kInstFlagVolatile .| kInstFlagSpecial) 265 2; (* #112 *)
  CD (kInstFlagFlow .| kInstFlagVolatile) 267 2; (* #113 *)
  CD (kInstFlagWO .| kInstFlagVex) 382 1; (* #114 *)
  CD (kInstFlagWO .| kInstFlagVex) 269 2; (* #115 *)
  CD (kInstFlagWO .| kInstFlagVex) 271 2; (* #116 *)
  CD (kInstFlagWO .| kInstFlagVex) 273 2; (* #117 *)
  CD (kInstFlagWO .| kInstFlagVex) 275 2; (* #118 *)
  CD (kInstFlagWO .| kInstFlagVex) 383 1; (* #119 *)
  CD (kInstFlagRO .| kInstFlagVex) 384 1; (* #120 *)
  CD (kInstFlagWO .| kInstFlagVex) 385 1; (* #121 *)
  CD (kInstFlagRW .| kInstFlagVolatile .| kInstFlagSpecial) 386 1; (* #122 *)
  CD (kInstFlagWO) 200 1; (* #123 *)
  CD (kInstFlagRO .| kInstFlagVolatile) 387 1; (* #124 *)
  CD (kInstFlagWO) 388 1; (* #125 *)
  CD (kInstFlagVolatile .| kInstFlagSpecial) 259 1; (* #126 *)
  CD (kInstFlagWO .| kInstFlagSpecial) 0 0; (* #127 *)
  CD (kInstFlagWO .| kInstFlagSpecial) 0 0; (* #128 *)
  CD (kInstFlagWO .| kInstFlagSpecial) 0 0; (* #129 *)
  CD (kInstFlagWO .| kInstFlagSpecial) 0 0; (* #130 *)
  CD (kInstFlagRW) 152 3; (* #131 *)
  CD (kInstFlagRO .| kInstFlagSpecial) 389 1; (* #132 *)
  CD (kInstFlagRO .| kInstFlagSpecial) 390 1; (* #133 *)
  CD (kInstFlagRW .| kInstFlagVolatile) 259 1; (* #134 *)
  CD (kInstFlagRO .| kInstFlagVolatile .| kInstFlagSpecial) 0 0; (* #135 *)
  CD (kInstFlagWO) 0 13; (* #136 *)
  CD (kInstFlagWO) 63 2; (* #137 *)
  CD (kInstFlagWO) 63 2; (* #138 *)
  CD (kInstFlagWO) 51 6; (* #139 *)
  CD (kInstFlagWO) 277 2; (* #140 *)
  CD (kInstFlagWO) 391 1; (* #141 *)
  CD (kInstFlagWO) 63 2; (* #142 *)
  CD (kInstFlagWO) 63 2; (* #143 *)
  CD (kInstFlagWO) 392 1; (* #144 *)
  CD (kInstFlagRW) 206 2; (* #145 *)
  CD (kInstFlagRW) 206 2; (* #146 *)
  CD (kInstFlagRW) 392 1; (* #147 *)
  CD (kInstFlagWO) 206 2; (* #148 *)
  CD (kInstFlagWO) 206 2; (* #149 *)
  CD (kInstFlagWO) 393 1; (* #150 *)
  CD (kInstFlagWO) 197 1; (* #151 *)
  CD (kInstFlagWO) 55 2; (* #152 *)
  CD (kInstFlagWO) 197 1; (* #153 *)
  CD (kInstFlagWO) 197 1; (* #154 *)
  CD (kInstFlagWO) 394 1; (* #155 *)
  CD (kInstFlagWO) 157 1; (* #156 *)
  CD (kInstFlagWO) 280 1; (* #157 *)
  CD (kInstFlagWO) 57 6; (* #158 *)
  CD (kInstFlagWO) 395 1; (* #159 *)
  CD (kInstFlagWO .| kInstFlagSpecial) 0 0; (* #160 *)
  CD (kInstFlagWO .| kInstFlagZeroIfMem) 155 3; (* #161 *)
  CD (kInstFlagWO .| kInstFlagZeroIfMem) 279 2; (* #162 *)
  CD (kInstFlagWO) 281 2; (* #163 *)
  CD (kInstFlagWO) 396 1; (* #164 *)
  CD (kInstFlagWO) 63 2; (* #165 *)
  CD (kInstFlagWO) 63 2; (* #166 *)
  CD (kInstFlagRW .| kInstFlagSpecial) 33 4; (* #167 *)
  CD (kInstFlagRW .| kInstFlagSpecial) 283 2; (* #168 *)
  CD (kInstFlagRW .| kInstFlagLock) 256 1; (* #169 *)
  CD (0) 285 2; (* #170 *)
  CD (kInstFlagRW .| kInstFlagLock) 256 1; (* #171 *)
  CD (kInstFlagRW) 287 2; (* #172 *)
  CD (kInstFlagRW) 289 2; (* #173 *)
  CD (kInstFlagRW) 259 1; (* #174 *)
  CD (kInstFlagRW) 287 1; (* #175 *)
  CD (kInstFlagWO .| kInstFlagSpecial) 397 1; (* #176 *)
  CD (kInstFlagWO .| kInstFlagSpecial) 398 1; (* #177 *)
  CD (kInstFlagWO .| kInstFlagSpecial) 399 1; (* #178 *)
  CD (kInstFlagWO .| kInstFlagSpecial) 400 1; (* #179 *)
  CD (kInstFlagWO) 245 2; (* #180 *)
  CD (kInstFlagWO) 401 1; (* #181 *)
  CD (kInstFlagWO) 402 1; (* #182 *)
  CD (kInstFlagWO) 291 2; (* #183 *)
  CD (kInstFlagWO) 295 1; (* #184 *)
  CD (kInstFlagWO) 295 1; (* #185 *)
  CD (kInstFlagRW) 403 1; (* #186 *)
  CD (kInstFlagRW) 404 1; (* #187 *)
  CD (kInstFlagRW) 405 1; (* #188 *)
  CD (kInstFlagRW) 406 1; (* #189 *)
  CD (kInstFlagWO) 407 1; (* #190 *)
  CD (kInstFlagWO) 227 1; (* #191 *)
  CD (kInstFlagWO) 230 1; (* #192 *)
  CD (kInstFlagWO .| kInstFlagVolatile .| kInstFlagSpecial) 293 2; (* #193 *)
  CD (kInstFlagVolatile .| kInstFlagSpecial) 408 1; (* #194 *)
  CD (kInstFlagWO) 152 3; (* #195 *)
  CD (kInstFlagVolatile .| kInstFlagSpecial) 259 1; (* #196 *)
  CD (kInstFlagRO .| kInstFlagVolatile) 0 0; (* #197 *)
  CD (kInstFlagRO .| kInstFlagVolatile) 352 1; (* #198 *)
  CD (kInstFlagRW) 295 2; (* #199 *)
  CD (kInstFlagWO) 70 1; (* #200 *)
  CD (kInstFlagWO) 409 1; (* #201 *)
  CD (kInstFlagRW) 297 2; (* #202 *)
  CD (kInstFlagRW) 410 1; (* #203 *)
  CD (kInstFlagRW) 297 2; (* #204 *)
  CD (kInstFlagRW) 297 2; (* #205 *)
  CD (kInstFlagRW) 297 2; (* #206 *)
  CD (kInstFlagRW) 297 2; (* #207 *)
  CD (kInstFlagRW) 297 2; (* #208 *)
  CD (kInstFlagRW) 410 1; (* #209 *)
  CD (kInstFlagRW) 297 2; (* #210 *)
  CD (kInstFlagRW) 297 2; (* #211 *)
  CD (kInstFlagRO) 341 1; (* #212 *)
  CD (kInstFlagRO .| kInstFlagVolatile .| kInstFlagSpecial) 299 2; (* #213 *)
  CD (kInstFlagVolatile .| kInstFlagSpecial) 259 1; (* #214 *)
  CD (kInstFlagRW .| kInstFlagSpecial) 411 1; (* #215 *)
  CD (kInstFlagWO) 227 1; (* #216 *)
  CD (kInstFlagWO) 412 1; (* #217 *)
  CD (kInstFlagWO) 413 1; (* #218 *)
  CD (kInstFlagWO .| kInstFlagVolatile .| kInstFlagSpecial) 414 1; (* #219 *)
  CD (kInstFlagWO .| kInstFlagVolatile .| kInstFlagSpecial) 415 1; (* #220 *)
  CD (kInstFlagRW .| kInstFlagVolatile .| kInstFlagSpecial) 0 0; (* #221 *)
  CD (kInstFlagRW .| kInstFlagVolatile .| kInstFlagSpecial) 301 2; (* #222 *)
  CD (kInstFlagRW .| kInstFlagSpecial) 411 1; (* #223 *)
  CD (kInstFlagWO) 303 2; (* #224 *)
  CD (kInstFlagWO) 416 1; (* #225 *)
  CD (kInstFlagWO) 417 1; (* #226 *)
  CD (kInstFlagRO .| kInstFlagVolatile .| kInstFlagSpecial) 418 1; (* #227 *)
  CD (kInstFlagRW .| kInstFlagSpecial) 411 1; (* #228 *)
  CD (kInstFlagWO) 247 2; (* #229 *)
  CD (kInstFlagWO) 419 1; (* #230 *)
  CD (kInstFlagWO) 419 1; (* #231 *)
  CD (kInstFlagWO) 419 1; (* #232 *)
  CD (kInstFlagWO) 419 1; (* #233 *)
  CD (kInstFlagWO) 419 1; (* #234 *)
  CD (kInstFlagWO) 419 1; (* #235 *)
  CD (kInstFlagWO) 419 1; (* #236 *)
  CD (kInstFlagWO) 419 1; (* #237 *)
  CD (kInstFlagRW .| kInstFlagSpecial) 158 3; (* #238 *)
  CD (kInstFlagWO) 61 1; (* #239 *)
  CD (0) 259 1; (* #240 *)
  CD (0) 259 1; (* #241 *)
  CD (0) 259 1; (* #242 *)
  CD (kInstFlagVolatile) 420 1; (* #243 *)
  CD (kInstFlagRO) 87 5; (* #244 *)
  CD (0) 259 1; (* #245 *)
  CD (kInstFlagWO .| kInstFlagVex .| A512 kInstFlagEvexSet_F_ 1 kInstFlagEvexKZ kInstFlagEvexER kInstFlagEvexB8) 161 3; (* #246 *)
  CD (kInstFlagWO .| kInstFlagVex .| A512 kInstFlagEvexSet_F_ 1 kInstFlagEvexKZ kInstFlagEvexER kInstFlagEvexB4) 161 3; (* #247 *)
  CD (kInstFlagWO .| kInstFlagVex .| A512 kInstFlagEvexSet_F_ 0 kInstFlagEvexKZ kInstFlagEvexER kInstFlagEvexB0) 421 1; (* #248 *)
  CD (kInstFlagWO .| kInstFlagVex .| A512 kInstFlagEvexSet_F_ 0 kInstFlagEvexKZ kInstFlagEvexER kInstFlagEvexB0) 422 1; (* #249 *)
  CD (kInstFlagWO .| kInstFlagVex) 161 2; (* #250 *)
  CD (kInstFlagWO .| kInstFlagVex) 69 1; (* #251 *)
  CD (kInstFlagWO .| kInstFlagVex) 63 1; (* #252 *)
  CD (kInstFlagWO .| kInstFlagVex) 70 1; (* #253 *)
  CD (kInstFlagWO .| A512 kInstFlagEvexSet_F_ 1 kInstFlagEvexKZ kInstFlagEvex0 kInstFlagEvexB4) 164 3; (* #254 *)
  CD (kInstFlagWO .| A512 kInstFlagEvexSet_F_ 1 kInstFlagEvexKZ kInstFlagEvex0 kInstFlagEvexB8) 164 3; (* #255 *)
  CD (kInstFlagWO .| kInstFlagVex .| A512 kInstFlagEvexSet_DQ 1 kInstFlagEvexKZ kInstFlagEvex0 kInstFlagEvexB8) 161 3; (* #256 *)
  CD (kInstFlagWO .| kInstFlagVex .| A512 kInstFlagEvexSet_DQ 1 kInstFlagEvexKZ kInstFlagEvex0 kInstFlagEvexB4) 161 3; (* #257 *)
  CD (kInstFlagWO .| A512 kInstFlagEvexSet_BW 1 kInstFlagEvexKZ kInstFlagEvex0 kInstFlagEvexB0) 161 3; (* #258 *)
  CD (kInstFlagWO .| A512 kInstFlagEvexSet_F_ 1 kInstFlagEvexKZ kInstFlagEvex0 kInstFlagEvexB4) 161 3; (* #259 *)
  CD (kInstFlagWO .| A512 kInstFlagEvexSet_F_ 1 kInstFlagEvexKZ kInstFlagEvex0 kInstFlagEvexB8) 161 3; (* #260 *)
  CD (kInstFlagWO .| kInstFlagVex) 164 2; (* #261 *)
  CD (kInstFlagWO .| kInstFlagVex) 305 2; (* #262 *)
  CD (kInstFlagWO .| kInstFlagVex) 423 1; (* #263 *)
  CD (kInstFlagWO .| A512 kInstFlagEvexSet_DQ 1 kInstFlagEvexKZ kInstFlagEvex0 kInstFlagEvexB0) 424 1; (* #264 *)
  CD (kInstFlagWO .| A512 kInstFlagEvexSet_F_ 0 kInstFlagEvexKZ kInstFlagEvex0 kInstFlagEvexB0) 425 1; (* #265 *)
  CD (kInstFlagWO .| A512 kInstFlagEvexSet_DQ 0 kInstFlagEvexKZ kInstFlagEvex0 kInstFlagEvexB0) 426 1; (* #266 *)
  CD (kInstFlagWO .| A512 kInstFlagEvexSet_DQ 1 kInstFlagEvexKZ kInstFlagEvex0 kInstFlagEvexB0) 425 1; (* #267 *)
  CD (kInstFlagWO .| A512 kInstFlagEvexSet_F_ 0 kInstFlagEvexKZ kInstFlagEvex0 kInstFlagEvexB0) 426 1; (* #268 *)
  CD (kInstFlagWO .| A512 kInstFlagEvexSet_DQ 1 kInstFlagEvexKZ kInstFlagEvex0 kInstFlagEvexB0) 427 1; (* #269 *)
  CD (kInstFlagWO .| A512 kInstFlagEvexSet_F_ 1 kInstFlagEvexKZ kInstFlagEvex0 kInstFlagEvexB0) 424 1; (* #270 *)
  CD (kInstFlagWO .| A512 kInstFlagEvexSet_DQ 0 kInstFlagEvexKZ kInstFlagEvex0 kInstFlagEvexB0) 232 1; (* #271 *)
  CD (kInstFlagWO .| A512 kInstFlagEvexSet_F_ 0 kInstFlagEvexKZ kInstFlagEvex0 kInstFlagEvexB0) 232 1; (* #272 *)
  CD (kInstFlagWO .| kInstFlagVex .| A512 kInstFlagEvexSet_F_ 1 kInstFlagEvexKZ kInstFlagEvex0 kInstFlagEvexB0) 424 1; (* #273 *)
  CD (kInstFlagWO .| kInstFlagVex .| A512 kInstFlagEvexSet_F_ 1 kInstFlagEvexKZ kInstFlagEvex0 kInstFlagEvexB0) 325 1; (* #274 *)
  CD (kInstFlagWO .| kInstFlagVex .| A512 kInstFlagEvexSet_F_ 1 kInstFlagEvexKZ kInstFlagEvexSAE kInstFlagEvexB8) 167 3; (* #275 *)
  CD (kInstFlagWO .| kInstFlagVex .| A512 kInstFlagEvexSet_F_ 1 kInstFlagEvexKZ kInstFlagEvexSAE kInstFlagEvexB4) 167 3; (* #276 *)
  CD (kInstFlagWO .| kInstFlagVex .| A512 kInstFlagEvexSet_F_ 0 kInstFlagEvexKZ kInstFlagEvexSAE kInstFlagEvexB0) 428 1; (* #277 *)
  CD (kInstFlagWO .| kInstFlagVex .| A512 kInstFlagEvexSet_F_ 0 kInstFlagEvexKZ kInstFlagEvexSAE kInstFlagEvexB0) 429 1; (* #278 *)
  CD (kInstFlagRO .| kInstFlagVex .| A512 kInstFlagEvexSet_F_ 0 kInstFlagEvex0 kInstFlagEvexSAE kInstFlagEvexB0) 357 1; (* #279 *)
  CD (kInstFlagRO .| kInstFlagVex .| A512 kInstFlagEvexSet_F_ 0 kInstFlagEvex0 kInstFlagEvexSAE kInstFlagEvexB0) 358 1; (* #280 *)
  CD (kInstFlagWO .| A512 kInstFlagEvexSet_F_ 1 kInstFlagEvexKZ kInstFlagEvex0 kInstFlagEvexB0) 170 3; (* #281 *)
  CD (kInstFlagWO .| kInstFlagVex .| A512 kInstFlagEvexSet_F_ 1 kInstFlagEvexKZ kInstFlagEvex0 kInstFlagEvexB4) 173 3; (* #282 *)
  CD (kInstFlagWO .| kInstFlagVex .| A512 kInstFlagEvexSet_F_ 1 kInstFlagEvexKZ kInstFlagEvexER kInstFlagEvexB4) 176 3; (* #283 *)
  CD (kInstFlagWO .| kInstFlagVex .| A512 kInstFlagEvexSet_F_ 1 kInstFlagEvexKZ kInstFlagEvexER kInstFlagEvexB8) 307 2; (* #284 *)
  CD (kInstFlagWO .| kInstFlagVex .| A512 kInstFlagEvexSet_F_ 1 kInstFlagEvexKZ kInstFlagEvexER kInstFlagEvexB8) 179 3; (* #285 *)
  CD (kInstFlagWO .| A512 kInstFlagEvexSet_DQ 1 kInstFlagEvexKZ kInstFlagEvexER kInstFlagEvexB8) 176 3; (* #286 *)
  CD (kInstFlagWO .| A512 kInstFlagEvexSet_F_ 1 kInstFlagEvexKZ kInstFlagEvexER kInstFlagEvexB8) 307 2; (* #287 *)
  CD (kInstFlagWO .| kInstFlagVex .| A512 kInstFlagEvexSet_F_ 1 kInstFlagEvexKZ kInstFlagEvexSAE kInstFlagEvexB0) 173 3; (* #288 *)
  CD (kInstFlagWO .| kInstFlagVex .| A512 kInstFlagEvexSet_F_ 1 kInstFlagEvexKZ kInstFlagEvexER kInstFlagEvexB4) 173 3; (* #289 *)
  CD (kInstFlagWO .| kInstFlagVex .| A512 kInstFlagEvexSet_F_ 1 kInstFlagEvexKZ kInstFlagEvexSAE kInstFlagEvexB0) 182 3; (* #290 *)
  CD (kInstFlagWO .| A512 kInstFlagEvexSet_DQ 1 kInstFlagEvexKZ kInstFlagEvexER kInstFlagEvexB4) 173 3; (* #291 *)
  CD (kInstFlagWO .| A512 kInstFlagEvexSet_F_ 1 kInstFlagEvexKZ kInstFlagEvexER kInstFlagEvexB4) 176 3; (* #292 *)
  CD (kInstFlagWO .| A512 kInstFlagEvexSet_DQ 1 kInstFlagEvexKZ kInstFlagEvexER kInstFlagEvexB8) 307 2; (* #293 *)
  CD (kInstFlagWO .| kInstFlagVex .| A512 kInstFlagEvexSet_F_ 0 kInstFlagEvex0 kInstFlagEvexER kInstFlagEvexB0) 364 1; (* #294 *)
  CD (kInstFlagWO .| A512 kInstFlagEvexSet_F_ 0 kInstFlagEvex0 kInstFlagEvexER kInstFlagEvexB0) 364 1; (* #295 *)
  CD (kInstFlagWO .| kInstFlagVex .| A512 kInstFlagEvexSet_F_ 0 kInstFlagEvex0 kInstFlagEvexER kInstFlagEvexB0) 430 1; (* #296 *)
  CD (kInstFlagWO .| kInstFlagVex .| A512 kInstFlagEvexSet_F_ 0 kInstFlagEvexKZ kInstFlagEvexSAE kInstFlagEvexB0) 422 1; (* #297 *)
  CD (kInstFlagWO .| kInstFlagVex .| A512 kInstFlagEvexSet_F_ 0 kInstFlagEvex0 kInstFlagEvexER kInstFlagEvexB0) 309 2; (* #298 *)
  CD (kInstFlagWO .| A512 kInstFlagEvexSet_F_ 0 kInstFlagEvex0 kInstFlagEvexER kInstFlagEvexB0) 311 2; (* #299 *)
  CD (kInstFlagWO .| kInstFlagVex .| A512 kInstFlagEvexSet_F_ 1 kInstFlagEvexKZ kInstFlagEvexSAE kInstFlagEvexB8) 307 2; (* #300 *)
  CD (kInstFlagWO .| A512 kInstFlagEvexSet_F_ 1 kInstFlagEvexKZ kInstFlagEvexSAE kInstFlagEvexB8) 176 3; (* #301 *)
  CD (kInstFlagWO .| A512 kInstFlagEvexSet_F_ 1 kInstFlagEvexKZ kInstFlagEvexSAE kInstFlagEvexB8) 307 2; (* #302 *)
  CD (kInstFlagWO .| A512 kInstFlagEvexSet_DQ 1 kInstFlagEvexKZ kInstFlagEvexSAE kInstFlagEvexB8) 176 3; (* #303 *)
  CD (kInstFlagWO .| kInstFlagVex .| A512 kInstFlagEvexSet_F_ 1 kInstFlagEvexKZ kInstFlagEvexSAE kInstFlagEvexB4) 176 3; (* #304 *)
  CD (kInstFlagWO .| A512 kInstFlagEvexSet_DQ 1 kInstFlagEvexKZ kInstFlagEvexSAE kInstFlagEvexB4) 173 3; (* #305 *)
  CD (kInstFlagWO .| A512 kInstFlagEvexSet_F_ 1 kInstFlagEvexKZ kInstFlagEvexSAE kInstFlagEvexB4) 176 3; (* #306 *)
  CD (kInstFlagWO .| kInstFlagVex .| A512 kInstFlagEvexSet_F_ 0 kInstFlagEvex0 kInstFlagEvexSAE kInstFlagEvexB0) 364 1; (* #307 *)
  CD (kInstFlagWO .| A512 kInstFlagEvexSet_F_ 0 kInstFlagEvex0 kInstFlagEvexSAE kInstFlagEvexB0) 364 1; (* #308 *)
  CD (kInstFlagWO .| kInstFlagVex .| A512 kInstFlagEvexSet_F_ 0 kInstFlagEvex0 kInstFlagEvexSAE kInstFlagEvexB0) 309 2; (* #309 *)
  CD (kInstFlagWO .| A512 kInstFlagEvexSet_F_ 0 kInstFlagEvex0 kInstFlagEvexSAE kInstFlagEvexB0) 311 2; (* #310 *)
  CD (kInstFlagWO .| A512 kInstFlagEvexSet_F_ 1 kInstFlagEvexKZ kInstFlagEvex0 kInstFlagEvexB4) 173 3; (* #311 *)
  CD (kInstFlagWO .| A512 kInstFlagEvexSet_F_ 0 kInstFlagEvex0 kInstFlagEvexER kInstFlagEvexB0) 430 1; (* #312 *)
  CD (kInstFlagWO .| A512 kInstFlagEvexSet_BW 1 kInstFlagEvexKZ kInstFlagEvex0 kInstFlagEvexB0) 164 3; (* #313 *)
  CD (kInstFlagWO .| A512 kInstFlagEvexSet_ERI 0 kInstFlagEvexKZ kInstFlagEvexSAE kInstFlagEvexB8) 67 1; (* #314 *)
  CD (kInstFlagWO .| A512 kInstFlagEvexSet_ERI 0 kInstFlagEvexKZ kInstFlagEvexSAE kInstFlagEvexB4) 67 1; (* #315 *)
  CD (kInstFlagWO .| A512 kInstFlagEvexSet_F_ 1 kInstFlagEvexKZ kInstFlagEvex0 kInstFlagEvexB0) 176 3; (* #316 *)
  CD (kInstFlagWO .| kInstFlagVex) 183 1; (* #317 *)
  CD (kInstFlagWO .| A512 kInstFlagEvexSet_F_ 1 kInstFlagEvexKZ kInstFlagEvex0 kInstFlagEvexB0) 431 1; (* #318 *)
  CD (kInstFlagWO .| A512 kInstFlagEvexSet_DQ 0 kInstFlagEvexKZ kInstFlagEvex0 kInstFlagEvexB0) 184 1; (* #319 *)
  CD (kInstFlagWO .| A512 kInstFlagEvexSet_DQ 1 kInstFlagEvexKZ kInstFlagEvex0 kInstFlagEvexB0) 431 1; (* #320 *)
  CD (kInstFlagWO .| A512 kInstFlagEvexSet_F_ 0 kInstFlagEvexKZ kInstFlagEvex0 kInstFlagEvexB0) 184 1; (* #321 *)
  CD (kInstFlagWO .| kInstFlagVex .| A512 kInstFlagEvexSet_F_ 0 kInstFlagEvex0 kInstFlagEvex0 kInstFlagEvexB0) 370 1; (* #322 *)
  CD (kInstFlagRW .| A512 kInstFlagEvexSet_F_ 1 kInstFlagEvexKZ kInstFlagEvexSAE kInstFlagEvexB8) 185 3; (* #323 *)
  CD (kInstFlagRW .| A512 kInstFlagEvexSet_F_ 1 kInstFlagEvexKZ kInstFlagEvexSAE kInstFlagEvexB4) 185 3; (* #324 *)
  CD (kInstFlagRW .| A512 kInstFlagEvexSet_F_ 0 kInstFlagEvexKZ kInstFlagEvexSAE kInstFlagEvexB0) 432 1; (* #325 *)
  CD (kInstFlagRW .| A512 kInstFlagEvexSet_F_ 0 kInstFlagEvexKZ kInstFlagEvexSAE kInstFlagEvexB0) 433 1; (* #326 *)
  CD (kInstFlagRW .| kInstFlagVex .| A512 kInstFlagEvexSet_F_ 1 kInstFlagEvexKZ kInstFlagEvexER kInstFlagEvexB8) 188 3; (* #327 *)
  CD (kInstFlagRW .| kInstFlagVex .| A512 kInstFlagEvexSet_F_ 1 kInstFlagEvexKZ kInstFlagEvexER kInstFlagEvexB4) 188 3; (* #328 *)
  CD (kInstFlagRW .| kInstFlagVex .| A512 kInstFlagEvexSet_F_ 0 kInstFlagEvexKZ kInstFlagEvexER kInstFlagEvexB0) 434 1; (* #329 *)
  CD (kInstFlagRW .| kInstFlagVex .| A512 kInstFlagEvexSet_F_ 0 kInstFlagEvexKZ kInstFlagEvexER kInstFlagEvexB0) 435 1; (* #330 *)
  CD (kInstFlagWO .| kInstFlagVex) 119 4; (* #331 *)
  CD (kInstFlagWO .| kInstFlagVex) 313 2; (* #332 *)
  CD (kInstFlagWO .| kInstFlagVex) 315 2; (* #333 *)
  CD (kInstFlagWO .| A512 kInstFlagEvexSet_DQ 1 kInstFlagEvexK_ kInstFlagEvex0 kInstFlagEvexB8) 436 1; (* #334 *)
  CD (kInstFlagWO .| A512 kInstFlagEvexSet_DQ 1 kInstFlagEvexK_ kInstFlagEvex0 kInstFlagEvexB4) 436 1; (* #335 *)
  CD (kInstFlagWO .| A512 kInstFlagEvexSet_DQ 0 kInstFlagEvexK_ kInstFlagEvex0 kInstFlagEvexB0) 437 1; (* #336 *)
  CD (kInstFlagWO .| A512 kInstFlagEvexSet_DQ 0 kInstFlagEvexK_ kInstFlagEvex0 kInstFlagEvexB0) 438 1; (* #337 *)
  CD (kInstFlagWO .| kInstFlagVex) 176 2; (* #338 *)
  CD (kInstFlagWO .| kInstFlagVex) 61 1; (* #339 *)
  CD (kInstFlagWO .| kInstFlagVex) 227 1; (* #340 *)
  CD (kInstFlagRW .| kInstFlagVex_VM .| A512 kInstFlagEvexSet_F_ 1 kInstFlagEvexK_ kInstFlagEvex0 kInstFlagEvexB0) 92 5; (* #341 *)
  CD (kInstFlagRW .| kInstFlagVex_VM .| A512 kInstFlagEvexSet_F_ 1 kInstFlagEvexK_ kInstFlagEvex0 kInstFlagEvexB0) 97 5; (* #342 *)
  CD (kInstFlagRO .| kInstFlagVM .| A512 kInstFlagEvexSet_PFI 0 kInstFlagEvexK_ kInstFlagEvex0 kInstFlagEvexB0) 439 1; (* #343 *)
  CD (kInstFlagRO .| kInstFlagVM .| A512 kInstFlagEvexSet_PFI 0 kInstFlagEvexK_ kInstFlagEvex0 kInstFlagEvexB0) 440 1; (* #344 *)
  CD (kInstFlagRO .| kInstFlagVM .| A512 kInstFlagEvexSet_PFI 0 kInstFlagEvexK_ kInstFlagEvex0 kInstFlagEvexB0) 441 1; (* #345 *)
  CD (kInstFlagRW .| kInstFlagVex_VM .| A512 kInstFlagEvexSet_F_ 1 kInstFlagEvexK_ kInstFlagEvex0 kInstFlagEvexB0) 102 5; (* #346 *)
  CD (kInstFlagRW .| kInstFlagVex_VM .| A512 kInstFlagEvexSet_F_ 1 kInstFlagEvexK_ kInstFlagEvex0 kInstFlagEvexB0) 123 4; (* #347 *)
  CD (kInstFlagWO .| A512 kInstFlagEvexSet_F_ 0 kInstFlagEvexKZ kInstFlagEvexSAE kInstFlagEvexB0) 61 1; (* #348 *)
  CD (kInstFlagWO .| A512 kInstFlagEvexSet_F_ 0 kInstFlagEvexKZ kInstFlagEvexSAE kInstFlagEvexB0) 227 1; (* #349 *)
  CD (kInstFlagWO .| A512 kInstFlagEvexSet_F_ 1 kInstFlagEvexKZ kInstFlagEvexSAE kInstFlagEvexB8) 191 3; (* #350 *)
  CD (kInstFlagWO .| A512 kInstFlagEvexSet_F_ 1 kInstFlagEvexKZ kInstFlagEvexSAE kInstFlagEvexB4) 191 3; (* #351 *)
  CD (kInstFlagWO .| A512 kInstFlagEvexSet_F_ 0 kInstFlagEvexKZ kInstFlagEvexSAE kInstFlagEvexB0) 416 1; (* #352 *)
  CD (kInstFlagWO .| A512 kInstFlagEvexSet_F_ 0 kInstFlagEvexKZ kInstFlagEvexSAE kInstFlagEvexB0) 417 1; (* #353 *)
  CD (kInstFlagWO .| kInstFlagVex) 317 1; (* #354 *)
  CD (kInstFlagWO .| A512 kInstFlagEvexSet_F_ 1 kInstFlagEvexKZ kInstFlagEvex0 kInstFlagEvexB0) 317 2; (* #355 *)
  CD (kInstFlagWO .| A512 kInstFlagEvexSet_DQ 0 kInstFlagEvexKZ kInstFlagEvex0 kInstFlagEvexB0) 442 1; (* #356 *)
  CD (kInstFlagWO .| A512 kInstFlagEvexSet_DQ 1 kInstFlagEvexKZ kInstFlagEvex0 kInstFlagEvexB0) 317 2; (* #357 *)
  CD (kInstFlagWO .| A512 kInstFlagEvexSet_F_ 0 kInstFlagEvexKZ kInstFlagEvex0 kInstFlagEvexB0) 442 1; (* #358 *)
  CD (kInstFlagWO .| kInstFlagVex .| A512 kInstFlagEvexSet_F_ 0 kInstFlagEvex0 kInstFlagEvex0 kInstFlagEvexB0) 443 1; (* #359 *)
  CD (kInstFlagWO .| kInstFlagVex) 200 2; (* #360 *)
  CD (kInstFlagRO .| kInstFlagVex .| kInstFlagVolatile) 387 1; (* #361 *)
  CD (kInstFlagRO .| kInstFlagVex .| kInstFlagSpecial) 444 1; (* #362 *)
  CD (kInstFlagRW .| kInstFlagVex) 127 4; (* #363 *)
  CD (kInstFlagRW .| kInstFlagVex) 127 4; (* #364 *)
  CD (kInstFlagWO .| kInstFlagVex .| A512 kInstFlagEvexSet_F_ 1 kInstFlagEvexKZ kInstFlagEvexSAE kInstFlagEvexB8) 161 3; (* #365 *)
  CD (kInstFlagWO .| kInstFlagVex .| A512 kInstFlagEvexSet_F_ 1 kInstFlagEvexKZ kInstFlagEvexSAE kInstFlagEvexB4) 161 3; (* #366 *)
  CD (kInstFlagWO .| kInstFlagVex .| A512 kInstFlagEvexSet_F_ 1 kInstFlagEvexKZ kInstFlagEvexSAE kInstFlagEvexB0) 421 1; (* #367 *)
  CD (kInstFlagWO .| kInstFlagVex .| A512 kInstFlagEvexSet_F_ 1 kInstFlagEvexKZ kInstFlagEvexSAE kInstFlagEvexB0) 422 1; (* #368 *)
  CD (kInstFlagWO .| kInstFlagVex .| A512 kInstFlagEvexSet_F_ 1 kInstFlagEvexKZ kInstFlagEvex0 kInstFlagEvexB0) 63 6; (* #369 *)
  CD (kInstFlagWO .| kInstFlagVex .| A512 kInstFlagEvexSet_F_ 1 kInstFlagEvexKZ kInstFlagEvex0 kInstFlagEvexB0) 63 6; (* #370 *)
  CD (kInstFlagWO .| kInstFlagVex .| A512 kInstFlagEvexSet_F_ 0 kInstFlagEvex0 kInstFlagEvex0 kInstFlagEvexB0) 319 2; (* #371 *)
  CD (kInstFlagWO .| kInstFlagVex .| A512 kInstFlagEvexSet_F_ 1 kInstFlagEvexKZ kInstFlagEvex0 kInstFlagEvexB0) 194 3; (* #372 *)
  CD (kInstFlagWO .| kInstFlagVex) 63 4; (* #373 *)
  CD (kInstFlagWO .| A512 kInstFlagEvexSet_F_ 1 kInstFlagEvexKZ kInstFlagEvex0 kInstFlagEvexB0) 63 6; (* #374 *)
  CD (kInstFlagWO .| A512 kInstFlagEvexSet_F_ 1 kInstFlagEvexKZ kInstFlagEvex0 kInstFlagEvexB0) 63 6; (* #375 *)
  CD (kInstFlagWO .| kInstFlagVex) 63 4; (* #376 *)
  CD (kInstFlagWO .| A512 kInstFlagEvexSet_BW 1 kInstFlagEvexKZ kInstFlagEvex0 kInstFlagEvexB0) 63 6; (* #377 *)
  CD (kInstFlagWO .| A512 kInstFlagEvexSet_F_ 1 kInstFlagEvexKZ kInstFlagEvex0 kInstFlagEvexB0) 63 6; (* #378 *)
  CD (kInstFlagWO .| A512 kInstFlagEvexSet_F_ 1 kInstFlagEvexKZ kInstFlagEvex0 kInstFlagEvexB0) 63 6; (* #379 *)
  CD (kInstFlagWO .| A512 kInstFlagEvexSet_BW 1 kInstFlagEvexKZ kInstFlagEvex0 kInstFlagEvexB0) 63 6; (* #380 *)
  CD (kInstFlagWO .| kInstFlagVex .| A512 kInstFlagEvexSet_F_ 0 kInstFlagEvex0 kInstFlagEvex0 kInstFlagEvexB0) 208 1; (* #381 *)
  CD (kInstFlagWO .| kInstFlagVex .| A512 kInstFlagEvexSet_F_ 0 kInstFlagEvex0 kInstFlagEvex0 kInstFlagEvexB0) 321 2; (* #382 *)
  CD (kInstFlagWO .| kInstFlagVex .| A512 kInstFlagEvexSet_F_ 0 kInstFlagEvex0 kInstFlagEvex0 kInstFlagEvexB0) 321 2; (* #383 *)
  CD (kInstFlagWO .| kInstFlagVex .| A512 kInstFlagEvexSet_F_ 0 kInstFlagEvex0 kInstFlagEvex0 kInstFlagEvexB0) 321 2; (* #384 *)
  CD (kInstFlagWO .| kInstFlagVex .| A512 kInstFlagEvexSet_F_ 0 kInstFlagEvex0 kInstFlagEvex0 kInstFlagEvexB0) 321 2; (* #385 *)
  CD (kInstFlagWO .| kInstFlagVex) 445 1; (* #386 *)
  CD (kInstFlagWO .| kInstFlagVex .| A512 kInstFlagEvexSet_F_ 1 kInstFlagEvex0 kInstFlagEvex0 kInstFlagEvexB0) 197 3; (* #387 *)
  CD (kInstFlagWO .| kInstFlagVex .| A512 kInstFlagEvexSet_F_ 1 kInstFlagEvex0 kInstFlagEvex0 kInstFlagEvexB0) 200 3; (* #388 *)
  CD (kInstFlagWO .| kInstFlagVex .| A512 kInstFlagEvexSet_F_ 0 kInstFlagEvex0 kInstFlagEvex0 kInstFlagEvexB0) 203 3; (* #389 *)
  CD (kInstFlagWO .| kInstFlagVex .| A512 kInstFlagEvexSet_F_ 0 kInstFlagEvexKZ kInstFlagEvex0 kInstFlagEvexB0) 206 3; (* #390 *)
  CD (kInstFlagWO .| kInstFlagVex .| A512 kInstFlagEvexSet_F_ 1 kInstFlagEvexKZ kInstFlagEvex0 kInstFlagEvexB0) 176 3; (* #391 *)
  CD (kInstFlagWO .| kInstFlagVex .| A512 kInstFlagEvexSet_F_ 0 kInstFlagEvexKZ kInstFlagEvex0 kInstFlagEvexB0) 209 3; (* #392 *)
  CD (kInstFlagWO .| kInstFlagVex .| A512 kInstFlagEvexSet_F_ 1 kInstFlagEvexKZ kInstFlagEvex0 kInstFlagEvexB0) 63 6; (* #393 *)
  CD (kInstFlagWO .| kInstFlagVex .| A512 kInstFlagEvexSet_F_ 1 kInstFlagEvexKZ kInstFlagEvex0 kInstFlagEvexB0) 63 6; (* #394 *)
  CD (kInstFlagWO .| kInstFlagVex .| A512 kInstFlagEvexSet_F_ 1 kInstFlagEvexKZ kInstFlagEvex0 kInstFlagEvexB4) 161 3; (* #395 *)
  CD (kInstFlagWO .| kInstFlagVex .| A512 kInstFlagEvexSet_BW 1 kInstFlagEvexKZ kInstFlagEvex0 kInstFlagEvexB0) 176 3; (* #396 *)
  CD (kInstFlagWO .| kInstFlagVex .| A512 kInstFlagEvexSet_BW 1 kInstFlagEvexKZ kInstFlagEvex0 kInstFlagEvexB4) 161 3; (* #397 *)
  CD (kInstFlagWO .| kInstFlagVex .| A512 kInstFlagEvexSet_BW 1 kInstFlagEvexKZ kInstFlagEvex0 kInstFlagEvexB0) 161 3; (* #398 *)
  CD (kInstFlagWO .| kInstFlagVex .| A512 kInstFlagEvexSet_F_ 1 kInstFlagEvexKZ kInstFlagEvex0 kInstFlagEvexB8) 161 3; (* #399 *)
  CD (kInstFlagWO .| kInstFlagVex .| A512 kInstFlagEvexSet_BW 1 kInstFlagEvexKZ kInstFlagEvex0 kInstFlagEvexB0) 164 3; (* #400 *)
  CD (kInstFlagWO .| kInstFlagVex .| A512 kInstFlagEvexSet_BW 1 kInstFlagEvexKZ kInstFlagEvex0 kInstFlagEvexB0) 323 2; (* #401 *)
  CD (kInstFlagWO .| kInstFlagVex .| A512 kInstFlagEvexSet_F_ 1 kInstFlagEvexKZ kInstFlagEvex0 kInstFlagEvexB0) 325 2; (* #402 *)
  CD (kInstFlagWO .| A512 kInstFlagEvexSet_CDI 1 kInstFlagEvex0 kInstFlagEvex0 kInstFlagEvexB0) 446 1; (* #403 *)
  CD (kInstFlagWO .| kInstFlagVex .| A512 kInstFlagEvexSet_F_ 1 kInstFlagEvexKZ kInstFlagEvex0 kInstFlagEvexB0) 447 1; (* #404 *)
  CD (kInstFlagWO .| kInstFlagVex .| A512 kInstFlagEvexSet_BW 1 kInstFlagEvexKZ kInstFlagEvex0 kInstFlagEvexB0) 327 2; (* #405 *)
  CD (kInstFlagWO .| kInstFlagVex) 164 1; (* #406 *)
  CD (kInstFlagWO .| A512 kInstFlagEvexSet_BW 1 kInstFlagEvexK_ kInstFlagEvex0 kInstFlagEvexB0) 212 3; (* #407 *)
  CD (kInstFlagWO .| A512 kInstFlagEvexSet_F_ 1 kInstFlagEvexK_ kInstFlagEvex0 kInstFlagEvexB4) 212 3; (* #408 *)
  CD (kInstFlagWO .| kInstFlagVex .| A512 kInstFlagEvexSet_BW 1 kInstFlagEvexK_ kInstFlagEvex0 kInstFlagEvexB0) 215 3; (* #409 *)
  CD (kInstFlagWO .| kInstFlagVex .| A512 kInstFlagEvexSet_F_ 1 kInstFlagEvexK_ kInstFlagEvex0 kInstFlagEvexB4) 215 3; (* #410 *)
  CD (kInstFlagWO .| kInstFlagVex .| A512 kInstFlagEvexSet_F_ 1 kInstFlagEvexK_ kInstFlagEvex0 kInstFlagEvexB8) 215 3; (* #411 *)
  CD (kInstFlagWO .| kInstFlagVex .| kInstFlagSpecial) 397 1; (* #412 *)
  CD (kInstFlagWO .| kInstFlagVex .| kInstFlagSpecial) 398 1; (* #413 *)
  CD (kInstFlagWO .| kInstFlagVex .| kInstFlagSpecial) 399 1; (* #414 *)
  CD (kInstFlagWO .| kInstFlagVex .| kInstFlagSpecial) 400 1; (* #415 *)
  CD (kInstFlagWO .| A512 kInstFlagEvexSet_F_ 1 kInstFlagEvexK_ kInstFlagEvex0 kInstFlagEvexB8) 212 3; (* #416 *)
  CD (kInstFlagWO .| A512 kInstFlagEvexSet_BW 1 kInstFlagEvexK_ kInstFlagEvex0 kInstFlagEvexB8) 212 3; (* #417 *)
  CD (kInstFlagWO .| A512 kInstFlagEvexSet_CDI 1 kInstFlagEvexKZ kInstFlagEvex0 kInstFlagEvexB4) 176 3; (* #418 *)
  CD (kInstFlagWO .| kInstFlagVex) 165 1; (* #419 *)
  CD (kInstFlagWO .| A512 kInstFlagEvexSet_VBMI 1 kInstFlagEvexKZ kInstFlagEvex0 kInstFlagEvexB0) 161 3; (* #420 *)
  CD (kInstFlagWO .| kInstFlagVex .| A512 kInstFlagEvexSet_F_ 1 kInstFlagEvexKZ kInstFlagEvex0 kInstFlagEvexB4) 136 2; (* #421 *)
  CD (kInstFlagRW .| A512 kInstFlagEvexSet_F_ 1 kInstFlagEvexKZ kInstFlagEvex0 kInstFlagEvexB4) 188 3; (* #422 *)
  CD (kInstFlagRW .| A512 kInstFlagEvexSet_F_ 1 kInstFlagEvexKZ kInstFlagEvex0 kInstFlagEvexB8) 188 3; (* #423 *)
  CD (kInstFlagRW .| A512 kInstFlagEvexSet_BW 1 kInstFlagEvexKZ kInstFlagEvex0 kInstFlagEvexB0) 188 3; (* #424 *)
  CD (kInstFlagWO .| kInstFlagVex) 131 4; (* #425 *)
  CD (kInstFlagWO .| kInstFlagVex .| A512 kInstFlagEvexSet_F_ 1 kInstFlagEvexKZ kInstFlagEvex0 kInstFlagEvexB8) 69 6; (* #426 *)
  CD (kInstFlagWO .| kInstFlagVex .| A512 kInstFlagEvexSet_F_ 1 kInstFlagEvexKZ kInstFlagEvex0 kInstFlagEvexB8) 69 6; (* #427 *)
  CD (kInstFlagWO .| kInstFlagVex) 72 1; (* #428 *)
  CD (kInstFlagWO .| kInstFlagVex) 71 1; (* #429 *)
  CD (kInstFlagWO .| kInstFlagVex .| A512 kInstFlagEvexSet_F_ 1 kInstFlagEvexKZ kInstFlagEvex0 kInstFlagEvexB8) 135 4; (* #430 *)
  CD (kInstFlagWO .| kInstFlagVex .| A512 kInstFlagEvexSet_BW 0 kInstFlagEvex0 kInstFlagEvex0 kInstFlagEvexB0) 401 1; (* #431 *)
  CD (kInstFlagWO .| kInstFlagVex .| A512 kInstFlagEvexSet_DQ 0 kInstFlagEvex0 kInstFlagEvex0 kInstFlagEvexB0) 370 1; (* #432 *)
  CD (kInstFlagWO .| kInstFlagVex .| A512 kInstFlagEvexSet_DQ 0 kInstFlagEvex0 kInstFlagEvex0 kInstFlagEvexB0) 402 1; (* #433 *)
  CD (kInstFlagWO .| kInstFlagVex .| A512 kInstFlagEvexSet_BW 0 kInstFlagEvex0 kInstFlagEvex0 kInstFlagEvexB0) 292 1; (* #434 *)
  CD (kInstFlagRW .| kInstFlagVex_VM .| A512 kInstFlagEvexSet_F_ 1 kInstFlagEvexK_ kInstFlagEvex0 kInstFlagEvexB0) 97 5; (* #435 *)
  CD (kInstFlagRW .| kInstFlagVex_VM .| A512 kInstFlagEvexSet_F_ 1 kInstFlagEvexK_ kInstFlagEvex0 kInstFlagEvexB0) 92 5; (* #436 *)
  CD (kInstFlagRW .| kInstFlagVex_VM .| A512 kInstFlagEvexSet_F_ 1 kInstFlagEvexK_ kInstFlagEvex0 kInstFlagEvexB0) 123 4; (* #437 *)
  CD (kInstFlagRW .| kInstFlagVex_VM .| A512 kInstFlagEvexSet_F_ 1 kInstFlagEvexK_ kInstFlagEvex0 kInstFlagEvexB0) 102 5; (* #438 *)
  CD (kInstFlagWO .| kInstFlagVex .| A512 kInstFlagEvexSet_BW 0 kInstFlagEvexKZ kInstFlagEvex0 kInstFlagEvexB0) 329 2; (* #439 *)
  CD (kInstFlagWO .| kInstFlagVex .| A512 kInstFlagEvexSet_DQ 0 kInstFlagEvexKZ kInstFlagEvex0 kInstFlagEvexB0) 331 2; (* #440 *)
  CD (kInstFlagWO .| kInstFlagVex .| A512 kInstFlagEvexSet_DQ 0 kInstFlagEvexKZ kInstFlagEvex0 kInstFlagEvexB0) 333 2; (* #441 *)
  CD (kInstFlagWO .| kInstFlagVex .| A512 kInstFlagEvexSet_BW 0 kInstFlagEvexKZ kInstFlagEvex0 kInstFlagEvexB0) 448 1; (* #442 *)
  CD (kInstFlagWO .| A512 kInstFlagEvexSet_CDI 1 kInstFlagEvexKZ kInstFlagEvex0 kInstFlagEvexB8) 176 3; (* #443 *)
  CD (kInstFlagWO .| kInstFlagVex) 120 1; (* #444 *)
  CD (kInstFlagWO .| A512 kInstFlagEvexSet_IFMA 1 kInstFlagEvexKZ kInstFlagEvex0 kInstFlagEvexB8) 161 3; (* #445 *)
  CD (kInstFlagWO .| kInstFlagVex) 127 4; (* #446 *)
  CD (kInstFlagWO .| kInstFlagVex) 127 4; (* #447 *)
  CD (kInstFlagWO .| A512 kInstFlagEvexSet_BW 1 kInstFlagEvex0 kInstFlagEvex0 kInstFlagEvexB0) 449 1; (* #448 *)
  CD (kInstFlagWO .| A512 kInstFlagEvexSet_DQ 1 kInstFlagEvex0 kInstFlagEvex0 kInstFlagEvexB0) 449 1; (* #449 *)
  CD (kInstFlagWO .| A512 kInstFlagEvexSet_F_ 1 kInstFlagEvexKZ kInstFlagEvex0 kInstFlagEvexB0) 218 3; (* #450 *)
  CD (kInstFlagWO .| A512 kInstFlagEvexSet_F_ 1 kInstFlagEvexKZ kInstFlagEvex0 kInstFlagEvexB0) 221 3; (* #451 *)
  CD (kInstFlagWO .| A512 kInstFlagEvexSet_BW 1 kInstFlagEvex0 kInstFlagEvex0 kInstFlagEvexB0) 446 1; (* #452 *)
  CD (kInstFlagWO .| A512 kInstFlagEvexSet_DQ 1 kInstFlagEvex0 kInstFlagEvex0 kInstFlagEvexB0) 446 1; (* #453 *)
  CD (kInstFlagWO .| A512 kInstFlagEvexSet_F_ 1 kInstFlagEvexKZ kInstFlagEvex0 kInstFlagEvexB0) 224 3; (* #454 *)
  CD (kInstFlagWO .| A512 kInstFlagEvexSet_BW 1 kInstFlagEvexKZ kInstFlagEvex0 kInstFlagEvexB0) 221 3; (* #455 *)
  CD (kInstFlagWO .| kInstFlagVex .| A512 kInstFlagEvexSet_F_ 1 kInstFlagEvexKZ kInstFlagEvex0 kInstFlagEvexB0) 227 3; (* #456 *)
  CD (kInstFlagWO .| kInstFlagVex .| A512 kInstFlagEvexSet_F_ 1 kInstFlagEvexKZ kInstFlagEvex0 kInstFlagEvexB0) 230 3; (* #457 *)
  CD (kInstFlagWO .| kInstFlagVex .| A512 kInstFlagEvexSet_BW 1 kInstFlagEvexKZ kInstFlagEvex0 kInstFlagEvexB0) 173 3; (* #458 *)
  CD (kInstFlagWO .| kInstFlagVex .| A512 kInstFlagEvexSet_F_ 1 kInstFlagEvexKZ kInstFlagEvex0 kInstFlagEvexB0) 233 3; (* #459 *)
  CD (kInstFlagWO .| kInstFlagVex .| A512 kInstFlagEvexSet_F_ 1 kInstFlagEvexKZ kInstFlagEvex0 kInstFlagEvexB0) 173 3; (* #460 *)
  CD (kInstFlagWO .| A512 kInstFlagEvexSet_DQ 1 kInstFlagEvexKZ kInstFlagEvex0 kInstFlagEvexB8) 161 3; (* #461 *)
  CD (kInstFlagWO .| A512 kInstFlagEvexSet_VBMI 1 kInstFlagEvexKZ kInstFlagEvex0 kInstFlagEvexB8) 161 3; (* #462 *)
  CD (kInstFlagWO .| kInstFlagVex) 119 2; (* #463 *)
  CD (kInstFlagWO .| A512 kInstFlagEvexSet_F_ 1 kInstFlagEvexKZ kInstFlagEvex0 kInstFlagEvexB4) 191 3; (* #464 *)
  CD (kInstFlagWO .| A512 kInstFlagEvexSet_F_ 1 kInstFlagEvexKZ kInstFlagEvex0 kInstFlagEvexB8) 191 3; (* #465 *)
  CD (kInstFlagWO .| kInstFlagVex) 335 2; (* #466 *)
  CD (kInstFlagWO .| kInstFlagVex) 335 2; (* #467 *)
  CD (kInstFlagWO .| kInstFlagVex) 335 2; (* #468 *)
  CD (kInstFlagWO .| kInstFlagVex) 335 2; (* #469 *)
  CD (kInstFlagWO .| kInstFlagVex .| A512 kInstFlagEvexSet_BW 1 kInstFlagEvex0 kInstFlagEvex0 kInstFlagEvexB0) 161 3; (* #470 *)
  CD (kInstFlagWO .| kInstFlagVM .| A512 kInstFlagEvexSet_F_ 1 kInstFlagEvexK_ kInstFlagEvex0 kInstFlagEvexB0) 236 3; (* #471 *)
  CD (kInstFlagWO .| kInstFlagVM .| A512 kInstFlagEvexSet_F_ 1 kInstFlagEvexK_ kInstFlagEvex0 kInstFlagEvexB0) 337 2; (* #472 *)
  CD (kInstFlagWO .| kInstFlagVM .| A512 kInstFlagEvexSet_F_ 1 kInstFlagEvexK_ kInstFlagEvex0 kInstFlagEvexB0) 239 3; (* #473 *)
  CD (kInstFlagWO .| kInstFlagVex) 339 2; (* #474 *)
  CD (kInstFlagWO .| kInstFlagVex .| A512 kInstFlagEvexSet_F_ 1 kInstFlagEvexKZ kInstFlagEvex0 kInstFlagEvexB4) 191 3; (* #475 *)
  CD (kInstFlagWO .| kInstFlagVex .| A512 kInstFlagEvexSet_BW 1 kInstFlagEvexKZ kInstFlagEvex0 kInstFlagEvexB0) 191 3; (* #476 *)
  CD (kInstFlagWO .| kInstFlagVex .| A512 kInstFlagEvexSet_F_ 1 kInstFlagEvexKZ kInstFlagEvex0 kInstFlagEvexB4) 75 6; (* #477 *)
  CD (kInstFlagWO .| kInstFlagVex .| A512 kInstFlagEvexSet_BW 1 kInstFlagEvex0 kInstFlagEvex0 kInstFlagEvexB0) 191 3; (* #478 *)
  CD (kInstFlagWO .| kInstFlagVex .| A512 kInstFlagEvexSet_F_ 1 kInstFlagEvexKZ kInstFlagEvex0 kInstFlagEvexB8) 75 6; (* #479 *)
  CD (kInstFlagWO .| kInstFlagVex .| A512 kInstFlagEvexSet_BW 1 kInstFlagEvexKZ kInstFlagEvex0 kInstFlagEvexB0) 75 6; (* #480 *)
  CD (kInstFlagWO .| kInstFlagVex .| A512 kInstFlagEvexSet_F_ 1 kInstFlagEvexKZ kInstFlagEvex0 kInstFlagEvexB4) 75 6; (* #481 *)
  CD (kInstFlagWO .| A512 kInstFlagEvexSet_F_ 1 kInstFlagEvexKZ kInstFlagEvex0 kInstFlagEvexB8) 81 6; (* #482 *)
  CD (kInstFlagWO .| kInstFlagVex .| A512 kInstFlagEvexSet_BW 1 kInstFlagEvexKZ kInstFlagEvex0 kInstFlagEvexB0) 75 6; (* #483 *)
  CD (kInstFlagWO .| kInstFlagVex .| A512 kInstFlagEvexSet_F_ 1 kInstFlagEvexKZ kInstFlagEvex0 kInstFlagEvexB4) 75 6; (* #484 *)
  CD (kInstFlagWO .| kInstFlagVex .| A512 kInstFlagEvexSet_F_ 1 kInstFlagEvexKZ kInstFlagEvex0 kInstFlagEvexB8) 75 6; (* #485 *)
  CD (kInstFlagWO .| kInstFlagVex .| A512 kInstFlagEvexSet_BW 1 kInstFlagEvexKZ kInstFlagEvex0 kInstFlagEvexB0) 75 6; (* #486 *)
  CD (kInstFlagRW .| A512 kInstFlagEvexSet_F_ 1 kInstFlagEvexKZ kInstFlagEvex0 kInstFlagEvexB4) 185 3; (* #487 *)
  CD (kInstFlagRW .| A512 kInstFlagEvexSet_F_ 1 kInstFlagEvexKZ kInstFlagEvex0 kInstFlagEvexB8) 185 3; (* #488 *)
  CD (kInstFlagRO .| kInstFlagVex) 341 2; (* #489 *)
  CD (kInstFlagWO .| A512 kInstFlagEvexSet_BW 1 kInstFlagEvexK_ kInstFlagEvex0 kInstFlagEvexB0) 242 3; (* #490 *)
  CD (kInstFlagWO .| A512 kInstFlagEvexSet_F_ 1 kInstFlagEvexK_ kInstFlagEvex0 kInstFlagEvexB4) 242 3; (* #491 *)
  CD (kInstFlagWO .| A512 kInstFlagEvexSet_F_ 1 kInstFlagEvexK_ kInstFlagEvex0 kInstFlagEvexB8) 242 3; (* #492 *)
  CD (kInstFlagWO .| A512 kInstFlagEvexSet_DQ 1 kInstFlagEvexKZ kInstFlagEvexSAE kInstFlagEvexB8) 164 3; (* #493 *)
  CD (kInstFlagWO .| A512 kInstFlagEvexSet_DQ 1 kInstFlagEvexKZ kInstFlagEvexSAE kInstFlagEvexB4) 164 3; (* #494 *)
  CD (kInstFlagWO .| A512 kInstFlagEvexSet_DQ 0 kInstFlagEvexKZ kInstFlagEvexSAE kInstFlagEvexB0) 450 1; (* #495 *)
  CD (kInstFlagWO .| A512 kInstFlagEvexSet_DQ 0 kInstFlagEvexKZ kInstFlagEvexSAE kInstFlagEvexB0) 443 1; (* #496 *)
  CD (kInstFlagWO .| A512 kInstFlagEvexSet_F_ 1 kInstFlagEvexKZ kInstFlagEvex0 kInstFlagEvexB8) 176 3; (* #497 *)
  CD (kInstFlagWO .| A512 kInstFlagEvexSet_F_ 1 kInstFlagEvexKZ kInstFlagEvex0 kInstFlagEvexB4) 176 3; (* #498 *)
  CD (kInstFlagWO .| A512 kInstFlagEvexSet_F_ 0 kInstFlagEvexKZ kInstFlagEvex0 kInstFlagEvexB0) 421 1; (* #499 *)
  CD (kInstFlagWO .| A512 kInstFlagEvexSet_F_ 0 kInstFlagEvexKZ kInstFlagEvex0 kInstFlagEvexB0) 422 1; (* #500 *)
  CD (kInstFlagWO .| A512 kInstFlagEvexSet_ERI 0 kInstFlagEvexKZ kInstFlagEvexSAE kInstFlagEvexB0) 421 1; (* #501 *)
  CD (kInstFlagWO .| A512 kInstFlagEvexSet_ERI 0 kInstFlagEvexKZ kInstFlagEvexSAE kInstFlagEvexB0) 422 1; (* #502 *)
  CD (kInstFlagWO .| kInstFlagVex) 422 1; (* #503 *)
  CD (kInstFlagWO .| A512 kInstFlagEvexSet_DQ 1 kInstFlagEvexKZ kInstFlagEvex0 kInstFlagEvexB8) 191 3; (* #504 *)
  CD (kInstFlagWO .| A512 kInstFlagEvexSet_DQ 1 kInstFlagEvexKZ kInstFlagEvex0 kInstFlagEvexB4) 191 3; (* #505 *)
  CD (kInstFlagWO .| A512 kInstFlagEvexSet_DQ 0 kInstFlagEvexKZ kInstFlagEvex0 kInstFlagEvexB0) 450 1; (* #506 *)
  CD (kInstFlagWO .| A512 kInstFlagEvexSet_DQ 0 kInstFlagEvexKZ kInstFlagEvex0 kInstFlagEvexB0) 443 1; (* #507 *)
  CD (kInstFlagWO .| A512 kInstFlagEvexSet_F_ 0 kInstFlagEvexKZ kInstFlagEvexSAE kInstFlagEvexB0) 450 1; (* #508 *)
  CD (kInstFlagWO .| A512 kInstFlagEvexSet_F_ 0 kInstFlagEvexKZ kInstFlagEvexSAE kInstFlagEvexB0) 443 1; (* #509 *)
  CD (kInstFlagWO .| kInstFlagVex) 77 2; (* #510 *)
  CD (kInstFlagWO .| kInstFlagVex) 450 1; (* #511 *)
  CD (kInstFlagWO .| kInstFlagVex) 443 1; (* #512 *)
  CD (kInstFlagWO .| A512 kInstFlagEvexSet_F_ 1 kInstFlagEvexKZ kInstFlagEvexER kInstFlagEvexB8) 161 3; (* #513 *)
  CD (kInstFlagWO .| A512 kInstFlagEvexSet_F_ 1 kInstFlagEvexKZ kInstFlagEvexER kInstFlagEvexB4) 161 3; (* #514 *)
  CD (kInstFlagWO .| A512 kInstFlagEvexSet_F_ 0 kInstFlagEvexKZ kInstFlagEvexER kInstFlagEvexB0) 421 1; (* #515 *)
  CD (kInstFlagWO .| A512 kInstFlagEvexSet_F_ 0 kInstFlagEvexKZ kInstFlagEvexER kInstFlagEvexB0) 422 1; (* #516 *)
  CD (kInstFlagWO .| kInstFlagVM .| A512 kInstFlagEvexSet_F_ 1 kInstFlagEvexK_ kInstFlagEvex0 kInstFlagEvexB0) 343 2; (* #517 *)
  CD (kInstFlagWO .| A512 kInstFlagEvexSet_F_ 1 kInstFlagEvexKZ kInstFlagEvex0 kInstFlagEvexB4) 165 2; (* #518 *)
  CD (kInstFlagWO .| A512 kInstFlagEvexSet_F_ 1 kInstFlagEvexKZ kInstFlagEvex0 kInstFlagEvexB8) 165 2; (* #519 *)
  CD (kInstFlagWO .| kInstFlagVex .| A512 kInstFlagEvexSet_F_ 1 kInstFlagEvexKZ kInstFlagEvex0 kInstFlagEvexB4) 164 3; (* #520 *)
  CD (kInstFlagWO .| kInstFlagVex .| A512 kInstFlagEvexSet_F_ 1 kInstFlagEvexKZ kInstFlagEvex0 kInstFlagEvexB8) 164 3; (* #521 *)
  CD (kInstFlagWO .| kInstFlagVex .| A512 kInstFlagEvexSet_F_ 1 kInstFlagEvexKZ kInstFlagEvexER kInstFlagEvexB8) 176 3; (* #522 *)
  CD (kInstFlagVex .| kInstFlagVolatile) 420 1; (* #523 *)
  CD (kInstFlagVex .| kInstFlagVolatile) 259 1; (* #524 *)
  CD (kInstFlagRO .| kInstFlagVolatile) 451 1; (* #525 *)
  CD (kInstFlagRW .| kInstFlagXchg .| kInstFlagLock) 139 4; (* #526 *)
  CD (kInstFlagRW .| kInstFlagXchg .| kInstFlagLock) 43 8; (* #527 *)
  CD (kInstFlagWO .| kInstFlagSpecial) 452 1; (* #528 *)
  CD (kInstFlagRO .| kInstFlagVolatile .| kInstFlagSpecial) 453 1; (* #529 *)
  CD (kInstFlagRO .| kInstFlagVolatile .| kInstFlagSpecial) 454 1; (* #530 *)
  CD (kInstFlagWO .| kInstFlagVolatile .| kInstFlagSpecial) 453 1; (* #531 *)
  CD (kInstFlagWO .| kInstFlagVolatile .| kInstFlagSpecial) 454 1; (* #532 *)
  CD (kInstFlagRO .| kInstFlagVolatile .| kInstFlagSpecial) 455 1 (* #533 *)
].

(** ** The name index *)

(** The pieces of the string literal [X86InstDB::nameData]; in the source
    each piece but the last ends in an explicit NUL and the literal's own
    terminator closes the last one. *)
Open Scope string_scope.
Definition nameDataPieces : list string := [
  EmptyString; "adc"; "adcx"; "adox"; "bextr"; "blcfill"; "blci"; "blcic"; "blcmsk";
  "blcs"; "blsfill"; "blsi"; "blsic"; "blsmsk"; "blsr"; "bsf"; "bsr";
  "bswap"; "bt"; "btc"; "btr"; "bts"; "bzhi"; "call"; "cbw"; "cdq"; "cdqe";
  "clac"; "clc"; "cld"; "clflush"; "clflushopt"; "clwb"; "clzero"; "cmc";
  "cmova"; "cmovae"; "cmovc"; "cmovg"; "cmovge"; "cmovl"; "cmovle"; "cmovna";
  "cmovnae"; "cmovnc"; "cmovng"; "cmovnge"; "cmovnl"; "cmovnle"; "cmovno";
  "cmovnp"; "cmovns"; "cmovnz"; "cmovo"; "cmovp"; "cmovpe"; "cmovpo";
  "cmovs"; "cmovz"; "cmp"; "cmpxchg"; "cmpxchg16b"; "cmpxchg8b"; "cpuid";
  "cqo"; "crc32"; "cvtpd2pi"; "cvtpi2pd"; "cvtpi2ps"; "cvtps2pi";
  "cvttpd2pi"; "cvttps2pi"; "cwd"; "cwde"; "daa"; "das"; "enter"; "f2xm1";
  "fabs"; "faddp"; "fbld"; "fbstp"; "fchs"; "fclex"; "fcmovb"; "fcmovbe";
  "fcmove"; "fcmovnb"; "fcmovnbe"; "fcmovne"; "fcmovnu"; "fcmovu"; "fcom";
  "fcomi"; "fcomip"; "fcomp"; "fcompp"; "fcos"; "fdecstp"; "fdiv"; "fdivp";
  "fdivr"; "fdivrp"; "femms"; "ffree"; "fiadd"; "ficom"; "ficomp"; "fidiv";
  "fidivr"; "fild"; "fimul"; "fincstp"; "finit"; "fist"; "fistp"; "fisttp";
  "fisub"; "fisubr"; "fld"; "fld1"; "fldcw"; "fldenv"; "fldl2e"; "fldl2t";
  "fldlg2"; "fldln2"; "fldpi"; "fldz"; "fmulp"; "fnclex"; "fninit"; "fnop";
  "fnsave"; "fnstcw"; "fnstenv"; "fnstsw"; "fpatan"; "fprem"; "fprem1";
  "fptan"; "frndint"; "frstor"; "fsave"; "fscale"; "fsin"; "fsincos";
  "fsqrt"; "fst"; "fstcw"; "fstenv"; "fstp"; "fstsw"; "fsubp"; "fsubrp";
  "ftst"; "fucom"; "fucomi"; "fucomip"; "fucomp"; "fucompp"; "fwait"; "fxam";
  "fxch"; "fxrstor"; "fxrstor64"; "fxsave"; "fxsave64"; "fxtract"; "fyl2x";
  "fyl2xp1"; "inc"; "insertq"; "int3"; "into"; "ja"; "jae"; "jb"; "jbe";
  "jc"; "je"; "jecxz"; "jg"; "jge"; "jl"; "jle"; "jmp"; "jna"; "jnae"; "jnb";
  "jnbe"; "jnc"; "jne"; "jng"; "jnge"; "jnl"; "jnle"; "jno"; "jnp"; "jns";
  "jnz"; "jo"; "jp"; "jpe"; "jpo"; "js"; "jz"; "kaddb"; "kaddd"; "kaddq";
  "kaddw"; "kandb"; "kandd"; "kandnb"; "kandnd"; "kandnq"; "kandnw"; "kandq";
  "kandw"; "kmovb"; "kmovw"; "knotb"; "knotd"; "knotq"; "knotw"; "korb";
  "kord"; "korq"; "kortestb"; "kortestd"; "kortestq"; "kortestw"; "korw";
  "kshiftlb"; "kshiftld"; "kshiftlq"; "kshiftlw"; "kshiftrb"; "kshiftrd";
  "kshiftrq"; "kshiftrw"; "ktestb"; "ktestd"; "ktestq"; "ktestw"; "kunpckbw";
  "kunpckdq"; "kunpckwd"; "kxnorb"; "kxnord"; "kxnorq"; "kxnorw"; "kxorb";
  "kxord"; "kxorq"; "kxorw"; "lahf"; "lea"; "leave"; "lfence"; "lzcnt";
  "mfence"; "monitor"; "movdq2q"; "movnti"; "movntq"; "movntsd"; "movntss";
  "movq2dq"; "movsx"; "movsxd"; "movzx"; "mulx"; "mwait"; "neg"; "not";
  "pause"; "pavgusb"; "pcommit"; "pdep"; "pext"; "pf2id"; "pf2iw"; "pfacc";
  "pfadd"; "pfcmpeq"; "pfcmpge"; "pfcmpgt"; "pfmax"; "pfmin"; "pfmul";
  "pfnacc"; "pfpnacc"; "pfrcp"; "pfrcpit1"; "pfrcpit2"; "pfrcpv"; "pfrsqit1";
  "pfrsqrt"; "pfrsqrtv"; "pfsub"; "pfsubr"; "pi2fd"; "pi2fw"; "pmulhrw";
  "pop"; "popa"; "popcnt"; "popf"; "prefetch"; "prefetch3dnow"; "prefetchw";
  "prefetchwt1"; "pshufw"; "pswapd"; "push"; "pusha"; "pushf"; "rcl"; "rcr";
  "rdfsbase"; "rdgsbase"; "rdrand"; "rdseed"; "rdtsc"; "rdtscp";
  "rep lods_b"; "rep lods_d"; "rep lods_q"; "rep lods_w"; "rep movs_b";
  "rep movs_d"; "rep movs_q"; "rep movs_w"; "rep stos_b"; "rep stos_d";
  "rep stos_q"; "rep stos_w"; "repe cmps_b"; "repe cmps_d"; "repe cmps_q";
  "repe cmps_w"; "repe scas_b"; "repe scas_d"; "repe scas_q"; "repe scas_w";
  "repne cmps_b"; "repne cmps_d"; "repne cmps_q"; "repne cmps_w";
  "repne scas_b"; "repne scas_d"; "repne scas_q"; "repne scas_w"; "ret";
  "rol"; "ror"; "rorx"; "sahf"; "sal"; "sar"; "sarx"; "sbb"; "seta"; "setae";
  "setb"; "setbe"; "setc"; "sete"; "setg"; "setge"; "setl"; "setle"; "setna";
  "setnae"; "setnb"; "setnbe"; "setnc"; "setne"; "setng"; "setnge"; "setnl";
  "setnle"; "setno"; "setnp"; "setns"; "setnz"; "seto"; "setp"; "setpe";
  "setpo"; "sets"; "setz"; "sfence"; "sha1msg1"; "sha1msg2"; "sha1nexte";
  "sha1rnds4"; "sha256msg1"; "sha256msg2"; "sha256rnds2"; "shl"; "shlx";
  "shr"; "shrd"; "shrx"; "stac"; "stc"; "sti"; "t1mskc"; "tzcnt"; "tzmsk";
  "ud2"; "vaddpd"; "vaddps"; "vaddsd"; "vaddss"; "vaddsubpd"; "vaddsubps";
  "vaesdec"; "vaesdeclast"; "vaesenc"; "vaesenclast"; "vaesimc";
  "vaeskeygenassist"; "valignd"; "valignq"; "vandnpd"; "vandnps"; "vandpd";
  "vandps"; "vblendmb"; "vblendmd"; "vblendmpd"; "vblendmps"; "vblendmq";
  "vblendmw"; "vblendpd"; "vblendps"; "vblendvpd"; "vblendvps";
  "vbroadcastf128"; "vbroadcastf32x2"; "vbroadcastf32x4"; "vbroadcastf32x8";
  "vbroadcastf64x2"; "vbroadcastf64x4"; "vbroadcasti128"; "vbroadcasti32x2";
  "vbroadcasti32x4"; "vbroadcasti32x8"; "vbroadcasti64x2"; "vbroadcasti64x4";
  "vbroadcastsd"; "vbroadcastss"; "vcmppd"; "vcmpps"; "vcmpsd"; "vcmpss";
  "vcomisd"; "vcomiss"; "vcompresspd"; "vcompressps"; "vcvtdq2pd";
  "vcvtdq2ps"; "vcvtpd2dq"; "vcvtpd2ps"; "vcvtpd2qq"; "vcvtpd2udq";
  "vcvtpd2uqq"; "vcvtph2ps"; "vcvtps2dq"; "vcvtps2pd"; "vcvtps2ph";
  "vcvtps2qq"; "vcvtps2udq"; "vcvtps2uqq"; "vcvtqq2pd"; "vcvtqq2ps";
  "vcvtsd2si"; "vcvtsd2ss"; "vcvtsd2usi"; "vcvtsi2sd"; "vcvtsi2ss";
  "vcvtss2sd"; "vcvtss2si"; "vcvtss2usi"; "vcvttpd2dq"; "vcvttpd2qq";
  "vcvttpd2udq"; "vcvttpd2uqq"; "vcvttps2dq"; "vcvttps2qq"; "vcvttps2udq";
  "vcvttps2uqq"; "vcvttsd2si"; "vcvttsd2usi"; "vcvttss2si"; "vcvttss2usi";
  "vcvtudq2pd"; "vcvtudq2ps"; "vcvtuqq2pd"; "vcvtuqq2ps"; "vcvtusi2sd";
  "vcvtusi2ss"; "vdbpsadbw"; "vdivpd"; "vdivps"; "vdivsd"; "vdivss"; "vdppd";
  "vdpps"; "vexp2pd"; "vexp2ps"; "vexpandpd"; "vexpandps"; "vextractf128";
  "vextractf32x4"; "vextractf32x8"; "vextractf64x2"; "vextractf64x4";
  "vextracti128"; "vextracti32x4"; "vextracti32x8"; "vextracti64x2";
  "vextracti64x4"; "vextractps"; "vfixupimmpd"; "vfixupimmps"; "vfixupimmsd";
  "vfixupimmss"; "vfmadd132pd"; "vfmadd132ps"; "vfmadd132sd"; "vfmadd132ss";
  "vfmadd213pd"; "vfmadd213ps"; "vfmadd213sd"; "vfmadd213ss"; "vfmadd231pd";
  "vfmadd231ps"; "vfmadd231sd"; "vfmadd231ss"; "vfmaddpd"; "vfmaddps";
  "vfmaddsd"; "vfmaddss"; "vfmaddsub132pd"; "vfmaddsub132ps";
  "vfmaddsub213pd"; "vfmaddsub213ps"; "vfmaddsub231pd"; "vfmaddsub231ps";
  "vfmaddsubpd"; "vfmaddsubps"; "vfmsub132pd"; "vfmsub132ps"; "vfmsub132sd";
  "vfmsub132ss"; "vfmsub213pd"; "vfmsub213ps"; "vfmsub213sd"; "vfmsub213ss";
  "vfmsub231pd"; "vfmsub231ps"; "vfmsub231sd"; "vfmsub231ss";
  "vfmsubadd132pd"; "vfmsubadd132ps"; "vfmsubadd213pd"; "vfmsubadd213ps";
  "vfmsubadd231pd"; "vfmsubadd231ps"; "vfmsubaddpd"; "vfmsubaddps";
  "vfmsubpd"; "vfmsubps"; "vfmsubsd"; "vfmsubss"; "vfnmadd132pd";
  "vfnmadd132ps"; "vfnmadd132sd"; "vfnmadd132ss"; "vfnmadd213pd";
  "vfnmadd213ps"; "vfnmadd213sd"; "vfnmadd213ss"; "vfnmadd231pd";
  "vfnmadd231ps"; "vfnmadd231sd"; "vfnmadd231ss"; "vfnmaddpd"; "vfnmaddps";
  "vfnmaddsd"; "vfnmaddss"; "vfnmsub132pd"; "vfnmsub132ps"; "vfnmsub132sd";
  "vfnmsub132ss"; "vfnmsub213pd"; "vfnmsub213ps"; "vfnmsub213sd";
  "vfnmsub213ss"; "vfnmsub231pd"; "vfnmsub231ps"; "vfnmsub231sd";
  "vfnmsub231ss"; "vfnmsubpd"; "vfnmsubps"; "vfnmsubsd"; "vfnmsubss";
  "vfpclasspd"; "vfpclassps"; "vfpclasssd"; "vfpclassss"; "vfrczpd";
  "vfrczps"; "vfrczsd"; "vfrczss"; "vgatherdpd"; "vgatherdps";
  "vgatherpf0dpd"; "vgatherpf0dps"; "vgatherpf0qpd"; "vgatherpf0qps";
  "vgatherpf1dpd"; "vgatherpf1dps"; "vgatherpf1qpd"; "vgatherpf1qps";
  "vgatherqpd"; "vgatherqps"; "vgetexppd"; "vgetexpps"; "vgetexpsd";
  "vgetexpss"; "vgetmantpd"; "vgetmantps"; "vgetmantsd"; "vgetmantss";
  "vhaddpd"; "vhaddps"; "vhsubpd"; "vhsubps"; "vinsertf128"; "vinsertf32x4";
  "vinsertf32x8"; "vinsertf64x2"; "vinsertf64x4"; "vinserti128";
  "vinserti32x4"; "vinserti32x8"; "vinserti64x2"; "vinserti64x4";
  "vinsertps"; "vlddqu"; "vldmxcsr"; "vmaskmovdqu"; "vmaskmovpd";
  "vmaskmovps"; "vmaxpd"; "vmaxps"; "vmaxsd"; "vmaxss"; "vminpd"; "vminps";
  "vminsd"; "vminss"; "vmovapd"; "vmovaps"; "vmovd"; "vmovddup"; "vmovdqa";
  "vmovdqa32"; "vmovdqa64"; "vmovdqu"; "vmovdqu16"; "vmovdqu32"; "vmovdqu64";
  "vmovdqu8"; "vmovhlps"; "vmovhpd"; "vmovhps"; "vmovlhps"; "vmovlpd";
  "vmovlps"; "vmovmskpd"; "vmovmskps"; "vmovntdq"; "vmovntdqa"; "vmovntpd";
  "vmovntps"; "vmovq"; "vmovsd"; "vmovshdup"; "vmovsldup"; "vmovss";
  "vmovupd"; "vmovups"; "vmpsadbw"; "vmulpd"; "vmulps"; "vmulsd"; "vmulss";
  "vorpd"; "vorps"; "vpabsb"; "vpabsd"; "vpabsq"; "vpabsw"; "vpackssdw";
  "vpacksswb"; "vpackusdw"; "vpackuswb"; "vpaddb"; "vpaddd"; "vpaddq";
  "vpaddsb"; "vpaddsw"; "vpaddusb"; "vpaddusw"; "vpaddw"; "vpalignr";
  "vpand"; "vpandd"; "vpandn"; "vpandnd"; "vpandnq"; "vpandq"; "vpavgb";
  "vpavgw"; "vpblendd"; "vpblendvb"; "vpblendw"; "vpbroadcastb";
  "vpbroadcastd"; "vpbroadcastmb2d"; "vpbroadcastmb2q"; "vpbroadcastq";
  "vpbroadcastw"; "vpclmulqdq"; "vpcmov"; "vpcmpb"; "vpcmpd"; "vpcmpeqb";
  "vpcmpeqd"; "vpcmpeqq"; "vpcmpeqw"; "vpcmpestri"; "vpcmpestrm"; "vpcmpgtb";
  "vpcmpgtd"; "vpcmpgtq"; "vpcmpgtw"; "vpcmpistri"; "vpcmpistrm"; "vpcmpq";
  "vpcmpub"; "vpcmpud"; "vpcmpuq"; "vpcmpuw"; "vpcmpw"; "vpcomb"; "vpcomd";
  "vpcompressd"; "vpcompressq"; "vpcomq"; "vpcomub"; "vpcomud"; "vpcomuq";
  "vpcomuw"; "vpcomw"; "vpconflictd"; "vpconflictq"; "vperm2f128";
  "vperm2i128"; "vpermb"; "vpermd"; "vpermi2b"; "vpermi2d"; "vpermi2pd";
  "vpermi2ps"; "vpermi2q"; "vpermi2w"; "vpermil2pd"; "vpermil2ps";
  "vpermilpd"; "vpermilps"; "vpermpd"; "vpermps"; "vpermq"; "vpermt2b";
  "vpermt2d"; "vpermt2pd"; "vpermt2ps"; "vpermt2q"; "vpermt2w"; "vpermw";
  "vpexpandd"; "vpexpandq"; "vpextrb"; "vpextrd"; "vpextrq"; "vpextrw";
  "vpgatherdd"; "vpgatherdq"; "vpgatherqd"; "vpgatherqq"; "vphaddbd";
  "vphaddbq"; "vphaddbw"; "vphaddd"; "vphadddq"; "vphaddsw"; "vphaddubd";
  "vphaddubq"; "vphaddubw"; "vphaddudq"; "vphadduwd"; "vphadduwq"; "vphaddw";
  "vphaddwd"; "vphaddwq"; "vphminposuw"; "vphsubbw"; "vphsubd"; "vphsubdq";
  "vphsubsw"; "vphsubw"; "vphsubwd"; "vpinsrb"; "vpinsrd"; "vpinsrq";
  "vpinsrw"; "vplzcntd"; "vplzcntq"; "vpmacsdd"; "vpmacsdqh"; "vpmacsdql";
  "vpmacssdd"; "vpmacssdqh"; "vpmacssdql"; "vpmacsswd"; "vpmacssww";
  "vpmacswd"; "vpmacsww"; "vpmadcsswd"; "vpmadcswd"; "vpmadd52huq";
  "vpmadd52luq"; "vpmaddubsw"; "vpmaddwd"; "vpmaskmovd"; "vpmaskmovq";
  "vpmaxsb"; "vpmaxsd"; "vpmaxsq"; "vpmaxsw"; "vpmaxub"; "vpmaxud";
  "vpmaxuq"; "vpmaxuw"; "vpminsb"; "vpminsd"; "vpminsq"; "vpminsw";
  "vpminub"; "vpminud"; "vpminuq"; "vpminuw"; "vpmovb2m"; "vpmovd2m";
  "vpmovdb"; "vpmovdw"; "vpmovm2b"; "vpmovm2d"; "vpmovm2q"; "vpmovm2w";
  "vpmovmskb"; "vpmovq2m"; "vpmovqb"; "vpmovqd"; "vpmovqw"; "vpmovsdb";
  "vpmovsdw"; "vpmovsqb"; "vpmovsqd"; "vpmovsqw"; "vpmovswb"; "vpmovsxbd";
  "vpmovsxbq"; "vpmovsxbw"; "vpmovsxdq"; "vpmovsxwd"; "vpmovsxwq";
  "vpmovusdb"; "vpmovusdw"; "vpmovusqb"; "vpmovusqd"; "vpmovusqw";
  "vpmovuswb"; "vpmovw2m"; "vpmovwb"; "vpmovzxbd"; "vpmovzxbq"; "vpmovzxbw";
  "vpmovzxdq"; "vpmovzxwd"; "vpmovzxwq"; "vpmuldq"; "vpmulhrsw"; "vpmulhuw";
  "vpmulhw"; "vpmulld"; "vpmullq"; "vpmullw"; "vpmultishiftqb"; "vpmuludq";
  "vpor"; "vpord"; "vporq"; "vpperm"; "vprold"; "vprolq"; "vprolvd";
  "vprolvq"; "vprord"; "vprorq"; "vprorvd"; "vprorvq"; "vprotb"; "vprotd";
  "vprotq"; "vprotw"; "vpsadbw"; "vpscatterdd"; "vpscatterdq"; "vpscatterqd";
  "vpscatterqq"; "vpshab"; "vpshad"; "vpshaq"; "vpshaw"; "vpshlb"; "vpshld";
  "vpshlq"; "vpshlw"; "vpshufb"; "vpshufd"; "vpshufhw"; "vpshuflw";
  "vpsignb"; "vpsignd"; "vpsignw"; "vpslld"; "vpslldq"; "vpsllq"; "vpsllvd";
  "vpsllvq"; "vpsllvw"; "vpsllw"; "vpsrad"; "vpsraq"; "vpsravd"; "vpsravq";
  "vpsravw"; "vpsraw"; "vpsrld"; "vpsrldq"; "vpsrlq"; "vpsrlvd"; "vpsrlvq";
  "vpsrlvw"; "vpsrlw"; "vpsubb"; "vpsubd"; "vpsubq"; "vpsubsb"; "vpsubsw";
  "vpsubusb"; "vpsubusw"; "vpsubw"; "vpternlogd"; "vpternlogq"; "vptest";
  "vptestmb"; "vptestmd"; "vptestmq"; "vptestmw"; "vptestnmb"; "vptestnmd";
  "vptestnmq"; "vptestnmw"; "vpunpckhbw"; "vpunpckhdq"; "vpunpckhqdq";
  "vpunpckhwd"; "vpunpcklbw"; "vpunpckldq"; "vpunpcklqdq"; "vpunpcklwd";
  "vpxor"; "vpxord"; "vpxorq"; "vrangepd"; "vrangeps"; "vrangesd";
  "vrangess"; "vrcp14pd"; "vrcp14ps"; "vrcp14sd"; "vrcp14ss"; "vrcp28pd";
  "vrcp28ps"; "vrcp28sd"; "vrcp28ss"; "vrcpps"; "vrcpss"; "vreducepd";
  "vreduceps"; "vreducesd"; "vreducess"; "vrndscalepd"; "vrndscaleps";
  "vrndscalesd"; "vrndscaless"; "vroundpd"; "vroundps"; "vroundsd";
  "vroundss"; "vrsqrt14pd"; "vrsqrt14ps"; "vrsqrt14sd"; "vrsqrt14ss";
  "vrsqrt28pd"; "vrsqrt28ps"; "vrsqrt28sd"; "vrsqrt28ss"; "vrsqrtps";
  "vrsqrtss"; "vscalefpd"; "vscalefps"; "vscalefsd"; "vscalefss";
  "vscatterdpd"; "vscatterdps"; "vscatterpf0dpd"; "vscatterpf0dps";
  "vscatterpf0qpd"; "vscatterpf0qps"; "vscatterpf1dpd"; "vscatterpf1dps";
  "vscatterpf1qpd"; "vscatterpf1qps"; "vscatterqpd"; "vscatterqps";
  "vshuff32x4"; "vshuff64x2"; "vshufi32x4"; "vshufi64x2"; "vshufpd";
  "vshufps"; "vsqrtpd"; "vsqrtps"; "vsqrtsd"; "vsqrtss"; "vstmxcsr";
  "vsubpd"; "vsubps"; "vsubsd"; "vsubss"; "vtestpd"; "vtestps"; "vucomisd";
  "vucomiss"; "vunpckhpd"; "vunpckhps"; "vunpcklpd"; "vunpcklps"; "vxorpd";
  "vxorps"; "vzeroall"; "vzeroupper"; "wrfsbase"; "wrgsbase"; "xadd";
  "xgetbv"; "xrstors"; "xrstors64"; "xsavec"; "xsavec64"; "xsaveopt";
  "xsaveopt64"; "xsaves"; "xsaves64"; "xsetbv"
].
Close Scope string_scope.

Definition bytes_of_string (s : string) : list Z :=
  map (fun c => Z.of_N (N_of_ascii c)) (list_ascii_of_string s).

Definition nameData : list Z :=
  flat_map (fun piece => bytes_of_string piece ++ [0]) nameDataPieces.

Definition kX86InstMaxLength : Z := 16.
Definition kX86InstAlphaIndexFirst : Z := 97.
Definition kX86InstAlphaIndexLast : Z := 122.
Definition kX86InstAlphaIndexInvalid : Z := 0xFFFF.

Definition _x86InstAlphaIndex : list Z := [
  kIdAdc; kIdBextr; kIdCall; kIdDaa; kIdEmms; kIdF2xm1; 0xFFFF; kIdHaddpd; kIdIdiv; kIdJa; kIdKaddb; kIdLahf; kIdMaskmovdqu; kIdNeg; kIdOr; kIdPabsb; 0xFFFF; kIdRcl; kIdSahf; kIdT1mskc; kIdUcomisd; kIdVaddpd; kIdWrfsbase; kIdXadd; 0xFFFF; 0xFFFF
].

(** Modelled from the spec: [Utils::toLower] of the missing [base/utils.h],
    the ASCII case fold ("case-folded to lowercase", spec section 4.4). *)
Definition toLower (c : Z) : Z :=
  if (65 <=? c) && (c <=? 90) then c + 32 else c.

(** [X86Inst_compareName(a, b, len)].  [a] and [b] are the bytes that can
    be read at the two pointers: the rest of [nameData] from the name's
    offset, and the sixteen bytes of [nameLower]. *)
Fixpoint X86Inst_compareName (a b : list Z) (len : Z) {struct a} : option Z :=
  if len <=? 0 then
    match a with
    | a_len :: _ => Some a_len
    | [] => None
    end
  else
    match a, b with
    | a_i :: a', b_i :: b' =>
        let c := a_i - b_i in
        if c =? 0 then X86Inst_compareName a' b' (len - 1) else Some c
    | _, _ => None
    end.

(** Where a loop of the source leaves off: the code behind it goes on with
    what the loop built, or the function has returned, or the run has left
    an array. *)
Inductive Step (R A : Type) : Type :=
  | Continue (a : A)
  | Return (r : R)
  | OutOfBounds.
Arguments Continue {R A} a.
Arguments Return {R A} r.
Arguments OutOfBounds {R A}.

(** [buf[i] = c] on a fixed-size array. *)
Fixpoint store (buf : list Z) (i : nat) (c : Z) : option (list Z) :=
  match buf, i with
  | [], _ => None
  | _ :: buf', O => Some (c :: buf')
  | x :: buf', S i' => option_map (cons x) (store buf' i' c)
  end.

(** The copy loop taken when [len == kInvalidIndex]: fold bytes up to the
    terminator into [nameLower].  [name] holds the bytes readable at the
    pointer, terminator included. *)
Fixpoint lowerUntilNul (name : list Z) (i : nat) (nameLower : list Z)
  : Step Z (list Z) :=
  match name with
  | [] => OutOfBounds
  | name_i :: rest =>
      let c := toLower name_i in
      if c =? 0 then Continue nameLower
      else if kX86InstMaxLength <? Z.of_nat i then Return kInvalidInst
      else match store nameLower i c with
           | Some nameLower' => lowerUntilNul rest (S i) nameLower'
           | None => OutOfBounds
           end
  end.

(** The copy loop taken for an explicit length ([len <= 16] is checked by
    the caller): [nameLower[i] = toLower(name[i])] for [i < len]. *)
Fixpoint lowerCounted (name : list Z) (n : nat) (i : nat) (nameLower : list Z)
  {struct n} : Step Z (list Z) :=
  match n with
  | O => Continue nameLower
  | S n' =>
      match name with
      | [] => OutOfBounds
      | name_i :: rest =>
          match store nameLower i (toLower name_i) with
          | Some nameLower' => lowerCounted rest n' (S i) nameLower'
          | None => OutOfBounds
          end
      end
  end.

(** The [while (++prefix <= ...)] loop: the first used letter after
    [prefix] bounds the slice, else the slice runs to [_kIdCount].
    [later] is [_x86InstAlphaIndex] from [prefix + 1] on. *)
Fixpoint sliceEnd (later : list Z) : Z :=
  match later with
  | [] => _kIdCount
  | index :: later' =>
      if index =? kX86InstAlphaIndexInvalid then sliceEnd later' else index
  end.

(** [X86Inst_compareName(nameData + instData[id].getNameDataIndex(), ...)]. *)
Definition compareAt (id : Z) (nameLower : list Z) (len : Z) : option Z :=
  match at_index instData id with
  | None => None
  | Some inst =>
      X86Inst_compareName (skipn (Z.to_nat (nameDataIndex inst)) nameData)
                          nameLower len
  end.

(** The linear scan of the [j] bucket; [n] is [end - base]. *)
Fixpoint linearSearch (n : nat) (base : Z) (nameLower : list Z) (len : Z)
  : option Z :=
  match n with
  | O => Some kInvalidInst
  | S n' =>
      match compareAt base nameLower len with
      | None => None
      | Some result =>
          if result =? 0 then Some base
          else linearSearch n' (base + 1) nameLower len
      end
  end.

(** The binary search [for (lim = end - base; lim != 0; lim >>= 1)].  Each
    round at least halves [lim], so the counter [rounds], started at [lim],
    reaches 0 only after [lim] has (see [binarySearch_rounds]). *)
Fixpoint binarySearch (rounds : nat) (base lim : Z) (nameLower : list Z)
  (len : Z) : option Z :=
  match rounds with
  | O => Some kInvalidInst
  | S rounds' =>
      if lim =? 0 then Some kInvalidInst
      else
        let cur := base + Z.shiftr lim 1 in
        match compareAt cur nameLower len with
        | None => None
        | Some result =>
            if result <? 0 then
              binarySearch rounds' (cur + 1) (Z.shiftr (lim - 1) 1)
                           nameLower len
            else if 0 <? result then
              binarySearch rounds' base (Z.shiftr lim 1) nameLower len
            else Some cur
        end
  end.

(** [X86Inst::getIdByName(name, len)].

    [name] is [None] for a null pointer, else the bytes readable at the
    pointer.  [stack] gives the sixteen bytes found in the uninitialised
    local array [nameLower] when the function is entered.  The result is
    [None] when the run reads or writes outside an array. *)
Definition getIdByName (stack : nat -> Z) (name : option (list Z)) (len : Z)
  : option Z :=
  match name with
  | None => Some kInvalidInst
  | Some name =>
      let nameLower0 := map stack (seq 0 (Z.to_nat kX86InstMaxLength)) in
      let copied :=
        if len =? kInvalidIndex then lowerUntilNul name 0 nameLower0
        else if kX86InstMaxLength <? len then Return kInvalidInst
        else lowerCounted name (Z.to_nat len) 0 nameLower0 in
      match copied with
      | OutOfBounds => None
      | Return id => Some id
      | Continue nameLower =>
          if len =? 0 then Some kInvalidInst
          else
            let prefix :=
              (nth 0 nameLower 0 - kX86InstAlphaIndexFirst) mod 2 ^ 32 in
            if kX86InstAlphaIndexLast - kX86InstAlphaIndexFirst <? prefix
            then Some kInvalidInst
            else
              let index := nth (Z.to_nat prefix) _x86InstAlphaIndex 0 in
              if index =? kX86InstAlphaIndexInvalid then Some kInvalidInst
              else
                let base := index in
                let end_ :=
                  sliceEnd (skipn (S (Z.to_nat prefix)) _x86InstAlphaIndex) in
                let useLinearSearch := prefix =? 106 - kX86InstAlphaIndexFirst in
                if useLinearSearch
                then linearSearch (Z.to_nat (end_ - base)) base nameLower len
                else binarySearch (Z.to_nat (end_ - base)) base (end_ - base)
                                  nameLower len
      end
  end.

(** [X86Inst::getNameById(id)]: the NUL-terminated name stored at the row's
    offset in [nameData] (what [getName] of the missing header points at),
    terminator left off; [None] is the null pointer. *)
Fixpoint untilNul (bytes : list Z) : list Z :=
  match bytes with
  | [] => []
  | c :: rest => if c =? 0 then [] else c :: untilNul rest
  end.

Definition getNameById (id : Z) : option (list Z) :=
  if _kIdCount <=? id then None
  else option_map
         (fun inst => untilNul (skipn (Z.to_nat (nameDataIndex inst)) nameData))
         (at_index instData id).

(** The bytes a caller hands over for a C string: the characters and the
    terminator. *)
Definition c_str (chars : list Z) : list Z := chars ++ [0].

(** ** The signature tables *)

(** A row of [_x86InstISignatureData] as the [ISIGNATURE] macro builds
    it. *)
Record ISignature : Set := {
  opCount : Z;
  archMask : Z;
  implicit : Z;
  operands : list Z
}.

Definition ISIGNATURE (count x86 x64 implicit o0 o1 o2 o3 o4 o5 : Z)
  : ISignature :=
  {| opCount := count;
     archMask := (if x86 =? 0 then 0 else kArchMaskX86)
                 .| (if x64 =? 0 then 0 else kArchMaskX64);
     implicit := implicit;
     operands := [o0; o1; o2; o3; o4; o5] |}.

(** A row of [_x86InstOSignatureData]; also the shape of a translated
    operand. *)
Record OSignature : Set := OSIGNATURE {
  flags : Z;
  memFlags : Z;
  extFlags : Z;
  regId : Z
}.

Definition _x86InstISignatureData : list ISignature := [
  ISIGNATURE 2 1 1 0 1   2   0   0   0   0  ; (* #0 *)
  ISIGNATURE 2 1 1 0 3   4   0   0   0   0  ; (* #1 *)
  ISIGNATURE 2 1 1 0 5   6   0   0   0   0  ; (* #2 *)
  ISIGNATURE 2 0 1 0 7   8   0   0   0   0  ; (* #3 *)
  ISIGNATURE 2 1 1 0 9   10  0   0   0   0  ; (* #4 *)
  ISIGNATURE 2 1 1 0 11  12  0   0   0   0  ; (* #5 *)
  ISIGNATURE 2 1 1 0 13  14  0   0   0   0  ; (* #6 *)
  ISIGNATURE 2 0 1 0 15  16  0   0   0   0  ; (* #7 *)
  ISIGNATURE 2 1 1 0 17  18  0   0   0   0  ; (* #8 *)
  ISIGNATURE 2 0 1 0 19  20  0   0   0   0  ; (* #9 *)
  ISIGNATURE 2 1 0 0 13  21  0   0   0   0  ; (* #10 *)
  ISIGNATURE 2 1 0 0 22  23  0   0   0   0  ; (* #11 *)
  ISIGNATURE 2 0 1 0 22  24  0   0   0   0  ; (* #12 *)
  ISIGNATURE 2 1 1 0 25  26  0   0   0   0  ; (* #13 *)
  ISIGNATURE 2 1 1 0 27  28  0   0   0   0  ; (* #14 *)
  ISIGNATURE 2 1 1 0 29  30  0   0   0   0  ; (* #15 *)
  ISIGNATURE 2 1 1 0 31  32  0   0   0   0  ; (* #16 *)
  ISIGNATURE 2 1 1 0 33  23  0   0   0   0  ; (* #17 *)
  ISIGNATURE 2 0 1 0 34  24  0   0   0   0  ; (* #18 *)
  ISIGNATURE 2 1 1 0 35  36  0   0   0   0  ; (* #19 *)
  ISIGNATURE 2 1 1 0 37  12  0   0   0   0  ; (* #20 *)
  ISIGNATURE 2 1 1 0 38  39  0   0   0   0  ; (* #21 *)
  ISIGNATURE 2 0 1 0 40  16  0   0   0   0  ; (* #22 *)
  ISIGNATURE 2 1 1 0 41  26  0   0   0   0  ; (* #23 *)
  ISIGNATURE 2 1 1 0 12  28  0   0   0   0  ; (* #24 *)
  ISIGNATURE 2 1 1 0 42  30  0   0   0   0  ; (* #25 *)
  ISIGNATURE 2 1 1 0 36  32  0   0   0   0  ; (* #26 *)
  ISIGNATURE 2 1 1 0 39  23  0   0   0   0  ; (* #27 *)
  ISIGNATURE 2 0 1 0 16  24  0   0   0   0  ; (* #28 *)
  ISIGNATURE 2 1 1 0 32  36  0   0   0   0  ; (* #29 *)
  ISIGNATURE 2 1 1 0 43  12  0   0   0   0  ; (* #30 *)
  ISIGNATURE 2 1 1 0 23  39  0   0   0   0  ; (* #31 *)
  ISIGNATURE 2 0 1 0 24  16  0   0   0   0  ; (* #32 *)
  ISIGNATURE 2 1 1 1 44  36  0   0   0   0  ; (* #33 *)
  ISIGNATURE 3 1 1 2 45  44  12  0   0   0  ; (* #34 *)
  ISIGNATURE 3 1 1 2 46  47  39  0   0   0  ; (* #35 *)
  ISIGNATURE 3 0 1 2 48  49  16  0   0   0  ; (* #36 *)
  ISIGNATURE 2 1 1 0 37  50  0   0   0   0  ; (* #37 *)
  ISIGNATURE 2 1 1 0 38  51  0   0   0   0  ; (* #38 *)
  ISIGNATURE 2 0 1 0 40  52  0   0   0   0  ; (* #39 *)
  ISIGNATURE 3 1 1 0 17  12  53  0   0   0  ; (* #40 *)
  ISIGNATURE 3 1 1 0 13  39  54  0   0   0  ; (* #41 *)
  ISIGNATURE 3 0 1 0 19  16  54  0   0   0  ; (* #42 *)
  ISIGNATURE 2 1 1 0 27  37  0   0   0   0  ; (* #43 *)
  ISIGNATURE 2 1 1 0 33  38  0   0   0   0  ; (* #44 *)
  ISIGNATURE 2 0 1 0 34  40  0   0   0   0  ; (* #45 *)
  ISIGNATURE 2 1 1 0 37  27  0   0   0   0  ; (* #46 *)
  ISIGNATURE 2 1 1 0 38  33  0   0   0   0  ; (* #47 *)
  ISIGNATURE 2 0 1 0 40  34  0   0   0   0  ; (* #48 *)
  ISIGNATURE 2 1 1 0 31  35  0   0   0   0  ; (* #49 *)
  ISIGNATURE 2 1 1 0 35  31  0   0   0   0  ; (* #50 *)
  ISIGNATURE 2 1 1 0 17  55  0   0   0   0  ; (* #51 *)
  ISIGNATURE 2 1 1 0 13  56  0   0   0   0  ; (* #52 *)
  ISIGNATURE 2 0 1 0 19  57  0   0   0   0  ; (* #53 *)
  ISIGNATURE 2 1 1 0 58  43  0   0   0   0  ; (* #54 *)
  ISIGNATURE 2 1 1 0 59  23  0   0   0   0  ; (* #55 *)
  ISIGNATURE 2 0 1 0 60  24  0   0   0   0  ; (* #56 *)
  ISIGNATURE 2 1 1 0 61  62  0   0   0   0  ; (* #57 *)
  ISIGNATURE 2 1 1 0 63  64  0   0   0   0  ; (* #58 *)
  ISIGNATURE 2 0 1 0 7   65  0   0   0   0  ; (* #59 *)
  ISIGNATURE 2 0 1 0 66  16  0   0   0   0  ; (* #60 *)
  ISIGNATURE 2 1 1 0 66  67  0   0   0   0  ; (* #61 *)
  ISIGNATURE 2 1 1 0 68  65  0   0   0   0  ; (* #62 *)
  ISIGNATURE 2 1 1 0 66  69  0   0   0   0  ; (* #63 *)
  ISIGNATURE 2 1 1 0 70  65  0   0   0   0  ; (* #64 *)
  ISIGNATURE 2 1 1 0 71  72  0   0   0   0  ; (* #65 *)
  ISIGNATURE 2 1 1 0 73  74  0   0   0   0  ; (* #66 *)
  ISIGNATURE 2 1 1 0 75  76  0   0   0   0  ; (* #67 *)
  ISIGNATURE 2 1 1 0 77  78  0   0   0   0  ; (* #68 *)
  ISIGNATURE 3 1 1 0 66  65  69  0   0   0  ; (* #69 *)
  ISIGNATURE 3 1 1 0 66  69  26  0   0   0  ; (* #70 *)
  ISIGNATURE 3 1 1 0 71  74  72  0   0   0  ; (* #71 *)
  ISIGNATURE 3 1 1 0 71  72  26  0   0   0  ; (* #72 *)
  ISIGNATURE 3 1 1 0 75  78  76  0   0   0  ; (* #73 *)
  ISIGNATURE 3 1 1 0 75  76  26  0   0   0  ; (* #74 *)
  ISIGNATURE 3 1 1 0 66  65  79  0   0   0  ; (* #75 *)
  ISIGNATURE 3 1 1 0 71  74  79  0   0   0  ; (* #76 *)
  ISIGNATURE 3 1 1 0 66  69  26  0   0   0  ; (* #77 *)
  ISIGNATURE 3 1 1 0 71  72  26  0   0   0  ; (* #78 *)
  ISIGNATURE 3 1 1 0 75  78  69  0   0   0  ; (* #79 *)
  ISIGNATURE 3 1 1 0 75  76  26  0   0   0  ; (* #80 *)
  ISIGNATURE 3 1 1 0 66  65  69  0   0   0  ; (* #81 *)
  ISIGNATURE 3 1 1 0 66  69  26  0   0   0  ; (* #82 *)
  ISIGNATURE 3 1 1 0 71  74  69  0   0   0  ; (* #83 *)
  ISIGNATURE 3 1 1 0 71  72  26  0   0   0  ; (* #84 *)
  ISIGNATURE 3 1 1 0 75  78  69  0   0   0  ; (* #85 *)
  ISIGNATURE 3 1 1 0 75  76  26  0   0   0  ; (* #86 *)
  ISIGNATURE 2 1 1 0 36  2   0   0   0   0  ; (* #87 *)
  ISIGNATURE 2 1 1 0 12  28  0   0   0   0  ; (* #88 *)
  ISIGNATURE 2 1 1 0 42  30  0   0   0   0  ; (* #89 *)
  ISIGNATURE 2 1 1 0 39  23  0   0   0   0  ; (* #90 *)
  ISIGNATURE 2 0 1 0 16  24  0   0   0   0  ; (* #91 *)
  ISIGNATURE 3 1 1 0 66  80  65  0   0   0  ; (* #92 *)
  ISIGNATURE 3 1 1 0 71  80  74  0   0   0  ; (* #93 *)
  ISIGNATURE 2 1 1 0 66  80  0   0   0   0  ; (* #94 *)
  ISIGNATURE 2 1 1 0 71  81  0   0   0   0  ; (* #95 *)
  ISIGNATURE 2 1 1 0 75  82  0   0   0   0  ; (* #96 *)
  ISIGNATURE 3 1 1 0 66  80  65  0   0   0  ; (* #97 *)
  ISIGNATURE 3 1 1 0 71  81  74  0   0   0  ; (* #98 *)
  ISIGNATURE 2 1 1 0 66  80  0   0   0   0  ; (* #99 *)
  ISIGNATURE 2 1 1 0 71  81  0   0   0   0  ; (* #100 *)
  ISIGNATURE 2 1 1 0 75  82  0   0   0   0  ; (* #101 *)
  ISIGNATURE 3 1 1 0 66  83  65  0   0   0  ; (* #102 *)
  ISIGNATURE 3 1 1 0 71  84  74  0   0   0  ; (* #103 *)
  ISIGNATURE 2 1 1 0 66  83  0   0   0   0  ; (* #104 *)
  ISIGNATURE 2 1 1 0 71  84  0   0   0   0  ; (* #105 *)
  ISIGNATURE 2 1 1 0 75  85  0   0   0   0  ; (* #106 *)
  ISIGNATURE 3 1 1 1 31  32  86  0   0   0  ; (* #107 *)
  ISIGNATURE 3 1 1 1 27  43  87  0   0   0  ; (* #108 *)
  ISIGNATURE 3 1 1 1 33  23  88  0   0   0  ; (* #109 *)
  ISIGNATURE 3 0 1 1 34  24  89  0   0   0  ; (* #110 *)
  ISIGNATURE 2 1 1 1 44  36  0   0   0   0  ; (* #111 *)
  ISIGNATURE 3 1 1 2 44  90  12  0   0   0  ; (* #112 *)
  ISIGNATURE 3 1 1 2 47  91  39  0   0   0  ; (* #113 *)
  ISIGNATURE 3 0 1 2 49  92  16  0   0   0  ; (* #114 *)
  ISIGNATURE 2 1 1 1 44  36  0   0   0   0  ; (* #115 *)
  ISIGNATURE 3 1 1 2 90  44  12  0   0   0  ; (* #116 *)
  ISIGNATURE 3 1 1 2 91  47  39  0   0   0  ; (* #117 *)
  ISIGNATURE 3 0 1 2 92  49  16  0   0   0  ; (* #118 *)
  ISIGNATURE 4 1 1 0 66  65  65  69  0   0  ; (* #119 *)
  ISIGNATURE 4 1 1 0 66  65  69  65  0   0  ; (* #120 *)
  ISIGNATURE 4 1 1 0 71  74  74  72  0   0  ; (* #121 *)
  ISIGNATURE 4 1 1 0 71  74  72  74  0   0  ; (* #122 *)
  ISIGNATURE 3 1 1 0 66  93  65  0   0   0  ; (* #123 *)
  ISIGNATURE 2 1 1 0 66  83  0   0   0   0  ; (* #124 *)
  ISIGNATURE 2 1 1 0 71  84  0   0   0   0  ; (* #125 *)
  ISIGNATURE 2 1 1 0 75  85  0   0   0   0  ; (* #126 *)
  ISIGNATURE 3 1 1 0 94  65  65  0   0   0  ; (* #127 *)
  ISIGNATURE 3 1 1 0 95  74  74  0   0   0  ; (* #128 *)
  ISIGNATURE 3 1 1 0 66  65  96  0   0   0  ; (* #129 *)
  ISIGNATURE 3 1 1 0 71  74  97  0   0   0  ; (* #130 *)
  ISIGNATURE 5 1 1 0 66  65  69  65  98  0  ; (* #131 *)
  ISIGNATURE 5 1 1 0 66  65  65  69  98  0  ; (* #132 *)
  ISIGNATURE 5 1 1 0 71  74  72  74  98  0  ; (* #133 *)
  ISIGNATURE 5 1 1 0 71  74  74  72  98  0  ; (* #134 *)
  ISIGNATURE 3 1 1 0 71  72  26  0   0   0  ; (* #135 *)
  ISIGNATURE 3 1 1 0 71  74  72  0   0   0  ; (* #136 *)
  ISIGNATURE 3 1 1 0 75  78  76  0   0   0  ; (* #137 *)
  ISIGNATURE 3 1 1 0 75  76  26  0   0   0  ; (* #138 *)
  ISIGNATURE 2 1 1 0 31  35  0   0   0   0  ; (* #139 *)
  ISIGNATURE 2 1 1 0 27  37  0   0   0   0  ; (* #140 *)
  ISIGNATURE 2 1 1 0 33  38  0   0   0   0  ; (* #141 *)
  ISIGNATURE 2 0 1 0 34  40  0   0   0   0  ; (* #142 *)
  ISIGNATURE 2 1 1 0 12  99  0   0   0   0  ; (* #143 *)
  ISIGNATURE 2 1 1 0 39  100 0   0   0   0  ; (* #144 *)
  ISIGNATURE 2 0 1 0 16  101 0   0   0   0  ; (* #145 *)
  ISIGNATURE 2 1 1 0 27  99  0   0   0   0  ; (* #146 *)
  ISIGNATURE 2 1 1 0 33  100 0   0   0   0  ; (* #147 *)
  ISIGNATURE 2 0 1 0 34  101 0   0   0   0  ; (* #148 *)
  ISIGNATURE 1 1 1 0 102 0   0   0   0   0  ; (* #149 *)
  ISIGNATURE 2 1 1 0 103 104 0   0   0   0  ; (* #150 *)
  ISIGNATURE 2 1 1 0 105 106 0   0   0   0  ; (* #151 *)
  ISIGNATURE 2 1 1 0 17  12  0   0   0   0  ; (* #152 *)
  ISIGNATURE 2 1 1 0 13  39  0   0   0   0  ; (* #153 *)
  ISIGNATURE 2 0 1 0 19  16  0   0   0   0  ; (* #154 *)
  ISIGNATURE 2 1 1 2 107 107 0   0   0   0  ; (* #155 *)
  ISIGNATURE 2 1 1 0 66  67  0   0   0   0  ; (* #156 *)
  ISIGNATURE 2 1 1 0 60  65  0   0   0   0  ; (* #157 *)
  ISIGNATURE 3 1 1 0 27  43  108 0   0   0  ; (* #158 *)
  ISIGNATURE 3 1 1 0 33  23  108 0   0   0  ; (* #159 *)
  ISIGNATURE 3 0 1 0 34  24  108 0   0   0  ; (* #160 *)
  ISIGNATURE 3 1 1 0 66  65  69  0   0   0  ; (* #161 *)
  ISIGNATURE 3 1 1 0 71  74  72  0   0   0  ; (* #162 *)
  ISIGNATURE 3 1 1 0 75  78  76  0   0   0  ; (* #163 *)
  ISIGNATURE 4 1 1 0 66  65  69  26  0   0  ; (* #164 *)
  ISIGNATURE 4 1 1 0 71  74  72  26  0   0  ; (* #165 *)
  ISIGNATURE 4 1 1 0 75  78  76  26  0   0  ; (* #166 *)
  ISIGNATURE 4 1 1 0 109 65  69  26  0   0  ; (* #167 *)
  ISIGNATURE 4 1 1 0 110 74  72  26  0   0  ; (* #168 *)
  ISIGNATURE 4 1 1 0 111 78  76  26  0   0  ; (* #169 *)
  ISIGNATURE 2 1 1 0 70  65  0   0   0   0  ; (* #170 *)
  ISIGNATURE 2 1 1 0 73  74  0   0   0   0  ; (* #171 *)
  ISIGNATURE 2 1 1 0 77  78  0   0   0   0  ; (* #172 *)
  ISIGNATURE 2 1 1 0 66  67  0   0   0   0  ; (* #173 *)
  ISIGNATURE 2 1 1 0 71  69  0   0   0   0  ; (* #174 *)
  ISIGNATURE 2 1 1 0 75  72  0   0   0   0  ; (* #175 *)
  ISIGNATURE 2 1 1 0 66  69  0   0   0   0  ; (* #176 *)
  ISIGNATURE 2 1 1 0 71  72  0   0   0   0  ; (* #177 *)
  ISIGNATURE 2 1 1 0 75  76  0   0   0   0  ; (* #178 *)
  ISIGNATURE 2 1 1 0 66  112 0   0   0   0  ; (* #179 *)
  ISIGNATURE 2 1 1 0 71  69  0   0   0   0  ; (* #180 *)
  ISIGNATURE 2 1 1 0 75  72  0   0   0   0  ; (* #181 *)
  ISIGNATURE 3 1 1 0 68  65  26  0   0   0  ; (* #182 *)
  ISIGNATURE 3 1 1 0 70  74  26  0   0   0  ; (* #183 *)
  ISIGNATURE 3 1 1 0 73  78  26  0   0   0  ; (* #184 *)
  ISIGNATURE 4 1 1 0 113 65  69  26  0   0  ; (* #185 *)
  ISIGNATURE 4 1 1 0 114 74  72  26  0   0  ; (* #186 *)
  ISIGNATURE 4 1 1 0 115 78  76  26  0   0  ; (* #187 *)
  ISIGNATURE 3 1 1 0 113 65  69  0   0   0  ; (* #188 *)
  ISIGNATURE 3 1 1 0 114 74  72  0   0   0  ; (* #189 *)
  ISIGNATURE 3 1 1 0 115 78  76  0   0   0  ; (* #190 *)
  ISIGNATURE 3 1 1 0 66  69  26  0   0   0  ; (* #191 *)
  ISIGNATURE 3 1 1 0 71  72  26  0   0   0  ; (* #192 *)
  ISIGNATURE 3 1 1 0 75  76  26  0   0   0  ; (* #193 *)
  ISIGNATURE 2 1 1 0 66  67  0   0   0   0  ; (* #194 *)
  ISIGNATURE 2 1 1 0 71  72  0   0   0   0  ; (* #195 *)
  ISIGNATURE 2 1 1 0 75  76  0   0   0   0  ; (* #196 *)
  ISIGNATURE 2 1 1 0 94  65  0   0   0   0  ; (* #197 *)
  ISIGNATURE 2 1 1 0 95  74  0   0   0   0  ; (* #198 *)
  ISIGNATURE 2 1 1 0 116 78  0   0   0   0  ; (* #199 *)
  ISIGNATURE 2 1 1 0 66  96  0   0   0   0  ; (* #200 *)
  ISIGNATURE 2 1 1 0 71  97  0   0   0   0  ; (* #201 *)
  ISIGNATURE 2 1 1 0 75  117 0   0   0   0  ; (* #202 *)
  ISIGNATURE 2 0 1 0 7   65  0   0   0   0  ; (* #203 *)
  ISIGNATURE 2 1 1 0 66  118 0   0   0   0  ; (* #204 *)
  ISIGNATURE 2 1 1 0 68  65  0   0   0   0  ; (* #205 *)
  ISIGNATURE 2 1 1 0 60  65  0   0   0   0  ; (* #206 *)
  ISIGNATURE 2 1 1 0 66  57  0   0   0   0  ; (* #207 *)
  ISIGNATURE 3 1 1 0 66  65  65  0   0   0  ; (* #208 *)
  ISIGNATURE 2 1 1 0 119 65  0   0   0   0  ; (* #209 *)
  ISIGNATURE 2 1 1 0 66  120 0   0   0   0  ; (* #210 *)
  ISIGNATURE 3 1 1 0 66  65  65  0   0   0  ; (* #211 *)
  ISIGNATURE 4 1 1 0 111 65  69  26  0   0  ; (* #212 *)
  ISIGNATURE 4 1 1 0 111 74  72  26  0   0  ; (* #213 *)
  ISIGNATURE 4 1 1 0 111 78  76  26  0   0  ; (* #214 *)
  ISIGNATURE 3 1 1 0 109 65  69  0   0   0  ; (* #215 *)
  ISIGNATURE 3 1 1 0 110 74  72  0   0   0  ; (* #216 *)
  ISIGNATURE 3 1 1 0 111 78  76  0   0   0  ; (* #217 *)
  ISIGNATURE 2 1 1 0 121 65  0   0   0   0  ; (* #218 *)
  ISIGNATURE 2 1 1 0 68  74  0   0   0   0  ; (* #219 *)
  ISIGNATURE 2 1 1 0 70  78  0   0   0   0  ; (* #220 *)
  ISIGNATURE 2 1 1 0 68  65  0   0   0   0  ; (* #221 *)
  ISIGNATURE 2 1 1 0 70  74  0   0   0   0  ; (* #222 *)
  ISIGNATURE 2 1 1 0 73  78  0   0   0   0  ; (* #223 *)
  ISIGNATURE 2 1 1 0 122 65  0   0   0   0  ; (* #224 *)
  ISIGNATURE 2 1 1 0 121 74  0   0   0   0  ; (* #225 *)
  ISIGNATURE 2 1 1 0 68  78  0   0   0   0  ; (* #226 *)
  ISIGNATURE 2 1 1 0 66  123 0   0   0   0  ; (* #227 *)
  ISIGNATURE 2 1 1 0 71  67  0   0   0   0  ; (* #228 *)
  ISIGNATURE 2 1 1 0 75  69  0   0   0   0  ; (* #229 *)
  ISIGNATURE 2 1 1 0 66  124 0   0   0   0  ; (* #230 *)
  ISIGNATURE 2 1 1 0 71  123 0   0   0   0  ; (* #231 *)
  ISIGNATURE 2 1 1 0 75  67  0   0   0   0  ; (* #232 *)
  ISIGNATURE 2 1 1 0 66  125 0   0   0   0  ; (* #233 *)
  ISIGNATURE 2 1 1 0 71  126 0   0   0   0  ; (* #234 *)
  ISIGNATURE 2 1 1 0 75  69  0   0   0   0  ; (* #235 *)
  ISIGNATURE 2 1 1 0 127 65  0   0   0   0  ; (* #236 *)
  ISIGNATURE 2 1 1 0 128 74  0   0   0   0  ; (* #237 *)
  ISIGNATURE 2 1 1 0 129 78  0   0   0   0  ; (* #238 *)
  ISIGNATURE 2 1 1 0 130 65  0   0   0   0  ; (* #239 *)
  ISIGNATURE 2 1 1 0 131 74  0   0   0   0  ; (* #240 *)
  ISIGNATURE 2 1 1 0 132 78  0   0   0   0  ; (* #241 *)
  ISIGNATURE 3 1 1 0 111 65  69  0   0   0  ; (* #242 *)
  ISIGNATURE 3 1 1 0 111 74  72  0   0   0  ; (* #243 *)
  ISIGNATURE 3 1 1 0 111 78  76  0   0   0  ; (* #244 *)
  ISIGNATURE 3 1 1 0 13  23  39  0   0   0  ; (* #245 *)
  ISIGNATURE 3 0 1 0 19  24  16  0   0   0  ; (* #246 *)
  ISIGNATURE 3 1 1 0 13  39  23  0   0   0  ; (* #247 *)
  ISIGNATURE 3 0 1 0 19  16  24  0   0   0  ; (* #248 *)
  ISIGNATURE 1 1 1 0 133 0   0   0   0   0  ; (* #249 *)
  ISIGNATURE 1 1 0 0 39  0   0   0   0   0  ; (* #250 *)
  ISIGNATURE 2 1 1 2 107 107 0   0   0   0  ; (* #251 *)
  ISIGNATURE 3 1 1 0 113 67  26  0   0   0  ; (* #252 *)
  ISIGNATURE 2 1 1 0 38  134 0   0   0   0  ; (* #253 *)
  ISIGNATURE 2 0 1 0 40  135 0   0   0   0  ; (* #254 *)
  ISIGNATURE 1 1 0 0 136 0   0   0   0   0  ; (* #255 *)
  ISIGNATURE 1 1 1 0 25  0   0   0   0   0  ; (* #256 *)
  ISIGNATURE 3 1 1 0 113 26  26  0   0   0  ; (* #257 *)
  ISIGNATURE 2 1 1 0 113 65  0   0   0   0  ; (* #258 *)
  ISIGNATURE 0 1 1 0 0   0   0   0   0   0  ; (* #259 *)
  ISIGNATURE 1 1 1 0 105 0   0   0   0   0  ; (* #260 *)
  ISIGNATURE 0 1 1 0 0   0   0   0   0   0  ; (* #261 *)
  ISIGNATURE 1 1 1 0 137 0   0   0   0   0  ; (* #262 *)
  ISIGNATURE 2 1 1 0 113 65  0   0   0   0  ; (* #263 *)
  ISIGNATURE 4 1 1 0 113 65  26  26  0   0  ; (* #264 *)
  ISIGNATURE 2 1 0 0 138 139 0   0   0   0  ; (* #265 *)
  ISIGNATURE 2 0 1 0 140 139 0   0   0   0  ; (* #266 *)
  ISIGNATURE 1 1 1 0 141 0   0   0   0   0  ; (* #267 *)
  ISIGNATURE 1 1 0 0 39  0   0   0   0   0  ; (* #268 *)
  ISIGNATURE 2 1 1 0 111 142 0   0   0   0  ; (* #269 *)
  ISIGNATURE 2 1 1 0 143 144 0   0   0   0  ; (* #270 *)
  ISIGNATURE 2 1 1 0 111 145 0   0   0   0  ; (* #271 *)
  ISIGNATURE 2 1 1 0 146 144 0   0   0   0  ; (* #272 *)
  ISIGNATURE 2 1 1 0 111 147 0   0   0   0  ; (* #273 *)
  ISIGNATURE 2 1 1 0 7   144 0   0   0   0  ; (* #274 *)
  ISIGNATURE 2 1 1 0 111 148 0   0   0   0  ; (* #275 *)
  ISIGNATURE 2 1 1 0 149 144 0   0   0   0  ; (* #276 *)
  ISIGNATURE 2 1 1 0 150 151 0   0   0   0  ; (* #277 *)
  ISIGNATURE 2 1 1 0 146 152 0   0   0   0  ; (* #278 *)
  ISIGNATURE 2 1 1 0 66  123 0   0   0   0  ; (* #279 *)
  ISIGNATURE 2 1 1 0 59  65  0   0   0   0  ; (* #280 *)
  ISIGNATURE 2 1 1 0 153 36  0   0   0   0  ; (* #281 *)
  ISIGNATURE 2 1 1 0 154 12  0   0   0   0  ; (* #282 *)
  ISIGNATURE 4 1 1 1 13  13  39  155 0   0  ; (* #283 *)
  ISIGNATURE 4 0 1 1 19  19  16  156 0   0  ; (* #284 *)
  ISIGNATURE 0 1 1 0 0   0   0   0   0   0  ; (* #285 *)
  ISIGNATURE 1 1 1 0 157 0   0   0   0   0  ; (* #286 *)
  ISIGNATURE 2 1 1 0 158 159 0   0   0   0  ; (* #287 *)
  ISIGNATURE 2 1 1 0 113 69  0   0   0   0  ; (* #288 *)
  ISIGNATURE 3 1 1 0 158 159 26  0   0   0  ; (* #289 *)
  ISIGNATURE 3 1 1 0 113 69  26  0   0   0  ; (* #290 *)
  ISIGNATURE 3 1 1 0 154 64  26  0   0   0  ; (* #291 *)
  ISIGNATURE 3 1 1 0 149 65  26  0   0   0  ; (* #292 *)
  ISIGNATURE 1 1 1 0 160 0   0   0   0   0  ; (* #293 *)
  ISIGNATURE 1 1 0 0 5   0   0   0   0   0  ; (* #294 *)
  ISIGNATURE 2 1 1 0 61  159 0   0   0   0  ; (* #295 *)
  ISIGNATURE 2 1 1 0 66  69  0   0   0   0  ; (* #296 *)
  ISIGNATURE 2 1 1 0 158 161 0   0   0   0  ; (* #297 *)
  ISIGNATURE 2 1 1 0 113 79  0   0   0   0  ; (* #298 *)
  ISIGNATURE 1 1 1 0 162 0   0   0   0   0  ; (* #299 *)
  ISIGNATURE 1 1 0 0 39  0   0   0   0   0  ; (* #300 *)
  ISIGNATURE 0 1 1 0 0   0   0   0   0   0  ; (* #301 *)
  ISIGNATURE 1 1 1 0 163 0   0   0   0   0  ; (* #302 *)
  ISIGNATURE 3 1 1 0 13  39  26  0   0   0  ; (* #303 *)
  ISIGNATURE 3 0 1 0 19  16  26  0   0   0  ; (* #304 *)
  ISIGNATURE 4 1 1 0 66  65  69  65  0   0  ; (* #305 *)
  ISIGNATURE 4 1 1 0 71  74  72  74  0   0  ; (* #306 *)
  ISIGNATURE 2 1 1 0 66  164 0   0   0   0  ; (* #307 *)
  ISIGNATURE 2 1 1 0 71  76  0   0   0   0  ; (* #308 *)
  ISIGNATURE 2 1 1 0 154 123 0   0   0   0  ; (* #309 *)
  ISIGNATURE 2 0 1 0 19  67  0   0   0   0  ; (* #310 *)
  ISIGNATURE 2 1 1 0 13  123 0   0   0   0  ; (* #311 *)
  ISIGNATURE 2 0 1 0 19  67  0   0   0   0  ; (* #312 *)
  ISIGNATURE 4 1 1 0 66  65  65  67  0   0  ; (* #313 *)
  ISIGNATURE 4 1 1 0 66  65  67  65  0   0  ; (* #314 *)
  ISIGNATURE 4 1 1 0 66  65  65  123 0   0  ; (* #315 *)
  ISIGNATURE 4 1 1 0 66  65  123 65  0   0  ; (* #316 *)
  ISIGNATURE 4 1 1 0 71  74  69  26  0   0  ; (* #317 *)
  ISIGNATURE 4 1 1 0 75  78  69  26  0   0  ; (* #318 *)
  ISIGNATURE 2 1 1 0 146 65  0   0   0   0  ; (* #319 *)
  ISIGNATURE 2 1 1 0 66  151 0   0   0   0  ; (* #320 *)
  ISIGNATURE 2 1 1 0 60  65  0   0   0   0  ; (* #321 *)
  ISIGNATURE 3 1 1 0 66  65  57  0   0   0  ; (* #322 *)
  ISIGNATURE 2 1 1 0 165 166 0   0   0   0  ; (* #323 *)
  ISIGNATURE 2 1 1 0 165 167 0   0   0   0  ; (* #324 *)
  ISIGNATURE 2 1 1 0 165 123 0   0   0   0  ; (* #325 *)
  ISIGNATURE 2 1 1 0 165 167 0   0   0   0  ; (* #326 *)
  ISIGNATURE 2 1 1 0 165 124 0   0   0   0  ; (* #327 *)
  ISIGNATURE 2 1 1 0 165 167 0   0   0   0  ; (* #328 *)
  ISIGNATURE 3 1 1 0 66  168 26  0   0   0  ; (* #329 *)
  ISIGNATURE 4 1 1 0 66  65  168 26  0   0  ; (* #330 *)
  ISIGNATURE 3 1 1 0 66  151 26  0   0   0  ; (* #331 *)
  ISIGNATURE 4 1 1 0 66  65  151 26  0   0  ; (* #332 *)
  ISIGNATURE 3 0 1 0 66  16  26  0   0   0  ; (* #333 *)
  ISIGNATURE 4 0 1 0 66  65  16  26  0   0  ; (* #334 *)
  ISIGNATURE 3 1 1 0 66  65  69  0   0   0  ; (* #335 *)
  ISIGNATURE 3 1 1 0 66  69  169 0   0   0  ; (* #336 *)
  ISIGNATURE 2 1 1 0 170 65  0   0   0   0  ; (* #337 *)
  ISIGNATURE 2 1 1 0 132 74  0   0   0   0  ; (* #338 *)
  ISIGNATURE 3 1 1 0 66  65  69  0   0   0  ; (* #339 *)
  ISIGNATURE 3 1 1 0 66  69  65  0   0   0  ; (* #340 *)
  ISIGNATURE 2 1 1 0 65  69  0   0   0   0  ; (* #341 *)
  ISIGNATURE 2 1 1 0 74  72  0   0   0   0  ; (* #342 *)
  ISIGNATURE 2 1 1 0 127 171 0   0   0   0  ; (* #343 *)
  ISIGNATURE 2 1 1 0 128 78  0   0   0   0  ; (* #344 *)
  ISIGNATURE 2 1 1 0 113 67  0   0   0   0  ; (* #345 *)
  ISIGNATURE 2 1 1 0 113 123 0   0   0   0  ; (* #346 *)
  ISIGNATURE 3 1 1 1 113 69  172 0   0   0  ; (* #347 *)
  ISIGNATURE 1 1 1 0 173 0   0   0   0   0  ; (* #348 *)
  ISIGNATURE 1 1 1 1 44  0   0   0   0   0  ; (* #349 *)
  ISIGNATURE 2 1 1 2 46  88  0   0   0   0  ; (* #350 *)
  ISIGNATURE 1 0 1 1 49  0   0   0   0   0  ; (* #351 *)
  ISIGNATURE 1 1 1 0 174 0   0   0   0   0  ; (* #352 *)
  ISIGNATURE 1 1 1 1 175 0   0   0   0   0  ; (* #353 *)
  ISIGNATURE 3 1 1 0 113 123 26  0   0   0  ; (* #354 *)
  ISIGNATURE 5 0 1 4 176 92  49  177 178 0  ; (* #355 *)
  ISIGNATURE 5 1 1 4 179 91  47  180 181 0  ; (* #356 *)
  ISIGNATURE 2 1 1 0 65  67  0   0   0   0  ; (* #357 *)
  ISIGNATURE 2 1 1 0 65  123 0   0   0   0  ; (* #358 *)
  ISIGNATURE 4 1 1 4 47  182 183 46  0   0  ; (* #359 *)
  ISIGNATURE 2 0 1 2 48  89  0   0   0   0  ; (* #360 *)
  ISIGNATURE 2 1 1 0 61  69  0   0   0   0  ; (* #361 *)
  ISIGNATURE 2 1 1 0 66  159 0   0   0   0  ; (* #362 *)
  ISIGNATURE 2 1 1 0 61  67  0   0   0   0  ; (* #363 *)
  ISIGNATURE 2 1 1 0 154 67  0   0   0   0  ; (* #364 *)
  ISIGNATURE 2 1 1 0 66  42  0   0   0   0  ; (* #365 *)
  ISIGNATURE 2 1 1 2 45  87  0   0   0   0  ; (* #366 *)
  ISIGNATURE 1 1 1 1 47  0   0   0   0   0  ; (* #367 *)
  ISIGNATURE 1 1 0 1 44  0   0   0   0   0  ; (* #368 *)
  ISIGNATURE 2 1 1 0 163 26  0   0   0   0  ; (* #369 *)
  ISIGNATURE 3 1 1 0 146 65  26  0   0   0  ; (* #370 *)
  ISIGNATURE 1 1 1 0 184 0   0   0   0   0  ; (* #371 *)
  ISIGNATURE 1 1 1 0 185 0   0   0   0   0  ; (* #372 *)
  ISIGNATURE 1 1 1 0 186 0   0   0   0   0  ; (* #373 *)
  ISIGNATURE 1 1 1 0 187 0   0   0   0   0  ; (* #374 *)
  ISIGNATURE 1 1 1 0 188 0   0   0   0   0  ; (* #375 *)
  ISIGNATURE 1 1 1 0 189 0   0   0   0   0  ; (* #376 *)
  ISIGNATURE 1 1 1 0 190 0   0   0   0   0  ; (* #377 *)
  ISIGNATURE 1 0 1 0 189 0   0   0   0   0  ; (* #378 *)
  ISIGNATURE 1 1 1 0 191 0   0   0   0   0  ; (* #379 *)
  ISIGNATURE 1 1 1 0 192 0   0   0   0   0  ; (* #380 *)
  ISIGNATURE 1 1 1 0 193 0   0   0   0   0  ; (* #381 *)
  ISIGNATURE 3 1 1 0 111 144 144 0   0   0  ; (* #382 *)
  ISIGNATURE 2 1 1 0 111 144 0   0   0   0  ; (* #383 *)
  ISIGNATURE 2 1 1 0 144 144 0   0   0   0  ; (* #384 *)
  ISIGNATURE 3 1 1 0 111 144 26  0   0   0  ; (* #385 *)
  ISIGNATURE 1 1 1 1 194 0   0   0   0   0  ; (* #386 *)
  ISIGNATURE 1 1 1 0 56  0   0   0   0   0  ; (* #387 *)
  ISIGNATURE 2 1 1 0 153 174 0   0   0   0  ; (* #388 *)
  ISIGNATURE 3 1 1 1 113 65  175 0   0   0  ; (* #389 *)
  ISIGNATURE 3 1 1 1 158 64  175 0   0   0  ; (* #390 *)
  ISIGNATURE 2 1 1 0 61  65  0   0   0   0  ; (* #391 *)
  ISIGNATURE 2 1 1 0 66  65  0   0   0   0  ; (* #392 *)
  ISIGNATURE 2 1 1 0 154 65  0   0   0   0  ; (* #393 *)
  ISIGNATURE 2 1 1 0 60  64  0   0   0   0  ; (* #394 *)
  ISIGNATURE 2 1 1 0 66  64  0   0   0   0  ; (* #395 *)
  ISIGNATURE 2 0 1 0 19  39  0   0   0   0  ; (* #396 *)
  ISIGNATURE 6 1 1 3 65  69  26  195 88  155; (* #397 *)
  ISIGNATURE 6 1 1 3 65  69  26  196 88  155; (* #398 *)
  ISIGNATURE 4 1 1 1 65  69  26  195 0   0  ; (* #399 *)
  ISIGNATURE 4 1 1 1 65  69  26  196 0   0  ; (* #400 *)
  ISIGNATURE 3 1 1 0 143 65  26  0   0   0  ; (* #401 *)
  ISIGNATURE 3 0 1 0 7   65  26  0   0   0  ; (* #402 *)
  ISIGNATURE 3 1 1 0 113 168 26  0   0   0  ; (* #403 *)
  ISIGNATURE 3 1 1 0 113 151 26  0   0   0  ; (* #404 *)
  ISIGNATURE 3 0 1 0 113 16  26  0   0   0  ; (* #405 *)
  ISIGNATURE 3 1 1 0 197 198 26  0   0   0  ; (* #406 *)
  ISIGNATURE 2 1 1 0 154 152 0   0   0   0  ; (* #407 *)
  ISIGNATURE 0 1 0 0 0   0   0   0   0   0  ; (* #408 *)
  ISIGNATURE 3 1 1 0 61  159 26  0   0   0  ; (* #409 *)
  ISIGNATURE 2 1 1 0 113 26  0   0   0   0  ; (* #410 *)
  ISIGNATURE 2 1 1 0 25  108 0   0   0   0  ; (* #411 *)
  ISIGNATURE 1 0 1 0 154 0   0   0   0   0  ; (* #412 *)
  ISIGNATURE 1 1 1 0 153 0   0   0   0   0  ; (* #413 *)
  ISIGNATURE 2 1 1 2 46  199 0   0   0   0  ; (* #414 *)
  ISIGNATURE 3 1 1 3 46  199 195 0   0   0  ; (* #415 *)
  ISIGNATURE 3 1 1 0 66  67  26  0   0   0  ; (* #416 *)
  ISIGNATURE 3 1 1 0 66  123 26  0   0   0  ; (* #417 *)
  ISIGNATURE 1 1 1 1 200 0   0   0   0   0  ; (* #418 *)
  ISIGNATURE 1 1 1 0 1   0   0   0   0   0  ; (* #419 *)
  ISIGNATURE 1 1 1 0 59  0   0   0   0   0  ; (* #420 *)
  ISIGNATURE 3 1 1 0 66  65  67  0   0   0  ; (* #421 *)
  ISIGNATURE 3 1 1 0 66  65  123 0   0   0  ; (* #422 *)
  ISIGNATURE 2 1 1 0 71  96  0   0   0   0  ; (* #423 *)
  ISIGNATURE 2 1 1 0 201 67  0   0   0   0  ; (* #424 *)
  ISIGNATURE 2 1 1 0 201 96  0   0   0   0  ; (* #425 *)
  ISIGNATURE 2 1 1 0 75  97  0   0   0   0  ; (* #426 *)
  ISIGNATURE 2 1 1 0 165 67  0   0   0   0  ; (* #427 *)
  ISIGNATURE 4 1 1 0 109 65  67  26  0   0  ; (* #428 *)
  ISIGNATURE 4 1 1 0 109 65  123 26  0   0  ; (* #429 *)
  ISIGNATURE 3 1 1 0 66  65  42  0   0   0  ; (* #430 *)
  ISIGNATURE 3 1 1 0 70  202 26  0   0   0  ; (* #431 *)
  ISIGNATURE 4 1 1 0 113 65  67  26  0   0  ; (* #432 *)
  ISIGNATURE 4 1 1 0 113 65  123 26  0   0  ; (* #433 *)
  ISIGNATURE 3 1 1 0 113 65  67  0   0   0  ; (* #434 *)
  ISIGNATURE 3 1 1 0 113 65  123 0   0   0  ; (* #435 *)
  ISIGNATURE 3 1 1 0 111 203 26  0   0   0  ; (* #436 *)
  ISIGNATURE 3 1 1 0 111 67  26  0   0   0  ; (* #437 *)
  ISIGNATURE 3 1 1 0 111 123 26  0   0   0  ; (* #438 *)
  ISIGNATURE 1 1 1 0 81  0   0   0   0   0  ; (* #439 *)
  ISIGNATURE 1 1 1 0 82  0   0   0   0   0  ; (* #440 *)
  ISIGNATURE 1 1 1 0 85  0   0   0   0   0  ; (* #441 *)
  ISIGNATURE 4 1 1 0 75  78  72  26  0   0  ; (* #442 *)
  ISIGNATURE 4 1 1 0 66  65  123 26  0   0  ; (* #443 *)
  ISIGNATURE 3 1 1 1 65  65  175 0   0   0  ; (* #444 *)
  ISIGNATURE 2 1 1 0 154 171 0   0   0   0  ; (* #445 *)
  ISIGNATURE 2 1 1 0 165 144 0   0   0   0  ; (* #446 *)
  ISIGNATURE 2 1 1 0 165 118 0   0   0   0  ; (* #447 *)
  ISIGNATURE 4 1 1 0 66  65  198 26  0   0  ; (* #448 *)
  ISIGNATURE 2 1 1 0 111 204 0   0   0   0  ; (* #449 *)
  ISIGNATURE 4 1 1 0 66  65  67  26  0   0  ; (* #450 *)
  ISIGNATURE 1 0 1 0 167 0   0   0   0   0  ; (* #451 *)
  ISIGNATURE 3 1 1 3 180 46  199 0   0   0  ; (* #452 *)
  ISIGNATURE 3 1 1 2 189 155 88  0   0   0  ; (* #453 *)
  ISIGNATURE 3 0 1 2 189 155 88  0   0   0  ; (* #454 *)
  ISIGNATURE 3 1 1 3 180 155 88  0   0   0   (* #455 *)
].

Definition _x86InstOSignatureData : list OSignature := [
  OSIGNATURE (0) (0) 0 0xFF; (* #0 *)
  OSIGNATURE (kOpW .| kOpGpbLo .| kOpGpbHi .| kOpMem) (kMemOpM8) 0 0xFF; (* #1 *)
  OSIGNATURE (kOpR .| kOpGpbLo .| kOpGpbHi .| kOpI8) (0) 0 0xFF; (* #2 *)
  OSIGNATURE (kOpW .| kOpGpw .| kOpMem) (kMemOpM16) 0 0xFF; (* #3 *)
  OSIGNATURE (kOpR .| kOpGpw .| kOpSeg .| kOpI16) (0) 0 0xFF; (* #4 *)
  OSIGNATURE (kOpW .| kOpGpd .| kOpMem) (kMemOpM32) 0 0xFF; (* #5 *)
  OSIGNATURE (kOpR .| kOpGpd .| kOpI32) (0) 0 0xFF; (* #6 *)
  OSIGNATURE (kOpW .| kOpGpq .| kOpMem) (kMemOpM64) 0 0xFF; (* #7 *)
  OSIGNATURE (kOpR .| kOpGpq .| kOpSeg .| kOpI32) (0) 0 0xFF; (* #8 *)
  OSIGNATURE (kOpW .| kOpGpbLo .| kOpGpbHi) (0) 0 0xFF; (* #9 *)
  OSIGNATURE (kOpR .| kOpGpbLo .| kOpGpbHi .| kOpMem .| kOpI8) (kMemOpM8) 0 0xFF; (* #10 *)
  OSIGNATURE (kOpW .| kOpGpw .| kOpSeg) (0) 0 0xFF; (* #11 *)
  OSIGNATURE (kOpR .| kOpGpw .| kOpMem) (kMemOpM16) 0 0xFF; (* #12 *)
  OSIGNATURE (kOpW .| kOpGpd) (0) 0 0xFF; (* #13 *)
  OSIGNATURE (kOpR .| kOpGpd .| kOpMem .| kOpI32) (kMemOpM32) 0 0xFF; (* #14 *)
  OSIGNATURE (kOpW .| kOpGpq .| kOpSeg) (0) 0 0xFF; (* #15 *)
  OSIGNATURE (kOpR .| kOpGpq .| kOpMem) (kMemOpM64) 0 0xFF; (* #16 *)
  OSIGNATURE (kOpW .| kOpGpw) (0) 0 0xFF; (* #17 *)
  OSIGNATURE (kOpR .| kOpI16) (0) 0 0xFF; (* #18 *)
  OSIGNATURE (kOpW .| kOpGpq) (0) 0 0xFF; (* #19 *)
  OSIGNATURE (kOpR .| kOpCr .| kOpDr .| kOpI64) (0) 0 0xFF; (* #20 *)
  OSIGNATURE (kOpR .| kOpCr .| kOpDr) (0) 0 0xFF; (* #21 *)
  OSIGNATURE (kOpW .| kOpCr .| kOpDr) (0) 0 0xFF; (* #22 *)
  OSIGNATURE (kOpR .| kOpGpd) (0) 0 0xFF; (* #23 *)
  OSIGNATURE (kOpR .| kOpGpq) (0) 0 0xFF; (* #24 *)
  OSIGNATURE (kOpX .| kOpGpbLo .| kOpGpbHi .| kOpGpw .| kOpGpd .| kOpGpq .| kOpMem) (kMemOpM8 .| kMemOpM16 .| kMemOpM32 .| kMemOpM64) 0 0xFF; (* #25 *)
  OSIGNATURE (kOpR .| kOpI8) (0) 0 0xFF; (* #26 *)
  OSIGNATURE (kOpX .| kOpGpw .| kOpMem) (kMemOpM16) 0 0xFF; (* #27 *)
  OSIGNATURE (kOpR .| kOpGpw .| kOpI16) (0) 0 0xFF; (* #28 *)
  OSIGNATURE (kOpX .| kOpGpd .| kOpGpq .| kOpMem) (kMemOpM32 .| kMemOpM64) 0 0xFF; (* #29 *)
  OSIGNATURE (kOpR .| kOpI32) (0) 0 0xFF; (* #30 *)
  OSIGNATURE (kOpX .| kOpGpbLo .| kOpGpbHi .| kOpMem) (kMemOpM8) 0 0xFF; (* #31 *)
  OSIGNATURE (kOpR .| kOpGpbLo .| kOpGpbHi) (0) 0 0xFF; (* #32 *)
  OSIGNATURE (kOpX .| kOpGpd .| kOpMem) (kMemOpM32) 0 0xFF; (* #33 *)
  OSIGNATURE (kOpX .| kOpGpq .| kOpMem) (kMemOpM64) 0 0xFF; (* #34 *)
  OSIGNATURE (kOpX .| kOpGpbLo .| kOpGpbHi) (0) 0 0xFF; (* #35 *)
  OSIGNATURE (kOpR .| kOpGpbLo .| kOpGpbHi .| kOpMem) (kMemOpM8) 0 0xFF; (* #36 *)
  OSIGNATURE (kOpX .| kOpGpw) (0) 0 0xFF; (* #37 *)
  OSIGNATURE (kOpX .| kOpGpd) (0) 0 0xFF; (* #38 *)
  OSIGNATURE (kOpR .| kOpGpd .| kOpMem) (kMemOpM32) 0 0xFF; (* #39 *)
  OSIGNATURE (kOpX .| kOpGpq) (0) 0 0xFF; (* #40 *)
  OSIGNATURE (kOpR .| kOpGpbLo .| kOpGpbHi .| kOpGpw .| kOpGpd .| kOpGpq .| kOpMem) (kMemOpM8 .| kMemOpM16 .| kMemOpM32 .| kMemOpM64) 0 0xFF; (* #41 *)
  OSIGNATURE (kOpR .| kOpGpd .| kOpGpq .| kOpMem) (kMemOpM32 .| kMemOpM64) 0 0xFF; (* #42 *)
  OSIGNATURE (kOpR .| kOpGpw) (0) 0 0xFF; (* #43 *)
  OSIGNATURE (kOpX .| kOpImplicit .| kOpGpw) (0) 0 0; (* #44 *)
  OSIGNATURE (kOpW .| kOpImplicit .| kOpGpw) (0) 0 2; (* #45 *)
  OSIGNATURE (kOpW .| kOpImplicit .| kOpGpd) (0) 0 2; (* #46 *)
  OSIGNATURE (kOpX .| kOpImplicit .| kOpGpd) (0) 0 0; (* #47 *)
  OSIGNATURE (kOpW .| kOpImplicit .| kOpGpq) (0) 0 2; (* #48 *)
  OSIGNATURE (kOpX .| kOpImplicit .| kOpGpq) (0) 0 0; (* #49 *)
  OSIGNATURE (kOpR .| kOpGpw .| kOpMem .| kOpI8 .| kOpI16) (kMemOpM16) 0 0xFF; (* #50 *)
  OSIGNATURE (kOpR .| kOpGpd .| kOpMem .| kOpI8 .| kOpI32) (kMemOpM32) 0 0xFF; (* #51 *)
  OSIGNATURE (kOpR .| kOpGpq .| kOpMem .| kOpI8 .| kOpI32) (kMemOpM64) 0 0xFF; (* #52 *)
  OSIGNATURE (kOpR .| kOpI8 .| kOpI16) (0) 0 0xFF; (* #53 *)
  OSIGNATURE (kOpR .| kOpI8 .| kOpI32) (0) 0 0xFF; (* #54 *)
  OSIGNATURE (kOpR .| kOpMem) (kMemOpM16) 0 0xFF; (* #55 *)
  OSIGNATURE (kOpR .| kOpMem) (kMemOpM32) 0 0xFF; (* #56 *)
  OSIGNATURE (kOpR .| kOpMem) (kMemOpM64) 0 0xFF; (* #57 *)
  OSIGNATURE (kOpW .| kOpMem) (kMemOpM16) 0 0xFF; (* #58 *)
  OSIGNATURE (kOpW .| kOpMem) (kMemOpM32) 0 0xFF; (* #59 *)
  OSIGNATURE (kOpW .| kOpMem) (kMemOpM64) 0 0xFF; (* #60 *)
  OSIGNATURE (kOpW .| kOpMm) (0) 0 0xFF; (* #61 *)
  OSIGNATURE (kOpR .| kOpGpq .| kOpMm .| kOpXmm .| kOpMem) (kMemOpM64) 0 0xFF; (* #62 *)
  OSIGNATURE (kOpW .| kOpGpq .| kOpMm .| kOpXmm .| kOpMem) (kMemOpM64) 0 0xFF; (* #63 *)
  OSIGNATURE (kOpR .| kOpMm) (0) 0 0xFF; (* #64 *)
  OSIGNATURE (kOpR .| kOpXmm) (0) 0 0xFF; (* #65 *)
  OSIGNATURE (kOpW .| kOpXmm) (0) 0 0xFF; (* #66 *)
  OSIGNATURE (kOpR .| kOpXmm .| kOpMem) (kMemOpM64) 0 0xFF; (* #67 *)
  OSIGNATURE (kOpW .| kOpXmm .| kOpMem) (kMemOpM64) 0 0xFF; (* #68 *)
  OSIGNATURE (kOpR .| kOpXmm .| kOpMem) (kMemOpM128) 0 0xFF; (* #69 *)
  OSIGNATURE (kOpW .| kOpXmm .| kOpMem) (kMemOpM128) 0 0xFF; (* #70 *)
  OSIGNATURE (kOpW .| kOpYmm) (0) 0 0xFF; (* #71 *)
  OSIGNATURE (kOpR .| kOpYmm .| kOpMem) (kMemOpM256) 0 0xFF; (* #72 *)
  OSIGNATURE (kOpW .| kOpYmm .| kOpMem) (kMemOpM256) 0 0xFF; (* #73 *)
  OSIGNATURE (kOpR .| kOpYmm) (0) 0 0xFF; (* #74 *)
  OSIGNATURE (kOpW .| kOpZmm) (0) 0 0xFF; (* #75 *)
  OSIGNATURE (kOpR .| kOpZmm .| kOpMem) (kMemOpM512) 0 0xFF; (* #76 *)
  OSIGNATURE (kOpW .| kOpZmm .| kOpMem) (kMemOpM512) 0 0xFF; (* #77 *)
  OSIGNATURE (kOpR .| kOpZmm) (0) 0 0xFF; (* #78 *)
  OSIGNATURE (kOpR .| kOpXmm .| kOpMem .| kOpI8) (kMemOpM128) 0 0xFF; (* #79 *)
  OSIGNATURE (kOpR .| kOpVm) (kMemOpVm32x) 0 0xFF; (* #80 *)
  OSIGNATURE (kOpR .| kOpVm) (kMemOpVm32y) 0 0xFF; (* #81 *)
  OSIGNATURE (kOpR .| kOpVm) (kMemOpVm32z) 0 0xFF; (* #82 *)
  OSIGNATURE (kOpR .| kOpVm) (kMemOpVm64x) 0 0xFF; (* #83 *)
  OSIGNATURE (kOpR .| kOpVm) (kMemOpVm64y) 0 0xFF; (* #84 *)
  OSIGNATURE (kOpR .| kOpVm) (kMemOpVm64z) 0 0xFF; (* #85 *)
  OSIGNATURE (kOpR .| kOpImplicit .| kOpGpbLo) (0) 0 0; (* #86 *)
  OSIGNATURE (kOpR .| kOpImplicit .| kOpGpw) (0) 0 0; (* #87 *)
  OSIGNATURE (kOpR .| kOpImplicit .| kOpGpd) (0) 0 0; (* #88 *)
  OSIGNATURE (kOpR .| kOpImplicit .| kOpGpq) (0) 0 0; (* #89 *)
  OSIGNATURE (kOpX .| kOpImplicit .| kOpGpw) (0) 0 2; (* #90 *)
  OSIGNATURE (kOpX .| kOpImplicit .| kOpGpd) (0) 0 2; (* #91 *)
  OSIGNATURE (kOpX .| kOpImplicit .| kOpGpq) (0) 0 2; (* #92 *)
  OSIGNATURE (kOpR .| kOpVm) (kMemOpVm64x .| kMemOpVm64y) 0 0xFF; (* #93 *)
  OSIGNATURE (kOpW .| kOpMem) (kMemOpM128) 0 0xFF; (* #94 *)
  OSIGNATURE (kOpW .| kOpMem) (kMemOpM256) 0 0xFF; (* #95 *)
  OSIGNATURE (kOpR .| kOpMem) (kMemOpM128) 0 0xFF; (* #96 *)
  OSIGNATURE (kOpR .| kOpMem) (kMemOpM256) 0 0xFF; (* #97 *)
  OSIGNATURE (kOpR .| kOpI4) (0) 0 0xFF; (* #98 *)
  OSIGNATURE (kOpR .| kOpGpw .| kOpI8) (0) 0 0xFF; (* #99 *)
  OSIGNATURE (kOpR .| kOpGpd .| kOpI8) (0) 0 0xFF; (* #100 *)
  OSIGNATURE (kOpR .| kOpGpq .| kOpI8) (0) 0 0xFF; (* #101 *)
  OSIGNATURE (kOpX .| kOpMem) (kMemOpM32 .| kMemOpM64) 0 0xFF; (* #102 *)
  OSIGNATURE (kOpX .| kOpFp) (0) 0 0; (* #103 *)
  OSIGNATURE (kOpR .| kOpFp) (0) 0 0xFF; (* #104 *)
  OSIGNATURE (kOpX .| kOpFp) (0) 0 0xFF; (* #105 *)
  OSIGNATURE (kOpR .| kOpFp) (0) 0 0; (* #106 *)
  OSIGNATURE (kOpX .| kOpImplicit) (0) 0 0xFF; (* #107 *)
  OSIGNATURE (kOpR .| kOpGpbLo .| kOpI8) (0) 0 1; (* #108 *)
  OSIGNATURE (kOpW .| kOpK .| kOpXmm) (0) 0 0xFF; (* #109 *)
  OSIGNATURE (kOpW .| kOpK .| kOpYmm) (0) 0 0xFF; (* #110 *)
  OSIGNATURE (kOpW .| kOpK) (0) 0 0xFF; (* #111 *)
  OSIGNATURE (kOpR .| kOpXmm .| kOpYmm .| kOpMem) (kMemOpM64 .| kMemOpM128 .| kMemOpM256) 0 0xFF; (* #112 *)
  OSIGNATURE (kOpX .| kOpXmm) (0) 0 0xFF; (* #113 *)
  OSIGNATURE (kOpX .| kOpYmm) (0) 0 0xFF; (* #114 *)
  OSIGNATURE (kOpX .| kOpZmm) (0) 0 0xFF; (* #115 *)
  OSIGNATURE (kOpW .| kOpMem) (kMemOpM512) 0 0xFF; (* #116 *)
  OSIGNATURE (kOpR .| kOpMem) (kMemOpM512) 0 0xFF; (* #117 *)
  OSIGNATURE (kOpR .| kOpGpq .| kOpXmm .| kOpMem) (kMemOpM64) 0 0xFF; (* #118 *)
  OSIGNATURE (kOpW .| kOpMem) (kMemOpM32 .| kMemOpM64) 0 0xFF; (* #119 *)
  OSIGNATURE (kOpR .| kOpMem) (kMemOpM32 .| kMemOpM64) 0 0xFF; (* #120 *)
  OSIGNATURE (kOpW .| kOpXmm .| kOpMem) (kMemOpM32) 0 0xFF; (* #121 *)
  OSIGNATURE (kOpW .| kOpXmm .| kOpMem) (kMemOpM16) 0 0xFF; (* #122 *)
  OSIGNATURE (kOpR .| kOpXmm .| kOpMem) (kMemOpM32) 0 0xFF; (* #123 *)
  OSIGNATURE (kOpR .| kOpXmm .| kOpMem) (kMemOpM16) 0 0xFF; (* #124 *)
  OSIGNATURE (kOpR .| kOpXmm .| kOpMem) (kMemOpM32 .| kMemOpM64) 0 0xFF; (* #125 *)
  OSIGNATURE (kOpR .| kOpXmm .| kOpMem) (kMemOpM64 .| kMemOpM128) 0 0xFF; (* #126 *)
  OSIGNATURE (kOpW .| kOpVm) (kMemOpVm32x) 0 0xFF; (* #127 *)
  OSIGNATURE (kOpW .| kOpVm) (kMemOpVm32y) 0 0xFF; (* #128 *)
  OSIGNATURE (kOpW .| kOpVm) (kMemOpVm32z) 0 0xFF; (* #129 *)
  OSIGNATURE (kOpW .| kOpVm) (kMemOpVm64x) 0 0xFF; (* #130 *)
  OSIGNATURE (kOpW .| kOpVm) (kMemOpVm64y) 0 0xFF; (* #131 *)
  OSIGNATURE (kOpW .| kOpVm) (kMemOpVm64z) 0 0xFF; (* #132 *)
  OSIGNATURE (kOpX .| kOpGpq .| kOpMem .| kOpI32 .| kOpI64 .| kOpRel32) (kMemOpM64) 0 0xFF; (* #133 *)
  OSIGNATURE (kOpR .| kOpGpbLo .| kOpGpbHi .| kOpGpw .| kOpGpd .| kOpMem) (kMemOpM8 .| kMemOpM16 .| kMemOpM32) 0 0xFF; (* #134 *)
  OSIGNATURE (kOpR .| kOpGpbLo .| kOpGpbHi .| kOpGpq .| kOpMem) (kMemOpM8 .| kMemOpM64) 0 0xFF; (* #135 *)
  OSIGNATURE (kOpX .| kOpGpw .| kOpGpd) (0) 0 0xFF; (* #136 *)
  OSIGNATURE (kOpX .| kOpFp .| kOpMem) (kMemOpM32 .| kMemOpM64) 0 0xFF; (* #137 *)
  OSIGNATURE (kOpR .| kOpGpw .| kOpGpd) (0) 0 1; (* #138 *)
  OSIGNATURE (kOpR .| kOpRel8) (0) 0 0xFF; (* #139 *)
  OSIGNATURE (kOpR .| kOpGpd .| kOpGpq) (0) 0 1; (* #140 *)
  OSIGNATURE (kOpX .| kOpGpq .| kOpMem .| kOpI32 .| kOpI64 .| kOpRel8 .| kOpRel32) (kMemOpM64) 0 0xFF; (* #141 *)
  OSIGNATURE (kOpR .| kOpGpbLo .| kOpGpbHi .| kOpGpw .| kOpGpd .| kOpGpq .| kOpK .| kOpMem) (kMemOpM8) 0 0xFF; (* #142 *)
  OSIGNATURE (kOpW .| kOpGpbLo .| kOpGpbHi .| kOpGpw .| kOpGpd .| kOpGpq .| kOpMem) (kMemOpM8) 0 0xFF; (* #143 *)
  OSIGNATURE (kOpR .| kOpK) (0) 0 0xFF; (* #144 *)
  OSIGNATURE (kOpR .| kOpGpd .| kOpGpq .| kOpK .| kOpMem) (kMemOpM32) 0 0xFF; (* #145 *)
  OSIGNATURE (kOpW .| kOpGpd .| kOpGpq .| kOpMem) (kMemOpM32) 0 0xFF; (* #146 *)
  OSIGNATURE (kOpR .| kOpGpq .| kOpK .| kOpMem) (kMemOpM64) 0 0xFF; (* #147 *)
  OSIGNATURE (kOpR .| kOpGpw .| kOpGpd .| kOpGpq .| kOpK .| kOpMem) (kMemOpM16) 0 0xFF; (* #148 *)
  OSIGNATURE (kOpW .| kOpGpw .| kOpGpd .| kOpGpq .| kOpMem) (kMemOpM16) 0 0xFF; (* #149 *)
  OSIGNATURE (kOpW .| kOpMm .| kOpXmm) (0) 0 0xFF; (* #150 *)
  OSIGNATURE (kOpR .| kOpGpd .| kOpGpq .| kOpMem) (kMemOpM32) 0 0xFF; (* #151 *)
  OSIGNATURE (kOpR .| kOpMm .| kOpXmm) (0) 0 0xFF; (* #152 *)
  OSIGNATURE (kOpW .| kOpGpw .| kOpGpd .| kOpGpq) (0) 0 0xFF; (* #153 *)
  OSIGNATURE (kOpW .| kOpGpd .| kOpGpq) (0) 0 0xFF; (* #154 *)
  OSIGNATURE (kOpR .| kOpImplicit .| kOpGpd) (0) 0 2; (* #155 *)
  OSIGNATURE (kOpR .| kOpImplicit .| kOpGpq) (0) 0 2; (* #156 *)
  OSIGNATURE (kOpR .| kOpGpw .| kOpGpd .| kOpMem) (kMemOpM16 .| kMemOpM32) 0 0xFF; (* #157 *)
  OSIGNATURE (kOpX .| kOpMm) (0) 0 0xFF; (* #158 *)
  OSIGNATURE (kOpR .| kOpMm .| kOpMem) (kMemOpM64) 0 0xFF; (* #159 *)
  OSIGNATURE (kOpW .| kOpGpw .| kOpGpq .| kOpMem) (kMemOpM16 .| kMemOpM64) 0 0xFF; (* #160 *)
  OSIGNATURE (kOpR .| kOpMm .| kOpMem .| kOpI8) (kMemOpM64) 0 0xFF; (* #161 *)
  OSIGNATURE (kOpX .| kOpGpw .| kOpGpq .| kOpMem .| kOpI8 .| kOpI16 .| kOpI32) (kMemOpM16 .| kMemOpM64) 0 0xFF; (* #162 *)
  OSIGNATURE (kOpX .| kOpI16) (0) 0 0xFF; (* #163 *)
  OSIGNATURE (kOpR .| kOpXmm .| kOpYmm .| kOpMem) (kMemOpM128 .| kMemOpM256) 0 0xFF; (* #164 *)
  OSIGNATURE (kOpW .| kOpXmm .| kOpYmm .| kOpZmm) (0) 0 0xFF; (* #165 *)
  OSIGNATURE (kOpR .| kOpXmm .| kOpMem) (kMemOpM8) 0 0xFF; (* #166 *)
  OSIGNATURE (kOpR .| kOpGpd .| kOpGpq) (0) 0 0xFF; (* #167 *)
  OSIGNATURE (kOpR .| kOpGpbLo .| kOpGpbHi .| kOpGpw .| kOpGpd .| kOpGpq .| kOpMem) (kMemOpM8) 0 0xFF; (* #168 *)
  OSIGNATURE (kOpR .| kOpXmm .| kOpI8) (0) 0 0xFF; (* #169 *)
  OSIGNATURE (kOpW .| kOpVm) (kMemOpVm64x .| kMemOpVm64y) 0 0xFF; (* #170 *)
  OSIGNATURE (kOpR .| kOpXmm .| kOpYmm) (0) 0 0xFF; (* #171 *)
  OSIGNATURE (kOpR .| kOpImplicit .| kOpXmm) (0) 0 0; (* #172 *)
  OSIGNATURE (kOpX .| kOpGpd .| kOpGpq) (0) 0 0xFF; (* #173 *)
  OSIGNATURE (kOpR .| kOpMem) (kMemOpAny) 0 0xFF; (* #174 *)
  OSIGNATURE (kOpR .| kOpImplicit) (0) 0 0xFF; (* #175 *)
  OSIGNATURE (kOpX .| kOpMem) (kMemOpM128) 0 0xFF; (* #176 *)
  OSIGNATURE (kOpR .| kOpImplicit .| kOpGpq) (0) 0 1; (* #177 *)
  OSIGNATURE (kOpR .| kOpImplicit .| kOpGpq) (0) 0 3; (* #178 *)
  OSIGNATURE (kOpX .| kOpMem) (kMemOpM64) 0 0xFF; (* #179 *)
  OSIGNATURE (kOpR .| kOpImplicit .| kOpGpd) (0) 0 1; (* #180 *)
  OSIGNATURE (kOpR .| kOpImplicit .| kOpGpd) (0) 0 3; (* #181 *)
  OSIGNATURE (kOpW .| kOpImplicit .| kOpGpd) (0) 0 3; (* #182 *)
  OSIGNATURE (kOpX .| kOpImplicit .| kOpGpd) (0) 0 1; (* #183 *)
  OSIGNATURE (kOpX .| kOpMem) (kMemOpM80) 0 0xFF; (* #184 *)
  OSIGNATURE (kOpX .| kOpMem) (kMemOpM16 .| kMemOpM32) 0 0xFF; (* #185 *)
  OSIGNATURE (kOpX .| kOpMem) (kMemOpM16 .| kMemOpM32 .| kMemOpM64) 0 0xFF; (* #186 *)
  OSIGNATURE (kOpX .| kOpFp .| kOpMem) (kMemOpM32 .| kMemOpM64 .| kMemOpM80) 0 0xFF; (* #187 *)
  OSIGNATURE (kOpX .| kOpMem) (kMemOpM16) 0 0xFF; (* #188 *)
  OSIGNATURE (kOpX .| kOpMem) (kMemOpAny) 0 0xFF; (* #189 *)
  OSIGNATURE (kOpX .| kOpGpw .| kOpMem) (kMemOpM16) 0 0; (* #190 *)
  OSIGNATURE (kOpX .| kOpI8) (0) 0 0xFF; (* #191 *)
  OSIGNATURE (kOpX .| kOpRel8 .| kOpRel32) (0) 0 0xFF; (* #192 *)
  OSIGNATURE (kOpX .| kOpRel8) (0) 0 0xFF; (* #193 *)
  OSIGNATURE (kOpW .| kOpImplicit .| kOpGpbHi) (0) 0 0; (* #194 *)
  OSIGNATURE (kOpW .| kOpImplicit .| kOpGpd) (0) 0 1; (* #195 *)
  OSIGNATURE (kOpW .| kOpImplicit .| kOpXmm) (0) 0 0; (* #196 *)
  OSIGNATURE (kOpX .| kOpMm .| kOpXmm) (0) 0 0xFF; (* #197 *)
  OSIGNATURE (kOpR .| kOpGpw .| kOpGpd .| kOpGpq .| kOpMem) (kMemOpM16) 0 0xFF; (* #198 *)
  OSIGNATURE (kOpW .| kOpImplicit .| kOpGpd) (0) 0 0; (* #199 *)
  OSIGNATURE (kOpR .| kOpImplicit .| kOpGpbHi) (0) 0 0; (* #200 *)
  OSIGNATURE (kOpW .| kOpYmm .| kOpZmm) (0) 0 0xFF; (* #201 *)
  OSIGNATURE (kOpR .| kOpYmm .| kOpZmm) (0) 0 0xFF; (* #202 *)
  OSIGNATURE (kOpR .| kOpXmm .| kOpYmm .| kOpZmm .| kOpMem) (kMemOpM128 .| kMemOpM256 .| kMemOpM512) 0 0xFF; (* #203 *)
  OSIGNATURE (kOpR .| kOpXmm .| kOpYmm .| kOpZmm) (0) 0 0xFF (* #204 *)
].

(** [_x86OpFlagFromRegType]. *)
Definition _x86OpFlagFromRegType : list Z := [
  kOpNone;  (* #00 None. *)
  kOpNone;  (* #01 Reserved. *)
  kOpNone;  (* #02 RIP. *)
  kOpSeg;   (* #03 SEG. *)
  kOpGpbLo; (* #04 GPB-LO. *)
  kOpGpbHi; (* #05 GPB-HI. *)
  kOpGpw;   (* #06 GPW. *)
  kOpGpd;   (* #07 GPD. *)
  kOpGpq;   (* #08 GPQ. *)
  kOpFp;    (* #09 FP. *)
  kOpMm;    (* #10 MM. *)
  kOpK;     (* #11 K. *)
  kOpXmm;   (* #12 XMM. *)
  kOpYmm;   (* #13 YMM. *)
  kOpZmm;   (* #14 ZMM. *)
  kOpNone;  (* #15 FUTURE. *)
  kOpBnd;   (* #16 BND. *)
  kOpCr;    (* #17 CR. *)
  kOpDr     (* #18 DR. *)
].

Record X86ValidationData : Set := {
  allowedRegMask : list Z;
  allowedMemBaseRegs : Z;
  allowedMemIndexRegs : Z
}.

(** [1U << n] on a 32-bit word. *)
Definition bit (n : Z) : Z := Z.shiftl 1 n mod 2 ^ 32.

Definition _x86ValidationData : X86ValidationData := {|
  allowedRegMask := [
    0x00000000;       (* #00 None. *)
    0x00000000;       (* #01 Reserved. *)
    0x00000001;       (* #02 RIP. *)
    0x0000007E;       (* #03 SEG (ES|CS|SS|DS|FS|GS). *)
    0x0000000F;       (* #04 GPB-LO. *)
    0x0000000F;       (* #05 GPB-HI. *)
    0x000000FF;       (* #06 GPW. *)
    0x000000FF;       (* #07 GPD. *)
    0x000000FF;       (* #08 GPQ. *)
    0x000000FF;       (* #09 FP. *)
    0x000000FF;       (* #10 MM. *)
    0x000000FF;       (* #11 K. *)
    0x000000FF;       (* #12 XMM. *)
    0x000000FF;       (* #13 YMM. *)
    0x000000FF;       (* #14 ZMM. *)
    0x00000000;       (* #15 FUTURE. *)
    0x0000000F;       (* #16 BND *)
    0x000000FF;       (* #17 CR. *)
    0x000000FF        (* #18 DR *)
  ];
  allowedMemBaseRegs :=
    bit X86Reg.kRegGpw .| bit X86Reg.kRegGpd .| bit X86Reg.kRegRip
    .| bit Operand.kLabelTag;
  allowedMemIndexRegs :=
    bit X86Reg.kRegGpw .| bit X86Reg.kRegGpd .| bit X86Reg.kRegXmm
    .| bit X86Reg.kRegYmm .| bit X86Reg.kRegZmm
|}.

Definition _x64ValidationData : X86ValidationData := {|
  allowedRegMask := [
    0x00000000;       (* #00 None. *)
    0x00000000;       (* #01 Reserved. *)
    0x00000001;       (* #02 RIP. *)
    0x00000060;       (* #03 SEG (FS|GS). *)
    0x0000FFFF;       (* #04 GPB-LO. *)
    0x0000000F;       (* #05 GPB-HI. *)
    0x0000FFFF;       (* #06 GPW. *)
    0x0000FFFF;       (* #07 GPD. *)
    0x0000FFFF;       (* #08 GPQ. *)
    0x000000FF;       (* #09 FP. *)
    0x000000FF;       (* #10 MM. *)
    0x000000FF;       (* #11 K. *)
    0xFFFFFFFF;       (* #12 XMM (16 base regs, 32 regs only with EVEX encoding). *)
    0xFFFFFFFF;       (* #13 YMM (16 base regs, 32 regs only with EVEX encoding). *)
    0xFFFFFFFF;       (* #14 ZMM (16 base regs, 32 regs only with EVEX encoding). *)
    0x00000000;       (* #15 FUTURE. *)
    0x0000000F;       (* #16 BND. *)
    0x000001FF;       (* #17 CR. *)
    0x000000FF        (* #18 DR. *)
  ];
  allowedMemBaseRegs :=
    bit X86Reg.kRegGpd .| bit X86Reg.kRegGpq .| bit X86Reg.kRegRip
    .| bit Operand.kLabelTag;
  allowedMemIndexRegs :=
    bit X86Reg.kRegGpd .| bit X86Reg.kRegGpq .| bit X86Reg.kRegXmm
    .| bit X86Reg.kRegYmm .| bit X86Reg.kRegZmm
|}.

(** ** The validator *)

(** What the operand loop of [validate] has gathered so far.  [memOp] keeps
    the size of the memory operand the pointer of that name refers to, the
    only field read through it; the loop counter [i] is the length of
    [oSigTranslated]. *)
Record Translated : Set := {
  oSigTranslated : list OSignature;
  combinedOpFlags : Z;
  combinedRegMask : Z;
  memOp : option Z
}.

Definition noOperands : Translated :=
  {| oSigTranslated := []; combinedOpFlags := 0; combinedRegMask := 0;
     memOp := None |}.

(** The [case Operand::kOpReg] arm: the operand flag, the id kept in the
    translated row and the bit added to [combinedRegMask]. *)
Definition translateReg (vd : X86ValidationData) (regType id : Z)
  : Step Error (Z * Z * Z) :=
  if X86Reg.kRegCount <=? regType then Return kErrorInvalidRegType
  else
    let opFlags := nth (Z.to_nat regType) _x86OpFlagFromRegType 0 in
    if opFlags =? 0 then Return kErrorInvalidRegType
    else if id <? Operand.kPackedIdMin then
      if 32 <=? id then Return kErrorInvalidPhysId
      else
        let regMask := bit id in
        if nth (Z.to_nat regType) (allowedRegMask vd) 0 .& regMask =? 0
        then Return kErrorInvalidPhysId
        else Continue (opFlags, id, regMask)
    else Continue (opFlags, id, 0).

(** [1U << n] where the source puts no bound on [n], as for the register
    type of a base or an index.  For [n] below 32 this is [bit n].  For 32
    or more the C++ shift is undefined; the x86 shift instruction takes the
    count of a 32-bit shift modulo 32, and the model follows it. *)
Definition shiftedOne (n : Z) : Z := bit (n mod 32).

(** The [case Operand::kOpMem] arm: the operand and memory flags. *)
Definition translateMem (vd : X86ValidationData) (baseType indexType : Z)
  : Step Error (Z * Z) :=
  if negb (baseType =? 0)
     && (allowedMemBaseRegs vd .& shiftedOne baseType =? 0)
  then Return kErrorInvalidAddress
  else if negb (indexType =? 0) then
    if allowedMemIndexRegs vd .& shiftedOne indexType =? 0
    then Return kErrorInvalidAddress
    else if indexType =? X86Reg.kRegXmm then
      Continue (kOpVm, kMemOpVm32x .| kMemOpVm64x)
    else if indexType =? X86Reg.kRegYmm then
      Continue (kOpVm, kMemOpVm32y .| kMemOpVm64y)
    else if indexType =? X86Reg.kRegZmm then
      Continue (kOpVm, kMemOpVm32z .| kMemOpVm64z)
    else Continue (kOpMem, 0)
  else
    Continue (kOpMem,
              kMemOpM8 .| kMemOpM16 .| kMemOpM32 .| kMemOpM64 .| kMemOpM80
              .| kMemOpM128 .| kMemOpM256 .| kMemOpM512 .| kMemOpM1024
              .| kMemOpAny).

(** The body of the operand loop for one operand that is not none: the
    [switch], then the store into [oSigTranslated[i]], an array of six. *)
Definition translateOperand (vd : X86ValidationData) (op : Operand.t)
  (st : Translated) : Step Error Translated :=
  let finish (opFlags memFlags regId regMask : Z) (mem : option Z) :=
    if 6 <=? Z.of_nat (List.length (oSigTranslated st)) then OutOfBounds
    else Continue
      {| oSigTranslated :=
           oSigTranslated st
           ++ [OSIGNATURE opFlags (memFlags mod 2 ^ 16) 0 (regId mod 2 ^ 8)];
         combinedOpFlags := combinedOpFlags st .| opFlags;
         combinedRegMask := combinedRegMask st .| regMask;
         memOp := mem |} in
  match op with
  | Operand.kOpReg regType id =>
      match translateReg vd regType id with
      | Continue (opFlags, regId, regMask) =>
          finish opFlags 0 regId regMask (memOp st)
      | Return e => Return e
      | OutOfBounds => OutOfBounds
      end
  | Operand.kOpMem size baseType indexType =>
      match translateMem vd baseType indexType with
      | Continue (opFlags, memFlags) =>
          finish opFlags memFlags kInvalidReg 0 (Some size)
      | Return e => Return e
      | OutOfBounds => OutOfBounds
      end
  | Operand.kOpImm =>
      finish (kOpI4 .| kOpI8 .| kOpI16 .| kOpI32 .| kOpI64) 0 kInvalidReg 0
             (memOp st)
  | Operand.kOpLabel =>
      finish (kOpRel8 .| kOpRel32) 0 kInvalidReg 0 (memOp st)
  | Operand.kOpNone | Operand.kOpOther => Return kErrorInvalidState
  end.

(** The operand loop [for (i = 0; i < opCount; i++)], left at the first
    none operand. *)
Fixpoint translate (vd : X86ValidationData) (opArray : list Operand.t)
  (st : Translated) : Step Error Translated :=
  match opArray with
  | [] => Continue st
  | op :: rest =>
      if Operand.isNone op then Continue st
      else match translateOperand vd op st with
           | Continue st' => translate vd rest st'
           | Return e => Return e
           | OutOfBounds => OutOfBounds
           end
  end.

(** The check after the loop: every operand behind the one the loop stopped
    at ([opArray[i]]) is none. *)
Definition noGaps (opArray : list Operand.t) (i : nat) : bool :=
  forallb Operand.isNone (skipn (S i) opArray).

(** The three tests applied to a translated operand [oChk] and a reference
    row [oRef]; [false] is the [break]. *)
Definition operandMatches (oChk oRef : OSignature) : bool :=
  negb (flags oRef .& flags oChk =? 0)
  && negb ((memFlags oRef .& memFlags oChk =? 0) && negb (memFlags oChk =? 0))
  && negb (negb (regId oRef =? kInvalidReg) && negb (regId oChk =? kInvalidReg)
           && negb (regId oRef =? regId oChk)).

Definition oSigData (index : Z) : OSignature :=
  nth (Z.to_nat index) _x86InstOSignatureData (OSIGNATURE 0 0 0 0xFF).

(** The loop of the [iCount == opCount] arm; the result is [j == opCount]. *)
Fixpoint matchExact (oChk : list OSignature) (refs : list Z) : bool :=
  match oChk, refs with
  | [], _ => true
  | _ :: _, [] => false
  | chk :: oChk', ref :: refs' =>
      operandMatches chk (oSigData ref) && matchExact oChk' refs'
  end.

(** The loop of the [iCount - implicit == opCount] arm; [refs] holds
    [operands[r .. iCount - 1]].  An implicit reference row is stepped over
    without using up the operand. *)
Fixpoint matchImplicit (oChk : list OSignature) (refs : list Z) {struct refs}
  : bool :=
  match oChk with
  | [] => true
  | chk :: oChk' =>
      match refs with
      | [] => false
      | ref :: refs' =>
          if negb (flags (oSigData ref) .& kOpImplicit =? 0)
          then matchImplicit oChk refs'
          else operandMatches chk (oSigData ref) && matchImplicit oChk' refs'
      end
  end.

(** One round of the [do ... while (++iSig != iEnd)] scan: does the row
    leave the loop through one of its two [break]s? *)
Definition signatureMatches (archMask_ : Z) (oChk : list OSignature)
  (iSig : ISignature) : bool :=
  if archMask iSig .& archMask_ =? 0 then false
  else
    let iCount := opCount iSig in
    let opCount_ := Z.of_nat (List.length oChk) in
    if iCount =? opCount_ then matchExact oChk (operands iSig)
    else if (iCount - implicit iSig) mod 2 ^ 32 =? opCount_ then
      matchImplicit oChk (firstn (Z.to_nat iCount) (operands iSig))
    else false.

(** The choice [if (archType == ArchInfo::kTypeX86) ... else ...] of the
    validation data and of the architecture mask. *)
Definition validationData (archType : ArchType) : X86ValidationData :=
  match archType with
  | kTypeX86 => _x86ValidationData
  | _ => _x64ValidationData
  end.

Definition archMaskOf (archType : ArchType) : Z :=
  match archType with
  | kTypeX86 => kArchMaskX86
  | _ => kArchMaskX64
  end.

(** Everything [validate] does before it looks at the options: the
    argument checks, the operand loop, the gap and architecture checks and
    the signature scan.  On success it hands on the instruction's common
    data and what the operand loop gathered. *)
Definition validateOperands (archType : ArchType) (instId : Z)
  (opArray : list Operand.t) : Step Error (CommonData * Translated) :=
  if negb (isX86Family archType) then Return kErrorInvalidArch
  else
    let vd := validationData archType in
    let archMask_ := archMaskOf archType in
    if _kIdCount <=? instId then Return kErrorInvalidArgument
    else
      match at_index instData instId with
      | None => OutOfBounds
      | Some iData =>
          match translate vd opArray noOperands with
          | Return e => Return e
          | OutOfBounds => OutOfBounds
          | Continue tr =>
              if negb (noGaps opArray (List.length (oSigTranslated tr)))
              then Return kErrorInvalidState
              else if (archMask_ =? kArchMaskX86)
                      && negb (combinedOpFlags tr .& kOpGpq =? 0)
              then Return kErrorInvalidUseOfGpq
              else if negb (archMask_ =? kArchMaskX86)
                      && negb (combinedOpFlags tr .& kOpGpbHi =? 0)
                      && negb (combinedRegMask tr .& 0xFFFFFF00 =? 0)
              then Return kErrorInvalidUseOfGpbHi
              else
                match at_index commonData (commonDataIndex iData) with
                | None => OutOfBounds
                | Some cd =>
                    let iSig := _iSignatureIndex cd in
                    let count := _iSignatureCount cd in
                    if count =? 0 then Continue (cd, tr)
                    else if Z.of_nat (List.length _x86InstISignatureData)
                            <? iSig + count
                    then OutOfBounds
                    else if existsb
                              (signatureMatches archMask_ (oSigTranslated tr))
                              (firstn (Z.to_nat count)
                                 (skipn (Z.to_nat iSig) _x86InstISignatureData))
                    then Continue (cd, tr)
                    else Return kErrorInvalidInstruction
                end
          end
      end.

(** The AVX-512 option checks that close [validate], block by block;
    [Continue tt] falls through to the next block. *)
Definition hasOption (options mask : Z) : bool := negb (options .& mask =? 0).

(** [{k}] and [{k}{z}]. *)
Definition validateMask (options : Z) (opExtra : Operand.t) (cd : CommonData)
  : Step Error unit :=
  if hasOption options (kOptionK .| kOptionKZ) then
    if negb (hasOption options kOptionK) then Return kErrorInvalidKZeroUse
    else if negb (isK opExtra) then Return kErrorInvalidKMaskReg
    else if negb (hasFlag cd kInstFlagEvexK_) then Return kErrorInvalidKMaskUse
    else if hasOption options kOptionKZ && negb (hasFlag cd kInstFlagEvexKZ)
    then Return kErrorInvalidKZeroUse
    else Continue tt
  else Continue tt.

(** Broadcast [{1tox}]. *)
Definition validateBroadcast (options : Z) (cd : CommonData)
  (memOp_ : option Z) : Step Error unit :=
  if hasOption options kOption1ToX then
    match memOp_ with
    | None => Return kErrorInvalidBroadcast
    | Some size =>
        if negb (size =? 0) then
          if hasFlag cd kInstFlagEvexB4 && negb (size =? 4)
          then Return kErrorInvalidBroadcast
          else if hasFlag cd kInstFlagEvexB8 && negb (size =? 8)
          then Return kErrorInvalidBroadcast
          else Continue tt
        else Continue tt
    end
  else Continue tt.

(** [{sae}] and [{er}].  The source reads [opArray[0]] and [opArray[1]]
    behind an assertion that is compiled out of release builds. *)
Definition validateRounding (options : Z) (opArray : list Operand.t)
  (cd : CommonData) (memOp_ : option Z) : Step Error unit :=
  if hasOption options (kOptionSAE .| kOptionER) then
    match memOp_ with
    | Some _ => Return kErrorInvalidSAEOrER
    | None =>
        if hasOption options kOptionER then
          if _flags cd .& kInstFlagEvexER =? 0
          then Return kErrorInvalidSAEOrER
          else if negb (_flags cd .& (kInstFlagEvexB4 .| kInstFlagEvexB8) =? 0)
          then
            match opArray with
            | op0 :: op1 :: _ =>
                if negb (isZmm op0) && negb (isZmm op1)
                then Return kErrorInvalidSAEOrER
                else Continue tt
            | _ => OutOfBounds
            end
          else Continue tt
        else if _flags cd .& kInstFlagEvexSAE =? 0
        then Return kErrorInvalidSAEOrER
        else Continue tt
    end
  else Continue tt.

Definition kAvx512Options : Z :=
  kOptionK .| kOption1ToX .| kOptionKZ .| kOptionSAE .| kOptionER.

Definition validateOptions (options : Z) (opExtra : Operand.t)
  (opArray : list Operand.t) (cd : CommonData) (memOp_ : option Z)
  : option Error :=
  if hasOption options kAvx512Options then
    match validateMask options opExtra cd with
    | Return e => Some e
    | OutOfBounds => None
    | Continue _ =>
        match validateBroadcast options cd memOp_ with
        | Return e => Some e
        | OutOfBounds => None
        | Continue _ =>
            match validateRounding options opArray cd memOp_ with
            | Return e => Some e
            | OutOfBounds => None
            | Continue _ => Some kErrorOk
            end
        end
    end
  else Some kErrorOk.

(** [X86Inst::validate(archType, instId, options, opExtra, opArray,
    opCount)]; [opArray] is the list of the [opCount] operands.  [None]
    stands for a run that leaves an array. *)
Definition validate (archType : ArchType) (instId options : Z)
  (opExtra : Operand.t) (opArray : list Operand.t) : option Error :=
  match validateOperands archType instId opArray with
  | Return e => Some e
  | OutOfBounds => None
  | Continue (cd, tr) => validateOptions options opExtra opArray cd (memOp tr)
  end.

(** ** Condition codes *)

Definition _x86ReverseCond : list Z := [
  kCondO; kCondNO; kCondA; kCondBE; (* O|NO|B |AE *)
  kCondE; kCondNE; kCondAE; kCondB; (* E|NE|BE|A *)
  kCondS; kCondNS; kCondPE; kCondPO; (* S|NS|PE|PO *)
  kCondG; kCondLE; kCondGE; kCondL; (* L|GE|LE|G *)
  kCondFpuUnordered; kCondFpuNotUnordered; 0x12; 0x13
].

(** [CC_TO_INST(X86Inst::kIdCmov)], [CC_TO_INST(X86Inst::kIdJ)] and
    [CC_TO_INST(X86Inst::kIdSet)], the suffixes pasted. *)
Definition _x86CondToCmovcc : list Z := [
  kIdCmovo; kIdCmovno; kIdCmovb; kIdCmovae;
  kIdCmove; kIdCmovne; kIdCmovbe; kIdCmova;
  kIdCmovs; kIdCmovns; kIdCmovpe; kIdCmovpo;
  kIdCmovl; kIdCmovge; kIdCmovle; kIdCmovg;
  kInvalidInst; kInvalidInst; kInvalidInst; kInvalidInst
].

Definition _x86CondToJcc : list Z := [
  kIdJo; kIdJno; kIdJb; kIdJae;
  kIdJe; kIdJne; kIdJbe; kIdJa;
  kIdJs; kIdJns; kIdJpe; kIdJpo;
  kIdJl; kIdJge; kIdJle; kIdJg;
  kInvalidInst; kInvalidInst; kInvalidInst; kInvalidInst
].

Definition _x86CondToSetcc : list Z := [
  kIdSeto; kIdSetno; kIdSetb; kIdSetae;
  kIdSete; kIdSetne; kIdSetbe; kIdSeta;
  kIdSets; kIdSetns; kIdSetpe; kIdSetpo;
  kIdSetl; kIdSetge; kIdSetle; kIdSetg;
  kInvalidInst; kInvalidInst; kInvalidInst; kInvalidInst
].

(** Modelled from the spec: the accessors [reverse_cond], [jcc_of],
    [setcc_of] and [cmovcc_of] of spec section 6 (I2), declared in the
    missing [x86/x86inst.h]: each indexes its table by the condition code. *)
Definition reverseCond (cond : Z) : option Z := at_index _x86ReverseCond cond.
Definition condToCmovcc (cond : Z) : option Z := at_index _x86CondToCmovcc cond.
Definition condToJcc (cond : Z) : option Z := at_index _x86CondToJcc cond.
Definition condToSetcc (cond : Z) : option Z := at_index _x86CondToSetcc cond.

(** ** Notions used in the statements below *)

(** The signature group of an instruction row lies inside
    [_x86InstISignatureData]. *)
Definition groupInBounds (inst : X86Inst) : bool :=
  match at_index commonData (commonDataIndex inst) with
  | None => false
  | Some cd =>
      (0 <=? _iSignatureIndex cd) && (0 <=? _iSignatureCount cd)
      && (_iSignatureIndex cd + _iSignatureCount cd
          <=? Z.of_nat (List.length _x86InstISignatureData))
  end.

(** The mnemonic suffix of each concrete condition code, in table order. *)
Open Scope string_scope.
Definition condSuffix : list string := [
  "o"; "no"; "b"; "ae"; "e"; "ne"; "be"; "a";
  "s"; "ns"; "pe"; "po"; "l"; "ge"; "le"; "g"
].
Close Scope string_scope.

(** What is asked of one entry of a condition-code table: a real id, the
    encoding kind of the family, and the family's mnemonic followed by the
    suffix of the condition. *)
Definition isFamilyMember (encoding : Encoding) (mnemonic : string)
  (cond id : Z) : Prop :=
  0 < id < _kIdCount
  /\ id <> kInvalidInst
  /\ option_map encodingType (at_index instData id) = Some encoding
  /\ exists suffix,
       at_index condSuffix cond = Some suffix
       /\ getNameById id = Some (bytes_of_string (mnemonic ++ suffix)).

(** Looking up, with its length, the name stored for [id] gives [id]
    back (on a zeroed stack), and the name fits [nameLower]. *)
Definition roundTrips (id : Z) : bool :=
  match getNameById id with
  | None => false
  | Some name =>
      (List.length name <=? 16)%nat
      && match getIdByName (fun _ => 0) (Some name)
                           (Z.of_nat (List.length name)) with
         | Some found => found =? id
         | None => false
         end
  end.

(** The operands the loop of [validate] translates: those before the first
    none operand. *)
Fixpoint leading (opArray : list Operand.t) : list Operand.t :=
  match opArray with
  | [] => []
  | op :: rest => if Operand.isNone op then [] else op :: leading rest
  end.

Definition isMem (op : Operand.t) : bool :=
  match op with Operand.kOpMem _ _ _ => true | _ => false end.

(** The size of the last memory operand of a list, [init] if there is
    none: what the pointer [memOp] ends up referring to. *)
Definition lastMem (ops : list Operand.t) (init : option Z) : option Z :=
  fold_left
    (fun acc op =>
       match op with Operand.kOpMem size _ _ => Some size | _ => acc end)
    ops init.


(** Case split of a bounded condition code into its values. *)
Ltac each_below n c H :=
  lazymatch n with
  | O => exfalso; lia
  | S ?m =>
      let E := fresh "E" in
      destruct (Z.eq_dec c (Z.of_nat m)) as [E | E];
      [ subst c; clear H | each_below m c H ]
  end.

(** ** The unit test of the source, replayed on the model *)

Module UnitTest.
Import X86Reg.

Definition reg := Operand.kOpReg.
Definition eax := reg kRegGpd 0.
Definition edx := reg kRegGpd 2.
Definition rax := reg kRegGpq 0.
Definition rdx := reg kRegGpq 2.
Definition al := reg kRegGpbLo 0.
Definition ax := reg kRegGpw 0.
Definition cs := reg kRegSeg 2.
Definition fs := reg kRegSeg 5.
Definition fp := reg kRegFp.
Definition mm := reg kRegMm.
Definition xmm := reg kRegXmm.
Definition ymm := reg kRegYmm.
Definition zmm := reg kRegZmm.
Definition cr := reg kRegCr.
Definition dr := reg kRegDr.
Definition ptr (base : Z) := Operand.kOpMem 0 base 0.
Definition imm := Operand.kOpImm.

(** [x86_validate] and [x64_validate]: three operand slots, the unused
    ones none, no options. *)
Definition pad (ops : list Operand.t) : list Operand.t :=
  firstn 3 (ops ++ repeat Operand.kOpNone 3).
Definition x86_validate (instId : Z) (ops : list Operand.t) :=
  validate kTypeX86 instId 0 Operand.kOpNone (pad ops).
Definition x64_validate (instId : Z) (ops : list Operand.t) :=
  validate kTypeX64 instId 0 Operand.kOpNone (pad ops).

Definition ok (r : option Error) : bool :=
  match r with Some kErrorOk => true | _ => false end.
Definition refused (r : option Error) : bool :=
  match r with Some kErrorOk | None => false | Some _ => true end.

(** The expectations of [UNIT(x86_inst_validation)], in its order. *)
Definition x86_inst_validation : list bool := [
  ok (x86_validate kIdCmp [eax; edx]);
  ok (x64_validate kIdCmp [rax; rdx]);
  refused (x86_validate kIdCmp [eax]);
  refused (x86_validate kIdCmp [rax; rdx]);
  refused (x64_validate kIdCmp [rax; al]);
  ok (x86_validate kIdFadd [fp 0; fp 7]);
  ok (x86_validate kIdFadd [fp 7; fp 0]);
  refused (x86_validate kIdFadd [fp 0; eax]);
  refused (x86_validate kIdFadd [fp 4; fp 3]);
  ok (x86_validate kIdPand [mm 0; mm 1]);
  refused (x86_validate kIdPand [mm 0; eax]);
  ok (x86_validate kIdPand [xmm 0; xmm 1]);
  ok (x64_validate kIdPand [xmm 8; xmm 9]);
  refused (x86_validate kIdPand [xmm 0; eax]);
  refused (x64_validate kIdPand [xmm 0; rax]);
  ok (x86_validate kIdVpand [ymm 0; ymm 1; ymm 2]);
  refused (x86_validate kIdVpand [ymm 0; ymm 1; eax]);
  ok (x86_validate kIdVpaddw [zmm 0; zmm 1; zmm 2]);
  refused (x86_validate kIdVpaddw [zmm 0; zmm 1; eax]);
  ok (x86_validate kIdMov [eax; cr 0]);
  refused (x86_validate kIdMov [eax; cr 8]);
  ok (x64_validate kIdMov [rax; cr 8]);
  refused (x64_validate kIdMov [eax; cr 0]);
  ok (x86_validate kIdMov [eax; dr 0]);
  ok (x64_validate kIdMov [rax; dr 7]);
  refused (x86_validate kIdMov [ax; dr 0]);
  refused (x64_validate kIdMov [eax; dr 7]);
  ok (x86_validate kIdMov [ax; fs]);
  refused (x64_validate kIdMov [ax; cs]);
  ok (x86_validate kIdMov [eax; ptr kRegGpd]);
  ok (x64_validate kIdMov [rax; ptr kRegGpq]);
  ok (x86_validate kIdMov [eax; imm]);
  ok (x64_validate kIdMov [rax; imm])
].
End UnitTest.

From Stdlib Require Import Sorted.

(** ** Further notions: the name index *)

(** Byte-wise lexicographic order, a proper prefix first: the order in which
    [X86Inst_compareName] ranks a stored name below the name looked up. *)
Fixpoint lexLtb (a b : list Z) : bool :=
  match a, b with
  | _, [] => false
  | [], _ :: _ => true
  | x :: a', y :: b' => (x <? y) || ((x =? y) && lexLtb a' b')
  end.

(** The name stored for [id], empty outside the table. *)
Definition nameOf (id : Z) : list Z :=
  match getNameById id with
  | Some name => name
  | None => []
  end.

(** The names of the slice of [instData] that [getIdByName] searches for
    the letter number [prefix] (0 for [a]), in table order. *)
Definition bucketNames (prefix : nat) : list (list Z) :=
  let index := nth prefix _x86InstAlphaIndex 0 in
  if index =? kX86InstAlphaIndexInvalid then []
  else
    let end_ := sliceEnd (skipn (S prefix) _x86InstAlphaIndex) in
    map (fun k => nameOf (index + Z.of_nat k))
        (seq 0 (Z.to_nat (end_ - index))).

(** Every element stands in [ltb] to all the elements behind it. *)
Fixpoint stronglySortedb {A : Type} (ltb : A -> A -> bool) (l : list A)
  : bool :=
  match l with
  | [] => true
  | x :: rest => forallb (ltb x) rest && stronglySortedb ltb rest
  end.

(** A row of [instData] whose name starts inside [nameData]. *)
Definition nameInBlob (inst : X86Inst) : bool :=
  (0 <=? nameDataIndex inst)
  && (nameDataIndex inst <? Z.of_nat (List.length nameData)).

(** More instruction ids, again the position of the row in [instData]. *)
Definition kIdJecxz : Z := 283.
Definition kIdJmp : Z := 284.

(** ** Further notions: the signature tables *)

(** The signature group of a common-data row. *)
Definition signatureGroup (cd : CommonData) : list ISignature :=
  firstn (Z.to_nat (_iSignatureCount cd))
         (skipn (Z.to_nat (_iSignatureIndex cd)) _x86InstISignatureData).

Definition isImplicit (index : Z) : bool :=
  negb (flags (oSigData index) .& kOpImplicit =? 0).

(** A row of [_x86InstISignatureData] is well formed: the counts fit the
    six operand slots, [implicit] is the number of used slots whose operand
    signature carries [kOpImplicit], the used slots point into
    [_x86InstOSignatureData] (and not at its empty row 0), the unused slots
    are 0, and some architecture is allowed. *)
Definition isigWellFormed (iSig : ISignature) : bool :=
  (0 <=? implicit iSig) && (implicit iSig <=? opCount iSig)
  && (opCount iSig <=? 6)
  && (List.length (operands iSig) =? 6)%nat
  && (Z.of_nat
        (List.length
           (filter isImplicit
                   (firstn (Z.to_nat (opCount iSig)) (operands iSig))))
      =? implicit iSig)
  && forallb
       (fun index =>
          (0 <? index)
          && (index <? Z.of_nat (List.length _x86InstOSignatureData)))
       (firstn (Z.to_nat (opCount iSig)) (operands iSig))
  && forallb (fun index => index =? 0)
             (skipn (Z.to_nat (opCount iSig)) (operands iSig))
  && negb (archMask iSig =? 0).

(** A common-data row that allows embedded rounding on a vector
    instruction (EvexER with EvexB4 or EvexB8) has signatures, all of them
    with two operands or more, implicit ones not counted: what the assertion
    [opCount >= 2] in [validate] relies on. *)
Definition roundingRowOk (cd : CommonData) : bool :=
  if negb (_flags cd .& kInstFlagEvexER =? 0)
     && negb (_flags cd .& (kInstFlagEvexB4 .| kInstFlagEvexB8) =? 0)
  then
    negb (_iSignatureCount cd =? 0)
    && forallb
         (fun iSig =>
            (2 <=? opCount iSig)
            && (2 <=? (opCount iSig - implicit iSig) mod 2 ^ 32))
         (signatureGroup cd)
  else true.

(** ** The SSE family table *)

(** The family column of [instData] ([kFamilyNone], [kFamilySse]). *)
Inductive FamilyType : Set :=
  | kFamilyNone
  | kFamilySse.

(** The family-type and family-index columns of [instData], row by row (the
    record [X86Inst] above keeps the columns the lookup and the validator
    read). *)
Definition instFamily : list (FamilyType * Z) := [
  (kFamilyNone, 0); (kFamilyNone, 0); (kFamilyNone, 0); (kFamilyNone, 0);
  (kFamilySse, 0); (kFamilySse, 0); (kFamilySse, 0); (kFamilySse, 0);
  (kFamilySse, 0); (kFamilySse, 0); (kFamilyNone, 0); (kFamilySse, 1);
  (kFamilySse, 1); (kFamilySse, 1); (kFamilySse, 1); (kFamilySse, 2);
  (kFamilySse, 2); (kFamilyNone, 0); (kFamilyNone, 0); (kFamilySse, 1);
  (kFamilySse, 1); (kFamilySse, 1); (kFamilySse, 1); (kFamilyNone, 0);
  (kFamilyNone, 0); (kFamilyNone, 0); (kFamilyNone, 0); (kFamilyNone, 0);
  (kFamilyNone, 0); (kFamilySse, 1); (kFamilySse, 1); (kFamilySse, 3);
  (kFamilySse, 3); (kFamilyNone, 0); (kFamilyNone, 0); (kFamilyNone, 0);
  (kFamilyNone, 0); (kFamilyNone, 0); (kFamilyNone, 0); (kFamilyNone, 0);
  (kFamilyNone, 0); (kFamilyNone, 0); (kFamilyNone, 0); (kFamilyNone, 0);
  (kFamilyNone, 0); (kFamilyNone, 0); (kFamilyNone, 0); (kFamilyNone, 0);
  (kFamilyNone, 0); (kFamilyNone, 0); (kFamilyNone, 0); (kFamilyNone, 0);
  (kFamilyNone, 0); (kFamilyNone, 0); (kFamilyNone, 0); (kFamilyNone, 0);
  (kFamilyNone, 0); (kFamilyNone, 0); (kFamilyNone, 0); (kFamilyNone, 0);
  (kFamilyNone, 0); (kFamilyNone, 0); (kFamilyNone, 0); (kFamilyNone, 0);
  (kFamilyNone, 0); (kFamilyNone, 0); (kFamilyNone, 0); (kFamilyNone, 0);
  (kFamilyNone, 0); (kFamilyNone, 0); (kFamilyNone, 0); (kFamilyNone, 0);
  (kFamilyNone, 0); (kFamilyNone, 0); (kFamilyNone, 0); (kFamilyNone, 0);
  (kFamilyNone, 0); (kFamilyNone, 0); (kFamilyNone, 0); (kFamilyNone, 0);
  (kFamilyNone, 0); (kFamilyNone, 0); (kFamilyNone, 0); (kFamilyNone, 0);
  (kFamilyNone, 0); (kFamilyNone, 0); (kFamilyNone, 0); (kFamilyNone, 0);
  (kFamilyNone, 0); (kFamilySse, 4); (kFamilySse, 4); (kFamilyNone, 0);
  (kFamilyNone, 0); (kFamilyNone, 0); (kFamilyNone, 0); (kFamilyNone, 0);
  (kFamilySse, 5); (kFamilyNone, 0); (kFamilyNone, 0); (kFamilyNone, 0);
  (kFamilySse, 6); (kFamilySse, 6); (kFamilyNone, 0); (kFamilyNone, 0);
  (kFamilyNone, 0); (kFamilySse, 7); (kFamilySse, 7); (kFamilySse, 7);
  (kFamilySse, 8); (kFamilySse, 9); (kFamilySse, 8); (kFamilySse, 8);
  (kFamilySse, 6); (kFamilySse, 6); (kFamilySse, 8); (kFamilySse, 10);
  (kFamilySse, 11); (kFamilySse, 12); (kFamilySse, 12); (kFamilySse, 12);
  (kFamilySse, 13); (kFamilySse, 14); (kFamilySse, 8); (kFamilySse, 15);
  (kFamilySse, 8); (kFamilySse, 16); (kFamilySse, 17); (kFamilyNone, 0);
  (kFamilyNone, 0); (kFamilyNone, 0); (kFamilyNone, 0); (kFamilyNone, 0);
  (kFamilyNone, 0); (kFamilySse, 18); (kFamilySse, 18); (kFamilySse, 18);
  (kFamilySse, 18); (kFamilySse, 18); (kFamilySse, 18); (kFamilyNone, 0);
  (kFamilyNone, 0); (kFamilySse, 19); (kFamilySse, 8); (kFamilyNone, 0);
  (kFamilyNone, 0); (kFamilyNone, 0); (kFamilyNone, 0); (kFamilyNone, 0);
  (kFamilyNone, 0); (kFamilyNone, 0); (kFamilyNone, 0); (kFamilyNone, 0);
  (kFamilyNone, 0); (kFamilyNone, 0); (kFamilyNone, 0); (kFamilyNone, 0);
  (kFamilyNone, 0); (kFamilyNone, 0); (kFamilyNone, 0); (kFamilyNone, 0);
  (kFamilyNone, 0); (kFamilyNone, 0); (kFamilyNone, 0); (kFamilyNone, 0);
  (kFamilyNone, 0); (kFamilyNone, 0); (kFamilyNone, 0); (kFamilyNone, 0);
  (kFamilyNone, 0); (kFamilyNone, 0); (kFamilyNone, 0); (kFamilyNone, 0);
  (kFamilyNone, 0); (kFamilyNone, 0); (kFamilyNone, 0); (kFamilyNone, 0);
  (kFamilyNone, 0); (kFamilyNone, 0); (kFamilyNone, 0); (kFamilyNone, 0);
  (kFamilyNone, 0); (kFamilyNone, 0); (kFamilyNone, 0); (kFamilyNone, 0);
  (kFamilyNone, 0); (kFamilyNone, 0); (kFamilyNone, 0); (kFamilyNone, 0);
  (kFamilyNone, 0); (kFamilyNone, 0); (kFamilyNone, 0); (kFamilyNone, 0);
  (kFamilyNone, 0); (kFamilyNone, 0); (kFamilyNone, 0); (kFamilyNone, 0);
  (kFamilyNone, 0); (kFamilyNone, 0); (kFamilyNone, 0); (kFamilyNone, 0);
  (kFamilyNone, 0); (kFamilyNone, 0); (kFamilyNone, 0); (kFamilyNone, 0);
  (kFamilyNone, 0); (kFamilyNone, 0); (kFamilyNone, 0); (kFamilyNone, 0);
  (kFamilyNone, 0); (kFamilyNone, 0); (kFamilyNone, 0); (kFamilyNone, 0);
  (kFamilyNone, 0); (kFamilyNone, 0); (kFamilyNone, 0); (kFamilyNone, 0);
  (kFamilyNone, 0); (kFamilyNone, 0); (kFamilyNone, 0); (kFamilyNone, 0);
  (kFamilyNone, 0); (kFamilyNone, 0); (kFamilyNone, 0); (kFamilyNone, 0);
  (kFamilyNone, 0); (kFamilyNone, 0); (kFamilyNone, 0); (kFamilyNone, 0);
  (kFamilyNone, 0); (kFamilyNone, 0); (kFamilyNone, 0); (kFamilyNone, 0);
  (kFamilyNone, 0); (kFamilyNone, 0); (kFamilyNone, 0); (kFamilyNone, 0);
  (kFamilyNone, 0); (kFamilyNone, 0); (kFamilyNone, 0); (kFamilyNone, 0);
  (kFamilyNone, 0); (kFamilySse, 20); (kFamilySse, 20); (kFamilySse, 20);
  (kFamilySse, 20); (kFamilyNone, 0); (kFamilyNone, 0); (kFamilyNone, 0);
  (kFamilySse, 21); (kFamilySse, 8); (kFamilyNone, 0); (kFamilyNone, 0);
  (kFamilyNone, 0); (kFamilyNone, 0); (kFamilyNone, 0); (kFamilyNone, 0);
  (kFamilyNone, 0); (kFamilyNone, 0); (kFamilyNone, 0); (kFamilyNone, 0);
  (kFamilyNone, 0); (kFamilyNone, 0); (kFamilyNone, 0); (kFamilyNone, 0);
  (kFamilyNone, 0); (kFamilyNone, 0); (kFamilyNone, 0); (kFamilyNone, 0);
  (kFamilyNone, 0); (kFamilyNone, 0); (kFamilyNone, 0); (kFamilyNone, 0);
  (kFamilyNone, 0); (kFamilyNone, 0); (kFamilyNone, 0); (kFamilyNone, 0);
  (kFamilyNone, 0); (kFamilyNone, 0); (kFamilyNone, 0); (kFamilyNone, 0);
  (kFamilyNone, 0); (kFamilyNone, 0); (kFamilyNone, 0); (kFamilyNone, 0);
  (kFamilyNone, 0); (kFamilyNone, 0); (kFamilyNone, 0); (kFamilyNone, 0);
  (kFamilyNone, 0); (kFamilyNone, 0); (kFamilyNone, 0); (kFamilyNone, 0);
  (kFamilyNone, 0); (kFamilyNone, 0); (kFamilyNone, 0); (kFamilyNone, 0);
  (kFamilyNone, 0); (kFamilyNone, 0); (kFamilyNone, 0); (kFamilyNone, 0);
  (kFamilyNone, 0); (kFamilyNone, 0); (kFamilyNone, 0); (kFamilyNone, 0);
  (kFamilyNone, 0); (kFamilyNone, 0); (kFamilyNone, 0); (kFamilyNone, 0);
  (kFamilyNone, 0); (kFamilyNone, 0); (kFamilyNone, 0); (kFamilyNone, 0);
  (kFamilyNone, 0); (kFamilyNone, 0); (kFamilyNone, 0); (kFamilyNone, 0);
  (kFamilyNone, 0); (kFamilyNone, 0); (kFamilyNone, 0); (kFamilyNone, 0);
  (kFamilyNone, 0); (kFamilyNone, 0); (kFamilyNone, 0); (kFamilyNone, 0);
  (kFamilyNone, 0); (kFamilyNone, 0); (kFamilyNone, 0); (kFamilyNone, 0);
  (kFamilyNone, 0); (kFamilyNone, 0); (kFamilyNone, 0); (kFamilyNone, 0);
  (kFamilyNone, 0); (kFamilyNone, 0); (kFamilyNone, 0); (kFamilyNone, 0);
  (kFamilyNone, 0); (kFamilySse, 22); (kFamilyNone, 0); (kFamilyNone, 0);
  (kFamilyNone, 0); (kFamilyNone, 0); (kFamilyNone, 0); (kFamilyNone, 0);
  (kFamilyNone, 0); (kFamilyNone, 0); (kFamilyNone, 0); (kFamilySse, 23);
  (kFamilySse, 8); (kFamilySse, 24); (kFamilySse, 24); (kFamilySse, 24);
  (kFamilySse, 24); (kFamilyNone, 0); (kFamilySse, 25); (kFamilySse, 25);
  (kFamilySse, 25); (kFamilySse, 25); (kFamilyNone, 0); (kFamilyNone, 0);
  (kFamilySse, 26); (kFamilySse, 26); (kFamilyNone, 0); (kFamilySse, 27);
  (kFamilySse, 27); (kFamilySse, 8); (kFamilySse, 28); (kFamilySse, 26);
  (kFamilySse, 29); (kFamilySse, 30); (kFamilySse, 30); (kFamilySse, 29);
  (kFamilySse, 30); (kFamilySse, 30); (kFamilySse, 31); (kFamilySse, 31);
  (kFamilySse, 31); (kFamilySse, 31); (kFamilyNone, 0); (kFamilySse, 32);
  (kFamilySse, 32); (kFamilySse, 8); (kFamilySse, 8); (kFamilySse, 8);
  (kFamilySse, 26); (kFamilySse, 8); (kFamilyNone, 0); (kFamilyNone, 0);
  (kFamilyNone, 0); (kFamilyNone, 0); (kFamilyNone, 0); (kFamilySse, 33);
  (kFamilySse, 33); (kFamilySse, 34); (kFamilyNone, 0); (kFamilyNone, 0);
  (kFamilySse, 35); (kFamilySse, 35); (kFamilyNone, 0); (kFamilySse, 36);
  (kFamilyNone, 0); (kFamilySse, 37); (kFamilySse, 37); (kFamilySse, 37);
  (kFamilySse, 37); (kFamilyNone, 0); (kFamilyNone, 0); (kFamilyNone, 0);
  (kFamilyNone, 0); (kFamilyNone, 0); (kFamilyNone, 0); (kFamilySse, 38);
  (kFamilySse, 38); (kFamilySse, 39); (kFamilySse, 39); (kFamilySse, 40);
  (kFamilySse, 41); (kFamilySse, 41); (kFamilySse, 41); (kFamilySse, 41);
  (kFamilySse, 41); (kFamilySse, 41); (kFamilySse, 41); (kFamilySse, 41);
  (kFamilySse, 41); (kFamilySse, 41); (kFamilySse, 41); (kFamilySse, 41);
  (kFamilySse, 41); (kFamilySse, 41); (kFamilySse, 42); (kFamilyNone, 0);
  (kFamilySse, 43); (kFamilySse, 8); (kFamilySse, 44); (kFamilySse, 45);
  (kFamilySse, 43); (kFamilySse, 46); (kFamilySse, 47); (kFamilySse, 47);
  (kFamilySse, 47); (kFamilySse, 47); (kFamilySse, 28); (kFamilySse, 28);
  (kFamilySse, 47); (kFamilySse, 47); (kFamilySse, 47); (kFamilySse, 47);
  (kFamilySse, 28); (kFamilySse, 28); (kFamilyNone, 0); (kFamilyNone, 0);
  (kFamilyNone, 0); (kFamilySse, 48); (kFamilySse, 48); (kFamilySse, 48);
  (kFamilySse, 48); (kFamilySse, 8); (kFamilySse, 8); (kFamilySse, 8);
  (kFamilySse, 8); (kFamilySse, 8); (kFamilySse, 8); (kFamilySse, 8);
  (kFamilySse, 8); (kFamilySse, 8); (kFamilySse, 8); (kFamilySse, 8);
  (kFamilySse, 8); (kFamilySse, 8); (kFamilySse, 8); (kFamilySse, 8);
  (kFamilySse, 8); (kFamilySse, 8); (kFamilySse, 8); (kFamilySse, 8);
  (kFamilySse, 8); (kFamilySse, 8); (kFamilySse, 49); (kFamilySse, 50);
  (kFamilySse, 51); (kFamilySse, 52); (kFamilySse, 53); (kFamilySse, 54);
  (kFamilySse, 54); (kFamilySse, 8); (kFamilySse, 8); (kFamilySse, 55);
  (kFamilySse, 55); (kFamilySse, 55); (kFamilySse, 53); (kFamilySse, 56);
  (kFamilySse, 56); (kFamilySse, 57); (kFamilySse, 57); (kFamilySse, 58);
  (kFamilySse, 58); (kFamilySse, 58); (kFamilySse, 5); (kFamilySse, 5);
  (kFamilySse, 5); (kFamilySse, 59); (kFamilySse, 59); (kFamilySse, 59);
  (kFamilySse, 11); (kFamilySse, 60); (kFamilySse, 61); (kFamilySse, 61);
  (kFamilySse, 61); (kFamilySse, 61); (kFamilySse, 61); (kFamilySse, 61);
  (kFamilySse, 62); (kFamilySse, 62); (kFamilySse, 62); (kFamilySse, 62);
  (kFamilySse, 62); (kFamilySse, 62); (kFamilySse, 63); (kFamilySse, 63);
  (kFamilySse, 8); (kFamilySse, 64); (kFamilySse, 64); (kFamilySse, 64);
  (kFamilySse, 63); (kFamilySse, 65); (kFamilyNone, 0); (kFamilyNone, 0);
  (kFamilyNone, 0); (kFamilyNone, 0); (kFamilySse, 66); (kFamilyNone, 0);
  (kFamilyNone, 0); (kFamilyNone, 0); (kFamilyNone, 0); (kFamilySse, 20);
  (kFamilySse, 67); (kFamilySse, 68); (kFamilySse, 68); (kFamilySse, 68);
  (kFamilySse, 8); (kFamilySse, 0); (kFamilySse, 0); (kFamilySse, 0);
  (kFamilySse, 0); (kFamilySse, 0); (kFamilySse, 0); (kFamilySse, 69);
  (kFamilySse, 69); (kFamilySse, 70); (kFamilySse, 70); (kFamilySse, 70);
  (kFamilySse, 70); (kFamilySse, 71); (kFamilySse, 71); (kFamilySse, 71);
  (kFamilySse, 71); (kFamilySse, 71); (kFamilySse, 71); (kFamilySse, 71);
  (kFamilySse, 71); (kFamilySse, 71); (kFamilySse, 8); (kFamilySse, 72);
  (kFamilySse, 73); (kFamilySse, 73); (kFamilySse, 73); (kFamilySse, 73);
  (kFamilySse, 73); (kFamilySse, 73); (kFamilySse, 73); (kFamilySse, 73);
  (kFamilyNone, 0); (kFamilyNone, 0); (kFamilyNone, 0); (kFamilySse, 74);
  (kFamilyNone, 0); (kFamilySse, 75); (kFamilySse, 76); (kFamilyNone, 0);
  (kFamilyNone, 0); (kFamilyNone, 0); (kFamilyNone, 0); (kFamilyNone, 0);
  (kFamilyNone, 0); (kFamilyNone, 0); (kFamilyNone, 0); (kFamilyNone, 0);
  (kFamilyNone, 0); (kFamilyNone, 0); (kFamilyNone, 0); (kFamilyNone, 0);
  (kFamilyNone, 0); (kFamilyNone, 0); (kFamilyNone, 0); (kFamilyNone, 0);
  (kFamilyNone, 0); (kFamilyNone, 0); (kFamilyNone, 0); (kFamilyNone, 0);
  (kFamilyNone, 0); (kFamilyNone, 0); (kFamilyNone, 0); (kFamilyNone, 0);
  (kFamilyNone, 0); (kFamilyNone, 0); (kFamilyNone, 0); (kFamilyNone, 0);
  (kFamilyNone, 0); (kFamilyNone, 0); (kFamilyNone, 0); (kFamilyNone, 0);
  (kFamilyNone, 0); (kFamilyNone, 0); (kFamilyNone, 0); (kFamilyNone, 0);
  (kFamilyNone, 0); (kFamilyNone, 0); (kFamilySse, 77); (kFamilySse, 77);
  (kFamilySse, 78); (kFamilySse, 78); (kFamilySse, 79); (kFamilySse, 80);
  (kFamilyNone, 0); (kFamilyNone, 0); (kFamilyNone, 0); (kFamilyNone, 0);
  (kFamilyNone, 0); (kFamilyNone, 0); (kFamilyNone, 0); (kFamilyNone, 0);
  (kFamilyNone, 0); (kFamilyNone, 0); (kFamilyNone, 0); (kFamilyNone, 0);
  (kFamilyNone, 0); (kFamilyNone, 0); (kFamilyNone, 0); (kFamilyNone, 0);
  (kFamilyNone, 0); (kFamilyNone, 0); (kFamilyNone, 0); (kFamilyNone, 0);
  (kFamilyNone, 0); (kFamilyNone, 0); (kFamilyNone, 0); (kFamilyNone, 0);
  (kFamilyNone, 0); (kFamilyNone, 0); (kFamilyNone, 0); (kFamilyNone, 0);
  (kFamilyNone, 0); (kFamilyNone, 0); (kFamilyNone, 0); (kFamilyNone, 0);
  (kFamilyNone, 0); (kFamilyNone, 0); (kFamilyNone, 0); (kFamilyNone, 0);
  (kFamilyNone, 0); (kFamilyNone, 0); (kFamilyNone, 0); (kFamilyNone, 0);
  (kFamilySse, 8); (kFamilySse, 8); (kFamilySse, 8); (kFamilySse, 8);
  (kFamilySse, 8); (kFamilySse, 8); (kFamilySse, 8); (kFamilyNone, 0);
  (kFamilyNone, 0); (kFamilyNone, 0); (kFamilyNone, 0); (kFamilyNone, 0);
  (kFamilyNone, 0); (kFamilySse, 81); (kFamilySse, 81); (kFamilySse, 61);
  (kFamilySse, 61); (kFamilySse, 81); (kFamilySse, 81); (kFamilyNone, 0);
  (kFamilyNone, 0); (kFamilyNone, 0); (kFamilyNone, 0); (kFamilyNone, 0);
  (kFamilyNone, 0); (kFamilyNone, 0); (kFamilyNone, 0); (kFamilyNone, 0);
  (kFamilyNone, 0); (kFamilySse, 18); (kFamilySse, 18); (kFamilySse, 18);
  (kFamilySse, 18); (kFamilyNone, 0); (kFamilyNone, 0); (kFamilyNone, 0);
  (kFamilyNone, 0); (kFamilySse, 17); (kFamilySse, 17); (kFamilyNone, 0);
  (kFamilySse, 82); (kFamilySse, 82); (kFamilySse, 82); (kFamilySse, 82);
  (kFamilyNone, 0); (kFamilyNone, 0); (kFamilyNone, 0); (kFamilyNone, 0);
  (kFamilyNone, 0); (kFamilyNone, 0); (kFamilyNone, 0); (kFamilyNone, 0);
  (kFamilyNone, 0); (kFamilyNone, 0); (kFamilyNone, 0); (kFamilyNone, 0);
  (kFamilyNone, 0); (kFamilyNone, 0); (kFamilyNone, 0); (kFamilyNone, 0);
  (kFamilyNone, 0); (kFamilyNone, 0); (kFamilyNone, 0); (kFamilyNone, 0);
  (kFamilyNone, 0); (kFamilyNone, 0); (kFamilyNone, 0); (kFamilyNone, 0);
  (kFamilyNone, 0); (kFamilyNone, 0); (kFamilyNone, 0); (kFamilyNone, 0);
  (kFamilyNone, 0); (kFamilyNone, 0); (kFamilyNone, 0); (kFamilyNone, 0);
  (kFamilyNone, 0); (kFamilyNone, 0); (kFamilyNone, 0); (kFamilyNone, 0);
  (kFamilyNone, 0); (kFamilyNone, 0); (kFamilyNone, 0); (kFamilyNone, 0);
  (kFamilyNone, 0); (kFamilyNone, 0); (kFamilyNone, 0); (kFamilyNone, 0);
  (kFamilyNone, 0); (kFamilyNone, 0); (kFamilyNone, 0); (kFamilyNone, 0);
  (kFamilyNone, 0); (kFamilyNone, 0); (kFamilyNone, 0); (kFamilyNone, 0);
  (kFamilyNone, 0); (kFamilyNone, 0); (kFamilyNone, 0); (kFamilyNone, 0);
  (kFamilyNone, 0); (kFamilyNone, 0); (kFamilyNone, 0); (kFamilyNone, 0);
  (kFamilyNone, 0); (kFamilyNone, 0); (kFamilyNone, 0); (kFamilyNone, 0);
  (kFamilyNone, 0); (kFamilyNone, 0); (kFamilyNone, 0); (kFamilyNone, 0);
  (kFamilyNone, 0); (kFamilyNone, 0); (kFamilyNone, 0); (kFamilyNone, 0);
  (kFamilyNone, 0); (kFamilyNone, 0); (kFamilyNone, 0); (kFamilyNone, 0);
  (kFamilyNone, 0); (kFamilyNone, 0); (kFamilyNone, 0); (kFamilyNone, 0);
  (kFamilyNone, 0); (kFamilyNone, 0); (kFamilyNone, 0); (kFamilyNone, 0);
  (kFamilyNone, 0); (kFamilyNone, 0); (kFamilyNone, 0); (kFamilyNone, 0);
  (kFamilyNone, 0); (kFamilyNone, 0); (kFamilyNone, 0); (kFamilyNone, 0);
  (kFamilyNone, 0); (kFamilyNone, 0); (kFamilyNone, 0); (kFamilyNone, 0);
  (kFamilyNone, 0); (kFamilyNone, 0); (kFamilyNone, 0); (kFamilyNone, 0);
  (kFamilyNone, 0); (kFamilyNone, 0); (kFamilyNone, 0); (kFamilyNone, 0);
  (kFamilyNone, 0); (kFamilyNone, 0); (kFamilyNone, 0); (kFamilyNone, 0);
  (kFamilyNone, 0); (kFamilyNone, 0); (kFamilyNone, 0); (kFamilyNone, 0);
  (kFamilyNone, 0); (kFamilyNone, 0); (kFamilyNone, 0); (kFamilyNone, 0);
  (kFamilyNone, 0); (kFamilyNone, 0); (kFamilyNone, 0); (kFamilyNone, 0);
  (kFamilyNone, 0); (kFamilyNone, 0); (kFamilyNone, 0); (kFamilyNone, 0);
  (kFamilyNone, 0); (kFamilyNone, 0); (kFamilyNone, 0); (kFamilyNone, 0);
  (kFamilyNone, 0); (kFamilyNone, 0); (kFamilyNone, 0); (kFamilyNone, 0);
  (kFamilyNone, 0); (kFamilyNone, 0); (kFamilyNone, 0); (kFamilyNone, 0);
  (kFamilyNone, 0); (kFamilyNone, 0); (kFamilyNone, 0); (kFamilyNone, 0);
  (kFamilyNone, 0); (kFamilyNone, 0); (kFamilyNone, 0); (kFamilyNone, 0);
  (kFamilyNone, 0); (kFamilyNone, 0); (kFamilyNone, 0); (kFamilyNone, 0);
  (kFamilyNone, 0); (kFamilyNone, 0); (kFamilyNone, 0); (kFamilyNone, 0);
  (kFamilyNone, 0); (kFamilyNone, 0); (kFamilyNone, 0); (kFamilyNone, 0);
  (kFamilyNone, 0); (kFamilyNone, 0); (kFamilyNone, 0); (kFamilyNone, 0);
  (kFamilyNone, 0); (kFamilyNone, 0); (kFamilyNone, 0); (kFamilyNone, 0);
  (kFamilyNone, 0); (kFamilyNone, 0); (kFamilyNone, 0); (kFamilyNone, 0);
  (kFamilyNone, 0); (kFamilyNone, 0); (kFamilyNone, 0); (kFamilyNone, 0);
  (kFamilyNone, 0); (kFamilyNone, 0); (kFamilyNone, 0); (kFamilyNone, 0);
  (kFamilyNone, 0); (kFamilyNone, 0); (kFamilyNone, 0); (kFamilyNone, 0);
  (kFamilyNone, 0); (kFamilyNone, 0); (kFamilyNone, 0); (kFamilyNone, 0);
  (kFamilyNone, 0); (kFamilyNone, 0); (kFamilyNone, 0); (kFamilyNone, 0);
  (kFamilyNone, 0); (kFamilyNone, 0); (kFamilyNone, 0); (kFamilyNone, 0);
  (kFamilyNone, 0); (kFamilyNone, 0); (kFamilyNone, 0); (kFamilyNone, 0);
  (kFamilyNone, 0); (kFamilyNone, 0); (kFamilyNone, 0); (kFamilyNone, 0);
  (kFamilyNone, 0); (kFamilyNone, 0); (kFamilyNone, 0); (kFamilyNone, 0);
  (kFamilyNone, 0); (kFamilyNone, 0); (kFamilyNone, 0); (kFamilyNone, 0);
  (kFamilyNone, 0); (kFamilyNone, 0); (kFamilyNone, 0); (kFamilyNone, 0);
  (kFamilyNone, 0); (kFamilyNone, 0); (kFamilyNone, 0); (kFamilyNone, 0);
  (kFamilyNone, 0); (kFamilyNone, 0); (kFamilyNone, 0); (kFamilyNone, 0);
  (kFamilyNone, 0); (kFamilyNone, 0); (kFamilyNone, 0); (kFamilyNone, 0);
  (kFamilyNone, 0); (kFamilyNone, 0); (kFamilyNone, 0); (kFamilyNone, 0);
  (kFamilyNone, 0); (kFamilyNone, 0); (kFamilyNone, 0); (kFamilyNone, 0);
  (kFamilyNone, 0); (kFamilyNone, 0); (kFamilyNone, 0); (kFamilyNone, 0);
  (kFamilyNone, 0); (kFamilyNone, 0); (kFamilyNone, 0); (kFamilyNone, 0);
  (kFamilyNone, 0); (kFamilyNone, 0); (kFamilyNone, 0); (kFamilyNone, 0);
  (kFamilyNone, 0); (kFamilyNone, 0); (kFamilyNone, 0); (kFamilyNone, 0);
  (kFamilyNone, 0); (kFamilyNone, 0); (kFamilyNone, 0); (kFamilyNone, 0);
  (kFamilyNone, 0); (kFamilyNone, 0); (kFamilyNone, 0); (kFamilyNone, 0);
  (kFamilyNone, 0); (kFamilyNone, 0); (kFamilyNone, 0); (kFamilyNone, 0);
  (kFamilyNone, 0); (kFamilyNone, 0); (kFamilyNone, 0); (kFamilyNone, 0);
  (kFamilyNone, 0); (kFamilyNone, 0); (kFamilyNone, 0); (kFamilyNone, 0);
  (kFamilyNone, 0); (kFamilyNone, 0); (kFamilyNone, 0); (kFamilyNone, 0);
  (kFamilyNone, 0); (kFamilyNone, 0); (kFamilyNone, 0); (kFamilyNone, 0);
  (kFamilyNone, 0); (kFamilyNone, 0); (kFamilyNone, 0); (kFamilyNone, 0);
  (kFamilyNone, 0); (kFamilyNone, 0); (kFamilyNone, 0); (kFamilyNone, 0);
  (kFamilyNone, 0); (kFamilyNone, 0); (kFamilyNone, 0); (kFamilyNone, 0);
  (kFamilyNone, 0); (kFamilyNone, 0); (kFamilyNone, 0); (kFamilyNone, 0);
  (kFamilyNone, 0); (kFamilyNone, 0); (kFamilyNone, 0); (kFamilyNone, 0);
  (kFamilyNone, 0); (kFamilyNone, 0); (kFamilyNone, 0); (kFamilyNone, 0);
  (kFamilyNone, 0); (kFamilyNone, 0); (kFamilyNone, 0); (kFamilyNone, 0);
  (kFamilyNone, 0); (kFamilyNone, 0); (kFamilyNone, 0); (kFamilyNone, 0);
  (kFamilyNone, 0); (kFamilyNone, 0); (kFamilyNone, 0); (kFamilyNone, 0);
  (kFamilyNone, 0); (kFamilyNone, 0); (kFamilyNone, 0); (kFamilyNone, 0);
  (kFamilyNone, 0); (kFamilyNone, 0); (kFamilyNone, 0); (kFamilyNone, 0);
  (kFamilyNone, 0); (kFamilyNone, 0); (kFamilyNone, 0); (kFamilyNone, 0);
  (kFamilyNone, 0); (kFamilyNone, 0); (kFamilyNone, 0); (kFamilyNone, 0);
  (kFamilyNone, 0); (kFamilyNone, 0); (kFamilyNone, 0); (kFamilyNone, 0);
  (kFamilyNone, 0); (kFamilyNone, 0); (kFamilyNone, 0); (kFamilyNone, 0);
  (kFamilyNone, 0); (kFamilyNone, 0); (kFamilyNone, 0); (kFamilyNone, 0);
  (kFamilyNone, 0); (kFamilyNone, 0); (kFamilyNone, 0); (kFamilyNone, 0);
  (kFamilyNone, 0); (kFamilyNone, 0); (kFamilyNone, 0); (kFamilyNone, 0);
  (kFamilyNone, 0); (kFamilyNone, 0); (kFamilyNone, 0); (kFamilyNone, 0);
  (kFamilyNone, 0); (kFamilyNone, 0); (kFamilyNone, 0); (kFamilyNone, 0);
  (kFamilyNone, 0); (kFamilyNone, 0); (kFamilyNone, 0); (kFamilyNone, 0);
  (kFamilyNone, 0); (kFamilyNone, 0); (kFamilyNone, 0); (kFamilyNone, 0);
  (kFamilyNone, 0); (kFamilyNone, 0); (kFamilyNone, 0); (kFamilyNone, 0);
  (kFamilyNone, 0); (kFamilyNone, 0); (kFamilyNone, 0); (kFamilyNone, 0);
  (kFamilyNone, 0); (kFamilyNone, 0); (kFamilyNone, 0); (kFamilyNone, 0);
  (kFamilyNone, 0); (kFamilyNone, 0); (kFamilyNone, 0); (kFamilyNone, 0);
  (kFamilyNone, 0); (kFamilyNone, 0); (kFamilyNone, 0); (kFamilyNone, 0);
  (kFamilyNone, 0); (kFamilyNone, 0); (kFamilyNone, 0); (kFamilyNone, 0);
  (kFamilyNone, 0); (kFamilyNone, 0); (kFamilyNone, 0); (kFamilyNone, 0);
  (kFamilyNone, 0); (kFamilyNone, 0); (kFamilyNone, 0); (kFamilyNone, 0);
  (kFamilyNone, 0); (kFamilyNone, 0); (kFamilyNone, 0); (kFamilyNone, 0);
  (kFamilyNone, 0); (kFamilyNone, 0); (kFamilyNone, 0); (kFamilyNone, 0);
  (kFamilyNone, 0); (kFamilyNone, 0); (kFamilyNone, 0); (kFamilyNone, 0);
  (kFamilyNone, 0); (kFamilyNone, 0); (kFamilyNone, 0); (kFamilyNone, 0);
  (kFamilyNone, 0); (kFamilyNone, 0); (kFamilyNone, 0); (kFamilyNone, 0);
  (kFamilyNone, 0); (kFamilyNone, 0); (kFamilyNone, 0); (kFamilyNone, 0);
  (kFamilyNone, 0); (kFamilyNone, 0); (kFamilyNone, 0); (kFamilyNone, 0);
  (kFamilyNone, 0); (kFamilyNone, 0); (kFamilyNone, 0); (kFamilyNone, 0);
  (kFamilyNone, 0); (kFamilyNone, 0); (kFamilyNone, 0); (kFamilyNone, 0);
  (kFamilyNone, 0); (kFamilyNone, 0); (kFamilyNone, 0); (kFamilyNone, 0);
  (kFamilyNone, 0); (kFamilyNone, 0); (kFamilyNone, 0); (kFamilyNone, 0);
  (kFamilyNone, 0); (kFamilyNone, 0); (kFamilyNone, 0); (kFamilyNone, 0);
  (kFamilyNone, 0); (kFamilyNone, 0); (kFamilyNone, 0); (kFamilyNone, 0);
  (kFamilyNone, 0); (kFamilyNone, 0); (kFamilyNone, 0); (kFamilyNone, 0);
  (kFamilyNone, 0); (kFamilyNone, 0); (kFamilyNone, 0); (kFamilyNone, 0);
  (kFamilyNone, 0); (kFamilyNone, 0); (kFamilyNone, 0); (kFamilyNone, 0);
  (kFamilyNone, 0); (kFamilyNone, 0); (kFamilyNone, 0); (kFamilyNone, 0);
  (kFamilyNone, 0); (kFamilyNone, 0); (kFamilyNone, 0); (kFamilyNone, 0);
  (kFamilyNone, 0); (kFamilyNone, 0); (kFamilyNone, 0); (kFamilyNone, 0);
  (kFamilyNone, 0); (kFamilyNone, 0); (kFamilyNone, 0); (kFamilyNone, 0);
  (kFamilyNone, 0); (kFamilyNone, 0); (kFamilyNone, 0); (kFamilyNone, 0);
  (kFamilyNone, 0); (kFamilyNone, 0); (kFamilyNone, 0); (kFamilyNone, 0);
  (kFamilyNone, 0); (kFamilyNone, 0); (kFamilyNone, 0); (kFamilyNone, 0);
  (kFamilyNone, 0); (kFamilyNone, 0); (kFamilyNone, 0); (kFamilyNone, 0);
  (kFamilyNone, 0); (kFamilyNone, 0); (kFamilyNone, 0); (kFamilyNone, 0);
  (kFamilyNone, 0); (kFamilyNone, 0); (kFamilyNone, 0); (kFamilyNone, 0);
  (kFamilyNone, 0); (kFamilyNone, 0); (kFamilyNone, 0); (kFamilyNone, 0);
  (kFamilyNone, 0); (kFamilyNone, 0); (kFamilyNone, 0); (kFamilyNone, 0);
  (kFamilyNone, 0); (kFamilyNone, 0); (kFamilyNone, 0); (kFamilyNone, 0);
  (kFamilyNone, 0); (kFamilyNone, 0); (kFamilyNone, 0); (kFamilyNone, 0);
  (kFamilyNone, 0); (kFamilyNone, 0); (kFamilyNone, 0); (kFamilyNone, 0);
  (kFamilyNone, 0); (kFamilyNone, 0); (kFamilyNone, 0); (kFamilyNone, 0);
  (kFamilyNone, 0); (kFamilyNone, 0); (kFamilyNone, 0); (kFamilyNone, 0);
  (kFamilyNone, 0); (kFamilyNone, 0); (kFamilyNone, 0); (kFamilyNone, 0);
  (kFamilyNone, 0); (kFamilyNone, 0); (kFamilyNone, 0); (kFamilyNone, 0);
  (kFamilyNone, 0); (kFamilyNone, 0); (kFamilyNone, 0); (kFamilyNone, 0);
  (kFamilyNone, 0); (kFamilyNone, 0); (kFamilyNone, 0); (kFamilyNone, 0);
  (kFamilyNone, 0); (kFamilyNone, 0); (kFamilyNone, 0); (kFamilyNone, 0);
  (kFamilyNone, 0); (kFamilyNone, 0); (kFamilyNone, 0); (kFamilyNone, 0);
  (kFamilyNone, 0); (kFamilyNone, 0); (kFamilyNone, 0); (kFamilyNone, 0);
  (kFamilyNone, 0); (kFamilyNone, 0); (kFamilyNone, 0); (kFamilyNone, 0);
  (kFamilyNone, 0); (kFamilyNone, 0); (kFamilyNone, 0); (kFamilyNone, 0);
  (kFamilyNone, 0); (kFamilyNone, 0); (kFamilyNone, 0); (kFamilyNone, 0);
  (kFamilyNone, 0); (kFamilyNone, 0); (kFamilyNone, 0); (kFamilyNone, 0);
  (kFamilyNone, 0); (kFamilyNone, 0); (kFamilyNone, 0); (kFamilyNone, 0);
  (kFamilyNone, 0); (kFamilyNone, 0); (kFamilyNone, 0); (kFamilyNone, 0);
  (kFamilyNone, 0); (kFamilyNone, 0); (kFamilyNone, 0); (kFamilyNone, 0);
  (kFamilyNone, 0); (kFamilyNone, 0); (kFamilyNone, 0); (kFamilyNone, 0);
  (kFamilyNone, 0); (kFamilyNone, 0); (kFamilyNone, 0); (kFamilyNone, 0);
  (kFamilyNone, 0); (kFamilyNone, 0); (kFamilyNone, 0); (kFamilyNone, 0);
  (kFamilyNone, 0); (kFamilyNone, 0); (kFamilyNone, 0); (kFamilyNone, 0);
  (kFamilyNone, 0); (kFamilyNone, 0); (kFamilyNone, 0); (kFamilyNone, 0);
  (kFamilyNone, 0); (kFamilyNone, 0); (kFamilyNone, 0); (kFamilyNone, 0);
  (kFamilyNone, 0); (kFamilyNone, 0); (kFamilyNone, 0); (kFamilyNone, 0);
  (kFamilyNone, 0); (kFamilyNone, 0); (kFamilyNone, 0); (kFamilyNone, 0);
  (kFamilyNone, 0); (kFamilyNone, 0); (kFamilyNone, 0); (kFamilyNone, 0);
  (kFamilyNone, 0); (kFamilyNone, 0); (kFamilyNone, 0); (kFamilyNone, 0);
  (kFamilyNone, 0); (kFamilyNone, 0); (kFamilyNone, 0); (kFamilyNone, 0);
  (kFamilyNone, 0); (kFamilyNone, 0); (kFamilyNone, 0); (kFamilyNone, 0);
  (kFamilyNone, 0); (kFamilyNone, 0); (kFamilyNone, 0); (kFamilyNone, 0);
  (kFamilyNone, 0); (kFamilyNone, 0); (kFamilyNone, 0); (kFamilyNone, 0);
  (kFamilyNone, 0); (kFamilyNone, 0); (kFamilyNone, 0); (kFamilyNone, 0);
  (kFamilyNone, 0); (kFamilyNone, 0); (kFamilyNone, 0); (kFamilyNone, 0);
  (kFamilyNone, 0); (kFamilyNone, 0); (kFamilyNone, 0); (kFamilyNone, 0);
  (kFamilyNone, 0); (kFamilyNone, 0); (kFamilyNone, 0); (kFamilyNone, 0);
  (kFamilyNone, 0); (kFamilyNone, 0); (kFamilyNone, 0); (kFamilyNone, 0);
  (kFamilyNone, 0); (kFamilyNone, 0); (kFamilyNone, 0); (kFamilyNone, 0);
  (kFamilyNone, 0); (kFamilyNone, 0); (kFamilyNone, 0); (kFamilyNone, 0);
  (kFamilyNone, 0); (kFamilyNone, 0); (kFamilyNone, 0); (kFamilyNone, 0);
  (kFamilyNone, 0); (kFamilyNone, 0); (kFamilyNone, 0); (kFamilySse, 83);
  (kFamilySse, 83); (kFamilyNone, 0); (kFamilyNone, 0); (kFamilyNone, 0);
  (kFamilyNone, 0); (kFamilyNone, 0); (kFamilyNone, 0); (kFamilyNone, 0);
  (kFamilyNone, 0); (kFamilyNone, 0); (kFamilyNone, 0); (kFamilyNone, 0);
  (kFamilyNone, 0); (kFamilyNone, 0)
].

(** The conversion modes named in [sseData]. *)
Inductive AvxConvMode : Set :=
  | kAvxConvNone
  | kAvxConvMove
  | kAvxConvMoveIfMem
  | kAvxConvBlend
  | kAvxConvNonDestructive.

(** A row of [X86InstDB::sseData]: its three initialisers, the last one a
    signed distance between instruction ids. *)
Record SseData : Set := SSE {
  sseFeatures : Z;
  avxConvMode : AvxConvMode;
  avxConvDelta : Z
}.

Definition sseData : list SseData := [
  SSE 0 kAvxConvNonDestructive 704; (* #0 *)
  SSE 0 kAvxConvNonDestructive 703; (* #1 *)
  SSE 0 kAvxConvMove           703; (* #2 *)
  SSE 0 kAvxConvBlend          703; (* #3 *)
  SSE 0 kAvxConvNonDestructive 661; (* #4 *)
  SSE 0 kAvxConvNonDestructive 657; (* #5 *)
  SSE 0 kAvxConvMove           654; (* #6 *)
  SSE 0 kAvxConvMove           653; (* #7 *)
  SSE 0 kAvxConvNone           0; (* #8 *)
  SSE 0 kAvxConvMove           652; (* #9 *)
  SSE 0 kAvxConvMove           659; (* #10 *)
  SSE 0 kAvxConvNonDestructive 659; (* #11 *)
  SSE 0 kAvxConvNonDestructive 660; (* #12 *)
  SSE 0 kAvxConvMove           660; (* #13 *)
  SSE 0 kAvxConvMove           661; (* #14 *)
  SSE 0 kAvxConvMove           663; (* #15 *)
  SSE 0 kAvxConvMove           665; (* #16 *)
  SSE 0 kAvxConvMove           666; (* #17 *)
  SSE 0 kAvxConvNonDestructive 668; (* #18 *)
  SSE 0 kAvxConvMove           680; (* #19 *)
  SSE 0 kAvxConvNonDestructive 693; (* #20 *)
  SSE 0 kAvxConvNonDestructive 700; (* #21 *)
  SSE 0 kAvxConvMove           612; (* #22 *)
  SSE 0 kAvxConvMove           604; (* #23 *)
  SSE 0 kAvxConvNonDestructive 605; (* #24 *)
  SSE 0 kAvxConvNonDestructive 604; (* #25 *)
  SSE 0 kAvxConvMove           602; (* #26 *)
  SSE 0 kAvxConvMove           601; (* #27 *)
  SSE 0 kAvxConvMove           600; (* #28 *)
  SSE 0 kAvxConvNonDestructive 606; (* #29 *)
  SSE 0 kAvxConvMoveIfMem      606; (* #30 *)
  SSE 0 kAvxConvMove           606; (* #31 *)
  SSE 0 kAvxConvMove           605; (* #32 *)
  SSE 0 kAvxConvMove           597; (* #33 *)
  SSE 0 kAvxConvMoveIfMem      597; (* #34 *)
  SSE 0 kAvxConvMove           595; (* #35 *)
  SSE 0 kAvxConvNonDestructive 594; (* #36 *)
  SSE 0 kAvxConvNonDestructive 593; (* #37 *)
  SSE 0 kAvxConvNonDestructive 587; (* #38 *)
  SSE 0 kAvxConvMove           587; (* #39 *)
  SSE 0 kAvxConvMove           588; (* #40 *)
  SSE 0 kAvxConvNonDestructive 588; (* #41 *)
  SSE 0 kAvxConvNonDestructive 589; (* #42 *)
  SSE 0 kAvxConvNonDestructive 591; (* #43 *)
  SSE 0 kAvxConvNonDestructive 590; (* #44 *)
  SSE 0 kAvxConvBlend          591; (* #45 *)
  SSE 0 kAvxConvNonDestructive 597; (* #46 *)
  SSE 0 kAvxConvNonDestructive 600; (* #47 *)
  SSE 0 kAvxConvMove           641; (* #48 *)
  SSE 0 kAvxConvNonDestructive 627; (* #49 *)
  SSE 0 kAvxConvNonDestructive 628; (* #50 *)
  SSE 0 kAvxConvNonDestructive 634; (* #51 *)
  SSE 0 kAvxConvMove           636; (* #52 *)
  SSE 0 kAvxConvNonDestructive 637; (* #53 *)
  SSE 0 kAvxConvNonDestructive 638; (* #54 *)
  SSE 0 kAvxConvMove           637; (* #55 *)
  SSE 0 kAvxConvNonDestructive 653; (* #56 *)
  SSE 0 kAvxConvNonDestructive 655; (* #57 *)
  SSE 0 kAvxConvNonDestructive 656; (* #58 *)
  SSE 0 kAvxConvNonDestructive 658; (* #59 *)
  SSE 0 kAvxConvMove           667; (* #60 *)
  SSE 0 kAvxConvMove           677; (* #61 *)
  SSE 0 kAvxConvMove           685; (* #62 *)
  SSE 0 kAvxConvNonDestructive 685; (* #63 *)
  SSE 0 kAvxConvNonDestructive 684; (* #64 *)
  SSE 0 kAvxConvNonDestructive 686; (* #65 *)
  SSE 0 kAvxConvNonDestructive 682; (* #66 *)
  SSE 0 kAvxConvNonDestructive 705; (* #67 *)
  SSE 0 kAvxConvMove           705; (* #68 *)
  SSE 0 kAvxConvNonDestructive 707; (* #69 *)
  SSE 0 kAvxConvNonDestructive 711; (* #70 *)
  SSE 0 kAvxConvNonDestructive 714; (* #71 *)
  SSE 0 kAvxConvMove           715; (* #72 *)
  SSE 0 kAvxConvNonDestructive 723; (* #73 *)
  SSE 0 kAvxConvNonDestructive 720; (* #74 *)
  SSE 0 kAvxConvMove           733; (* #75 *)
  SSE 0 kAvxConvNonDestructive 733; (* #76 *)
  SSE 0 kAvxConvMove           702; (* #77 *)
  SSE 0 kAvxConvNonDestructive 702; (* #78 *)
  SSE 0 kAvxConvMove           710; (* #79 *)
  SSE 0 kAvxConvNonDestructive 710; (* #80 *)
  SSE 0 kAvxConvNonDestructive 677; (* #81 *)
  SSE 0 kAvxConvNonDestructive 665; (* #82 *)
  SSE 0 kAvxConvNonDestructive (-10) (* #83 *)
].

(** The row of [sseData] an SSE-family instruction points at says where its
    AVX form is: [avxConvDelta] rows further on stands the instruction named
    [v] plus the same name; rows with [kAvxConvNone] have a distance of 0.
    Rows of [instData] outside the SSE family have family index 0. *)
Definition avxCounterpartOk (id : Z) : bool :=
  match at_index instFamily id with
  | None => false
  | Some (kFamilyNone, index) => index =? 0
  | Some (kFamilySse, index) =>
      match at_index sseData index with
      | None => false
      | Some row =>
          match avxConvMode row with
          | kAvxConvNone => avxConvDelta row =? 0
          | _ =>
              match getNameById id, getNameById (id + avxConvDelta row) with
              | Some name, Some vname =>
                  (0 <=? id + avxConvDelta row)
                  && (if list_eq_dec Z.eq_dec vname (118 :: name)
                      then true else false)
              | _, _ => false
              end
          end
      end
  end.

(** ** [base/func.h]: how an argument or return value is passed *)

(** [FuncInOut]: the packed word [_value] with its components, and the
    methods that build and read it.  Arguments of type [uint32_t] are words
    below [2^32]. *)
Module FuncInOut.
Definition kTypeIdShift : Z := 24.
Definition kTypeIdMask : Z := 0xFF000000.
Definition kRegTypeShift : Z := 8.
Definition kRegTypeMask : Z := 0x0000FF00.
Definition kRegIdShift : Z := 0.
Definition kRegIdMask : Z := 0x000000FF.
Definition kStackOffsetShift : Z := 0.
Definition kStackOffsetMask : Z := 0x0000FFFF.
Definition kIsByReg : Z := 0x00010000.
Definition kIsByStack : Z := 0x00020000.
Definition kIsIndirectArg : Z := 0x00040000.

(** [x << n] on a 32-bit word. *)
Definition shl (x n : Z) : Z := Z.shiftl x n mod 2 ^ 32.

Definition isInitialized (_value : Z) : bool := negb (_value =? 0).

Definition initTypeId (typeId : Z) : Z := shl typeId kTypeIdShift.

Definition initReg (typeId regType regId : Z) : Z :=
  shl typeId kTypeIdShift .| shl regType kRegTypeShift
  .| shl regId kRegIdShift .| kIsByReg.

Definition initStack (typeId offset : Z) : Z :=
  shl typeId kTypeIdShift .| shl offset kStackOffsetShift .| kIsByStack.

Definition reset : Z := 0.

(** [_value |= ...]; the assertion [!isAssigned()] is the caller's duty. *)
Definition assignToReg (_value regType regId : Z) : Z :=
  _value .| (shl regType kRegTypeShift .| shl regId kRegIdShift .| kIsByReg).

(** [offset] is an [int32_t]; ORed with the unsigned [kIsByStack] it is
    converted to a 32-bit word. *)
Definition assignToStack (_value offset : Z) : Z :=
  _value .| (shl offset kStackOffsetShift .| kIsByStack).

Definition byReg (_value : Z) : bool := negb (_value .& kIsByReg =? 0).
Definition byStack (_value : Z) : bool := negb (_value .& kIsByStack =? 0).
Definition isAssigned (_value : Z) : bool :=
  negb (_value .& (kIsByReg .| kIsByStack) =? 0).
Definition isIndirectArg (_value : Z) : bool :=
  negb (_value .& kIsIndirectArg =? 0).

Definition getTypeId (_value : Z) : Z := Z.shiftr _value kTypeIdShift.
Definition getRegId (_value : Z) : Z :=
  Z.shiftr (_value .& kRegIdMask) kRegIdShift.
Definition getRegType (_value : Z) : Z :=
  Z.shiftr (_value .& kRegTypeMask) kRegTypeShift.
Definition getStackOffset (_value : Z) : Z :=
  Z.shiftr (_value .& kStackOffsetMask) kStackOffsetShift.
End FuncInOut.

(** [CallConv::setPassedOrder]: the word stored in [_passedMask[regKind]].
    Each of the eight register ids contributes [1U << a] unless it is the
    filler [0xFF]; a shift by 32 or more is undefined. *)
Module CallConv.
Definition kNumRegKinds : Z := 4.
Definition kNumRegArgsPerKind : Z := 8.




(** [setPassedToNone] stores 0. *)
Definition setPassedToNone_passedMask : Z := 0.
End CallConv.

(** [FuncSignatureX]: the signature builder.  [_args] of the base class
    points at [_builderArgList], so [getArg] reads the builder's array. *)
Module FuncSignatureX.
Definition kFuncArgCount : Z := 16.
Definition kFuncNoVarArgs : Z := 0xFF.

Record t : Type := Sig {
  _callConv : Z;
  _varArgs : Z;
  _argCount : Z;
  _ret : Z;
  _builderArgList : list Z
}.

(** [static_cast<uint8_t>] and the implicit conversion on a store into a
    [uint8_t]. *)
Definition u8 (x : Z) : Z := x mod 256.

(** [array[i] = v]; [None] outside the array. *)
Fixpoint store (array : list Z) (i : nat) (v : Z) : option (list Z) :=
  match array, i with
  | [], _ => None
  | _ :: rest, O => Some (v :: rest)
  | x :: rest, S j =>
      match store rest j v with
      | Some rest' => Some (x :: rest')
      | None => None
      end
  end.

(** [FuncSignature::setup(ccId, ret, args, argCount)], with [args] the
    builder's array as the constructor of [FuncSignatureX] passes it.
    [None] where one of the two assertions fails. *)
Definition setup (ccId ret : Z) (args : list Z) (argCount : Z) : option t :=
  if (ccId <=? 0xFF) && (argCount <=? 0xFF) then
    Some (Sig (u8 ccId) kFuncNoVarArgs (u8 argCount) (u8 ret) args)
  else None.

Definition getArgCount (s : t) : Z := _argCount s.

(** [None] where the assertion [i < _argCount] fails. *)
Definition getArg (s : t) (i : Z) : option Z :=
  if (0 <=? i) && (i <? _argCount s) then at_index (_builderArgList s) i
  else None.

Definition setArg (s : t) (i type : Z) : option t :=
  if (0 <=? i) && (i <? _argCount s) then
    match store (_builderArgList s) (Z.to_nat i) (u8 type) with
    | Some array =>
        Some (Sig (_callConv s) (_varArgs s) (_argCount s) (_ret s) array)
    | None => None
    end
  else None.

(** [None] where the assertion [_argCount < kFuncArgCount] fails. *)
Definition addArg (s : t) (type : Z) : option t :=
  if _argCount s <? kFuncArgCount then
    match store (_builderArgList s) (Z.to_nat (_argCount s)) (u8 type) with
    | Some array =>
        Some (Sig (_callConv s) (_varArgs s) (u8 (_argCount s + 1)) (_ret s)
                array)
    | None => None
    end
  else None.

(** A run of [addArg] calls, one per element of [types]. *)
Fixpoint addArgs (s : t) (types : list Z) : option t :=
  match types with
  | [] => Some s
  | type :: rest =>
      match addArg s type with
      | Some s' => addArgs s' rest
      | None => None
      end
  end.
End FuncSignatureX.

(** Arithmetic on the fields of a packed word. *)
Ltac field_arith :=
  change (2 ^ 32) with 4294967296 in *; change (2 ^ 24) with 16777216 in *;
  change (2 ^ 18) with 262144 in *;
  change (2 ^ 17) with 131072 in *; change (2 ^ 16) with 65536 in *;
  change (2 ^ 8) with 256 in *; change (2 ^ 0) with 1 in *;
  Z.div_mod_to_equations; lia.

(** * Properties *)

(** ** Table access *)

Lemma at_index_In {A : Type} (table : list A) (i : Z) (x : A) :
  at_index table i = Some x -> In x table.
Proof.
  unfold at_index. destruct (i <? 0); [discriminate |].
  apply nth_error_In.
Qed.

Lemma at_index_in_range {A : Type} (table : list A) (i : Z) :
  0 <= i < Z.of_nat (List.length table) -> exists x, at_index table i = Some x.
Proof.
  intros Hi. unfold at_index.
  destruct (Z.ltb_spec i 0) as [Hneg | _]; [lia |].
  destruct (nth_error table (Z.to_nat i)) as [x |] eqn:E; [now exists x |].
  apply nth_error_None in E. lia.
Qed.

(** The model passes every expectation of the validation unit test. *)
Lemma unit_test_x86_inst_validation :
  forallb (fun passed => passed) UnitTest.x86_inst_validation = true.
Proof. vm_compute. reflexivity. Qed.

(** The operand-signature indices stored in the instruction signatures all
    lie inside [_x86InstOSignatureData], so [oSigData] never uses its
    default. *)
Lemma operand_signature_indices_in_bounds :
  forallb
    (fun iSig =>
       forallb
         (fun index =>
            (0 <=? index)
            && (index <? Z.of_nat (List.length _x86InstOSignatureData)))
         (operands iSig))
    _x86InstISignatureData = true.
Proof. vm_compute. reflexivity. Qed.

(** ** Condition-code tables *)

(** C8: [reverse_cond] is an involution on the sixteen concrete condition
    codes O .. G: reversing twice gives the code back. *)
Theorem reverseCond_involutive (c : Z) :
  kCondO <= c <= kCondG ->
  exists r, reverseCond c = Some r /\ reverseCond r = Some c.
Proof.
  unfold kCondO, kCondG. intros H.
  each_below 16%nat c H; eexists; split; vm_compute; reflexivity.
Qed.

Lemma reverseCond_involutive_witness :
  kCondO <= kCondB <= kCondG
  /\ exists r, reverseCond kCondB = Some r /\ reverseCond r = Some kCondB.
Proof.
  split; [unfold kCondO, kCondB, kCondG; lia |].
  apply (reverseCond_involutive kCondB). unfold kCondO, kCondB, kCondG; lia.
Defined.

(** Counterexample to C4 as stated: [reverse_cond] leaves O where it is,
    it does not give NO. *)
Lemma reverseCond_O_is_not_NO :
  reverseCond kCondO = Some kCondO /\ reverseCond kCondO <> Some kCondNO.
Proof. split; [reflexivity | discriminate]. Qed.

(** C4, amended: [reverse_cond] does not negate a condition code.  It
    leaves O and NO where they are and sends B to A and AE to BE; on the
    other concrete codes it sends BE to AE, A to B, L to G, GE to LE, LE to
    GE and G to L, and leaves E, NE, S, NS, PE and PO unchanged. *)
Theorem reverseCond_values :
  (reverseCond kCondO = Some kCondO
   /\ reverseCond kCondNO = Some kCondNO
   /\ reverseCond kCondB = Some kCondA
   /\ reverseCond kCondAE = Some kCondBE)
  /\ (reverseCond kCondBE = Some kCondAE
      /\ reverseCond kCondA = Some kCondB
      /\ reverseCond kCondL = Some kCondG
      /\ reverseCond kCondGE = Some kCondLE
      /\ reverseCond kCondLE = Some kCondGE
      /\ reverseCond kCondG = Some kCondL)
  /\ (forall c, In c [kCondE; kCondNE; kCondS; kCondNS; kCondPE; kCondPO] ->
        reverseCond c = Some c).
Proof.
  split; [repeat split | split; [repeat split |]].
  intros c Hc. simpl in Hc.
  repeat (destruct Hc as [<- | Hc]; [reflexivity |]).
  contradiction.
Qed.

Lemma reverseCond_values_witness :
  reverseCond kCondS = Some kCondS.
Proof.
  apply (proj2 (proj2 reverseCond_values) kCondS).
  simpl. right. right. left. reflexivity.
Defined.

(** Counterexample to C3 as stated: the entries of the two FPU aggregates
    (and of the two codes behind them) hold the sentinel [kInvalidInst]. *)
Lemma condTo_sentinel_at_FpuUnordered :
  condToJcc kCondFpuUnordered = Some kInvalidInst
  /\ condToCmovcc kCondFpuUnordered = Some kInvalidInst
  /\ condToSetcc kCondFpuUnordered = Some kInvalidInst.
Proof. repeat split. Qed.

(** C3, amended: for the sixteen concrete condition codes O .. G the three
    tables give ids of the Jcc, CMOVcc and SETcc families: in range, never
    the sentinel, with the encoding kind of the family ([X86Jcc], [X86Rm],
    [X86Set]) and a name made of the family mnemonic and the suffix of the
    condition.  The last four entries of each table, those of the two FPU
    aggregates and of the two codes behind them, are the sentinel
    [kInvalidInst]. *)
Theorem condTo_concrete_codes (c : Z) :
  (kCondO <= c <= kCondG ->
   (exists id, condToJcc c = Some id
               /\ isFamilyMember kEncodingX86Jcc "j" c id)
   /\ (exists id, condToCmovcc c = Some id
                  /\ isFamilyMember kEncodingX86Rm "cmov" c id)
   /\ (exists id, condToSetcc c = Some id
                  /\ isFamilyMember kEncodingX86Set "set" c id))
  /\ (kCondFpuUnordered <= c < 20 ->
      condToJcc c = Some kInvalidInst
      /\ condToCmovcc c = Some kInvalidInst
      /\ condToSetcc c = Some kInvalidInst).
Proof.
  split.
  - unfold kCondO, kCondG. intros H.
    each_below 16%nat c H;
      (repeat split;
       eexists; (split; [vm_compute; reflexivity |]);
       (repeat split; try (vm_compute; congruence));
       eexists; split; vm_compute; reflexivity).
  - unfold kCondFpuUnordered. intros H.
    assert (Hc : c = 16 \/ c = 17 \/ c = 18 \/ c = 19) by lia.
    destruct Hc as [-> | [-> | [-> | ->]]]; repeat split.
Qed.

Lemma condTo_concrete_codes_witness :
  (kCondO <= kCondNE <= kCondG
   /\ exists id, condToJcc kCondNE = Some id
                 /\ isFamilyMember kEncodingX86Jcc "j" kCondNE id)
  /\ (kCondFpuUnordered <= 0x13 < 20
      /\ condToSetcc 0x13 = Some kInvalidInst).
Proof.
  split.
  - split; [unfold kCondO, kCondNE, kCondG; lia |].
    apply (proj1 (condTo_concrete_codes kCondNE)).
    unfold kCondO, kCondNE, kCondG; lia.
  - split; [unfold kCondFpuUnordered; lia |].
    apply (proj2 (condTo_concrete_codes 0x13)).
    unfold kCondFpuUnordered; lia.
Defined.

(** ** The signature groups *)

Lemma groupInBounds_all : forallb groupInBounds instData = true.
Proof. vm_compute. reflexivity. Qed.

(** C9: for every instruction id in range, the signature group of its
    common-data row lies inside the instruction-signature table: index plus
    count is at most the table's length, so the scan from [iSig] to [iEnd]
    stays in the table. *)
Theorem signature_group_in_bounds (id : Z) :
  0 <= id < _kIdCount ->
  exists inst cd,
    at_index instData id = Some inst
    /\ at_index commonData (commonDataIndex inst) = Some cd
    /\ 0 <= _iSignatureIndex cd
    /\ 0 <= _iSignatureCount cd
    /\ _iSignatureIndex cd + _iSignatureCount cd
       <= Z.of_nat (List.length _x86InstISignatureData).
Proof.
  intros Hid.
  destruct (at_index_in_range instData id Hid) as [inst Hinst].
  pose proof (proj1 (forallb_forall groupInBounds instData) groupInBounds_all
                inst (at_index_In _ _ _ Hinst)) as Hb.
  unfold groupInBounds in Hb.
  destruct (at_index commonData (commonDataIndex inst)) as [cd |] eqn:Hcd;
    [| discriminate].
  exists inst, cd.
  apply andb_prop in Hb. destruct Hb as [Hb H3].
  apply andb_prop in Hb. destruct Hb as [H1 H2].
  apply Z.leb_le in H1, H2, H3. repeat split; auto.
Qed.

Lemma signature_group_in_bounds_witness :
  0 <= kIdMov < _kIdCount
  /\ exists inst cd,
       at_index instData kIdMov = Some inst
       /\ at_index commonData (commonDataIndex inst) = Some cd
       /\ 0 <= _iSignatureIndex cd
       /\ 0 <= _iSignatureCount cd
       /\ _iSignatureIndex cd + _iSignatureCount cd
          <= Z.of_nat (List.length _x86InstISignatureData).
Proof.
  split; [vm_compute; split; congruence |].
  apply (signature_group_in_bounds kIdMov). vm_compute; split; congruence.
Defined.

(** ** Concrete validation scenarios *)

(** Counterexample to C2 as stated: in x64 mode [mov eax, cr8] passes the
    register check (the x64 mask of the control registers has bit 8) and is
    refused by the signature scan, so the error is not [InvalidPhysId]. *)
Lemma validate_x64_mov_eax_cr8 :
  validate kTypeX64 kIdMov 0 Operand.kOpNone
           [Operand.kOpReg X86Reg.kRegGpd 0; Operand.kOpReg X86Reg.kRegCr 8]
  <> Some kErrorInvalidPhysId.
Proof. vm_compute. discriminate. Qed.

(** C2, amended: [validate] of MOV with no options and operands (eax, cr8)
    returns [InvalidInstruction] on x64, where cr8 is encodable but the
    32-bit form of the move does not exist; [InvalidPhysId] is what the
    same operands give on x86, where cr8 is not encodable. *)
Theorem validate_mov_eax_cr8 :
  validate kTypeX64 kIdMov 0 Operand.kOpNone
           [Operand.kOpReg X86Reg.kRegGpd 0; Operand.kOpReg X86Reg.kRegCr 8]
  = Some kErrorInvalidInstruction
  /\ validate kTypeX86 kIdMov 0 Operand.kOpNone
              [Operand.kOpReg X86Reg.kRegGpd 0; Operand.kOpReg X86Reg.kRegCr 8]
     = Some kErrorInvalidPhysId.
Proof. split; vm_compute; reflexivity. Qed.

(** ** The operand loop of the validator *)

Lemma isNone_true (op : Operand.t) :
  Operand.isNone op = true -> op = Operand.kOpNone.
Proof. destruct op; simpl; congruence. Qed.

Lemma isNone_false (op : Operand.t) :
  Operand.isNone op = false -> op <> Operand.kOpNone.
Proof. destruct op; simpl; congruence. Qed.

Lemma translateReg_flag vd regType id opFlags regId regMask :
  translateReg vd regType id = Continue (opFlags, regId, regMask) ->
  opFlags = nth (Z.to_nat regType) _x86OpFlagFromRegType 0.
Proof.
  unfold translateReg.
  destruct (X86Reg.kRegCount <=? regType); [discriminate |].
  destruct (nth (Z.to_nat regType) _x86OpFlagFromRegType 0 =? 0);
    [discriminate |].
  destruct (id <? Operand.kPackedIdMin).
  - destruct (32 <=? id); [discriminate |].
    destruct (_ =? 0); [discriminate |]. congruence.
  - congruence.
Qed.

(** One successful round of the loop appends one translated row, ORs the
    operand's flags into [combinedOpFlags] and repoints [memOp] when the
    operand is a memory operand. *)
Lemma translateOperand_inv vd op st st' :
  translateOperand vd op st = Continue st' ->
  exists opFlags tod,
    oSigTranslated st' = oSigTranslated st ++ [tod]
    /\ combinedOpFlags st' = combinedOpFlags st .| opFlags
    /\ memOp st' = lastMem [op] (memOp st)
    /\ (forall id, op = Operand.kOpReg X86Reg.kRegGpq id -> opFlags = kOpGpq).
Proof.
  unfold translateOperand. intros H.
  destruct op as [| regType id | size baseType indexType | | |];
    try discriminate.
  - destruct (translateReg vd regType id) as [[[f r] m] | e |] eqn:E;
      try discriminate.
    destruct (6 <=? _); [discriminate |].
    injection H as <-. exists f. eexists. simpl. repeat split.
    intros id' Heq. injection Heq as -> ->.
    apply translateReg_flag in E. subst f. reflexivity.
  - destruct (translateMem vd baseType indexType) as [[f m] | e |];
      try discriminate.
    destruct (6 <=? _); [discriminate |].
    injection H as <-. exists f. eexists. simpl. repeat split.
    intros id' Heq. discriminate.
  - destruct (6 <=? _); [discriminate |].
    injection H as <-. eexists. eexists. simpl. repeat split.
    intros id' Heq. discriminate.
  - destruct (6 <=? _); [discriminate |].
    injection H as <-. eexists. eexists. simpl. repeat split.
    intros id' Heq. discriminate.
Qed.

(** The loop translates exactly the operands before the first none. *)
Lemma translate_length vd opArray st tr :
  translate vd opArray st = Continue tr ->
  List.length (oSigTranslated tr)
  = (List.length (oSigTranslated st) + List.length (leading opArray))%nat.
Proof.
  revert st. induction opArray as [| op rest IH]; intros st H; simpl in *.
  - injection H as <-. lia.
  - destruct (Operand.isNone op).
    + injection H as <-. simpl. lia.
    + destruct (translateOperand vd op st) as [st' | e |] eqn:E;
        try discriminate.
      apply IH in H. rewrite H.
      apply translateOperand_inv in E.
      destruct E as (f & tod & -> & _). rewrite length_app. simpl. lia.
Qed.

Lemma land_lor_nonzero (a b mask : Z) :
  a .& mask <> 0 -> (a .| b) .& mask <> 0.
Proof.
  intros Ha Hz. rewrite Z.land_lor_distr_l in Hz.
  apply Z.lor_eq_0_iff in Hz. tauto.
Qed.

(** A 64-bit register among the translated operands leaves its flag in
    [combinedOpFlags]. *)
Lemma translate_gpq vd opArray st tr :
  translate vd opArray st = Continue tr ->
  combinedOpFlags st .& kOpGpq <> 0
  \/ (exists id, In (Operand.kOpReg X86Reg.kRegGpq id) (leading opArray)) ->
  combinedOpFlags tr .& kOpGpq <> 0.
Proof.
  revert st. induction opArray as [| op rest IH]; intros st H Hin; simpl in *.
  - injection H as <-. destruct Hin as [Hst | [id []]]. exact Hst.
  - destruct (Operand.isNone op) eqn:Hnone.
    + injection H as <-. destruct Hin as [Hst | [id []]]. exact Hst.
    + destruct (translateOperand vd op st) as [st' | e |] eqn:E;
        try discriminate.
      apply (IH st' H).
      apply translateOperand_inv in E.
      destruct E as (f & tod & _ & Hflags & _ & Hgpq).
      destruct Hin as [Hst | [id [Heq | Hrest]]].
      * left. rewrite Hflags. now apply land_lor_nonzero.
      * left. rewrite Hflags, (Hgpq id Heq), Z.lor_comm.
        apply land_lor_nonzero. discriminate.
      * right. now exists id.
Qed.

(** [memOp] ends up at the last memory operand translated. *)
Lemma translate_memOp vd opArray st tr :
  translate vd opArray st = Continue tr ->
  memOp tr = lastMem (leading opArray) (memOp st).
Proof.
  revert st. induction opArray as [| op rest IH]; intros st H; simpl in *.
  - injection H as <-. reflexivity.
  - destruct (Operand.isNone op).
    + injection H as <-. reflexivity.
    + destruct (translateOperand vd op st) as [st' | e |] eqn:E;
        try discriminate.
      rewrite (IH st' H).
      apply translateOperand_inv in E.
      destruct E as (f & tod & _ & _ & -> & _). reflexivity.
Qed.

(** Operands that are not none and sit in a vector without gaps are all
    translated. *)
Lemma noGaps_leading (opArray : list Operand.t) (op : Operand.t) :
  noGaps opArray (List.length (leading opArray)) = true ->
  In op opArray -> op <> Operand.kOpNone -> In op (leading opArray).
Proof.
  unfold noGaps.
  induction opArray as [| op0 rest IH]; intros Hgap Hin Hop; simpl in *.
  - exact Hin.
  - destruct (Operand.isNone op0) eqn:Hnone; simpl in *.
    + destruct Hin as [-> | Hin]; [now apply isNone_true in Hnone |].
      exfalso. apply Hop, isNone_true.
      exact (proj1 (forallb_forall _ _) Hgap op Hin).
    + destruct Hin as [-> | Hin]; [now left | right; now apply IH].
Qed.

Lemma leading_incl (opArray : list Operand.t) (op : Operand.t) :
  In op (leading opArray) -> In op opArray.
Proof.
  induction opArray as [| op0 rest IH]; simpl; [tauto |].
  destruct (Operand.isNone op0); simpl; [tauto |].
  intros [-> | Hin]; [now left | right; now apply IH].
Qed.

Lemma existsb_isMem_leading (opArray : list Operand.t) :
  noGaps opArray (List.length (leading opArray)) = true ->
  existsb isMem (leading opArray) = existsb isMem opArray.
Proof.
  intros Hgap. apply eq_true_iff_eq. rewrite !existsb_exists.
  split; intros (op & Hin & Hmem); exists op; split; auto.
  - now apply leading_incl.
  - apply noGaps_leading; auto. intros ->. discriminate.
Qed.

Lemma lastMem_sizes (ops : list Operand.t) (init : option Z) (size : Z) :
  (forall s b x, In (Operand.kOpMem s b x) ops -> s = size) ->
  lastMem ops init = if existsb isMem ops then Some size else init.
Proof.
  unfold lastMem. revert init.
  induction ops as [| op rest IH]; intros init Hsize; simpl; [reflexivity |].
  rewrite IH by (intros s b x Hin; apply (Hsize s b x); now right).
  destruct op as [| | s b x | | |]; simpl; try reflexivity.
  rewrite (Hsize s b x) by now left.
  now destruct (existsb isMem rest).
Qed.

Lemma lastMem_no_mem (ops : list Operand.t) (init : option Z) :
  existsb isMem ops = false -> lastMem ops init = init.
Proof.
  unfold lastMem. revert init.
  induction ops as [| op rest IH]; intros init H; simpl in *; [reflexivity |].
  apply orb_false_elim in H. destruct H as [Hop Hrest].
  rewrite IH by assumption. destruct op; simpl in *; congruence.
Qed.

Lemma lastMem_some_mem (ops : list Operand.t) (init : option Z) :
  existsb isMem ops = true -> exists size, lastMem ops init = Some size.
Proof.
  unfold lastMem. revert init.
  induction ops as [| op rest IH]; intros init H; simpl in *; [discriminate |].
  destruct (existsb isMem rest) eqn:Hrest.
  - now apply IH.
  - rewrite orb_false_r in H.
    fold (lastMem rest
            match op with Operand.kOpMem size _ _ => Some size | _ => init end).
    rewrite lastMem_no_mem by assumption.
    destruct op; simpl in *; try discriminate. eauto.
Qed.

(** What a successful pass through everything before the options tells
    about the operand loop. *)
Lemma validateOperands_inv archType instId opArray cd tr :
  validateOperands archType instId opArray = Continue (cd, tr) ->
  translate (validationData archType) opArray noOperands = Continue tr
  /\ noGaps opArray (List.length (leading opArray)) = true.
Proof.
  unfold validateOperands. intros H.
  destruct (negb (isX86Family archType)); [discriminate |].
  destruct (_kIdCount <=? instId); [discriminate |].
  destruct (at_index instData instId) as [iData |]; [| discriminate].
  destruct (translate (validationData archType) opArray noOperands)
    as [tr' | e |] eqn:Htr; try discriminate.
  pose proof (translate_length _ _ _ _ Htr) as Hlen. simpl in Hlen.
  destruct (noGaps opArray (List.length (oSigTranslated tr'))) eqn:Hgap;
    simpl in H; [| discriminate].
  rewrite Hlen in Hgap.
  destruct (_ && _); [discriminate |].
  destruct (_ && _); [discriminate |].
  destruct (at_index commonData (commonDataIndex iData)) as [cd' |];
    [| discriminate].
  destruct (_iSignatureCount cd' =? 0).
  - injection H as <- <-. auto.
  - destruct (_ <? _); [discriminate |].
    destruct (existsb _ _); [| discriminate].
    injection H as <- <-. auto.
Qed.

Lemma validateOperands_memOp archType instId opArray cd tr :
  validateOperands archType instId opArray = Continue (cd, tr) ->
  memOp tr = lastMem (leading opArray) None
  /\ existsb isMem (leading opArray) = existsb isMem opArray.
Proof.
  intros H. apply validateOperands_inv in H. destruct H as [Htr Hgap].
  split.
  - exact (translate_memOp _ _ _ _ Htr).
  - now apply existsb_isMem_leading.
Qed.

(** ** 64-bit registers in 32-bit mode *)

(** C7: on x86, with a valid instruction id, an operand vector that
    translates without error and has no gaps, and in which some operand is a
    64-bit general-purpose register, is refused with [InvalidUseOfGpq],
    whatever the instruction and the options. *)
Theorem validate_x86_gpq (instId options : Z) (opExtra : Operand.t)
  (opArray : list Operand.t) (tr : Translated) (id : Z) :
  0 <= instId < _kIdCount ->
  translate _x86ValidationData opArray noOperands = Continue tr ->
  noGaps opArray (List.length (oSigTranslated tr)) = true ->
  In (Operand.kOpReg X86Reg.kRegGpq id) opArray ->
  validate kTypeX86 instId options opExtra opArray
  = Some kErrorInvalidUseOfGpq.
Proof.
  intros Hid Htr Hgap Hin.
  assert (Hflag : combinedOpFlags tr .& kOpGpq <> 0).
  { apply (translate_gpq _ _ _ _ Htr). right. exists id.
    pose proof (translate_length _ _ _ _ Htr) as Hlen. simpl in Hlen.
    rewrite Hlen in Hgap. apply noGaps_leading; auto. discriminate. }
  unfold validate, validateOperands.
  change (negb (isX86Family kTypeX86)) with false. cbv iota.
  change (validationData kTypeX86) with _x86ValidationData.
  change (archMaskOf kTypeX86) with kArchMaskX86.
  destruct (Z.leb_spec _kIdCount instId) as [Hge | _]; [lia |].
  destruct (at_index_in_range instData instId) as [iData ->]; [exact Hid |].
  rewrite Htr, Hgap. simpl negb. cbv iota.
  rewrite Z.eqb_refl.
  apply Z.eqb_neq in Hflag. rewrite Hflag. reflexivity.
Qed.

Lemma validate_x86_gpq_witness :
  validate kTypeX86 kIdCmp 0 Operand.kOpNone
           [Operand.kOpReg X86Reg.kRegGpq 0; Operand.kOpReg X86Reg.kRegGpq 2]
  = Some kErrorInvalidUseOfGpq.
Proof.
  eapply (validate_x86_gpq kIdCmp 0 Operand.kOpNone _ _ 0).
  - vm_compute. split; congruence.
  - vm_compute. reflexivity.
  - vm_compute. reflexivity.
  - left. reflexivity.
Defined.

(** ** Physical register ids *)

Lemma translate_app vd pre rest st st' :
  Forall (fun op => op <> Operand.kOpNone) pre ->
  translate vd pre st = Continue st' ->
  translate vd (pre ++ rest) st = translate vd rest st'.
Proof.
  intros Hpre. revert st.
  induction Hpre as [| op pre Hop _ IH]; intros st H; simpl in *.
  - now injection H as <-.
  - destruct (Operand.isNone op) eqn:Hnone;
      [now apply isNone_true in Hnone |].
    destruct (translateOperand vd op st) as [st1 | e |]; try discriminate.
    now apply IH.
Qed.





(** ** AVX-512 options *)

Lemma hasOption_lor (options a b : Z) :
  hasOption options (a .| b) = hasOption options a || hasOption options b.
Proof.
  unfold hasOption. rewrite Z.land_lor_distr_r.
  destruct (Z.eqb_spec (options .& a) 0) as [Ha | Ha];
    destruct (Z.eqb_spec (options .& b) 0) as [Hb | Hb];
    destruct (Z.eqb_spec (options .& a .| options .& b) 0) as [Hab | Hab];
    simpl; try reflexivity; exfalso.
  - apply Hab. apply Z.lor_eq_0_iff. auto.
  - apply Z.lor_eq_0_iff in Hab. tauto.
  - apply Z.lor_eq_0_iff in Hab. tauto.
  - apply Z.lor_eq_0_iff in Hab. tauto.
Qed.

Lemma hasOption_avx512 (options : Z) :
  hasOption options kAvx512Options
  = hasOption options (kOptionK .| kOptionKZ)
    || hasOption options kOption1ToX
    || hasOption options (kOptionSAE .| kOptionER).
Proof.
  unfold kAvx512Options. rewrite !hasOption_lor.
  destruct (hasOption options kOptionK), (hasOption options kOptionKZ),
    (hasOption options kOption1ToX), (hasOption options kOptionSAE),
    (hasOption options kOptionER); reflexivity.
Qed.

Lemma hasFlag_either (cd : CommonData) (a b : Z) :
  hasFlag cd a = true \/ hasFlag cd b = true ->
  (_flags cd .& (a .| b) =? 0) = false.
Proof.
  intros H. apply negb_true_iff.
  change (negb (_flags cd .& (a .| b) =? 0)) with (hasOption (_flags cd) (a .| b)).
  rewrite hasOption_lor. apply orb_true_iff. exact H.
Qed.

(** The checks before the options never return [kErrorOk]: they either
    fail with an error or go on. *)
Lemma translateOperand_error vd op st e :
  translateOperand vd op st = Return e -> e <> kErrorOk.
Proof.
  unfold translateOperand, translateReg, translateMem. intros H.
  repeat match type of H with
         | context [if ?c then _ else _] => destruct c
         | context [match ?op with Operand.kOpNone => _ | _ => _ end] =>
             destruct op
         end;
    try discriminate; injection H as <-; discriminate.
Qed.

Lemma translate_error vd opArray st e :
  translate vd opArray st = Return e -> e <> kErrorOk.
Proof.
  revert st. induction opArray as [| op rest IH]; intros st H; simpl in H.
  - discriminate.
  - destruct (Operand.isNone op); [discriminate |].
    destruct (translateOperand vd op st) as [st' | e' |] eqn:E;
      try discriminate.
    + exact (IH _ H).
    + injection H as <-. exact (translateOperand_error _ _ _ _ E).
Qed.

Lemma validateOperands_error archType instId opArray e :
  validateOperands archType instId opArray = Return e -> e <> kErrorOk.
Proof.
  unfold validateOperands. intros H.
  destruct (negb (isX86Family archType));
    [injection H as <-; discriminate |].
  destruct (_kIdCount <=? instId); [injection H as <-; discriminate |].
  destruct (at_index instData instId) as [iData |]; [| discriminate].
  destruct (translate _ opArray noOperands) as [tr | e' |] eqn:Htr;
    try discriminate.
  - destruct (negb (noGaps _ _)); [injection H as <-; discriminate |].
    destruct (_ && _); [injection H as <-; discriminate |].
    destruct (_ && _); [injection H as <-; discriminate |].
    destruct (at_index commonData _) as [cd |]; [| discriminate].
    destruct (_ =? 0); [discriminate |].
    destruct (_ <? _); [discriminate |].
    destruct (existsb _ _); [discriminate |].
    injection H as <-. discriminate.
  - injection H as <-. exact (translate_error _ _ _ _ Htr).
Qed.

(** "Everything up to the signature scan succeeds" is the same as: the
    call without options returns [kErrorOk]. *)
Lemma validate_no_options archType instId opExtra opArray :
  validate archType instId 0 opExtra opArray = Some kErrorOk
  <-> exists cd tr,
        validateOperands archType instId opArray = Continue (cd, tr).
Proof.
  unfold validate. split.
  - destruct (validateOperands archType instId opArray) as [[cd tr] | e |]
      eqn:E; [eauto | | discriminate].
    intros H. injection H as ->.
    now apply validateOperands_error in E.
  - intros (cd & tr & ->). reflexivity.
Qed.

(** Counterexample to C5 as stated: VADDPD with SAE set and a memory
    operand passes everything up to the signature scan, yet with zeroing
    requested and no mask register the answer is [InvalidKZeroUse]: the
    mask checks come first. *)
Lemma validate_sae_behind_mask_check :
  let opArray := [Operand.kOpReg X86Reg.kRegXmm 0;
                  Operand.kOpReg X86Reg.kRegXmm 1;
                  Operand.kOpMem 0 X86Reg.kRegGpd 0] in
  let options := kOptionSAE .| kOptionKZ in
  (exists cd tr, validateOperands kTypeX86 kIdVaddpd opArray = Continue (cd, tr))
  /\ hasOption options kOptionSAE = true
  /\ existsb isMem opArray = true
  /\ validate kTypeX86 kIdVaddpd options Operand.kOpNone opArray
     = Some kErrorInvalidKZeroUse
  /\ validate kTypeX86 kIdVaddpd options Operand.kOpNone opArray
     <> Some kErrorInvalidSAEOrER.
Proof.
  cbv zeta. split; [| split; [| split; [| split]]].
  - eexists. eexists. vm_compute. reflexivity.
  - reflexivity.
  - reflexivity.
  - vm_compute. reflexivity.
  - vm_compute. discriminate.
Qed.

(** C5, amended: when everything up to the signature scan succeeds, the
    mask-register and broadcast checks that stand before it pass (as they do
    when none of MaskReg, MaskZeroing and Broadcast is set), and SAE or
    StaticRounding is set, then [validate] returns [InvalidSAEOrER] if the
    operand vector holds a memory operand; and also if it holds none,
    StaticRounding is set, the instruction declares a broadcast element
    (EvexB4 or EvexB8) and neither of the first two operands is a ZMM
    register.  VADDPD with StaticRounding and (xmm, xmm, xmm) is such a
    case. *)
Theorem validate_sae_er :
  (forall archType instId options opExtra opArray cd tr,
      validateOperands archType instId opArray = Continue (cd, tr) ->
      validateMask options opExtra cd = Continue tt ->
      validateBroadcast options cd (memOp tr) = Continue tt ->
      hasOption options (kOptionSAE .| kOptionER) = true ->
      (existsb isMem opArray = true ->
       validate archType instId options opExtra opArray
       = Some kErrorInvalidSAEOrER)
      /\ (existsb isMem opArray = false ->
          hasOption options kOptionER = true ->
          hasFlag cd kInstFlagEvexB4 = true
          \/ hasFlag cd kInstFlagEvexB8 = true ->
          (exists op0 op1 rest,
              opArray = op0 :: op1 :: rest
              /\ isZmm op0 = false /\ isZmm op1 = false) ->
          validate archType instId options opExtra opArray
          = Some kErrorInvalidSAEOrER))
  /\ validate kTypeX86 kIdVaddpd kOptionER Operand.kOpNone
              [Operand.kOpReg X86Reg.kRegXmm 0;
               Operand.kOpReg X86Reg.kRegXmm 1;
               Operand.kOpReg X86Reg.kRegXmm 2]
     = Some kErrorInvalidSAEOrER.
Proof.
  split; [| vm_compute; reflexivity].
  intros archType instId options opExtra opArray cd tr Hops Hmask Hbc Hopt.
  destruct (validateOperands_memOp _ _ _ _ _ Hops) as [HmemOp Hex].
  assert (Hval : validate archType instId options opExtra opArray
                 = match validateRounding options opArray cd (memOp tr) with
                   | Return e => Some e
                   | OutOfBounds => None
                   | Continue _ => Some kErrorOk
                   end).
  { unfold validate, validateOptions.
    rewrite Hops, hasOption_avx512, Hopt, orb_true_r, Hmask, Hbc.
    reflexivity. }
  rewrite Hval. unfold validateRounding. rewrite Hopt. split.
  - intros Hmem. rewrite <- Hex in Hmem.
    destruct (lastMem_some_mem _ None Hmem) as [size Hsize].
    rewrite HmemOp, Hsize. reflexivity.
  - intros Hmem Her Hb (op0 & op1 & rest & -> & Hz0 & Hz1).
    rewrite <- Hex in Hmem.
    rewrite HmemOp, (lastMem_no_mem _ None Hmem), Her.
    destruct (_flags cd .& kInstFlagEvexER =? 0); [reflexivity |].
    rewrite (hasFlag_either _ _ _ Hb), Hz0, Hz1. reflexivity.
Qed.

Lemma validate_sae_er_witness :
  validate kTypeX86 kIdVaddpd kOptionSAE Operand.kOpNone
           [Operand.kOpReg X86Reg.kRegXmm 0;
            Operand.kOpReg X86Reg.kRegXmm 1;
            Operand.kOpMem 0 X86Reg.kRegGpd 0]
  = Some kErrorInvalidSAEOrER.
Proof.
  eapply (proj1 (proj1 validate_sae_er _ _ _ _ _ _ _ _ _ _ _)).
  Unshelve.
  4: (vm_compute; reflexivity).
  all: vm_compute; reflexivity.
Defined.

(** Counterexample to C6 as stated: VADDPD with Broadcast set and three
    register operands passes everything up to the signature scan, yet with
    zeroing requested and no mask register the answer is
    [InvalidKZeroUse]. *)
Lemma validate_broadcast_behind_mask_check :
  let opArray := [Operand.kOpReg X86Reg.kRegXmm 0;
                  Operand.kOpReg X86Reg.kRegXmm 1;
                  Operand.kOpReg X86Reg.kRegXmm 2] in
  let options := kOption1ToX .| kOptionKZ in
  (exists cd tr, validateOperands kTypeX86 kIdVaddpd opArray = Continue (cd, tr))
  /\ hasOption options kOption1ToX = true
  /\ existsb isMem opArray = false
  /\ validate kTypeX86 kIdVaddpd options Operand.kOpNone opArray
     = Some kErrorInvalidKZeroUse
  /\ validate kTypeX86 kIdVaddpd options Operand.kOpNone opArray
     <> Some kErrorInvalidBroadcast.
Proof.
  cbv zeta. split; [| split; [| split; [| split]]].
  - eexists. eexists. vm_compute. reflexivity.
  - reflexivity.
  - reflexivity.
  - vm_compute. reflexivity.
  - vm_compute. discriminate.
Qed.

(** C6, amended: when everything up to the signature scan succeeds, the
    mask-register checks that stand before it pass (as they do when neither
    MaskReg nor MaskZeroing is set), and Broadcast is set, then [validate]
    returns [InvalidBroadcast] if the operand vector holds no memory
    operand; and also if its memory operand has a non-zero size other than
    the element the instruction declares (4 bytes with EvexB4, 8 bytes with
    EvexB8).  VADDPD with Broadcast and a 4-byte memory operand is such a
    case. *)
Theorem validate_broadcast :
  (forall archType instId options opExtra opArray cd tr,
      validateOperands archType instId opArray = Continue (cd, tr) ->
      validateMask options opExtra cd = Continue tt ->
      hasOption options kOption1ToX = true ->
      (existsb isMem opArray = false ->
       validate archType instId options opExtra opArray
       = Some kErrorInvalidBroadcast)
      /\ (forall size,
             existsb isMem opArray = true ->
             (forall s b x, In (Operand.kOpMem s b x) opArray -> s = size) ->
             size <> 0 ->
             (hasFlag cd kInstFlagEvexB4 = true /\ size <> 4)
             \/ (hasFlag cd kInstFlagEvexB8 = true /\ size <> 8) ->
             validate archType instId options opExtra opArray
             = Some kErrorInvalidBroadcast))
  /\ validate kTypeX86 kIdVaddpd kOption1ToX Operand.kOpNone
              [Operand.kOpReg X86Reg.kRegXmm 0;
               Operand.kOpReg X86Reg.kRegXmm 1;
               Operand.kOpMem 4 X86Reg.kRegGpd 0]
     = Some kErrorInvalidBroadcast.
Proof.
  split; [| vm_compute; reflexivity].
  intros archType instId options opExtra opArray cd tr Hops Hmask Hopt.
  destruct (validateOperands_memOp _ _ _ _ _ Hops) as [HmemOp Hex].
  assert (Hval : forall e,
             validateBroadcast options cd (memOp tr) = Return e ->
             validate archType instId options opExtra opArray = Some e).
  { intros e He. unfold validate, validateOptions.
    rewrite Hops, hasOption_avx512, Hopt, orb_true_r, Hmask, He.
    reflexivity. }
  split.
  - intros Hmem. apply Hval. rewrite <- Hex in Hmem.
    unfold validateBroadcast.
    rewrite Hopt, HmemOp, (lastMem_no_mem _ None Hmem). reflexivity.
  - intros size Hmem Hsize Hnz Hflag. apply Hval. rewrite <- Hex in Hmem.
    unfold validateBroadcast. rewrite Hopt, HmemOp.
    rewrite (lastMem_sizes _ None size), Hmem
      by (intros s b x Hin; apply (Hsize s b x); now apply leading_incl).
    apply Z.eqb_neq in Hnz. rewrite Hnz. simpl negb. cbv iota.
    destruct Hflag as [[Hb Hs] | [Hb Hs]]; apply Z.eqb_neq in Hs;
      rewrite Hb, Hs; simpl.
    + reflexivity.
    + now destruct (hasFlag cd kInstFlagEvexB4 && negb (size =? 4)).
Qed.

Lemma validate_broadcast_witness :
  validate kTypeX86 kIdVaddpd kOption1ToX Operand.kOpNone
           [Operand.kOpReg X86Reg.kRegXmm 0;
            Operand.kOpReg X86Reg.kRegXmm 1;
            Operand.kOpReg X86Reg.kRegXmm 2]
  = Some kErrorInvalidBroadcast.
Proof.
  eapply (proj1 (proj1 validate_broadcast _ _ _ _ _ _ _ _ _ _)).
  Unshelve.
  4: (vm_compute; reflexivity).
  all: vm_compute; reflexivity.
Defined.

(** ** Name lookup *)

(** Every used letter of [_x86InstAlphaIndex] starts a slice that ends no
    earlier than it starts, so [end - base] counts the rows of the slice. *)
Lemma alphaIndex_slices :
  forallb
    (fun prefix =>
       let index := nth prefix _x86InstAlphaIndex 0 in
       (index =? kX86InstAlphaIndexInvalid)
       || ((0 <? index)
           && (index <=? sliceEnd (skipn (S prefix) _x86InstAlphaIndex))
           && (sliceEnd (skipn (S prefix) _x86InstAlphaIndex) <=? _kIdCount)))
    (seq 0 26) = true.
Proof. vm_compute. reflexivity. Qed.

(** The comparator answers 0 only after it has compared [len] bytes of
    [b]. *)
Lemma compareName_zero (a b : list Z) (len : Z) :
  X86Inst_compareName a b len = Some 0 -> len <= Z.of_nat (List.length b).
Proof.
  revert b len. induction a as [| x a' IH]; intros b len H; simpl in H.
  - destruct (len <=? 0); discriminate.
  - destruct (Z.leb_spec len 0) as [Hle | Hgt]; [lia |].
    destruct b as [| y b']; [discriminate |].
    destruct (Z.eqb_spec (x - y) 0) as [Hc | Hc].
    + apply IH in H. simpl List.length. lia.
    + congruence.
Qed.

Lemma store_length (buf : list Z) (i : nat) (c : Z) (buf' : list Z) :
  store buf i c = Some buf' -> List.length buf' = List.length buf.
Proof.
  revert i buf'. induction buf as [| x buf IH]; intros i buf' H; simpl in H.
  - discriminate.
  - destruct i as [| i].
    + injection H as <-. reflexivity.
    + destruct (store buf i c) as [b |] eqn:E; [| discriminate].
      injection H as <-. simpl. f_equal. exact (IH _ _ E).
Qed.

Lemma lowerUntilNul_continue (name : list Z) (i : nat) (buf buf' : list Z) :
  lowerUntilNul name i buf = Continue buf' ->
  List.length buf' = List.length buf.
Proof.
  revert i buf. induction name as [| c rest IH]; intros i buf H; simpl in H.
  - discriminate.
  - destruct (toLower c =? 0); [now injection H as <- |].
    destruct (kX86InstMaxLength <? Z.of_nat i); [discriminate |].
    destruct (store buf i (toLower c)) as [b |] eqn:E; [| discriminate].
    rewrite (IH _ _ H). exact (store_length _ _ _ _ E).
Qed.

Lemma lowerUntilNul_return (name : list Z) (i : nat) (buf : list Z) (r : Z) :
  lowerUntilNul name i buf = Return r -> r = kInvalidInst.
Proof.
  revert i buf. induction name as [| c rest IH]; intros i buf H; simpl in H.
  - discriminate.
  - destruct (toLower c =? 0); [discriminate |].
    destruct (kX86InstMaxLength <? Z.of_nat i); [congruence |].
    destruct (store buf i (toLower c)) as [b |]; [| discriminate].
    exact (IH _ _ H).
Qed.

(** A search whose comparisons never answer 0 finds nothing. *)
Lemma linearSearch_miss (n : nat) (base : Z) (b : list Z) (len : Z) :
  (forall id, compareAt id b len <> Some 0) ->
  linearSearch n base b len = None
  \/ linearSearch n base b len = Some kInvalidInst.
Proof.
  intros Hcmp. revert base. induction n as [| n IH]; intros base; simpl.
  - now right.
  - destruct (compareAt base b len) as [result |] eqn:E; [| now left].
    destruct (Z.eqb_spec result 0) as [-> | _]; [now apply Hcmp in E |].
    apply IH.
Qed.

Lemma binarySearch_miss (rounds : nat) (base lim : Z) (b : list Z) (len : Z) :
  (forall id, compareAt id b len <> Some 0) ->
  binarySearch rounds base lim b len = None
  \/ binarySearch rounds base lim b len = Some kInvalidInst.
Proof.
  intros Hcmp. revert base lim.
  induction rounds as [| n IH]; intros base lim; simpl.
  - now right.
  - destruct (lim =? 0); [now right |].
    destruct (compareAt _ b len) as [result |] eqn:E; [| now left].
    destruct (Z.ltb_spec result 0); [apply IH |].
    destruct (Z.ltb_spec 0 result); [apply IH |].
    assert (result = 0) by lia. subst result. now apply Hcmp in E.
Qed.

(** Without an explicit length, [len] keeps the value [kInvalidIndex] all
    the way to the comparator, which then can never report a match: the
    lookup finds nothing, whatever the name and whatever the bytes left in
    [nameLower]. *)
Lemma getIdByName_without_length (stack : nat -> Z) (name : list Z) :
  getIdByName stack (Some name) kInvalidIndex = None
  \/ getIdByName stack (Some name) kInvalidIndex = Some kInvalidInst.
Proof.
  unfold getIdByName. rewrite Z.eqb_refl.
  destruct (lowerUntilNul _ _ _) as [nameLower | r |] eqn:Hcopy.
  - apply lowerUntilNul_continue in Hcopy.
    rewrite length_map, length_seq in Hcopy.
    assert (Hcmp : forall id, compareAt id nameLower kInvalidIndex <> Some 0).
    { intros id H. unfold compareAt in H.
      destruct (at_index instData id); [| discriminate].
      apply compareName_zero in H. rewrite Hcopy in H.
      revert H. vm_compute. intros H. now apply H. }
    change (kInvalidIndex =? 0) with false. cbv iota.
    destruct (kX86InstAlphaIndexLast - kX86InstAlphaIndexFirst <? _);
      [now right |].
    destruct (_ =? kX86InstAlphaIndexInvalid); [now right |].
    destruct (_ =? 106 - kX86InstAlphaIndexFirst).
    + now apply linearSearch_miss.
    + now apply binarySearch_miss.
  - right. f_equal. exact (lowerUntilNul_return _ _ _ _ Hcopy).
  - now left.
Qed.

(** C1 fails on the code: for every valid id from 1 on, looking up the
    NUL-terminated name of the instruction without an explicit length does
    not give the id back; the call either returns [kInvalidInst] or runs
    outside [nameLower].  (With the length passed, the same lookup succeeds
    for every id: [getIdByName_with_length].) *)
Theorem getIdByName_without_length_misses (stack : nat -> Z) (id : Z)
  (name : list Z) :
  1 <= id < _kIdCount ->
  getNameById id = Some name ->
  getIdByName stack (Some (c_str name)) kInvalidIndex <> Some id.
Proof.
  intros Hid _ H.
  destruct (getIdByName_without_length stack (c_str name)) as [E | E];
    rewrite E in H; [discriminate |].
  injection H as H. unfold kInvalidInst in H. lia.
Qed.

Lemma getIdByName_without_length_misses_witness :
  getIdByName (fun _ => 0) (Some (c_str (bytes_of_string "adc")))
              kInvalidIndex
  <> Some kIdAdc.
Proof.
  apply (getIdByName_without_length_misses (fun _ => 0) kIdAdc).
  - vm_compute. split; congruence.
  - vm_compute. reflexivity.
Defined.

(** *** The lookup with an explicit length *)

Lemma store_app (p q : list Z) (c : Z) :
  q <> [] ->
  store (p ++ q) (List.length p) c = Some (p ++ c :: tl q).
Proof.
  intros Hq. induction p as [| x p IH]; simpl.
  - destruct q; [contradiction | reflexivity].
  - now rewrite IH.
Qed.

(** The counted copy loop overwrites the first [n] bytes of the buffer
    with the folded name and leaves the rest as it was. *)
Lemma lowerCounted_spec (name p q : list Z) (n : nat) :
  (n <= List.length name)%nat -> (n <= List.length q)%nat ->
  lowerCounted name n (List.length p) (p ++ q)
  = Continue (p ++ map toLower (firstn n name) ++ skipn n q).
Proof.
  revert name p q. induction n as [| n IH]; intros name p q Hname Hq; simpl.
  - reflexivity.
  - destruct name as [| c rest]; [simpl in Hname; lia |].
    destruct q as [| y q]; [simpl in Hq; lia |].
    rewrite store_app by discriminate. simpl tl.
    replace (p ++ toLower c :: q) with ((p ++ [toLower c]) ++ q)
      by (rewrite <- app_assoc; reflexivity).
    replace (S (List.length p)) with (List.length (p ++ [toLower c]))
      by (rewrite length_app; simpl; lia).
    simpl in Hname, Hq. rewrite IH by lia.
    simpl. rewrite <- app_assoc. reflexivity.
Qed.

(** The comparator reads [len] bytes of [b] and no more. *)
Lemma compareName_prefix (a p q q' : list Z) :
  X86Inst_compareName a (p ++ q) (Z.of_nat (List.length p))
  = X86Inst_compareName a (p ++ q') (Z.of_nat (List.length p)).
Proof.
  revert a. induction p as [| y p IH]; intros a.
  - destruct a; reflexivity.
  - destruct a as [| x a']; [reflexivity |].
    cbn [X86Inst_compareName List.length app].
    destruct (Z.leb_spec (Z.of_nat (S (List.length p))) 0); [lia |].
    replace (Z.of_nat (S (List.length p)) - 1) with (Z.of_nat (List.length p))
      by lia.
    now rewrite IH.
Qed.

Lemma linearSearch_ext (n : nat) (base : Z) (b b' : list Z) (len : Z) :
  (forall id, compareAt id b len = compareAt id b' len) ->
  linearSearch n base b len = linearSearch n base b' len.
Proof.
  intros Hcmp. revert base. induction n as [| n IH]; intros base; simpl.
  - reflexivity.
  - rewrite Hcmp. destruct (compareAt base b' len) as [result |]; auto.
    destruct (result =? 0); auto.
Qed.

Lemma binarySearch_ext (rounds : nat) (base lim : Z) (b b' : list Z)
  (len : Z) :
  (forall id, compareAt id b len = compareAt id b' len) ->
  binarySearch rounds base lim b len = binarySearch rounds base lim b' len.
Proof.
  intros Hcmp. revert base lim.
  induction rounds as [| n IH]; intros base lim; simpl.
  - reflexivity.
  - rewrite Hcmp. destruct (lim =? 0); auto.
    destruct (compareAt _ b' len) as [result |]; auto.
    destruct (result <? 0); auto. destruct (0 <? result); auto.
Qed.

(** With the length passed, the bytes left in [nameLower] do not matter. *)
Lemma getIdByName_with_length_stack (stack stack' : nat -> Z) (name : list Z) :
  (List.length name <= 16)%nat ->
  getIdByName stack (Some name) (Z.of_nat (List.length name))
  = getIdByName stack' (Some name) (Z.of_nat (List.length name)).
Proof.
  intros Hlen. unfold getIdByName.
  assert (Hne : (Z.of_nat (List.length name) =? kInvalidIndex) = false).
  { apply Z.eqb_neq. unfold kInvalidIndex.
    assert (16 < 2 ^ 64 - 1) by (vm_compute; reflexivity). lia. }
  rewrite Hne.
  assert (Hmax : (kX86InstMaxLength <? Z.of_nat (List.length name)) = false).
  { apply Z.ltb_ge. unfold kX86InstMaxLength. lia. }
  rewrite Hmax, Nat2Z.id.
  change (Z.to_nat kX86InstMaxLength) with 16%nat.
  set (buf := map stack (seq 0 16)). set (buf' := map stack' (seq 0 16)).
  assert (Hbuf : List.length buf = 16%nat)
    by (unfold buf; now rewrite length_map, length_seq).
  assert (Hbuf' : List.length buf' = 16%nat)
    by (unfold buf'; now rewrite length_map, length_seq).
  clearbody buf buf'.
  pose proof (lowerCounted_spec name [] buf (List.length name)) as Hs.
  pose proof (lowerCounted_spec name [] buf' (List.length name)) as Hs'.
  change (List.length (@nil Z)) with 0%nat in Hs, Hs'.
  change ([] ++ buf) with buf in Hs. change ([] ++ buf') with buf' in Hs'.
  rewrite Hs, Hs' by lia.
  rewrite firstn_all.
  destruct (Z.of_nat (List.length name) =? 0) eqn:Hz; [reflexivity |].
  destruct name as [| c rest]; [discriminate |].
  cbn [map app nth].
  destruct (kX86InstAlphaIndexLast - kX86InstAlphaIndexFirst <? _);
    [reflexivity |].
  destruct (_ =? kX86InstAlphaIndexInvalid); [reflexivity |].
  assert (Hcmp : forall id,
             compareAt id
               (toLower c :: map toLower rest
                  ++ skipn (List.length (c :: rest)) buf)
               (Z.of_nat (List.length (c :: rest)))
             = compareAt id
                 (toLower c :: map toLower rest
                    ++ skipn (List.length (c :: rest)) buf')
                 (Z.of_nat (List.length (c :: rest)))).
  { intros id. unfold compareAt.
    destruct (at_index instData id); [| reflexivity].
    replace (List.length (c :: rest))
      with (List.length (map toLower (c :: rest)))
      by apply length_map.
    apply (compareName_prefix _ (map toLower (c :: rest))). }
  destruct (_ =? 106 - kX86InstAlphaIndexFirst).
  - now apply linearSearch_ext.
  - now apply binarySearch_ext.
Qed.

Lemma roundTrips_all :
  forallb roundTrips (map Z.of_nat (seq 0 (List.length instData))) = true.
Proof. vm_compute. reflexivity. Qed.

(** The sibling path: with the length of the name passed, looking up the
    name of any id gives the id back, whatever the stack held. *)
Lemma getIdByName_with_length (stack : nat -> Z) (id : Z) (name : list Z) :
  0 <= id < _kIdCount ->
  getNameById id = Some name ->
  getIdByName stack (Some name) (Z.of_nat (List.length name)) = Some id.
Proof.
  intros Hid Hname.
  assert (Hin : In id (map Z.of_nat (seq 0 (List.length instData)))).
  { apply in_map_iff. exists (Z.to_nat id). split; [lia |].
    apply in_seq. unfold _kIdCount in Hid. lia. }
  pose proof (proj1 (forallb_forall _ _) roundTrips_all id Hin) as Hrt.
  unfold roundTrips in Hrt. rewrite Hname in Hrt.
  apply andb_prop in Hrt. destruct Hrt as [Hlen Hrt].
  apply Nat.leb_le in Hlen.
  rewrite (getIdByName_with_length_stack stack (fun _ => 0)) by exact Hlen.
  destruct (getIdByName _ _ _) as [r |]; [| discriminate].
  apply Z.eqb_eq in Hrt. now subst r.
Qed.

(** The round counter of [binarySearch] does not cut the loop short: any
    count of at least [lim] gives the same result. *)
Lemma binarySearch_rounds (r1 r2 : nat) (base lim : Z) (b : list Z) (len : Z) :
  0 <= lim <= Z.of_nat r1 -> lim <= Z.of_nat r2 ->
  binarySearch r1 base lim b len = binarySearch r2 base lim b len.
Proof.
  revert r2 base lim. induction r1 as [| r1 IH]; intros r2 base lim H1 H2.
  - assert (lim = 0) by lia. subst lim. destruct r2; reflexivity.
  - destruct r2 as [| r2].
    + assert (lim = 0) by lia. subst lim. reflexivity.
    + simpl. destruct (Z.eqb_spec lim 0); [reflexivity |].
      assert (Hhalf : 0 <= Z.shiftr lim 1 < lim).
      { rewrite Z.shiftr_div_pow2 by lia. change (2 ^ 1) with 2.
        Z.div_mod_to_equations. lia. }
      assert (Hhalf' : 0 <= Z.shiftr (lim - 1) 1 < lim).
      { rewrite Z.shiftr_div_pow2 by lia. change (2 ^ 1) with 2.
        Z.div_mod_to_equations. lia. }
      destruct (compareAt _ b len) as [result |]; [| reflexivity].
      destruct (result <? 0); [apply IH; lia |].
      destruct (0 <? result); [apply IH; lia | reflexivity].
Qed.

(** * Further properties of the name index *)

Lemma toLower_idempotent (c : Z) : toLower (toLower c) = toLower c.
Proof.
  unfold toLower. destruct ((65 <=? c) && (c <=? 90)) eqn:E.
  - apply andb_prop in E. destruct E as [E1 E2]. apply Z.leb_le in E1, E2.
    destruct (Z.leb_spec 65 (c + 32)), (Z.leb_spec (c + 32) 90); simpl;
      try reflexivity; lia.
  - now rewrite E.
Qed.

Lemma toLower_nonzero (c : Z) : c <> 0 -> toLower c <> 0.
Proof.
  unfold toLower. destruct ((65 <=? c) && (c <=? 90)) eqn:E; [| trivial].
  apply andb_prop in E. destruct E as [E1 _]. apply Z.leb_le in E1. lia.
Qed.

Lemma lowerUntilNul_fold (name : list Z) (i : nat) (buf : list Z) :
  lowerUntilNul (map toLower name) i buf = lowerUntilNul name i buf.
Proof.
  revert i buf. induction name as [| c rest IH]; intros i buf; simpl.
  - reflexivity.
  - rewrite toLower_idempotent.
    destruct (toLower c =? 0); [reflexivity |].
    destruct (kX86InstMaxLength <? Z.of_nat i); [reflexivity |].
    destruct (store buf i (toLower c)); [apply IH | reflexivity].
Qed.

Lemma lowerCounted_fold (name : list Z) (n i : nat) (buf : list Z) :
  lowerCounted (map toLower name) n i buf = lowerCounted name n i buf.
Proof.
  revert name i buf. induction n as [| n IH]; intros name i buf; simpl.
  - reflexivity.
  - destruct name as [| c rest]; simpl; [reflexivity |].
    rewrite toLower_idempotent.
    destruct (store buf i (toLower c)); [apply IH | reflexivity].
Qed.

(** Folding the name to lower case before the call changes nothing. *)
Lemma getIdByName_fold (stack : nat -> Z) (name : list Z) (len : Z) :
  getIdByName stack (Some (map toLower name)) len
  = getIdByName stack (Some name) len.
Proof.
  unfold getIdByName.
  now rewrite lowerUntilNul_fold, lowerCounted_fold.
Qed.

(** X2: the lookup does not tell upper case from lower case: two names that
    agree once folded to lower case give the same result, for every length
    argument and every stack content. *)
Theorem getIdByName_case_insensitive (stack : nat -> Z) (name name' : list Z)
  (len : Z) :
  map toLower name = map toLower name' ->
  getIdByName stack (Some name) len = getIdByName stack (Some name') len.
Proof.
  intros H.
  rewrite <- (getIdByName_fold stack name), <- (getIdByName_fold stack name').
  now rewrite H.
Qed.

Lemma getIdByName_case_insensitive_witness :
  getIdByName (fun _ => 0) (Some (bytes_of_string "VaddPD")) 6
  = getIdByName (fun _ => 0) (Some (bytes_of_string "vaddpd")) 6.
Proof.
  apply (getIdByName_case_insensitive (fun _ => 0)). reflexivity.
Defined.

(** X1: with its length passed, the name stored for any instruction id is
    looked up to that id again, whatever bytes the stack held; every stored
    name fits the sixteen bytes of [nameLower]. *)
Theorem getIdByName_round_trip (stack : nat -> Z) (id : Z) :
  0 <= id < _kIdCount ->
  exists name,
    getNameById id = Some name
    /\ (List.length name <= 16)%nat
    /\ getIdByName stack (Some name) (Z.of_nat (List.length name)) = Some id.
Proof.
  intros Hid.
  assert (Hin : In id (map Z.of_nat (seq 0 (List.length instData)))).
  { apply in_map_iff. exists (Z.to_nat id). split; [lia |].
    apply in_seq. unfold _kIdCount in Hid. lia. }
  pose proof (proj1 (forallb_forall _ _) roundTrips_all id Hin) as Hrt.
  unfold roundTrips in Hrt.
  destruct (getNameById id) as [name |] eqn:Hname; [| discriminate].
  apply andb_prop in Hrt. destruct Hrt as [Hlen _].
  apply Nat.leb_le in Hlen.
  exists name. repeat split; auto.
  now apply getIdByName_with_length.
Qed.

Lemma getIdByName_round_trip_witness :
  exists name,
    getNameById kIdJmp = Some name
    /\ (List.length name <= 16)%nat
    /\ getIdByName (fun _ => 0xCC) (Some name) (Z.of_nat (List.length name))
       = Some kIdJmp.
Proof.
  apply (getIdByName_round_trip (fun _ => 0xCC) kIdJmp).
  vm_compute. split; congruence.
Defined.

(** X4: no two instruction ids share a name. *)
Theorem getNameById_injective (id id' : Z) (name : list Z) :
  0 <= id < _kIdCount -> 0 <= id' < _kIdCount ->
  getNameById id = Some name -> getNameById id' = Some name ->
  id = id'.
Proof.
  intros Hid Hid' Hname Hname'.
  pose proof (getIdByName_with_length (fun _ => 0) id name Hid Hname) as H.
  pose proof (getIdByName_with_length (fun _ => 0) id' name Hid' Hname') as H'.
  congruence.
Qed.

Lemma getNameById_injective_witness :
  kIdJe = kIdJe.
Proof.
  apply (getNameById_injective kIdJe kIdJe (bytes_of_string "je"));
    vm_compute; try split; congruence.
Defined.

(** *** What a lookup with an explicit length can return *)

Lemma nameData_ends_with_nul : exists front, nameData = front ++ [0].
Proof. exists (removelast nameData). vm_compute. reflexivity. Qed.

Lemma nameInBlob_all : forallb nameInBlob instData = true.
Proof. vm_compute. reflexivity. Qed.

(** Against a stored name, bytes that are not NUL are compared without
    leaving [nameData]: the comparison stops at the stored terminator at the
    latest. *)
Lemma compareName_defined (a b : list Z) (len : Z) :
  (exists p, a = p ++ [0]) ->
  0 <= len <= Z.of_nat (List.length b) ->
  Forall (fun c => c <> 0) (firstn (Z.to_nat len) b) ->
  X86Inst_compareName a b len <> None.
Proof.
  revert b len. induction a as [| x a' IH]; intros b len [p Hp] Hlen Hnz.
  - now destruct p.
  - simpl. destruct (Z.leb_spec len 0) as [Hle | Hgt]; [discriminate |].
    destruct b as [| y b']; [simpl in Hlen; lia |].
    replace (Z.to_nat len) with (S (Z.to_nat (len - 1))) in Hnz by lia.
    simpl in Hnz. inversion Hnz as [| ? ? Hy Hrest]; subst.
    destruct (Z.eqb_spec (x - y) 0) as [Hc | Hc]; [| discriminate].
    apply IH; [| simpl in Hlen; lia | exact Hrest].
    destruct p as [| x' p']; simpl in Hp.
    + injection Hp as Hx _. lia.
    + injection Hp as _ Ha. now exists p'.
Qed.

(** An answer of 0 means that the stored name is the name looked up. *)
Lemma compareName_zero_name (a p q : list Z) :
  X86Inst_compareName a (p ++ q) (Z.of_nat (List.length p)) = Some 0 ->
  Forall (fun c => c <> 0) p ->
  untilNul a = p.
Proof.
  revert a. induction p as [| y p IH]; intros a H Hnz.
  - destruct a as [| x a']; simpl in H; [discriminate |].
    injection H as ->. reflexivity.
  - destruct a as [| x a']; [simpl in H; discriminate |].
    cbn [X86Inst_compareName List.length app] in H.
    destruct (Z.leb_spec (Z.of_nat (S (List.length p))) 0); [lia |].
    replace (Z.of_nat (S (List.length p)) - 1) with (Z.of_nat (List.length p))
      in H by lia.
    inversion Hnz as [| ? ? Hy Hrest]; subst.
    destruct (Z.eqb_spec (x - y) 0) as [Hc | Hc]; [| congruence].
    assert (x = y) by lia. subst x.
    simpl. destruct (Z.eqb_spec y 0); [contradiction |].
    f_equal. now apply IH.
Qed.

Lemma compareAt_defined (id : Z) (b : list Z) (len : Z) :
  0 <= id < _kIdCount ->
  0 <= len <= Z.of_nat (List.length b) ->
  Forall (fun c => c <> 0) (firstn (Z.to_nat len) b) ->
  compareAt id b len <> None.
Proof.
  intros Hid Hlen Hnz. unfold compareAt.
  destruct (at_index_in_range instData id Hid) as [inst Hinst].
  rewrite Hinst.
  pose proof (proj1 (forallb_forall _ _) nameInBlob_all inst
                (at_index_In _ _ _ Hinst)) as Hblob.
  unfold nameInBlob in Hblob. apply andb_prop in Hblob.
  destruct Hblob as [H0 H1]. apply Z.leb_le in H0. apply Z.ltb_lt in H1.
  apply compareName_defined; auto.
  destruct nameData_ends_with_nul as [front Hfront].
  rewrite Hfront in *. rewrite length_app in H1. simpl in H1.
  exists (skipn (Z.to_nat (nameDataIndex inst)) front).
  rewrite skipn_app.
  replace (Z.to_nat (nameDataIndex inst) - List.length front)%nat with 0%nat
    by lia.
  reflexivity.
Qed.

Lemma linearSearch_result (n : nat) (base : Z) (b : list Z) (len : Z) :
  (forall id, base <= id < base + Z.of_nat n -> compareAt id b len <> None) ->
  exists r,
    linearSearch n base b len = Some r
    /\ (r = kInvalidInst
        \/ (base <= r < base + Z.of_nat n /\ compareAt r b len = Some 0)).
Proof.
  revert base. induction n as [| n IH]; intros base Hdef; simpl.
  - exists kInvalidInst. auto.
  - destruct (compareAt base b len) as [result |] eqn:E;
      [| exfalso; apply (Hdef base); [lia | exact E]].
    destruct (Z.eqb_spec result 0) as [-> | Hne].
    + exists base. split; [reflexivity | right]. split; [lia | exact E].
    + destruct (IH (base + 1)) as (r & Hr & Hcase).
      { intros id Hid. apply Hdef. lia. }
      exists r. split; [exact Hr |].
      destruct Hcase as [-> | [Hrange Hz]]; [now left | right].
      split; [lia | exact Hz].
Qed.

Lemma binarySearch_result (rounds : nat) (base lim : Z) (b : list Z)
  (len : Z) :
  0 <= lim ->
  (forall id, base <= id < base + lim -> compareAt id b len <> None) ->
  exists r,
    binarySearch rounds base lim b len = Some r
    /\ (r = kInvalidInst
        \/ (base <= r < base + lim /\ compareAt r b len = Some 0)).
Proof.
  revert base lim. induction rounds as [| n IH]; intros base lim Hlim Hdef;
    simpl.
  - exists kInvalidInst. auto.
  - destruct (Z.eqb_spec lim 0) as [-> | Hne]; [exists kInvalidInst; auto |].
    assert (Hhalf : 0 <= Z.shiftr lim 1 < lim).
    { rewrite Z.shiftr_div_pow2 by lia. change (2 ^ 1) with 2.
      Z.div_mod_to_equations. lia. }
    assert (Hhalf' : 0 <= Z.shiftr (lim - 1) 1
                     /\ Z.shiftr lim 1 + 1 + Z.shiftr (lim - 1) 1 <= lim).
    { rewrite !Z.shiftr_div_pow2 by lia. change (2 ^ 1) with 2.
      Z.div_mod_to_equations. lia. }
    destruct (compareAt (base + Z.shiftr lim 1) b len) as [result |] eqn:E;
      [| exfalso; apply (Hdef (base + Z.shiftr lim 1)); [lia | exact E]].
    destruct (Z.ltb_spec result 0).
    + destruct (IH (base + Z.shiftr lim 1 + 1) (Z.shiftr (lim - 1) 1))
        as (r & Hr & Hcase); [lia | intros id Hid; apply Hdef; lia |].
      exists r. split; [exact Hr |].
      destruct Hcase as [-> | [Hrange Hz]]; [now left | right].
      split; [lia | exact Hz].
    + destruct (Z.ltb_spec 0 result).
      * destruct (IH base (Z.shiftr lim 1)) as (r & Hr & Hcase);
          [lia | intros id Hid; apply Hdef; lia |].
        exists r. split; [exact Hr |].
        destruct Hcase as [-> | [Hrange Hz]]; [now left | right].
        split; [lia | exact Hz].
      * assert (result = 0) by lia. subst result.
        exists (base + Z.shiftr lim 1). split; [reflexivity | right].
        split; [lia | exact E].
Qed.

(** The slice of a used letter lies inside the table, behind row 0. *)
Lemma alphaIndex_slice (prefix : Z) :
  0 <= prefix <= kX86InstAlphaIndexLast - kX86InstAlphaIndexFirst ->
  nth (Z.to_nat prefix) _x86InstAlphaIndex 0 <> kX86InstAlphaIndexInvalid ->
  0 < nth (Z.to_nat prefix) _x86InstAlphaIndex 0
  /\ nth (Z.to_nat prefix) _x86InstAlphaIndex 0
     <= sliceEnd (skipn (S (Z.to_nat prefix)) _x86InstAlphaIndex)
  /\ sliceEnd (skipn (S (Z.to_nat prefix)) _x86InstAlphaIndex) <= _kIdCount.
Proof.
  intros Hp Hused.
  assert (Hin : In (Z.to_nat prefix) (seq 0 26)).
  { apply in_seq. unfold kX86InstAlphaIndexLast, kX86InstAlphaIndexFirst in Hp.
    lia. }
  pose proof (proj1 (forallb_forall _ _) alphaIndex_slices _ Hin) as H.
  cbv zeta in H. apply orb_prop in H. destruct H as [H | H].
  - apply Z.eqb_eq in H. contradiction.
  - apply andb_prop in H. destruct H as [H H3].
    apply andb_prop in H. destruct H as [H1 H2].
    apply Z.ltb_lt in H1. apply Z.leb_le in H2, H3. auto.
Qed.

(** X3: a lookup with an explicit length of a name of at most sixteen bytes,
    none of them NUL, stays inside the tables and returns either
    [kInvalidInst] or the id of an instruction whose stored name is the
    given name folded to lower case. *)
Theorem getIdByName_with_length_sound (stack : nat -> Z) (name : list Z) :
  (List.length name <= 16)%nat ->
  Forall (fun c => c <> 0) name ->
  exists r,
    getIdByName stack (Some name) (Z.of_nat (List.length name)) = Some r
    /\ (r = kInvalidInst
        \/ (1 <= r < _kIdCount
            /\ getNameById r = Some (map toLower name))).
Proof.
  intros Hlen Hnz. unfold getIdByName.
  assert (Hne : (Z.of_nat (List.length name) =? kInvalidIndex) = false).
  { apply Z.eqb_neq. unfold kInvalidIndex.
    assert (16 < 2 ^ 64 - 1) by (vm_compute; reflexivity). lia. }
  rewrite Hne.
  assert (Hmax : (kX86InstMaxLength <? Z.of_nat (List.length name)) = false).
  { apply Z.ltb_ge. unfold kX86InstMaxLength. lia. }
  rewrite Hmax, Nat2Z.id.
  change (Z.to_nat kX86InstMaxLength) with 16%nat.
  set (buf := map stack (seq 0 16)).
  assert (Hbuf : List.length buf = 16%nat)
    by (unfold buf; now rewrite length_map, length_seq).
  clearbody buf.
  pose proof (lowerCounted_spec name [] buf (List.length name)) as Hs.
  change (List.length (@nil Z)) with 0%nat in Hs.
  change ([] ++ buf) with buf in Hs.
  rewrite Hs by lia. clear Hs.
  rewrite firstn_all. cbn [app].
  set (folded := map toLower name).
  set (q := skipn (List.length name) buf).
  assert (Hfolded : List.length folded = List.length name)
    by apply length_map.
  assert (Hfnz : Forall (fun c => c <> 0) folded).
  { unfold folded. apply Forall_map.
    eapply Forall_impl; [| exact Hnz]. intros c. apply toLower_nonzero. }
  destruct (Z.of_nat (List.length name) =? 0);
    [exists kInvalidInst; auto |].
  set (prefix := (nth 0 (folded ++ q) 0 - kX86InstAlphaIndexFirst) mod 2 ^ 32).
  assert (Hprefix : 0 <= prefix)
    by (apply Z.mod_pos_bound; reflexivity).
  destruct (Z.ltb_spec (kX86InstAlphaIndexLast - kX86InstAlphaIndexFirst)
              prefix) as [| Hle]; [exists kInvalidInst; auto |].
  destruct (Z.eqb_spec (nth (Z.to_nat prefix) _x86InstAlphaIndex 0)
              kX86InstAlphaIndexInvalid) as [| Hused];
    [exists kInvalidInst; auto |].
  destruct (alphaIndex_slice prefix (conj Hprefix Hle) Hused)
    as (Hbase & Hend & Hcount).
  set (base := nth (Z.to_nat prefix) _x86InstAlphaIndex 0) in *.
  set (end_ := sliceEnd (skipn (S (Z.to_nat prefix)) _x86InstAlphaIndex)) in *.
  assert (Hdef : forall id,
             base <= id < end_ ->
             compareAt id (folded ++ q) (Z.of_nat (List.length name)) <> None).
  { intros id Hid. apply compareAt_defined; [lia | |].
    - rewrite length_app. lia.
    - rewrite Nat2Z.id, <- Hfolded, firstn_app, firstn_all, Nat.sub_diag.
      simpl. now rewrite app_nil_r. }
  assert (Hfound : forall r,
             base <= r < end_ ->
             compareAt r (folded ++ q) (Z.of_nat (List.length name)) = Some 0 ->
             1 <= r < _kIdCount /\ getNameById r = Some folded).
  { intros r Hr Hz. split; [lia |].
    unfold getNameById. destruct (Z.leb_spec _kIdCount r); [lia |].
    unfold compareAt in Hz.
    destruct (at_index instData r) as [inst |]; [| discriminate].
    simpl. f_equal. rewrite <- Hfolded in Hz.
    now apply (compareName_zero_name _ folded q). }
  destruct (prefix =? 106 - kX86InstAlphaIndexFirst).
  - destruct (linearSearch_result (Z.to_nat (end_ - base)) base (folded ++ q)
                (Z.of_nat (List.length name))) as (r & Hr & Hcase).
    { intros id Hid. apply Hdef. lia. }
    exists r. split; [exact Hr |].
    destruct Hcase as [-> | [Hrange Hz]]; [now left | right].
    apply Hfound; [lia | exact Hz].
  - destruct (binarySearch_result (Z.to_nat (end_ - base)) base (end_ - base)
                (folded ++ q) (Z.of_nat (List.length name)))
      as (r & Hr & Hcase); [lia | |].
    { intros id Hid. apply Hdef. lia. }
    exists r. split; [exact Hr |].
    destruct Hcase as [-> | [Hrange Hz]]; [now left | right].
    apply Hfound; [lia | exact Hz].
Qed.

Lemma getIdByName_with_length_sound_witness :
  exists r,
    getIdByName (fun _ => 0) (Some (bytes_of_string "Mov")) 3 = Some r
    /\ (r = kInvalidInst
        \/ (1 <= r < _kIdCount
            /\ getNameById r = Some (map toLower (bytes_of_string "Mov")))).
Proof.
  apply (getIdByName_with_length_sound (fun _ => 0) (bytes_of_string "Mov")).
  - vm_compute. lia.
  - repeat constructor; discriminate.
Defined.

Lemma store_defined (buf : list Z) (i : nat) (c : Z) :
  (i < List.length buf)%nat ->
  exists buf', store buf i c = Some buf'
    /\ List.length buf' = List.length buf
    /\ nth i buf' 0 = c
    /\ forall j, j <> i -> nth j buf' 0 = nth j buf 0.
Proof.
  revert i. induction buf as [| x buf IH]; intros i Hi; simpl in Hi.
  - lia.
  - destruct i as [| i]; simpl.
    + exists (c :: buf). repeat split.
      intros [| j] Hj; [congruence | reflexivity].
    + destruct (IH i ltac:(lia)) as (buf' & -> & Hlen & Hnth & Hother).
      exists (x :: buf'). simpl. repeat split.
      * congruence.
      * exact Hnth.
      * intros [| j] Hj; [reflexivity |]. apply Hother. congruence.
Qed.

(** The copy loop without a length ends well when a terminator stands
    among the bytes that fit the buffer; it leaves what was stored before
    as it is. *)
Lemma lowerUntilNul_terminated (name : list Z) :
  forall (i : nat) (buf : list Z),
    List.length buf = 16%nat ->
    In 0 (firstn (17 - i) name) ->
    exists buf', lowerUntilNul name i buf = Continue buf'
      /\ forall j, (j < i)%nat -> nth j buf' 0 = nth j buf 0.
Proof.
  induction name as [| x rest IH]; intros i buf Hlen Hnul.
  - rewrite firstn_nil in Hnul. contradiction.
  - simpl lowerUntilNul.
    destruct (Z.eqb_spec (toLower x) 0) as [_ | Hx].
    + exists buf. split; [reflexivity | intros; reflexivity].
    + assert (Hx0 : x <> 0) by (intros ->; apply Hx; reflexivity).
      assert (Hi : (i < 16)%nat).
      { destruct (Nat.lt_ge_cases i 16) as [Hlt | Hge]; [exact Hlt |].
        exfalso.
        destruct (17 - i)%nat as [| [| k]] eqn:E; [| | lia];
          simpl in Hnul; rewrite ?firstn_O in Hnul; simpl in Hnul;
          intuition congruence. }
      replace (17 - i)%nat with (S (17 - S i)) in Hnul by lia.
      simpl in Hnul. destruct Hnul as [H | Hnul]; [congruence |].
      unfold kX86InstMaxLength.
      destruct (Z.ltb_spec 16 (Z.of_nat i)) as [Hbig | _]; [lia |].
      destruct (store_defined buf i (toLower x) ltac:(lia))
        as (buf1 & -> & Hlen1 & _ & Hother).
      destruct (IH (S i) buf1 ltac:(lia) Hnul) as (buf' & -> & Hkeep).
      exists buf'. split; [reflexivity |].
      intros j Hj. rewrite Hkeep by lia. apply Hother. lia.
Qed.

(** Once the copy has put the folded first byte into [nameLower[0]], a
    first byte that is no letter, or a letter no mnemonic starts with, ends
    the lookup. *)
Lemma getIdByName_first_byte (stack : nat -> Z) (name nameLower : list Z)
  (len c : Z) :
  (if len =? kInvalidIndex
   then lowerUntilNul name 0 (map stack (seq 0 (Z.to_nat kX86InstMaxLength)))
   else if kX86InstMaxLength <? len then Return kInvalidInst
   else lowerCounted name (Z.to_nat len) 0
          (map stack (seq 0 (Z.to_nat kX86InstMaxLength))))
  = Continue nameLower ->
  nth 0 nameLower 0 = toLower c ->
  0 <= c < 256 ->
  ~ (97 <= toLower c <= 122) \/ In (toLower c) [103; 113; 121; 122] ->
  getIdByName stack (Some name) len = Some kInvalidInst.
Proof.
  intros Hcopy Hfirst Hc Hbyte. unfold getIdByName.
  rewrite Hcopy, Hfirst.
  destruct (len =? 0); [reflexivity |].
  assert (Hlow : 0 <= toLower c < 256 + 32).
  { unfold toLower. destruct ((65 <=? c) && (c <=? 90)); lia. }
  unfold kX86InstAlphaIndexFirst, kX86InstAlphaIndexLast.
  destruct Hbyte as [Hout | Hin].
  - destruct (Z.ltb_spec (122 - 97) ((toLower c - 97) mod 2 ^ 32))
      as [| Hle]; [reflexivity |].
    exfalso. apply Hout. change (2 ^ 32) with 4294967296 in Hle.
    Z.div_mod_to_equations. lia.
  - destruct Hin as [<- | [<- | [<- | [<- | []]]]]; reflexivity.
Qed.

(** X5: what the lookup turns away with [kInvalidInst]: a null pointer, a
    length of 0, a length above sixteen, and a name whose first byte, folded
    to lower case, is not a letter or is one of the letters g, q, y, z that
    no mnemonic starts with.  The last holds for a name passed with a length
    from 1 to 16 that does not exceed the bytes passed, and for a name
    passed without a length (as [kInvalidIndex]) that is not empty and has
    its terminator among its first seventeen bytes, so that the copy stays
    inside [nameLower]. *)
Theorem getIdByName_rejects :
  (forall stack len, getIdByName stack None len = Some kInvalidInst)
  /\ (forall stack name,
         getIdByName stack (Some name) 0 = Some kInvalidInst)
  /\ (forall stack name len,
         kX86InstMaxLength < len -> len <> kInvalidIndex ->
         getIdByName stack (Some name) len = Some kInvalidInst)
  /\ (forall stack c rest len,
         0 <= c < 256 ->
         ~ (97 <= toLower c <= 122) \/ In (toLower c) [103; 113; 121; 122] ->
         (1 <= len <= kX86InstMaxLength
          /\ len <= Z.of_nat (List.length (c :: rest)))
         \/ (len = kInvalidIndex /\ c <> 0 /\ In 0 (firstn 17 (c :: rest))) ->
         getIdByName stack (Some (c :: rest)) len = Some kInvalidInst).
Proof.
  split; [| split; [| split]].
  - reflexivity.
  - intros stack name. unfold getIdByName.
    change (0 =? kInvalidIndex) with false. cbv iota.
    change (kX86InstMaxLength <? 0) with false. cbv iota.
    reflexivity.
  - intros stack name len Hlen Hne. unfold getIdByName.
    apply Z.eqb_neq in Hne. rewrite Hne.
    apply Z.ltb_lt in Hlen. rewrite Hlen. reflexivity.
  - intros stack c rest len Hc Hbyte Hlen.
    change (Z.to_nat kX86InstMaxLength) with 16%nat.
    set (buf := map stack (seq 0 16)).
    assert (Hbuf : List.length buf = 16%nat)
      by (unfold buf; now rewrite length_map, length_seq).
    destruct Hlen as [[Hrange Hfit] | (-> & Hc0 & Hnul)].
    + unfold kX86InstMaxLength in Hrange.
      apply (getIdByName_first_byte stack (c :: rest)
               (map toLower (firstn (Z.to_nat len) (c :: rest))
                ++ skipn (Z.to_nat len) buf) len c);
        try assumption.
      * assert (Hne : (len =? kInvalidIndex) = false).
        { apply Z.eqb_neq. unfold kInvalidIndex.
          assert (16 < 2 ^ 64 - 1) by (vm_compute; reflexivity). lia. }
        rewrite Hne.
        assert (Hmax : (kX86InstMaxLength <? len) = false)
          by (apply Z.ltb_ge; unfold kX86InstMaxLength; lia).
        rewrite Hmax.
        change (Z.to_nat kX86InstMaxLength) with 16%nat. fold buf.
        pose proof (lowerCounted_spec (c :: rest) [] buf (Z.to_nat len))
          as Hs.
        change (List.length (@nil Z)) with 0%nat in Hs.
        change ([] ++ buf) with buf in Hs.
        rewrite Hs by lia. reflexivity.
      * replace (Z.to_nat len) with (S (Z.to_nat (len - 1))) by lia.
        reflexivity.
    + simpl in Hnul. destruct Hnul as [H | Hnul]; [congruence |].
      destruct (store_defined buf 0 (toLower c) ltac:(lia))
        as (buf1 & Hstore & Hlen1 & Hnth & _).
      destruct (lowerUntilNul_terminated rest 1 buf1 ltac:(lia) Hnul)
        as (buf' & Hrun & Hkeep).
      apply (getIdByName_first_byte stack (c :: rest) buf' kInvalidIndex c);
        try assumption.
      * change (kInvalidIndex =? kInvalidIndex) with true. cbv iota.
        change (Z.to_nat kX86InstMaxLength) with 16%nat. fold buf.
        clearbody buf. simpl lowerUntilNul.
        destruct (Z.eqb_spec (toLower c) 0) as [H0 | _];
          [exfalso; exact (toLower_nonzero c Hc0 H0) |].
        change (kX86InstMaxLength <? Z.of_nat 0) with false. cbv iota.
        rewrite Hstore. exact Hrun.
      * rewrite Hkeep by lia. exact Hnth.
Qed.

Lemma getIdByName_rejects_witness :
  getIdByName (fun _ => 0) (Some (c_str (bytes_of_string "_"))) kInvalidIndex
  = Some kInvalidInst
  /\ getIdByName (fun _ => 0) (Some (bytes_of_string "_")) 1
     = Some kInvalidInst.
Proof.
  split.
  - apply (proj2 (proj2 (proj2 getIdByName_rejects)) (fun _ => 0) 95 [0]).
    + lia.
    + left. vm_compute. intros [H _]. apply H. reflexivity.
    + right. split; [reflexivity |]. split; [lia |].
      simpl. right. left. reflexivity.
  - apply (proj2 (proj2 (proj2 getIdByName_rejects)) (fun _ => 0) 95 []).
    + lia.
    + left. vm_compute. intros [H _]. apply H. reflexivity.
    + left. vm_compute. repeat split; congruence.
Defined.

(** X6: when a lookup with an explicit length answers [kInvalidInst] for a
    name of at most sixteen bytes, no instruction from id 1 on bears that
    name, in whatever case it was written. *)
Theorem getIdByName_not_found (stack : nat -> Z) (name : list Z) (id : Z) :
  getIdByName stack (Some name) (Z.of_nat (List.length name))
  = Some kInvalidInst ->
  1 <= id < _kIdCount ->
  getNameById id <> Some (map toLower name).
Proof.
  intros Hmiss Hid Hname.
  pose proof (getIdByName_with_length stack id (map toLower name)) as H.
  rewrite length_map, getIdByName_fold, Hmiss in H.
  assert (Some kInvalidInst = Some id) by (apply H; [lia | exact Hname]).
  unfold kInvalidInst in *. assert (0 = id) by congruence. lia.
Qed.

Lemma getIdByName_not_found_witness :
  getNameById kIdMov <> Some (map toLower (bytes_of_string "zzz")).
Proof.
  apply (getIdByName_not_found (fun _ => 0) (bytes_of_string "zzz") kIdMov).
  - vm_compute. reflexivity.
  - vm_compute. split; congruence.
Defined.

(** *** The order of the names *)

Lemma stronglySortedb_spec {A : Type} (ltb : A -> A -> bool) (l : list A) :
  stronglySortedb ltb l = true
  <-> Sorted.StronglySorted (fun x y => ltb x y = true) l.
Proof.
  induction l as [| x rest IH]; simpl.
  - split; [constructor | reflexivity].
  - rewrite andb_true_iff, IH, forallb_forall, <- Forall_forall. split.
    + intros [Hx Hrest]. now constructor.
    + intros H. inversion H; subst. auto.
Qed.

(** X7: the invariant the binary search rests on: within the slice of every
    letter but [j], the stored names are strictly increasing in byte order
    (each name stands before all the names behind it).  The slice of [j] is
    not ordered, which is why the source scans it linearly. *)
Theorem bucketNames_sorted :
  (forall prefix,
      (prefix < 26)%nat -> prefix <> 9%nat ->
      Sorted.StronglySorted (fun a b => lexLtb a b = true)
                            (bucketNames prefix))
  /\ ~ Sorted.StronglySorted (fun a b => lexLtb a b = true) (bucketNames 9).
Proof.
  split.
  - intros prefix Hlt Hj. apply stronglySortedb_spec.
    do 26 (destruct prefix as [| prefix];
           [try (exfalso; apply Hj; reflexivity); vm_compute; reflexivity |]).
    lia.
  - intros H. apply stronglySortedb_spec in H. vm_compute in H. discriminate.
Qed.

Lemma bucketNames_sorted_witness :
  Sorted.StronglySorted (fun a b => lexLtb a b = true) (bucketNames 0).
Proof. apply (proj1 bucketNames_sorted 0%nat); lia. Defined.

(** * Further properties of the validator *)

(** ** None operands behind the operands *)

Lemma translate_none_tail vd (n : nat) st :
  translate vd (repeat Operand.kOpNone n) st = Continue st.
Proof. destruct n; reflexivity. Qed.

Lemma translate_pad vd opArray (n : nat) st :
  translate vd (opArray ++ repeat Operand.kOpNone n) st
  = translate vd opArray st.
Proof.
  revert st. induction opArray as [| op rest IH]; intros st.
  - simpl. apply translate_none_tail.
  - simpl. destruct (Operand.isNone op); [reflexivity |].
    destruct (translateOperand vd op st); auto.
Qed.

Lemma forallb_isNone_repeat (n k : nat) :
  forallb Operand.isNone (skipn k (repeat Operand.kOpNone n)) = true.
Proof.
  apply forallb_forall. intros op Hin.
  assert (Hin' : In op (repeat Operand.kOpNone n)).
  { rewrite <- (firstn_skipn k). apply in_or_app. now right. }
  apply repeat_spec in Hin'. now subst op.
Qed.

Lemma noGaps_pad opArray (n i : nat) :
  noGaps (opArray ++ repeat Operand.kOpNone n) i = noGaps opArray i.
Proof.
  unfold noGaps.
  now rewrite skipn_app, forallb_app, forallb_isNone_repeat, andb_true_r.
Qed.

Lemma validateOperands_pad archType instId opArray (n : nat) :
  validateOperands archType instId (opArray ++ repeat Operand.kOpNone n)
  = validateOperands archType instId opArray.
Proof.
  unfold validateOperands. rewrite translate_pad.
  destruct (negb (isX86Family archType)); [reflexivity |].
  destruct (_kIdCount <=? instId); [reflexivity |].
  destruct (at_index instData instId); [| reflexivity].
  destruct (translate _ opArray noOperands); try reflexivity.
  now rewrite noGaps_pad.
Qed.

(** X8: none operands appended to the operand vector do not change the
    answer of [validate] (callers may pass a fixed number of slots and leave
    the unused ones none). *)
Theorem validate_pad archType instId options opExtra opArray (n : nat)
  (e : Error) :
  validate archType instId options opExtra opArray = Some e ->
  validate archType instId options opExtra
           (opArray ++ repeat Operand.kOpNone n)
  = Some e.
Proof.
  unfold validate. rewrite validateOperands_pad.
  destruct (validateOperands archType instId opArray) as [[cd tr] | e' |];
    auto.
  unfold validateOptions.
  destruct (hasOption options kAvx512Options); [| auto].
  destruct (validateMask options opExtra cd); auto.
  destruct (validateBroadcast options cd (memOp tr)); auto.
  unfold validateRounding.
  destruct (hasOption options (kOptionSAE .| kOptionER)); [| auto].
  destruct (memOp tr); [auto |].
  destruct (hasOption options kOptionER); [| auto].
  destruct (_ =? 0); [auto |].
  destruct (negb _); [| auto].
  destruct opArray as [| op0 [| op1 rest]]; try discriminate.
  auto.
Qed.

Lemma validate_pad_witness :
  validate kTypeX86 kIdCmp 0 Operand.kOpNone
           ([Operand.kOpReg X86Reg.kRegGpd 0; Operand.kOpReg X86Reg.kRegGpd 2]
            ++ repeat Operand.kOpNone 4)
  = Some kErrorOk.
Proof.
  apply (validate_pad kTypeX86 kIdCmp 0 Operand.kOpNone
           [Operand.kOpReg X86Reg.kRegGpd 0; Operand.kOpReg X86Reg.kRegGpd 2]
           4 kErrorOk).
  vm_compute. reflexivity.
Defined.

(** ** Gaps *)

Lemma leading_no_none (opArray : list Operand.t) :
  Forall (fun op => op <> Operand.kOpNone) opArray ->
  leading opArray = opArray.
Proof.
  induction 1 as [| op rest Hop _ IH]; simpl; [reflexivity |].
  destruct (Operand.isNone op) eqn:Hnone;
    [now apply isNone_true in Hnone | now rewrite IH].
Qed.

(** X9: an operand vector with a gap, that is a none operand with an
    operand that is not none somewhere behind it, is refused with
    [InvalidState], provided the operands in front of the gap translate
    without error. *)
Theorem validate_gap archType instId options opExtra pre rest st :
  isX86Family archType = true ->
  0 <= instId < _kIdCount ->
  Forall (fun op => op <> Operand.kOpNone) pre ->
  translate (validationData archType) pre noOperands = Continue st ->
  existsb (fun op => negb (Operand.isNone op)) rest = true ->
  validate archType instId options opExtra (pre ++ Operand.kOpNone :: rest)
  = Some kErrorInvalidState.
Proof.
  intros Harch Hid Hpre Htr Hrest.
  unfold validate, validateOperands.
  rewrite Harch. simpl negb. cbv iota.
  destruct (Z.leb_spec _kIdCount instId) as [Hge | _]; [lia |].
  destruct (at_index_in_range instData instId) as [iData ->]; [exact Hid |].
  rewrite (translate_app _ _ _ _ _ Hpre Htr).
  cbn [translate Operand.isNone].
  pose proof (translate_length _ _ _ _ Htr) as Hlen.
  rewrite (leading_no_none _ Hpre) in Hlen. simpl in Hlen.
  assert (Hgap : noGaps (pre ++ Operand.kOpNone :: rest)
                        (List.length (oSigTranslated st)) = false).
  { unfold noGaps. rewrite Hlen.
    replace (skipn (S (List.length pre)) (pre ++ Operand.kOpNone :: rest))
      with rest.
    - apply not_true_is_false. intros Hall.
      apply existsb_exists in Hrest. destruct Hrest as (op & Hin & Hop).
      rewrite (proj1 (forallb_forall _ _) Hall op Hin) in Hop. discriminate.
    - rewrite skipn_app.
      replace (S (List.length pre) - List.length pre)%nat with 1%nat by lia.
      rewrite skipn_all2 by lia. reflexivity. }
  rewrite Hgap. reflexivity.
Qed.

Lemma validate_gap_witness :
  validate kTypeX64 kIdMov 0 Operand.kOpNone
           ([Operand.kOpReg X86Reg.kRegGpq 0]
            ++ Operand.kOpNone :: [Operand.kOpReg X86Reg.kRegGpq 1])
  = Some kErrorInvalidState.
Proof.
  eapply (validate_gap kTypeX64 kIdMov 0 Operand.kOpNone).
  - reflexivity.
  - vm_compute. split; congruence.
  - repeat constructor. discriminate.
  - vm_compute. reflexivity.
  - reflexivity.
Defined.

(** ** High-byte registers and REX *)

(** A translated register leaves its operand flag in [combinedOpFlags] and,
    when its id is physical, its bit in [combinedRegMask]. *)
Lemma translateOperand_reg_inv vd regType id st st' :
  translateOperand vd (Operand.kOpReg regType id) st = Continue st' ->
  nth (Z.to_nat regType) _x86OpFlagFromRegType 0 <> 0
  /\ combinedOpFlags st'
     = combinedOpFlags st .| nth (Z.to_nat regType) _x86OpFlagFromRegType 0
  /\ (id < Operand.kPackedIdMin ->
      combinedRegMask st' = combinedRegMask st .| bit id).
Proof.
  unfold translateOperand, translateReg. intros H.
  destruct (X86Reg.kRegCount <=? regType); [discriminate |].
  destruct (Z.eqb_spec (nth (Z.to_nat regType) _x86OpFlagFromRegType 0) 0)
    as [| Hflag]; [discriminate |].
  destruct (Z.ltb_spec id Operand.kPackedIdMin).
  - destruct (32 <=? id); [discriminate |].
    destruct (_ =? 0); [discriminate |].
    destruct (6 <=? _); [discriminate |].
    injection H as <-. simpl. auto.
  - destruct (6 <=? _); [discriminate |].
    injection H as <-. simpl. repeat split; auto. lia.
Qed.

Lemma translateOperand_masks vd op st st' :
  translateOperand vd op st = Continue st' ->
  exists f m,
    combinedOpFlags st' = combinedOpFlags st .| f
    /\ combinedRegMask st' = combinedRegMask st .| m.
Proof.
  unfold translateOperand. intros H.
  destruct op as [| regType id | size baseType indexType | | |];
    try discriminate.
  - destruct (translateReg vd regType id) as [[[f r] m] | e |];
      try discriminate.
    destruct (6 <=? _); [discriminate |].
    injection H as <-. simpl. eauto.
  - destruct (translateMem vd baseType indexType) as [[f m] | e |];
      try discriminate.
    destruct (6 <=? _); [discriminate |].
    injection H as <-. simpl. eauto.
  - destruct (6 <=? _); [discriminate |].
    injection H as <-. simpl. eauto.
  - destruct (6 <=? _); [discriminate |].
    injection H as <-. simpl. eauto.
Qed.

Lemma lor_land_nonzero_r (a b mask : Z) :
  b .& mask <> 0 -> (a .| b) .& mask <> 0.
Proof. rewrite Z.lor_comm. apply land_lor_nonzero. Qed.

(** Bits gathered by the loop stay: what is set in the flags or in the
    register mask at some point is set at the end. *)
Lemma translate_keeps vd opArray st tr (fmask rmask : Z) :
  translate vd opArray st = Continue tr ->
  (combinedOpFlags st .& fmask <> 0 -> combinedOpFlags tr .& fmask <> 0)
  /\ (combinedRegMask st .& rmask <> 0 -> combinedRegMask tr .& rmask <> 0).
Proof.
  revert st. induction opArray as [| op rest IH]; intros st H; simpl in H.
  - injection H as <-. auto.
  - destruct (Operand.isNone op); [injection H as <-; auto |].
    destruct (translateOperand vd op st) as [st' | e |] eqn:E;
      try discriminate.
    destruct (IH _ H) as [Hf Hr].
    destruct (translateOperand_masks _ _ _ _ E) as (f & m & Ef & Em).
    split; intros Hst.
    + apply Hf. rewrite Ef. now apply land_lor_nonzero.
    + apply Hr. rewrite Em. now apply land_lor_nonzero.
Qed.

Lemma translate_reg_seen vd opArray st tr regType id (fmask rmask : Z) :
  translate vd opArray st = Continue tr ->
  In (Operand.kOpReg regType id) (leading opArray) ->
  (nth (Z.to_nat regType) _x86OpFlagFromRegType 0 .& fmask <> 0 ->
   combinedOpFlags tr .& fmask <> 0)
  /\ (id < Operand.kPackedIdMin -> bit id .& rmask <> 0 ->
      combinedRegMask tr .& rmask <> 0).
Proof.
  revert st. induction opArray as [| op rest IH]; intros st H Hin;
    simpl in *; [contradiction |].
  destruct (Operand.isNone op); [contradiction |].
  destruct (translateOperand vd op st) as [st' | e |] eqn:E;
    try discriminate.
  destruct Hin as [-> | Hin]; [| exact (IH _ H Hin)].
  destruct (translateOperand_reg_inv _ _ _ _ _ E) as (_ & Ef & Em).
  destruct (translate_keeps _ _ _ _ fmask rmask H) as [Hf Hr].
  split.
  - intros Hflag. apply Hf. rewrite Ef. now apply lor_land_nonzero_r.
  - intros Hid Hbit. apply Hr. rewrite (Em Hid).
    now apply lor_land_nonzero_r.
Qed.

Lemma bit_above_7 (id : Z) : 8 <= id < 32 -> bit id .& 0xFFFFFF00 <> 0.
Proof.
  intros H.
  assert (Hc : id = 8 \/ id = 9 \/ id = 10 \/ id = 11 \/ id = 12 \/ id = 13
               \/ id = 14 \/ id = 15 \/ id = 16 \/ id = 17 \/ id = 18
               \/ id = 19 \/ id = 20 \/ id = 21 \/ id = 22 \/ id = 23
               \/ id = 24 \/ id = 25 \/ id = 26 \/ id = 27 \/ id = 28
               \/ id = 29 \/ id = 30 \/ id = 31) by lia.
  repeat (destruct Hc as [-> | Hc]; [vm_compute; discriminate |]).
  subst id. vm_compute. discriminate.
Qed.

(** X10: on x64, with a valid instruction id, an operand vector that
    translates without error and has no gaps, and that holds a high-byte
    register (AH, BH, CH, DH) together with any register of physical index 8
    to 31, is refused with [InvalidUseOfGpbHi], whatever the instruction and
    the options. *)
Theorem validate_x64_gpbhi_rex (instId options : Z) (opExtra : Operand.t)
  (opArray : list Operand.t) (tr : Translated) (hi regType id : Z) :
  0 <= instId < _kIdCount ->
  translate _x64ValidationData opArray noOperands = Continue tr ->
  noGaps opArray (List.length (oSigTranslated tr)) = true ->
  In (Operand.kOpReg X86Reg.kRegGpbHi hi) opArray ->
  In (Operand.kOpReg regType id) opArray ->
  8 <= id < 32 ->
  validate kTypeX64 instId options opExtra opArray
  = Some kErrorInvalidUseOfGpbHi.
Proof.
  intros Hid Htr Hgap Hhi Hreg Hrange.
  pose proof (translate_length _ _ _ _ Htr) as Hlen. simpl in Hlen.
  assert (Hgap' := Hgap). rewrite Hlen in Hgap'.
  assert (Hflag : combinedOpFlags tr .& kOpGpbHi <> 0).
  { apply (translate_reg_seen _ _ _ _ X86Reg.kRegGpbHi hi kOpGpbHi 0 Htr).
    - apply noGaps_leading; auto. discriminate.
    - vm_compute. discriminate. }
  assert (Hmask : combinedRegMask tr .& 0xFFFFFF00 <> 0).
  { apply (translate_reg_seen _ _ _ _ regType id 0 0xFFFFFF00 Htr).
    - apply noGaps_leading; auto. discriminate.
    - unfold Operand.kPackedIdMin. lia.
    - now apply bit_above_7. }
  unfold validate, validateOperands.
  change (negb (isX86Family kTypeX64)) with false. cbv iota.
  change (validationData kTypeX64) with _x64ValidationData.
  change (archMaskOf kTypeX64) with kArchMaskX64.
  destruct (Z.leb_spec _kIdCount instId) as [Hge | _]; [lia |].
  destruct (at_index_in_range instData instId) as [iData ->]; [exact Hid |].
  rewrite Htr, Hgap. simpl negb. cbv iota.
  change (kArchMaskX64 =? kArchMaskX86) with false. simpl andb. cbv iota.
  apply Z.eqb_neq in Hflag, Hmask. rewrite Hflag, Hmask. reflexivity.
Qed.

Lemma validate_x64_gpbhi_rex_witness :
  validate kTypeX64 kIdMov 0 Operand.kOpNone
           [Operand.kOpReg X86Reg.kRegGpbHi 0; Operand.kOpReg X86Reg.kRegGpbLo 8]
  = Some kErrorInvalidUseOfGpbHi.
Proof.
  eapply (validate_x64_gpbhi_rex kIdMov 0 Operand.kOpNone _ _ 0
            X86Reg.kRegGpbLo 8).
  - vm_compute. split; congruence.
  - vm_compute. reflexivity.
  - vm_compute. reflexivity.
  - left. reflexivity.
  - right. left. reflexivity.
  - lia.
Defined.

(** ** Options that do not concern the validator *)

Lemma hasOption_masked (options mask : Z) :
  kAvx512Options .& mask = mask ->
  hasOption (options .& kAvx512Options) mask = hasOption options mask.
Proof.
  intros H. unfold hasOption. now rewrite <- Z.land_assoc, H.
Qed.

(** X11: only the five AVX-512 option bits (MaskReg, MaskZeroing, Broadcast,
    SAE, StaticRounding) reach the validator: clearing every other bit of
    the option word (REX, VEX3, EVEX, ...) leaves the answer as it is. *)
Theorem validate_other_options archType instId options opExtra opArray :
  validate archType instId (options .& kAvx512Options) opExtra opArray
  = validate archType instId options opExtra opArray.
Proof.
  unfold validate.
  destruct (validateOperands archType instId opArray) as [[cd tr] | e |];
    try reflexivity.
  unfold validateOptions, validateMask, validateBroadcast, validateRounding.
  rewrite !hasOption_masked by reflexivity. reflexivity.
Qed.

(** ** Which error can come from where *)

Lemma translateOperand_errors vd op st e :
  translateOperand vd op st = Return e ->
  In e [kErrorInvalidRegType; kErrorInvalidPhysId; kErrorInvalidAddress;
        kErrorInvalidState].
Proof.
  unfold translateOperand, translateReg, translateMem. intros H.
  repeat match type of H with
         | context [if ?c then _ else _] => destruct c
         | context [match ?op with Operand.kOpNone => _ | _ => _ end] =>
             destruct op
         end;
    try discriminate; injection H as <-; simpl; tauto.
Qed.

Lemma translate_errors vd opArray st e :
  translate vd opArray st = Return e ->
  In e [kErrorInvalidRegType; kErrorInvalidPhysId; kErrorInvalidAddress;
        kErrorInvalidState].
Proof.
  revert st. induction opArray as [| op rest IH]; intros st H; simpl in H.
  - discriminate.
  - destruct (Operand.isNone op); [discriminate |].
    destruct (translateOperand vd op st) as [st' | e' |] eqn:E;
      try discriminate.
    + exact (IH _ H).
    + injection H as <-. exact (translateOperand_errors _ _ _ _ E).
Qed.

Lemma validateOptions_errors options opExtra opArray cd memOp_ e :
  validateOptions options opExtra opArray cd memOp_ = Some e ->
  e = kErrorOk
  \/ (hasOption options kAvx512Options = true
      /\ In e [kErrorInvalidKMaskReg; kErrorInvalidKMaskUse;
               kErrorInvalidKZeroUse; kErrorInvalidBroadcast;
               kErrorInvalidSAEOrER]).
Proof.
  unfold validateOptions, validateMask, validateBroadcast, validateRounding.
  intros H.
  destruct (hasOption options kAvx512Options); [| left; congruence].
  repeat match type of H with
         | context [if ?c then _ else _] => destruct c
         | context [match ?m with Some _ => _ | None => _ end] => destruct m
         | context [match ?l with [] => _ | _ :: _ => _ end] => destruct l
         end;
    try discriminate; injection H as <-; simpl; tauto.
Qed.

(** X12: where the errors of [validate] can come from.  [InvalidArch] is
    returned only for an architecture outside the x86 family,
    [InvalidArgument] only for an instruction id outside the table,
    [InvalidUseOfGpq] only on x86, [InvalidUseOfGpbHi] only on x64, and the
    five AVX-512 errors only when one of the AVX-512 option bits is set. *)
Theorem validate_error_origin archType instId options opExtra opArray e :
  validate archType instId options opExtra opArray = Some e ->
  (e = kErrorInvalidArch -> isX86Family archType = false)
  /\ (e = kErrorInvalidArgument -> _kIdCount <= instId)
  /\ (e = kErrorInvalidUseOfGpq -> archType = kTypeX86)
  /\ (e = kErrorInvalidUseOfGpbHi -> archType = kTypeX64)
  /\ (In e [kErrorInvalidKMaskReg; kErrorInvalidKMaskUse;
            kErrorInvalidKZeroUse; kErrorInvalidBroadcast;
            kErrorInvalidSAEOrER] ->
      hasOption options kAvx512Options = true).
Proof.
  unfold validate.
  destruct (validateOperands archType instId opArray) as [[cd tr] | e' |]
    eqn:E; [| | discriminate].
  - intros H. apply validateOptions_errors in H.
    destruct H as [-> | [Hopt Hin]].
    + repeat split; try discriminate.
      simpl. intros [H | [H | [H | [H | [H | []]]]]]; discriminate.
    + repeat split; auto;
        intros ->; simpl in Hin;
        destruct Hin as [H | [H | [H | [H | [H | []]]]]]; discriminate.
  - intros H. injection H as ->. unfold validateOperands in E.
    destruct (isX86Family archType) eqn:Hfam; simpl in E.
    2:{ injection E as <-. repeat split; try discriminate.
        simpl. intros [H | [H | [H | [H | [H | []]]]]]; discriminate. }
    destruct (Z.leb_spec _kIdCount instId) as [Hge | Hlt].
    { injection E as <-. repeat split; try discriminate; auto.
      simpl. intros [H | [H | [H | [H | [H | []]]]]]; discriminate. }
    destruct (at_index instData instId) as [iData |]; [| discriminate].
    destruct (translate _ opArray noOperands) as [tr | e' |] eqn:Htr;
      try discriminate.
    + destruct (negb (noGaps _ _)).
      { injection E as <-. repeat split; try discriminate.
        simpl. intros [H | [H | [H | [H | [H | []]]]]]; discriminate. }
      destruct archType as [| | tag]; try discriminate;
        unfold archMaskOf in E; simpl in E.
      * change (kArchMaskX86 =? kArchMaskX86) with true in E. simpl in E.
        destruct (negb _).
        { injection E as <-. repeat split; try discriminate; auto.
          simpl. intros [H | [H | [H | [H | [H | []]]]]]; discriminate. }
        destruct (at_index commonData _) as [cd |]; [| discriminate].
        destruct (_ =? 0); [discriminate |].
        destruct (_ <? _); [discriminate |].
        destruct (existsb _ _); [discriminate |].
        injection E as <-. repeat split; try discriminate.
        simpl. intros [H | [H | [H | [H | [H | []]]]]]; discriminate.
      * change (kArchMaskX64 =? kArchMaskX86) with false in E. simpl in E.
        destruct (_ && _).
        { injection E as <-. repeat split; try discriminate; auto.
          simpl. intros [H | [H | [H | [H | [H | []]]]]]; discriminate. }
        destruct (at_index commonData _) as [cd |]; [| discriminate].
        destruct (_ =? 0); [discriminate |].
        destruct (_ <? _); [discriminate |].
        destruct (existsb _ _); [discriminate |].
        injection E as <-. repeat split; try discriminate.
        simpl. intros [H | [H | [H | [H | [H | []]]]]]; discriminate.
    + injection E as <-. apply translate_errors in Htr. simpl in Htr.
      destruct Htr as [<- | [<- | [<- | [<- | []]]]];
        repeat split; try discriminate;
        simpl; intros [H | [H | [H | [H | [H | []]]]]]; discriminate.
Qed.

Lemma validate_error_origin_witness :
  (kErrorInvalidUseOfGpq = kErrorInvalidArch -> isX86Family kTypeX86 = false)
  /\ (kErrorInvalidUseOfGpq = kErrorInvalidArgument -> _kIdCount <= kIdCmp)
  /\ (kErrorInvalidUseOfGpq = kErrorInvalidUseOfGpq -> kTypeX86 = kTypeX86)
  /\ (kErrorInvalidUseOfGpq = kErrorInvalidUseOfGpbHi -> kTypeX86 = kTypeX64)
  /\ (In kErrorInvalidUseOfGpq
          [kErrorInvalidKMaskReg; kErrorInvalidKMaskUse;
           kErrorInvalidKZeroUse; kErrorInvalidBroadcast;
           kErrorInvalidSAEOrER] ->
      hasOption 0 kAvx512Options = true).
Proof.
  apply (validate_error_origin kTypeX86 kIdCmp 0 Operand.kOpNone
           [Operand.kOpReg X86Reg.kRegGpq 0; Operand.kOpReg X86Reg.kRegGpq 2]
           kErrorInvalidUseOfGpq).
  vm_compute. reflexivity.
Defined.

(** ** The instruction signatures *)

Lemma isigWellFormed_all :
  forallb isigWellFormed _x86InstISignatureData = true.
Proof. vm_compute. reflexivity. Qed.

(** X13: every row of the instruction-signature table is well formed: its
    operand count is at most six and its implicit count at most the operand
    count (so [opCount - implicit] never wraps), the implicit count is the
    number of its operands whose signature carries the implicit flag, its
    operands point at rows of the operand-signature table other than the
    empty row 0, its unused slots are 0, and it allows x86, x64 or both. *)
Theorem isig_well_formed (iSig : ISignature) :
  In iSig _x86InstISignatureData ->
  0 <= implicit iSig <= opCount iSig
  /\ opCount iSig <= 6
  /\ List.length (operands iSig) = 6%nat
  /\ Z.of_nat (List.length
                 (filter isImplicit
                         (firstn (Z.to_nat (opCount iSig)) (operands iSig))))
     = implicit iSig
  /\ Forall (fun index =>
               0 < index < Z.of_nat (List.length _x86InstOSignatureData))
            (firstn (Z.to_nat (opCount iSig)) (operands iSig))
  /\ Forall (fun index => index = 0)
            (skipn (Z.to_nat (opCount iSig)) (operands iSig))
  /\ archMask iSig <> 0.
Proof.
  intros Hin.
  pose proof (proj1 (forallb_forall _ _) isigWellFormed_all iSig Hin) as H.
  unfold isigWellFormed in H.
  apply andb_prop in H. destruct H as [H Harch].
  apply andb_prop in H. destruct H as [H Hunused].
  apply andb_prop in H. destruct H as [H Hused].
  apply andb_prop in H. destruct H as [H Himpl].
  apply andb_prop in H. destruct H as [H Hslots].
  apply andb_prop in H. destruct H as [H Hsix].
  apply andb_prop in H. destruct H as [Hlo Hhi].
  apply Z.leb_le in Hlo, Hhi, Hsix. apply Nat.eqb_eq in Hslots.
  apply Z.eqb_eq in Himpl. apply negb_true_iff, Z.eqb_neq in Harch.
  repeat split; auto.
  - apply Forall_forall. intros index Hi.
    pose proof (proj1 (forallb_forall _ _) Hused index Hi) as Hb.
    apply andb_prop in Hb. destruct Hb as [Ha Hb].
    apply Z.ltb_lt in Ha, Hb. auto.
  - apply Forall_forall. intros index Hi.
    pose proof (proj1 (forallb_forall _ _) Hunused index Hi) as Hb.
    now apply Z.eqb_eq in Hb.
Qed.

Lemma isig_well_formed_witness :
  0 <= implicit (ISIGNATURE 2 1 1 0 1 2 0 0 0 0)
  <= opCount (ISIGNATURE 2 1 1 0 1 2 0 0 0 0).
Proof.
  apply (isig_well_formed (ISIGNATURE 2 1 1 0 1 2 0 0 0 0)).
  left. reflexivity.
Defined.

(** ** The SSE family *)

Lemma avxCounterpartOk_all :
  forallb avxCounterpartOk (map Z.of_nat (seq 0 (List.length instData)))
  = true.
Proof. vm_compute. reflexivity. Qed.

(** X14: the SSE family data point every SSE instruction at its AVX form:
    for an instruction of family SSE whose [sseData] row has a conversion
    mode other than [kAvxConvNone], the id plus the row's distance is the id
    of the instruction named [v] followed by the same name. *)
Theorem sse_avx_counterpart (id index : Z) :
  0 <= id < _kIdCount ->
  at_index instFamily id = Some (kFamilySse, index) ->
  exists row name,
    at_index sseData index = Some row
    /\ getNameById id = Some name
    /\ (avxConvMode row = kAvxConvNone -> avxConvDelta row = 0)
    /\ (avxConvMode row <> kAvxConvNone ->
        0 <= id + avxConvDelta row
        /\ getNameById (id + avxConvDelta row) = Some (118 :: name)).
Proof.
  intros Hid Hfam.
  assert (Hin : In id (map Z.of_nat (seq 0 (List.length instData)))).
  { apply in_map_iff. exists (Z.to_nat id). split; [lia |].
    apply in_seq. unfold _kIdCount in Hid. lia. }
  pose proof (proj1 (forallb_forall _ _) avxCounterpartOk_all id Hin) as H.
  unfold avxCounterpartOk in H. rewrite Hfam in H.
  destruct (at_index sseData index) as [row |]; [| discriminate].
  destruct (getNameById id) as [name |] eqn:Hname.
  2:{ exfalso. unfold getNameById in Hname.
      destruct (Z.leb_spec _kIdCount id); [lia |].
      destruct (at_index_in_range instData id Hid) as [inst Hinst].
      rewrite Hinst in Hname. discriminate. }
  exists row, name. repeat split; auto.
  - intros Hmode. rewrite Hmode in H. now apply Z.eqb_eq.
  - destruct (avxConvMode row); try contradiction;
      destruct (getNameById (id + avxConvDelta row)); try discriminate;
      apply andb_prop in H; destruct H as [H _]; now apply Z.leb_le.
  - destruct (avxConvMode row); try contradiction;
      destruct (getNameById (id + avxConvDelta row)) as [vname |];
      try discriminate;
      apply andb_prop in H; destruct H as [_ H];
      destruct (list_eq_dec Z.eq_dec vname (118 :: name));
      congruence.
Qed.

Lemma sse_avx_counterpart_witness :
  exists row name,
    at_index sseData 0 = Some row
    /\ getNameById 4 = Some name
    /\ (avxConvMode row = kAvxConvNone -> avxConvDelta row = 0)
    /\ (avxConvMode row <> kAvxConvNone ->
        0 <= 4 + avxConvDelta row
        /\ getNameById (4 + avxConvDelta row) = Some (118 :: name)).
Proof.
  apply (sse_avx_counterpart 4 0).
  - vm_compute. split; congruence.
  - reflexivity.
Defined.

(** ** The validator stays inside its arrays *)

Lemma translateOperand_out_of_bounds vd op st :
  translateOperand vd op st = OutOfBounds ->
  (6 <= List.length (oSigTranslated st))%nat.
Proof.
  unfold translateOperand, translateReg, translateMem. intros H.
  destruct (Z.leb_spec 6 (Z.of_nat (List.length (oSigTranslated st))));
    [lia |].
  exfalso.
  repeat match type of H with
         | context [if ?c then _ else _] => destruct c
         | context [match ?op with Operand.kOpNone => _ | _ => _ end] =>
             destruct op
         end;
    discriminate.
Qed.

Lemma translate_in_bounds vd opArray st :
  (List.length (oSigTranslated st) + List.length opArray <= 6)%nat ->
  translate vd opArray st <> OutOfBounds.
Proof.
  revert st. induction opArray as [| op rest IH]; intros st Hlen; simpl.
  - discriminate.
  - destruct (Operand.isNone op); [discriminate |].
    destruct (translateOperand vd op st) as [st' | e |] eqn:E.
    + apply IH. apply translateOperand_inv in E.
      destruct E as (f & tod & -> & _).
      rewrite length_app. simpl in *. lia.
    + discriminate.
    + apply translateOperand_out_of_bounds in E. simpl in Hlen. lia.
Qed.

Lemma leading_length (opArray : list Operand.t) :
  (List.length (leading opArray) <= List.length opArray)%nat.
Proof.
  induction opArray as [| op rest IH]; simpl; [lia |].
  destruct (Operand.isNone op); simpl; lia.
Qed.

Lemma roundingRowOk_all : forallb roundingRowOk commonData = true.
Proof. vm_compute. reflexivity. Qed.

Lemma signatureMatches_count (archMask_ : Z) (oChk : list OSignature)
  (iSig : ISignature) :
  signatureMatches archMask_ oChk iSig = true ->
  Z.of_nat (List.length oChk) = opCount iSig
  \/ Z.of_nat (List.length oChk) = (opCount iSig - implicit iSig) mod 2 ^ 32.
Proof.
  unfold signatureMatches.
  destruct (_ =? 0); [discriminate |].
  destruct (Z.eqb_spec (opCount iSig) (Z.of_nat (List.length oChk)));
    [now left |].
  destruct (Z.eqb_spec ((opCount iSig - implicit iSig) mod 2 ^ 32)
              (Z.of_nat (List.length oChk))); [now right | discriminate].
Qed.

(** What a successful pass tells about the instruction's signatures. *)
Lemma validateOperands_matched archType instId opArray cd tr :
  validateOperands archType instId opArray = Continue (cd, tr) ->
  In cd commonData
  /\ (_iSignatureCount cd = 0
      \/ exists iSig,
           In iSig (signatureGroup cd)
           /\ signatureMatches (archMaskOf archType) (oSigTranslated tr) iSig
              = true).
Proof.
  unfold validateOperands. intros H.
  destruct (negb (isX86Family archType)); [discriminate |].
  destruct (_kIdCount <=? instId); [discriminate |].
  destruct (at_index instData instId) as [iData |]; [| discriminate].
  destruct (translate _ opArray noOperands) as [tr' | e |]; try discriminate.
  destruct (negb (noGaps _ _)); [discriminate |].
  destruct (_ && _); [discriminate |].
  destruct (_ && _); [discriminate |].
  destruct (at_index commonData (commonDataIndex iData)) as [cd' |] eqn:Hcd;
    [| discriminate].
  apply at_index_In in Hcd.
  destruct (Z.eqb_spec (_iSignatureCount cd') 0) as [Hz | Hnz].
  - injection H as <- <-. auto.
  - destruct (_ <? _); [discriminate |].
    destruct (existsb _ _) eqn:Hex; [| discriminate].
    injection H as <- <-. split; [exact Hcd | right].
    apply existsb_exists in Hex. exact Hex.
Qed.

Lemma validateOperands_in_bounds archType instId opArray :
  0 <= instId -> (List.length opArray <= 6)%nat ->
  validateOperands archType instId opArray <> OutOfBounds.
Proof.
  intros Hid Hlen. unfold validateOperands.
  destruct (negb (isX86Family archType)); [discriminate |].
  destruct (Z.leb_spec _kIdCount instId) as [| Hlt]; [discriminate |].
  destruct (at_index_in_range instData instId (conj Hid Hlt))
    as [iData HiData].
  rewrite HiData.
  pose proof (translate_in_bounds (validationData archType) opArray
                noOperands) as Htr.
  destruct (translate _ opArray noOperands) as [tr | e |];
    [| discriminate | now exfalso; apply Htr].
  destruct (negb (noGaps _ _)); [discriminate |].
  destruct (_ && _); [discriminate |].
  destruct (_ && _); [discriminate |].
  pose proof (proj1 (forallb_forall _ _) groupInBounds_all iData
                (at_index_In _ _ _ HiData)) as Hgroup.
  unfold groupInBounds in Hgroup.
  destruct (at_index commonData (commonDataIndex iData)) as [cd |];
    [| discriminate].
  apply andb_prop in Hgroup. destruct Hgroup as [_ Hend].
  apply Z.leb_le in Hend.
  destruct (_ =? 0); [discriminate |].
  destruct (Z.ltb_spec (Z.of_nat (List.length _x86InstISignatureData))
              (_iSignatureIndex cd + _iSignatureCount cd)); [lia |].
  destruct (existsb _ _); discriminate.
Qed.

Lemma validateMask_defined options opExtra cd :
  validateMask options opExtra cd <> OutOfBounds.
Proof.
  unfold validateMask.
  repeat match goal with
         | |- context [if ?c then _ else _] => destruct c
         end; discriminate.
Qed.

Lemma validateBroadcast_defined options cd memOp_ :
  validateBroadcast options cd memOp_ <> OutOfBounds.
Proof.
  unfold validateBroadcast.
  repeat match goal with
         | |- context [if ?c then _ else _] => destruct c
         | |- context [match ?m with Some _ => _ | None => _ end] =>
             destruct m
         end; discriminate.
Qed.

(** X15: for an instruction id that is not negative and an operand vector
    of at most six operands, [validate] stays inside every array it reads
    or writes and returns an answer.  This includes the read of the first
    two operands in the rounding check, which the source guards by an
    assertion only: every instruction that reaches it has matched a
    signature of two operands or more. *)
Theorem validate_in_bounds archType instId options opExtra opArray :
  0 <= instId -> (List.length opArray <= 6)%nat ->
  exists e, validate archType instId options opExtra opArray = Some e.
Proof.
  intros Hid Hlen. unfold validate.
  pose proof (validateOperands_in_bounds archType instId opArray Hid Hlen)
    as Hin.
  destruct (validateOperands archType instId opArray) as [[cd tr] | e |]
    eqn:E; [| eauto | contradiction].
  destruct (validateOperands_matched _ _ _ _ _ E) as [Hcd Hmatch].
  destruct (validateOperands_inv _ _ _ _ _ E) as [Htr _].
  apply translate_length in Htr. simpl in Htr.
  pose proof (leading_length opArray) as Hlead.
  pose proof (proj1 (forallb_forall _ _) roundingRowOk_all cd Hcd) as Hrow.
  unfold roundingRowOk in Hrow.
  unfold validateOptions.
  destruct (hasOption options kAvx512Options); [| eauto].
  destruct (validateMask options opExtra cd) eqn:EM;
    [| eauto | now apply validateMask_defined in EM].
  destruct (validateBroadcast options cd (memOp tr)) eqn:EB;
    [| eauto | now apply validateBroadcast_defined in EB].
  unfold validateRounding.
  destruct (hasOption options (kOptionSAE .| kOptionER)); [| eauto].
  destruct (memOp tr); [eauto |].
  destruct (hasOption options kOptionER);
    [| destruct (_flags cd .& kInstFlagEvexSAE =? 0); eauto].
  destruct (_flags cd .& kInstFlagEvexER =? 0); [eauto |].
  destruct (_flags cd .& (kInstFlagEvexB4 .| kInstFlagEvexB8) =? 0);
    simpl in Hrow |- *; [eauto |].
  apply andb_prop in Hrow. destruct Hrow as [Hcount Hsigs].
  apply negb_true_iff, Z.eqb_neq in Hcount.
  destruct Hmatch as [Hz | (iSig & HiSig & Hm)]; [contradiction |].
  pose proof (proj1 (forallb_forall _ _) Hsigs iSig HiSig) as Htwo.
  apply andb_prop in Htwo. destruct Htwo as [H2 H2'].
  apply Z.leb_le in H2, H2'.
  apply signatureMatches_count in Hm.
  assert (Hops : (2 <= List.length opArray)%nat) by lia.
  destruct opArray as [| op0 [| op1 rest]]; simpl in Hops; try lia.
  destruct (negb (isZmm op0) && negb (isZmm op1)); eauto.
Qed.

Lemma validate_in_bounds_witness :
  exists e,
    validate kTypeX86 kIdVaddpd kOptionER Operand.kOpNone
             [Operand.kOpReg X86Reg.kRegZmm 0] = Some e.
Proof.
  apply (validate_in_bounds kTypeX86 kIdVaddpd kOptionER Operand.kOpNone
           [Operand.kOpReg X86Reg.kRegZmm 0]).
  - vm_compute. congruence.
  - simpl. lia.
Defined.

(** ** The mask-register checks *)

(** X16: the four ways the mask-register options are refused once
    everything before the options has passed: zeroing without a mask
    register gives [InvalidKZeroUse]; a mask register option with an extra
    operand that is not a K register gives [InvalidKMaskReg]; with a K
    register on an instruction that does not permit masking,
    [InvalidKMaskUse]; and zeroing on an instruction that permits masking
    but not zeroing, [InvalidKZeroUse]. *)
Theorem validate_mask_errors archType instId options opExtra opArray cd tr :
  validateOperands archType instId opArray = Continue (cd, tr) ->
  (hasOption options kOptionKZ = true -> hasOption options kOptionK = false ->
   validate archType instId options opExtra opArray
   = Some kErrorInvalidKZeroUse)
  /\ (hasOption options kOptionK = true -> isK opExtra = false ->
      validate archType instId options opExtra opArray
      = Some kErrorInvalidKMaskReg)
  /\ (hasOption options kOptionK = true -> isK opExtra = true ->
      hasFlag cd kInstFlagEvexK_ = false ->
      validate archType instId options opExtra opArray
      = Some kErrorInvalidKMaskUse)
  /\ (hasOption options kOptionK = true -> isK opExtra = true ->
      hasFlag cd kInstFlagEvexK_ = true ->
      hasOption options kOptionKZ = true ->
      hasFlag cd kInstFlagEvexKZ = false ->
      validate archType instId options opExtra opArray
      = Some kErrorInvalidKZeroUse).
Proof.
  intros Hops. unfold validate, validateOptions, validateMask.
  rewrite Hops, hasOption_avx512, hasOption_lor.
  repeat split.
  - intros Hkz Hk. rewrite Hkz, Hk. reflexivity.
  - intros Hk Hextra. rewrite Hk, Hextra. reflexivity.
  - intros Hk Hextra Hflag. rewrite Hk, Hextra, Hflag. reflexivity.
  - intros Hk Hextra Hflag Hkz Hflagz.
    rewrite Hk, Hextra, Hflag, Hkz, Hflagz. reflexivity.
Qed.

Lemma validate_mask_errors_witness :
  validate kTypeX86 kIdVaddpd kOptionK Operand.kOpNone
           [Operand.kOpReg X86Reg.kRegXmm 0;
            Operand.kOpReg X86Reg.kRegXmm 1;
            Operand.kOpReg X86Reg.kRegXmm 2]
  = Some kErrorInvalidKMaskReg.
Proof.
  destruct (validateOperands kTypeX86 kIdVaddpd
              [Operand.kOpReg X86Reg.kRegXmm 0;
               Operand.kOpReg X86Reg.kRegXmm 1;
               Operand.kOpReg X86Reg.kRegXmm 2]) as [[cd tr] | e |] eqn:E;
    [| vm_compute in E; discriminate ..].
  apply (proj1 (proj2 (validate_mask_errors _ _ _ _ _ cd tr E)));
    reflexivity.
Defined.

(** ** Addresses *)

Lemma shiftedOne_bit (n : Z) : 0 <= n < 32 -> shiftedOne n = bit n.
Proof.
  intros Hn. unfold shiftedOne. rewrite Z.mod_small by exact Hn.
  reflexivity.
Qed.

(** X17: on architecture x86 or x64 and for a valid instruction id, a
    memory operand whose base and index register types are below 32 (so that
    both shifts are defined) and whose base has a register type that the
    architecture does not allow as a base, or whose index has one it does
    not allow as an index, is refused with [InvalidAddress], provided the
    operands in front of it are not none and translate without error.  A
    64-bit base is not allowed on x86, a 16-bit base is not allowed on
    x64. *)
Theorem validate_address :
  (forall archType instId options opExtra pre size baseType indexType rest st,
      isX86Family archType = true ->
      0 <= instId < _kIdCount ->
      Forall (fun op => op <> Operand.kOpNone) pre ->
      translate (validationData archType) pre noOperands = Continue st ->
      0 <= baseType < 32 ->
      0 <= indexType < 32 ->
      (baseType <> 0
       /\ allowedMemBaseRegs (validationData archType) .& bit baseType = 0)
      \/ (indexType <> 0
          /\ allowedMemIndexRegs (validationData archType) .& bit indexType
             = 0) ->
      validate archType instId options opExtra
               (pre ++ Operand.kOpMem size baseType indexType :: rest)
      = Some kErrorInvalidAddress)
  /\ allowedMemBaseRegs _x86ValidationData .& bit X86Reg.kRegGpq = 0
  /\ allowedMemBaseRegs _x64ValidationData .& bit X86Reg.kRegGpw = 0.
Proof.
  split; [| split; reflexivity].
  intros archType instId options opExtra pre size baseType indexType rest st
         Harch Hid Hpre Htr HbaseType HindexType Hbad.
  unfold validate, validateOperands.
  rewrite Harch. simpl negb. cbv iota.
  destruct (Z.leb_spec _kIdCount instId) as [Hge | _]; [lia |].
  destruct (at_index_in_range instData instId) as [iData ->]; [exact Hid |].
  rewrite (translate_app _ _ _ _ _ Hpre Htr).
  cbn [translate Operand.isNone]. unfold translateOperand, translateMem.
  rewrite !shiftedOne_bit by assumption.
  destruct Hbad as [[Hbase Hmask] | [Hindex Hmask]].
  - apply Z.eqb_neq in Hbase. rewrite Hbase, Hmask. reflexivity.
  - destruct (negb (baseType =? 0) && _); [reflexivity |].
    apply Z.eqb_neq in Hindex. rewrite Hindex, Hmask. reflexivity.
Qed.

Lemma validate_address_witness :
  validate kTypeX86 kIdMov 0 Operand.kOpNone
           ([Operand.kOpReg X86Reg.kRegGpd 0]
            ++ Operand.kOpMem 0 X86Reg.kRegGpq 0 :: [])
  = Some kErrorInvalidAddress.
Proof.
  eapply (proj1 validate_address).
  - reflexivity.
  - vm_compute. split; congruence.
  - repeat constructor. discriminate.
  - vm_compute. reflexivity.
  - vm_compute. split; congruence.
  - vm_compute. split; congruence.
  - left. split; [discriminate | reflexivity].
Defined.

(** ** Instructions without signatures *)

(** X18: an instruction whose common-data row has an empty signature group
    (id 0, the string instructions, monitor, mwait, prefetch) is never
    refused with [InvalidInstruction]: the signature scan is skipped for it,
    so its operands are checked for translation, gaps and the architecture
    rules only. *)
Theorem validate_without_signatures archType instId options opExtra opArray
  inst cd :
  at_index instData instId = Some inst ->
  at_index commonData (commonDataIndex inst) = Some cd ->
  _iSignatureCount cd = 0 ->
  validate archType instId options opExtra opArray
  <> Some kErrorInvalidInstruction.
Proof.
  intros Hinst Hcd Hcount. unfold validate.
  destruct (validateOperands archType instId opArray) as [[cd' tr] | e |]
    eqn:E; [| | discriminate].
  - intros H. apply validateOptions_errors in H.
    destruct H as [H | [_ Hin]]; [discriminate |].
    simpl in Hin.
    destruct Hin as [H | [H | [H | [H | [H | []]]]]]; discriminate.
  - intros H. injection H as ->. unfold validateOperands in E.
    destruct (negb (isX86Family archType)); [discriminate |].
    destruct (_kIdCount <=? instId); [discriminate |].
    rewrite Hinst in E.
    destruct (translate _ opArray noOperands) as [tr | e' |] eqn:Htr;
      try discriminate.
    + destruct (negb (noGaps _ _)); [discriminate |].
      destruct (_ && _); [discriminate |].
      destruct (_ && _); [discriminate |].
      rewrite Hcd, Hcount in E. discriminate.
    + injection E as ->. apply translate_errors in Htr. simpl in Htr.
      destruct Htr as [H | [H | [H | [H | []]]]]; discriminate.
Qed.

Lemma validate_without_signatures_witness :
  validate kTypeX86 kInvalidInst 0 Operand.kOpNone
           [Operand.kOpReg X86Reg.kRegXmm 0; Operand.kOpImm]
  <> Some kErrorInvalidInstruction.
Proof.
  eapply (validate_without_signatures kTypeX86 kInvalidInst).
  - vm_compute. reflexivity.
  - vm_compute. reflexivity.
  - reflexivity.
Defined.

(** * Properties of [base/func.h] *)

(** ** Packed words of [base/func.h] *)

Lemma lor_add_disjoint (hi lo k : Z) :
  0 <= k -> 0 <= lo < 2 ^ k -> (hi * 2 ^ k) .| lo = hi * 2 ^ k + lo.
Proof.
  intros Hk Hlo.
  assert (Hland : (hi * 2 ^ k) .& lo = 0).
  { apply Z.bits_inj'. intros n Hn.
    rewrite Z.land_spec, Z.bits_0.
    destruct (Z.ltb_spec n k) as [Hlt | Hge].
    - rewrite Z.mul_pow2_bits_low by lia. reflexivity.
    - replace lo with (lo mod 2 ^ k) by (apply Z.mod_small; lia).
      rewrite Z.mod_pow2_bits_high by lia. apply andb_false_r. }
  rewrite <- Z.lxor_lor by exact Hland.
  symmetry. apply Z.add_nocarry_lxor. exact Hland.
Qed.

Lemma flag_testbit (x k : Z) :
  0 <= k -> negb (x .& 2 ^ k =? 0) = Z.testbit x k.
Proof.
  intros Hk. destruct (Z.testbit x k) eqn:E.
  - destruct (Z.eqb_spec (x .& 2 ^ k) 0) as [H0 | _]; [| reflexivity].
    assert (Hbit : Z.testbit (x .& 2 ^ k) k = true).
    { rewrite Z.land_spec, E, Z.pow2_bits_true by lia. reflexivity. }
    rewrite H0, Z.bits_0 in Hbit. discriminate.
  - replace (x .& 2 ^ k) with 0; [reflexivity |].
    symmetry. apply Z.bits_inj'. intros n Hn.
    rewrite Z.land_spec, Z.bits_0, Z.pow2_bits_eqb by lia.
    destruct (Z.eqb_spec k n) as [<- | _]; [| apply andb_false_r].
    rewrite E. reflexivity.
Qed.

Lemma flag_set (x k : Z) :
  0 <= k -> (x / 2 ^ k) mod 2 = 1 -> negb (x .& 2 ^ k =? 0) = true.
Proof.
  intros Hk H. rewrite flag_testbit by exact Hk.
  apply Z.testbit_true; assumption.
Qed.

Lemma flag_clear (x k : Z) :
  0 <= k -> (x / 2 ^ k) mod 2 = 0 -> negb (x .& 2 ^ k =? 0) = false.
Proof.
  intros Hk H. rewrite flag_testbit by exact Hk.
  apply Z.testbit_false; assumption.
Qed.

Lemma shl_typeId (typeId : Z) :
  FuncInOut.shl typeId FuncInOut.kTypeIdShift = (typeId mod 256) * 2 ^ 24.
Proof.
  unfold FuncInOut.shl, FuncInOut.kTypeIdShift.
  rewrite Z.shiftl_mul_pow2 by lia.
  change (2 ^ 32) with 4294967296. change (2 ^ 24) with 16777216.
  Z.div_mod_to_equations. lia.
Qed.

Lemma shl_regType (regType : Z) :
  0 <= regType < 256 ->
  FuncInOut.shl regType FuncInOut.kRegTypeShift = regType * 2 ^ 8.
Proof.
  intros H. unfold FuncInOut.shl, FuncInOut.kRegTypeShift.
  rewrite Z.shiftl_mul_pow2 by lia.
  apply Z.mod_small. change (2 ^ 32) with 4294967296. change (2 ^ 8) with 256.
  lia.
Qed.

Lemma shl_0 (x : Z) : FuncInOut.shl x 0 = x mod 2 ^ 32.
Proof. unfold FuncInOut.shl. rewrite Z.shiftl_0_r. reflexivity. Qed.

(** The word built by [initReg] as a sum of its fields. *)
Lemma initReg_value (typeId regType regId : Z) :
  0 <= regType < 256 -> 0 <= regId < 256 ->
  FuncInOut.initReg typeId regType regId
  = (typeId mod 256) * 2 ^ 24 + 2 ^ 16 + regType * 2 ^ 8 + regId.
Proof.
  intros Hrt Hid. unfold FuncInOut.initReg.
  rewrite shl_typeId, shl_regType by exact Hrt.
  unfold FuncInOut.kRegIdShift. rewrite shl_0.
  rewrite (Z.mod_small regId) by (change (2 ^ 32) with 4294967296; lia).
  change FuncInOut.kIsByReg with (1 * 2 ^ 16).
  set (T := typeId mod 256).
  assert (HT : 0 <= T < 256) by (apply Z.mod_pos_bound; lia).
  replace (T * 2 ^ 24 .| regType * 2 ^ 8 .| regId .| 1 * 2 ^ 16)
    with (T * 2 ^ 24 .| (1 * 2 ^ 16 .| (regType * 2 ^ 8 .| regId))).
  2: { rewrite <- !Z.lor_assoc. f_equal.
       rewrite (Z.lor_comm (1 * 2 ^ 16)), <- Z.lor_assoc. reflexivity. }
  rewrite (lor_add_disjoint regType regId 8) by lia.
  rewrite (lor_add_disjoint 1 _ 16)
    by (change (2 ^ 16) with 65536; change (2 ^ 8) with 256; lia).
  rewrite (lor_add_disjoint T _ 24)
    by (change (2 ^ 24) with 16777216; change (2 ^ 16) with 65536;
        change (2 ^ 8) with 256; lia).
  lia.
Qed.

(** The word built by [initStack] as a sum of its fields. *)
Lemma initStack_value (typeId offset : Z) :
  0 <= offset < 65536 ->
  FuncInOut.initStack typeId offset
  = (typeId mod 256) * 2 ^ 24 + 2 ^ 17 + offset.
Proof.
  intros Hoff. unfold FuncInOut.initStack.
  rewrite shl_typeId. unfold FuncInOut.kStackOffsetShift. rewrite shl_0.
  rewrite (Z.mod_small offset) by (change (2 ^ 32) with 4294967296; lia).
  change FuncInOut.kIsByStack with (1 * 2 ^ 17).
  set (T := typeId mod 256).
  assert (HT : 0 <= T < 256) by (apply Z.mod_pos_bound; lia).
  rewrite <- Z.lor_assoc, (Z.lor_comm offset).
  rewrite (lor_add_disjoint 1 offset 17) by (change (2 ^ 17) with 131072; lia).
  rewrite (lor_add_disjoint T _ 24)
    by (change (2 ^ 24) with 16777216; change (2 ^ 17) with 131072; lia).
  lia.
Qed.

Lemma getTypeId_value (v : Z) : FuncInOut.getTypeId v = v / 2 ^ 24.
Proof. apply Z.shiftr_div_pow2. discriminate. Qed.

Lemma getRegType_value (v : Z) :
  FuncInOut.getRegType v = (v / 2 ^ 8) mod 2 ^ 8.
Proof.
  unfold FuncInOut.getRegType, FuncInOut.kRegTypeShift, FuncInOut.kRegTypeMask.
  rewrite Z.shiftr_land.
  change (Z.shiftr 65280 8) with (Z.ones 8).
  rewrite Z.land_ones, Z.shiftr_div_pow2 by lia. reflexivity.
Qed.

Lemma getRegId_value (v : Z) : FuncInOut.getRegId v = v mod 2 ^ 8.
Proof.
  unfold FuncInOut.getRegId, FuncInOut.kRegIdShift, FuncInOut.kRegIdMask.
  rewrite Z.shiftr_0_r. change 255 with (Z.ones 8).
  apply Z.land_ones. lia.
Qed.

Lemma getStackOffset_value (v : Z) :
  FuncInOut.getStackOffset v = v mod 2 ^ 16.
Proof.
  unfold FuncInOut.getStackOffset, FuncInOut.kStackOffsetShift,
    FuncInOut.kStackOffsetMask.
  rewrite Z.shiftr_0_r. change 65535 with (Z.ones 16).
  apply Z.land_ones. lia.
Qed.

Lemma isAssigned_either (v : Z) :
  FuncInOut.isAssigned v = FuncInOut.byReg v || FuncInOut.byStack v.
Proof.
  unfold FuncInOut.isAssigned, FuncInOut.byReg, FuncInOut.byStack.
  rewrite Z.land_lor_distr_r.
  destruct (Z.eqb_spec (v .& FuncInOut.kIsByReg) 0) as [H1 | H1];
    destruct (Z.eqb_spec (v .& FuncInOut.kIsByStack) 0) as [H2 | H2];
    simpl.
  - rewrite H1, H2. reflexivity.
  - destruct (Z.eqb_spec (v .& FuncInOut.kIsByReg .| v .& FuncInOut.kIsByStack) 0)
      as [H | H]; [| reflexivity].
    apply Z.lor_eq_0_iff in H. tauto.
  - destruct (Z.eqb_spec (v .& FuncInOut.kIsByReg .| v .& FuncInOut.kIsByStack) 0)
      as [H | H]; [| reflexivity].
    apply Z.lor_eq_0_iff in H. tauto.
  - destruct (Z.eqb_spec (v .& FuncInOut.kIsByReg .| v .& FuncInOut.kIsByStack) 0)
      as [H | H]; [| reflexivity].
    apply Z.lor_eq_0_iff in H. tauto.
Qed.

(** X19: a word built by [initReg] from a register type and a register id
    below 256 gives both back through [getRegType] and [getRegId], gives the
    low eight bits of the type id through [getTypeId], and reads as passed by
    register: [byReg], [isAssigned] and [isInitialized] hold, [byStack] and
    [isIndirectArg] do not. *)
Theorem initReg_round_trip (typeId regType regId : Z) :
  0 <= regType < 256 -> 0 <= regId < 256 ->
  let v := FuncInOut.initReg typeId regType regId in
  0 <= v < 2 ^ 32
  /\ FuncInOut.getTypeId v = typeId mod 256
  /\ FuncInOut.getRegType v = regType
  /\ FuncInOut.getRegId v = regId
  /\ FuncInOut.byReg v = true
  /\ FuncInOut.byStack v = false
  /\ FuncInOut.isIndirectArg v = false
  /\ FuncInOut.isAssigned v = true
  /\ FuncInOut.isInitialized v = true.
Proof.
  intros Hrt Hid v.
  assert (Hv : v = (typeId mod 256) * 2 ^ 24 + 2 ^ 16 + regType * 2 ^ 8 + regId)
    by (apply initReg_value; assumption).
  assert (HT : 0 <= typeId mod 256 < 256) by (apply Z.mod_pos_bound; lia).
  clearbody v. set (T := typeId mod 256) in *. clearbody T.
  assert (HbyReg : FuncInOut.byReg v = true).
  { unfold FuncInOut.byReg. change FuncInOut.kIsByReg with (2 ^ 16).
    apply flag_set; [lia |]. subst v. field_arith. }
  assert (HbyStack : FuncInOut.byStack v = false).
  { unfold FuncInOut.byStack. change FuncInOut.kIsByStack with (2 ^ 17).
    apply flag_clear; [lia |]. subst v. field_arith. }
  repeat split.
  - subst v. field_arith.
  - subst v. field_arith.
  - rewrite getTypeId_value. subst v. field_arith.
  - rewrite getRegType_value. subst v. field_arith.
  - rewrite getRegId_value. subst v. field_arith.
  - exact HbyReg.
  - exact HbyStack.
  - unfold FuncInOut.isIndirectArg. change FuncInOut.kIsIndirectArg with (2 ^ 18).
    apply flag_clear; [lia |]. subst v. field_arith.
  - rewrite isAssigned_either, HbyReg. reflexivity.
  - unfold FuncInOut.isInitialized.
    destruct (Z.eqb_spec v 0) as [H0 | _]; [| reflexivity].
    subst v. exfalso. field_arith.
Qed.

Lemma initReg_round_trip_witness :
  let v := FuncInOut.initReg 2 5 7 in
  0 <= v < 2 ^ 32
  /\ FuncInOut.getTypeId v = 2 mod 256
  /\ FuncInOut.getRegType v = 5
  /\ FuncInOut.getRegId v = 7
  /\ FuncInOut.byReg v = true
  /\ FuncInOut.byStack v = false
  /\ FuncInOut.isIndirectArg v = false
  /\ FuncInOut.isAssigned v = true
  /\ FuncInOut.isInitialized v = true.
Proof. apply (initReg_round_trip 2 5 7); lia. Defined.

(** X20: a word built by [initStack] from an offset below 65536 gives the
    offset back through [getStackOffset], the low eight bits of the type id
    through [getTypeId], and reads as passed by stack: [byStack], [isAssigned]
    and [isInitialized] hold, [byReg] and [isIndirectArg] do not. *)
Theorem initStack_round_trip (typeId offset : Z) :
  0 <= offset < 65536 ->
  let v := FuncInOut.initStack typeId offset in
  0 <= v < 2 ^ 32
  /\ FuncInOut.getTypeId v = typeId mod 256
  /\ FuncInOut.getStackOffset v = offset
  /\ FuncInOut.byStack v = true
  /\ FuncInOut.byReg v = false
  /\ FuncInOut.isIndirectArg v = false
  /\ FuncInOut.isAssigned v = true
  /\ FuncInOut.isInitialized v = true.
Proof.
  intros Hoff v.
  assert (Hv : v = (typeId mod 256) * 2 ^ 24 + 2 ^ 17 + offset)
    by (apply initStack_value; assumption).
  assert (HT : 0 <= typeId mod 256 < 256) by (apply Z.mod_pos_bound; lia).
  clearbody v. set (T := typeId mod 256) in *. clearbody T.
  assert (HbyStack : FuncInOut.byStack v = true).
  { unfold FuncInOut.byStack. change FuncInOut.kIsByStack with (2 ^ 17).
    apply flag_set; [lia |]. subst v. field_arith. }
  repeat split.
  - subst v. field_arith.
  - subst v. field_arith.
  - rewrite getTypeId_value. subst v. field_arith.
  - rewrite getStackOffset_value. subst v. field_arith.
  - exact HbyStack.
  - unfold FuncInOut.byReg. change FuncInOut.kIsByReg with (2 ^ 16).
    apply flag_clear; [lia |]. subst v. field_arith.
  - unfold FuncInOut.isIndirectArg. change FuncInOut.kIsIndirectArg with (2 ^ 18).
    apply flag_clear; [lia |]. subst v. field_arith.
  - rewrite isAssigned_either, HbyStack. apply orb_true_r.
  - unfold FuncInOut.isInitialized.
    destruct (Z.eqb_spec v 0) as [H0 | _]; [| reflexivity].
    subst v. exfalso. field_arith.
Qed.

Lemma initStack_round_trip_witness :
  let v := FuncInOut.initStack 2 48 in
  0 <= v < 2 ^ 32
  /\ FuncInOut.getTypeId v = 2 mod 256
  /\ FuncInOut.getStackOffset v = 48
  /\ FuncInOut.byStack v = true
  /\ FuncInOut.byReg v = false
  /\ FuncInOut.isIndirectArg v = false
  /\ FuncInOut.isAssigned v = true
  /\ FuncInOut.isInitialized v = true.
Proof. apply (initStack_round_trip 2 48); lia. Defined.

Lemma land_lor_3 (a b c m : Z) :
  (a .| b .| c) .& m = a .& m .| b .& m .| c .& m.
Proof. rewrite !Z.land_lor_distr_l. reflexivity. Qed.

(** X21: [initStack] does not mask the offset.  For an offset below [2^24]
    the getter returns the offset modulo 65536 and the type id is intact, but
    bit 16 of the offset becomes the by-register flag and bit 18 the
    indirect-argument flag of the word. *)
Theorem initStack_offset_not_masked (typeId offset : Z) :
  0 <= offset < 2 ^ 24 ->
  let v := FuncInOut.initStack typeId offset in
  FuncInOut.getStackOffset v = offset mod 65536
  /\ FuncInOut.getTypeId v = typeId mod 256
  /\ FuncInOut.byReg v = Z.testbit offset 16
  /\ FuncInOut.isIndirectArg v = Z.testbit offset 18.
Proof.
  intros Hoff v. subst v. unfold FuncInOut.initStack.
  rewrite shl_typeId. unfold FuncInOut.kStackOffsetShift. rewrite shl_0.
  rewrite (Z.mod_small offset)
    by (change (2 ^ 32) with 4294967296; change (2 ^ 24) with 16777216 in Hoff;
        lia).
  set (T := typeId mod 256).
  assert (HT : 0 <= T < 256) by (apply Z.mod_pos_bound; lia).
  assert (Hflag : forall k, 0 <= k < 24 -> k <> 17 ->
            negb ((T * 2 ^ 24 .| offset .| FuncInOut.kIsByStack) .& 2 ^ k =? 0)
            = Z.testbit offset k).
  { intros k Hk Hne. rewrite flag_testbit by lia.
    rewrite !Z.lor_spec.
    rewrite Z.mul_pow2_bits_low by lia.
    change FuncInOut.kIsByStack with (2 ^ 17).
    rewrite Z.pow2_bits_false by lia.
    rewrite orb_false_r. reflexivity. }
  repeat split.
  - rewrite getStackOffset_value.
    rewrite <- !Z.land_ones by lia. rewrite land_lor_3.
    rewrite !Z.land_ones by lia.
    replace ((T * 2 ^ 24) mod 2 ^ 16) with 0 by field_arith.
    change (FuncInOut.kIsByStack mod 2 ^ 16) with 0.
    rewrite Z.lor_0_r, Z.lor_0_l. reflexivity.
  - rewrite getTypeId_value. rewrite <- !Z.shiftr_div_pow2 by lia.
    rewrite !Z.shiftr_lor. rewrite !Z.shiftr_div_pow2 by lia.
    replace (T * 2 ^ 24 / 2 ^ 24) with T by field_arith.
    replace (offset / 2 ^ 24) with 0 by field_arith.
    change (FuncInOut.kIsByStack / 2 ^ 24) with 0.
    rewrite !Z.lor_0_r. reflexivity.
  - unfold FuncInOut.byReg. change FuncInOut.kIsByReg with (2 ^ 16).
    apply Hflag; lia.
  - unfold FuncInOut.isIndirectArg.
    change FuncInOut.kIsIndirectArg with (2 ^ 18).
    apply Hflag; lia.
Qed.

Lemma initStack_offset_not_masked_witness :
  let v := FuncInOut.initStack 2 65536 in
  FuncInOut.getStackOffset v = 65536 mod 65536
  /\ FuncInOut.getTypeId v = 2 mod 256
  /\ FuncInOut.byReg v = Z.testbit 65536 16
  /\ FuncInOut.isIndirectArg v = Z.testbit 65536 18.
Proof. apply (initStack_offset_not_masked 2 65536); vm_compute; split; congruence. Defined.

(** X22: a word set up by [initTypeId] is not yet assigned (the assertion
    of [assignToReg] and [assignToStack] holds) and keeps the low eight bits
    of the type id; assigning a register or a stack offset to it gives the
    very word that [initReg], respectively [initStack], builds in one step. *)
Theorem assign_after_initTypeId (typeId regType regId offset : Z) :
  let v := FuncInOut.initTypeId typeId in
  FuncInOut.isAssigned v = false
  /\ FuncInOut.isIndirectArg v = false
  /\ FuncInOut.getTypeId v = typeId mod 256
  /\ FuncInOut.assignToReg v regType regId
     = FuncInOut.initReg typeId regType regId
  /\ FuncInOut.assignToStack v offset = FuncInOut.initStack typeId offset.
Proof.
  intros v. subst v. unfold FuncInOut.initTypeId. rewrite shl_typeId.
  set (T := typeId mod 256).
  assert (HT : 0 <= T < 256) by (apply Z.mod_pos_bound; lia).
  assert (Hflag : forall k, 0 <= k < 24 ->
            negb ((T * 2 ^ 24) .& 2 ^ k =? 0) = false).
  { intros k Hk. rewrite flag_testbit by lia.
    apply Z.mul_pow2_bits_low. lia. }
  repeat split.
  - rewrite isAssigned_either. unfold FuncInOut.byReg, FuncInOut.byStack.
    change FuncInOut.kIsByReg with (2 ^ 16).
    change FuncInOut.kIsByStack with (2 ^ 17).
    rewrite !Hflag by lia. reflexivity.
  - unfold FuncInOut.isIndirectArg.
    change FuncInOut.kIsIndirectArg with (2 ^ 18). apply Hflag. lia.
  - rewrite getTypeId_value. field_arith.
  - unfold FuncInOut.assignToReg, FuncInOut.initReg.
    rewrite shl_typeId. fold T. rewrite !Z.lor_assoc. reflexivity.
  - unfold FuncInOut.assignToStack, FuncInOut.initStack.
    rewrite shl_typeId. fold T. rewrite !Z.lor_assoc. reflexivity.
Qed.

(** ** [CallConv::setPassedOrder] *)






(** ** [FuncSignatureX] *)

Lemma store_spec (array : list Z) (i : nat) (v : Z) :
  (i < List.length array)%nat ->
  exists array', FuncSignatureX.store array i v = Some array'
    /\ List.length array' = List.length array
    /\ nth_error array' i = Some v
    /\ forall j, j <> i -> nth_error array' j = nth_error array j.
Proof.
  revert i. induction array as [| x rest IH]; intros i Hi; simpl in Hi.
  - lia.
  - destruct i as [| i]; simpl.
    + exists (v :: rest). repeat split.
      intros [| j] Hj; [congruence | reflexivity].
    + destruct (IH i ltac:(lia)) as (rest' & -> & Hlen & Hnth & Hother).
      exists (x :: rest'). repeat split.
      * simpl. congruence.
      * exact Hnth.
      * intros [| j] Hj; [reflexivity |]. simpl. apply Hother. congruence.
Qed.

Lemma at_index_nat {A : Type} (l : list A) (i : Z) :
  0 <= i -> at_index l i = nth_error l (Z.to_nat i).
Proof.
  intros Hi. unfold at_index.
  destruct (Z.ltb_spec i 0); [lia | reflexivity].
Qed.

Lemma addArgs_spec (types : list Z) : forall s : FuncSignatureX.t,
  0 <= FuncSignatureX._argCount s ->
  FuncSignatureX._argCount s + Z.of_nat (List.length types) <= 16 ->
  List.length (FuncSignatureX._builderArgList s) = 16%nat ->
  exists s', FuncSignatureX.addArgs s types = Some s'
    /\ FuncSignatureX._argCount s'
       = FuncSignatureX._argCount s + Z.of_nat (List.length types)
    /\ List.length (FuncSignatureX._builderArgList s') = 16%nat
    /\ FuncSignatureX._callConv s' = FuncSignatureX._callConv s
    /\ FuncSignatureX._ret s' = FuncSignatureX._ret s
    /\ (forall i, 0 <= i < FuncSignatureX._argCount s ->
          at_index (FuncSignatureX._builderArgList s') i
          = at_index (FuncSignatureX._builderArgList s) i)
    /\ (forall i type, at_index types i = Some type ->
          at_index (FuncSignatureX._builderArgList s')
            (FuncSignatureX._argCount s + i)
          = Some (FuncSignatureX.u8 type)).
Proof.
  induction types as [| type rest IH]; intros s Hn Hfit Hlen.
  - exists s. simpl. repeat split; try lia.
    intros i type H. unfold at_index in H.
    destruct (i <? 0); [discriminate |].
    destruct (Z.to_nat i); discriminate.
  - simpl List.length in Hfit. simpl. unfold FuncSignatureX.addArg.
    unfold FuncSignatureX.kFuncArgCount.
    destruct (Z.ltb_spec (FuncSignatureX._argCount s) 16) as [Hlt | Hge];
      [| lia].
    destruct (store_spec (FuncSignatureX._builderArgList s)
                (Z.to_nat (FuncSignatureX._argCount s))
                (FuncSignatureX.u8 type) ltac:(lia))
      as (array & -> & Hlen' & Hnth & Hother).
    set (s1 := FuncSignatureX.Sig _ _ _ _ _).
    assert (Hcount : FuncSignatureX._argCount s1
                     = FuncSignatureX._argCount s + 1).
    { unfold s1, FuncSignatureX.u8. simpl. apply Z.mod_small. lia. }
    destruct (IH s1) as (s' & Hrun & Hcnt & Hl & Hcc & Hret & Hold & Hnew).
    + lia.
    + lia.
    + unfold s1. simpl. congruence.
    + exists s'. split; [exact Hrun |].
      split; [lia |]. split; [exact Hl |].
      split; [rewrite Hcc; reflexivity |].
      split; [rewrite Hret; reflexivity |].
      split.
      * intros i Hi. rewrite Hold by lia.
        unfold s1. simpl. rewrite !at_index_nat by lia.
        apply Hother. lia.
      * intros i ty Hat.
        assert (Hi : 0 <= i).
        { unfold at_index in Hat. destruct (Z.ltb_spec i 0); [discriminate | lia]. }
        destruct (Z.eq_dec i 0) as [-> | Hpos].
        -- vm_compute in Hat. injection Hat as <-.
           rewrite Z.add_0_r, Hold by lia.
           unfold s1. simpl. rewrite at_index_nat by lia. exact Hnth.
        -- replace (FuncSignatureX._argCount s + i)
             with (FuncSignatureX._argCount s1 + (i - 1)) by lia.
           apply Hnew.
           rewrite at_index_nat in Hat by lia.
           rewrite at_index_nat by lia.
           replace (Z.to_nat i) with (S (Z.to_nat (i - 1))) in Hat by lia.
           exact Hat.
Qed.

(** X24: with a calling-convention id of at most [0xFF], [setup] as the
    constructor of the builder calls it (no arguments yet) succeeds and up
    to sixteen [addArg] calls on the result all succeed; afterwards
    [getArgCount] is the number of calls, [getArg i] is the low eight bits
    of the i-th type added, [getArg] is refused from the count on, the
    calling convention and the low eight bits of the return type are those
    given to [setup], and after sixteen calls a further [addArg] is
    refused. *)
Theorem addArgs_getArg (ccId ret : Z) (array types : list Z) :
  0 <= ccId <= 0xFF ->
  List.length array = 16%nat ->
  (List.length types <= 16)%nat ->
  exists s0 s,
    FuncSignatureX.setup ccId ret array 0 = Some s0
    /\ FuncSignatureX.addArgs s0 types = Some s
    /\ FuncSignatureX.getArgCount s = Z.of_nat (List.length types)
    /\ (forall i type, at_index types i = Some type ->
          FuncSignatureX.getArg s i = Some (type mod 256))
    /\ (forall i, Z.of_nat (List.length types) <= i ->
          FuncSignatureX.getArg s i = None)
    /\ FuncSignatureX._callConv s = ccId
    /\ FuncSignatureX._ret s = ret mod 256
    /\ (List.length types = 16%nat ->
          forall type, FuncSignatureX.addArg s type = None).
Proof.
  intros Hcc Hlen Hfit.
  assert (Hsetup : FuncSignatureX.setup ccId ret array 0
                   = Some (FuncSignatureX.Sig ccId FuncSignatureX.kFuncNoVarArgs
                             0 (ret mod 256) array)).
  { unfold FuncSignatureX.setup, FuncSignatureX.u8.
    destruct (Z.leb_spec ccId 255) as [_ | Hbig]; [| lia].
    simpl andb. cbv iota.
    rewrite (Z.mod_small ccId) by lia. reflexivity. }
  set (s0 := FuncSignatureX.Sig ccId FuncSignatureX.kFuncNoVarArgs 0
               (ret mod 256) array) in *.
  destruct (addArgs_spec types s0)
    as (s & Hrun & Hcnt & Hl & Hcc' & Hret & _ & Hnew).
  - simpl. lia.
  - simpl. lia.
  - exact Hlen.
  - change (FuncSignatureX._argCount s0) with 0 in Hcnt, Hnew.
    rewrite Z.add_0_l in Hcnt.
    exists s0, s. split; [exact Hsetup |]. split; [exact Hrun |].
    unfold FuncSignatureX.getArgCount, FuncSignatureX.getArg.
    split; [exact Hcnt |]. split; [| split; [| split; [| split]]].
    + intros i type Hat.
      assert (Hi : 0 <= i < Z.of_nat (List.length types)).
      { unfold at_index in Hat.
        destruct (Z.ltb_spec i 0); [discriminate |].
        assert (Z.to_nat i < List.length types)%nat
          by (apply nth_error_Some; congruence).
        lia. }
      rewrite Hcnt.
      destruct (Z.leb_spec 0 i); [| lia].
      destruct (Z.ltb_spec i (Z.of_nat (List.length types))); [| lia].
      simpl. apply (Hnew i type) in Hat.
      rewrite Z.add_0_l in Hat. exact Hat.
    + intros i Hi. rewrite Hcnt.
      destruct (Z.ltb_spec i (Z.of_nat (List.length types))); [lia |].
      rewrite andb_false_r. reflexivity.
    + rewrite Hcc'. reflexivity.
    + rewrite Hret. reflexivity.
    + intros Hfull type. unfold FuncSignatureX.addArg.
      rewrite Hcnt, Hfull. reflexivity.
Qed.

Lemma addArgs_getArg_witness :
  exists s0 s,
    FuncSignatureX.setup 1 0 (repeat 0 16) 0 = Some s0
    /\ FuncSignatureX.addArgs s0 [3; 300] = Some s
    /\ FuncSignatureX.getArgCount s = Z.of_nat (List.length [3; 300])
    /\ (forall i type, at_index [3; 300] i = Some type ->
          FuncSignatureX.getArg s i = Some (type mod 256))
    /\ (forall i, Z.of_nat (List.length [3; 300]) <= i ->
          FuncSignatureX.getArg s i = None)
    /\ FuncSignatureX._callConv s = 1
    /\ FuncSignatureX._ret s = 0 mod 256
    /\ (List.length [3; 300] = 16%nat ->
          forall type, FuncSignatureX.addArg s type = None).
Proof.
  apply (addArgs_getArg 1 0 (repeat 0 16) [3; 300]).
  - lia.
  - reflexivity.
  - simpl. lia.
Defined.

(** X25: [setArg] at an index below the argument count succeeds, leaves the
    count as it is, makes [getArg] at that index return the low eight bits of
    the type, and changes no other argument. *)
Theorem setArg_getArg (s : FuncSignatureX.t) (i type : Z) :
  0 <= i < FuncSignatureX.getArgCount s ->
  (Z.to_nat (FuncSignatureX.getArgCount s)
   <= List.length (FuncSignatureX._builderArgList s))%nat ->
  exists s', FuncSignatureX.setArg s i type = Some s'
    /\ FuncSignatureX.getArgCount s' = FuncSignatureX.getArgCount s
    /\ FuncSignatureX.getArg s' i = Some (type mod 256)
    /\ forall j, j <> i -> FuncSignatureX.getArg s' j = FuncSignatureX.getArg s j.
Proof.
  unfold FuncSignatureX.getArgCount. intros Hi Hlen.
  unfold FuncSignatureX.setArg.
  destruct (Z.leb_spec 0 i); [| lia].
  destruct (Z.ltb_spec i (FuncSignatureX._argCount s)); [| lia].
  simpl.
  destruct (store_spec (FuncSignatureX._builderArgList s) (Z.to_nat i)
              (FuncSignatureX.u8 type) ltac:(lia))
    as (array & -> & Hlen' & Hnth & Hother).
  eexists. split; [reflexivity |]. simpl.
  split; [reflexivity |].
  unfold FuncSignatureX.getArg. simpl. split.
  - destruct (Z.leb_spec 0 i); [| lia].
    destruct (Z.ltb_spec i (FuncSignatureX._argCount s)); [| lia].
    simpl. rewrite at_index_nat by lia. exact Hnth.
  - intros j Hj.
    destruct ((0 <=? j) && (j <? FuncSignatureX._argCount s)) eqn:E;
      [| reflexivity].
    apply andb_prop in E. destruct E as [E1 E2].
    apply Z.leb_le in E1.
    rewrite !at_index_nat by lia. apply Hother. lia.
Qed.

Lemma setArg_getArg_witness :
  exists s',
    FuncSignatureX.setArg (FuncSignatureX.Sig 1 255 2 0 (repeat 0 16)) 1 300
    = Some s'
    /\ FuncSignatureX.getArgCount s'
       = FuncSignatureX.getArgCount (FuncSignatureX.Sig 1 255 2 0 (repeat 0 16))
    /\ FuncSignatureX.getArg s' 1 = Some (300 mod 256)
    /\ forall j, j <> 1 ->
         FuncSignatureX.getArg s' j
         = FuncSignatureX.getArg (FuncSignatureX.Sig 1 255 2 0 (repeat 0 16)) j.
Proof.
  apply (setArg_getArg (FuncSignatureX.Sig 1 255 2 0 (repeat 0 16)) 1 300).
  - vm_compute. split; congruence.
  - vm_compute. lia.
Defined.
